(** * Auto-remediation RCA assistant: a shallow embedding and its properties

    The development follows the Python sources module by module:
    - [Py]: the fragment of Python's dynamic values and string built-ins the
      code relies on (truthiness, [dict.get], [or] chains, [str.lower],
      [in], [str.strip], [repr]);
    - [Re]: the one regular expression the code uses, with the search,
      alternation, greedy [.+] and look-ahead written out;
    - [ErrorExtractors]: [error_extractors.py];
    - [AiProvider]: [ai_provider.py];
    - [Store]: the SQLite tables [tickets] and [audit_trail] of [main.py];
    - [AutoRemediation]: [auto_remediation.py];
    - [Main]: the classification helpers and the two ingestion endpoints of
      [main.py];
    - [Http], [Playbooks], [PlaybookServer]: the requests the playbooks make,
      [playbook_handlers.py] and [playbook_server.py];
    - [Deduplication], [Jira]: the endpoints [check_ticket_exists] and
      [webhook_jira] of [main.py];
    - [Monitor]: the Azure Function that polls the cluster events.

    Text is a [string] whose characters are read as the code points
    U+0000..U+00FF; JSON numbers are integers. *)

From Stdlib Require Import ZArith NArith List String Ascii Bool Lia DecimalString.
Import ListNotations.
Open Scope string_scope.

(* ================================================================== *)
(** ** Python values and built-ins *)
(* ================================================================== *)

Module Py.

(** *** Strings *)

Definition code (c : ascii) : N := N_of_ascii c.

(** [str.lower] on one code point below 256: A-Z and the Latin-1 capitals
    (all of U+00C0..U+00DE but the multiplication sign) move up by 32. *)
Definition lower_char (c : ascii) : ascii :=
  let n := code c in
  if ((65 <=? n) && (n <=? 90) ||
      (192 <=? n) && (n <=? 222) && negb (n =? 215))%N
  then ascii_of_N (n + 32) else c.

Fixpoint lower (s : string) : string :=
  match s with
  | EmptyString => EmptyString
  | String c t => String (lower_char c) (lower t)
  end.

(** [str.upper] is only applied to the ASCII tags "adf" and "databricks". *)
Definition upper_char (c : ascii) : ascii :=
  let n := code c in
  if ((97 <=? n) && (n <=? 122))%N then ascii_of_N (n - 32) else c.

Fixpoint upper (s : string) : string :=
  match s with
  | EmptyString => EmptyString
  | String c t => String (upper_char c) (upper t)
  end.

(** [s.startswith(p)] *)
Fixpoint startswith (p s : string) : bool :=
  match p, s with
  | EmptyString, _ => true
  | String a p', String b s' => Ascii.eqb a b && startswith p' s'
  | String _ _, EmptyString => false
  end.

(** [sub in s] *)
Fixpoint contains (sub s : string) : bool :=
  match s with
  | EmptyString => startswith sub EmptyString
  | String _ t => startswith sub s || contains sub t
  end.

(** [str.isspace] on one code point below 256. *)
Definition isspace (c : ascii) : bool :=
  let n := code c in
  ((9 <=? n) && (n <=? 13) || (28 <=? n) && (n <=? 32) ||
   (n =? 133) || (n =? 160))%N.

Fixpoint lstrip_by (f : ascii -> bool) (s : string) : string :=
  match s with
  | EmptyString => EmptyString
  | String c t => if f c then lstrip_by f t else s
  end.

Fixpoint rstrip_by (f : ascii -> bool) (s : string) : string :=
  match s with
  | EmptyString => EmptyString
  | String c t =>
      match rstrip_by f t with
      | EmptyString => if f c then EmptyString else String c EmptyString
      | t' => String c t'
      end
  end.

Definition strip_by (f : ascii -> bool) (s : string) : string :=
  rstrip_by f (lstrip_by f s).

(** [s.strip()] *)
Definition strip (s : string) : string := strip_by isspace s.

(** [s.strip(chars)] *)
Definition strip_chars (chars s : string) : string :=
  strip_by (fun c => contains (String c EmptyString) chars) s.

(** [s[:n]] *)
Fixpoint take (n : nat) (s : string) : string :=
  match n, s with
  | S n', String c t => String c (take n' t)
  | _, _ => EmptyString
  end.

(** [sep.join(parts)] *)
Fixpoint join (sep : string) (parts : list string) : string :=
  match parts with
  | [] => ""
  | [x] => x
  | x :: rest => x ++ sep ++ join sep rest
  end.

(** [str(n)] for an integer. *)
Definition str_of_Z (z : Z) : string := NilZero.string_of_int (Z.to_int z).

Set Warnings "-register-all".

(** *** Values

    What [json.loads] and [request.json()] produce, and what the code then
    passes around untyped. *)

Inductive value : Type :=
| VNone
| VBool (b : bool)
| VInt (z : Z)
| VStr (s : string)
| VList (l : list value)
| VDict (d : list (string * value)).

(** Truth value testing: [if v], [v or w], [not v]. *)
Definition truthy (v : value) : bool :=
  match v with
  | VNone => false
  | VBool b => b
  | VInt z => negb (z =? 0)%Z
  | VStr s => negb (s =? "")
  | VList l => match l with [] => false | _ => true end
  | VDict d => match d with [] => false | _ => true end
  end.

Definition is_dict (v : value) : bool :=
  match v with VDict _ => true | _ => false end.

Definition is_str (v : value) : bool :=
  match v with VStr _ => true | _ => false end.

(** *** Exceptions *)

Inductive exn : Type :=
| AttributeError            (* no such method on this type: x.get, x.lower *)
| TypeError                 (* not subscriptable, unhashable, not iterable *)
| IndexError                (* list index out of range *)
| OverflowError             (* an integer SQLite cannot hold *)
| RuntimeError (msg : string)               (* a send on a closed WebSocket *)
| DatabaseError (msg : string)              (* raised by the SQL driver *)
| RequestException                          (* raised by requests *)
| HTTPException (status : Z) (detail : string).   (* fastapi *)

Inductive result (A : Type) : Type :=
| Ok (a : A)
| Raise (e : exn).
Arguments Ok {A} a.
Arguments Raise {A} e.

Definition bind {A B : Type} (r : result A) (k : A -> result B) : result B :=
  match r with
  | Ok a => k a
  | Raise e => Raise e
  end.

Declare Scope py_scope.
Delimit Scope py_scope with py.
Notation "x <- c ;; k" := (bind c (fun x => k))
  (at level 61, c at next level, right associativity) : py_scope.
Notation "' p <- c ;; k" := (bind c (fun x => let 'p := x in k))
  (at level 61, p pattern, c at next level, right associativity) : py_scope.

Definition succeeds {A : Type} (r : result A) : bool :=
  match r with Ok _ => true | Raise _ => false end.

(** *** Dictionaries *)

Fixpoint lookup (k : string) (d : list (string * value)) : option value :=
  match d with
  | [] => None
  | (k', v) :: rest => if k' =? k then Some v else lookup k rest
  end.

(** [v.get(k, default)]; only a dict has the method. *)
Definition get_default (v : value) (k : string) (dflt : value) : result value :=
  match v with
  | VDict d => Ok (match lookup k d with Some x => x | None => dflt end)
  | _ => Raise AttributeError
  end.

(** [v.get(k)] *)
Definition get (v : value) (k : string) : result value :=
  get_default v k VNone.

(** [a or b]: [b] is looked at only when [a] is falsy. *)
Definition or_else (a b : result value) : result value :=
  bind a (fun x => if truthy x then Ok x else b).

Notation "a 'orelse' b" := (or_else a b)
  (at level 60, right associativity) : py_scope.

(** [k in v] for a string [k]: a key of a dict, an element of a list, a
    substring of a string. *)
Definition py_in (k : string) (v : value) : result bool :=
  match v with
  | VDict d => Ok (match lookup k d with Some _ => true | None => false end)
  | VList l =>
      Ok (existsb (fun x => match x with VStr s => s =? k | _ => false end) l)
  | VStr s => Ok (contains k s)
  | _ => Raise TypeError
  end.

(** [v.lower()] *)
Definition lower_of (v : value) : result string :=
  match v with
  | VStr s => Ok (lower s)
  | _ => Raise AttributeError
  end.

(** [v[:n]] *)
Definition slice_to (n : nat) (v : value) : result value :=
  match v with
  | VStr s => Ok (VStr (take n s))
  | VList l => Ok (VList (firstn n l))
  | _ => Raise TypeError
  end.

(** [list(d.keys())] *)
Definition keys (d : list (string * value)) : value :=
  VList (map (fun kv => VStr (fst kv)) d).

(** *** [repr] and [str] *)

Definition hex_digit (n : N) : ascii :=
  ascii_of_N (if (n <? 10)%N then 48 + n else 87 + n).

Definition printable (c : ascii) : bool :=
  let n := code c in
  ((32 <=? n) && (n <=? 126) || (161 <=? n) && negb (n =? 173))%N.

Definition backslash : ascii := ascii_of_N 92.

Definition escape_char (quote : ascii) (c : ascii) : string :=
  let n := code c in
  let esc (x : ascii) := String backslash (String x "") in
  if Ascii.eqb c backslash then esc backslash
  else if Ascii.eqb c quote then esc c
  else if (n =? 10)%N then esc "n"%char
  else if (n =? 13)%N then esc "r"%char
  else if (n =? 9)%N then esc "t"%char
  else if printable c then String c ""
  else String backslash (String "x"%char (String (hex_digit (n / 16))
                                       (String (hex_digit (n mod 16)) ""))).

Fixpoint escape (quote : ascii) (s : string) : string :=
  match s with
  | EmptyString => ""
  | String c t => escape_char quote c ++ escape quote t
  end.

(** [repr(s)]: single quotes unless the text has one and no double quote. *)
Definition repr_str (s : string) : string :=
  let dq := String (ascii_of_N 34) "" in
  if contains "'" s && negb (contains dq s)
  then dq ++ escape (ascii_of_N 34) s ++ dq
  else "'" ++ escape "'" s ++ "'".

Fixpoint repr (v : value) : string :=
  match v with
  | VNone => "None"
  | VBool true => "True"
  | VBool false => "False"
  | VInt z => str_of_Z z
  | VStr s => repr_str s
  | VList l => "[" ++ join ", " (map repr l) ++ "]"
  | VDict d =>
      "{" ++ join ", " (map (fun kv => repr_str (fst kv) ++ ": " ++ repr (snd kv)) d)
          ++ "}"
  end.

(** [str(v)], and [v] inside an f-string. *)
Definition str (v : value) : string :=
  match v with
  | VStr s => s
  | _ => repr v
  end.

(** *** [json.dumps] (default separators, [ensure_ascii]) *)

Definition dquote : ascii := ascii_of_N 34.

Definition json_escape_char (c : ascii) : string :=
  let n := code c in
  let esc (x : ascii) := String backslash (String x "") in
  if Ascii.eqb c dquote then esc dquote
  else if Ascii.eqb c backslash then esc backslash
  else if (n =? 10)%N then esc "n"%char
  else if (n =? 13)%N then esc "r"%char
  else if (n =? 9)%N then esc "t"%char
  else if (n =? 8)%N then esc "b"%char
  else if (n =? 12)%N then esc "f"%char
  else if ((32 <=? n) && (n <=? 126))%N then String c ""
  else String backslash
         (String "u"%char
            (String "0"%char
               (String "0"%char
                  (String (hex_digit (n / 16))
                     (String (hex_digit (n mod 16)) ""))))).

Fixpoint json_escape (s : string) : string :=
  match s with
  | EmptyString => ""
  | String c t => json_escape_char c ++ json_escape t
  end.

Definition json_str (s : string) : string :=
  String dquote (json_escape s ++ String dquote "").

Fixpoint json_dumps (v : value) : string :=
  match v with
  | VNone => "null"
  | VBool true => "true"
  | VBool false => "false"
  | VInt z => str_of_Z z
  | VStr s => json_str s
  | VList l => "[" ++ join ", " (map json_dumps l) ++ "]"
  | VDict d =>
      "{" ++ join ", "
               (map (fun kv => json_str (fst kv) ++ ": " ++ json_dumps (snd kv)) d)
          ++ "}"
  end.

End Py.

(* ================================================================== *)
(** ** The forwarding-envelope regular expression *)
(* ================================================================== *)

(** [re.search(r"(ErrorMessage|Message)=(.+)(?=Forwarded to RCA system)",
               text, re.IGNORECASE | re.DOTALL)]
    as the backtracking matcher runs it: start positions from the left, the
    alternatives in order, [.+] greedy (longest first, at least one
    character, any character), then the look-ahead. *)

Module Re.
Import Py.

(** A literal under IGNORECASE; the rest of the text after it. *)
Fixpoint literal_ci (p s : string) : option string :=
  match p, s with
  | EmptyString, _ => Some s
  | String a p', String b s' =>
      if Ascii.eqb (lower_char a) (lower_char b) then literal_ci p' s' else None
  | String _ _, EmptyString => None
  end.

Definition marker : string := "Forwarded to RCA system".

Definition lookahead (s : string) : bool :=
  match literal_ci marker s with Some _ => true | None => false end.

(** [(.+)(?=marker)] from the head of [s]: the text of the group. *)
Fixpoint dot_plus (s : string) : option string :=
  match s with
  | EmptyString => None
  | String c t =>
      match dot_plus t with
      | Some g => Some (String c g)
      | None => if lookahead t then Some (String c EmptyString) else None
      end
  end.

Definition after_key (key s : string) : option string :=
  match literal_ci key s with
  | Some r =>
      match literal_ci "=" r with
      | Some r' => dot_plus r'
      | None => None
      end
  | None => None
  end.

(** A match that starts at the head of [s]: group 2. *)
Definition match_here (s : string) : option string :=
  match after_key "ErrorMessage" s with
  | Some g => Some g
  | None => after_key "Message" s
  end.

(** [re.search]: group 2 of the leftmost match. *)
Fixpoint search (s : string) : option string :=
  match match_here s with
  | Some g => Some g
  | None =>
      match s with
      | EmptyString => None
      | String _ t => search t
      end
  end.

(** error_extractors.py 64-69 and main.py 895-898, on a text:
<<
    if "forwarded to rca system" in error_message.lower():
        match = re.search(...)
        if match:
            error_message = match.group(2).strip().strip("'")
>> *)
Definition strip_forwarding_envelope (text : string) : string :=
  if contains "forwarded to rca system" (lower text) then
    match search text with
    | Some g => strip_chars "'" (strip g)
    | None => text
    end
  else text.

End Re.

(* ================================================================== *)
(** ** error_extractors.py *)
(* ================================================================== *)

Module ErrorExtractors.
Import Py Re.
Local Open Scope py_scope.

Definition empty_dict : value := VDict [].

(** [payload.get("data", {}).get(k)] *)
Definition data_get (payload : value) (k : string) : result value :=
  data <- get_default payload "data" empty_dict ;; get data k.

(** The forwarding-envelope clean-up of lines 63-69 on the selected error
    message; [.lower()] exists on a string only. *)
Definition clean_error_message (error_message : value) : result value :=
  _ <- lower_of error_message ;;
  match error_message with
  | VStr s => Ok (VStr (strip_forwarding_envelope s))
  | _ => Raise AttributeError
  end.

(** The ordered field search of [AzureDataFactoryExtractor.extract] for the
    error message (lines 46-61), before the clean-up. *)
Definition adf_error_message (properties essentials error_obj : value)
  : result value :=
  get error_obj "message" orelse
  get error_obj "Message" orelse
  get properties "ErrorMessage" orelse
  get properties "errorMessage" orelse
  get properties "detailedMessage" orelse
  get properties "message" orelse
  get essentials "description" orelse
  Ok (VStr "ADF pipeline failed. No detailed error message available.").

(** [AzureDataFactoryExtractor.extract]:
    (pipeline_name, run_id, error_message, metadata). *)
Definition adf_extract (payload : value)
  : result (value * value * value * list (string * value)) :=
  essentials <- (data_get payload "essentials" orelse
                 get payload "essentials" orelse Ok empty_dict) ;;
  alert_context <- (data_get payload "alertContext" orelse Ok empty_dict) ;;
  properties <- (get_default alert_context "properties" empty_dict orelse
                 get_default payload "properties" empty_dict) ;;
  pipeline_name <- (get properties "PipelineName" orelse
                    get properties "pipelineName" orelse
                    get essentials "alertRule" orelse
                    get essentials "pipelineName" orelse
                    Ok (VStr "ADF Pipeline")) ;;
  run_id <- (get properties "PipelineRunId" orelse
             get properties "pipelineRunId" orelse
             get properties "RunId" orelse
             get properties "runId" orelse
             get essentials "alertId") ;;
  error_obj <- (get properties "Error" orelse get properties "error" orelse
                Ok empty_dict) ;;
  raw_message <- adf_error_message properties essentials error_obj ;;
  error_message <- clean_error_message raw_message ;;
  activity_name <- (get properties "ActivityName" orelse
                    get properties "activityName") ;;
  activity_type <- (get properties "ActivityType" orelse
                    get properties "activityType") ;;
  error_code <- (get error_obj "errorCode" orelse
                 get properties "ErrorCode" orelse
                 get properties "errorCode") ;;
  failure_type <- (get error_obj "failureType" orelse
                   get error_obj "FailureType") ;;
  severity <- get essentials "severity" ;;
  fired_time <- get essentials "firedDateTime" ;;
  Ok (pipeline_name, run_id, error_message,
      [("activity_name", activity_name); ("activity_type", activity_type);
       ("error_code", error_code); ("failure_type", failure_type);
       ("severity", severity); ("fired_time", fired_time)]).

(** The Databricks extractors return
    (resource_name, run_id, event_type, error_message, metadata). *)
Definition dbx_extraction : Type :=
  (value * value * value * value * list (string * value))%type.

(** [DatabricksExtractor._extract_job_event] *)
Definition _extract_job_event (payload event_type : value)
  : result dbx_extraction :=
  job_obj <- get_default payload "job" empty_dict ;;
  run_obj <- get_default payload "run" empty_dict ;;
  let run_state := (st <- get_default run_obj "state" empty_dict ;; Ok st) in
  job_name <- ((settings <- get_default job_obj "settings" empty_dict ;;
                get settings "name") orelse
               get run_obj "run_name" orelse
               get payload "job_name" orelse
               Ok (VStr "Databricks Job")) ;;
  run_id <- (get run_obj "run_id" orelse get payload "run_id" orelse
             get payload "job_run_id") ;;
  error_message <- ((st <- run_state ;; get st "state_message") orelse
                    get run_obj "state_message" orelse
                    get payload "error_message" orelse
                    Ok (VStr ("Databricks job event: " ++ str event_type))) ;;
  job_id <- (get job_obj "job_id" orelse get payload "job_id") ;;
  cluster_id <- (ci <- get_default run_obj "cluster_instance" empty_dict ;;
                 get ci "cluster_id") ;;
  life_cycle_state <- (st <- run_state ;; get st "life_cycle_state") ;;
  result_state <- (st <- run_state ;; get st "result_state") ;;
  Ok (job_name, run_id, event_type, error_message,
      [("job_id", job_id); ("cluster_id", cluster_id);
       ("event_type", event_type); ("resource_type", VStr "job");
       ("life_cycle_state", life_cycle_state);
       ("result_state", result_state)]).

(** [", ".join([f"{k}={v}" for k, v in params.items()])] *)
Definition param_str (params : value) : result string :=
  match params with
  | VDict d => Ok (join ", " (map (fun kv => fst kv ++ "=" ++ str (snd kv)) d))
  | _ => Raise AttributeError
  end.

(** [DatabricksExtractor._extract_cluster_event] *)
Definition _extract_cluster_event (payload event_type : value)
  : result dbx_extraction :=
  cluster_obj <- get_default payload "cluster" empty_dict ;;
  cluster_name <- (get cluster_obj "cluster_name" orelse
                   get payload "cluster_name" orelse
                   Ok (VStr "Databricks Cluster")) ;;
  cluster_id <- (get cluster_obj "cluster_id" orelse get payload "cluster_id") ;;
  termination_reason <- get_default cluster_obj "termination_reason" empty_dict ;;
  state_message <- get_default cluster_obj "state_message" (VStr "") ;;
  error_message <-
    (if truthy termination_reason then
       code <- get termination_reason "code" ;;
       term_type <- get termination_reason "type" ;;
       params <- get_default termination_reason "parameters" empty_dict ;;
       let msg := "Cluster " ++ str event_type ++ ": " ++ str state_message ++
                  ". Reason: " ++ str code ++ " (" ++ str term_type ++ ")" in
       if truthy params then
         ps <- param_str params ;;
         Ok (VStr (msg ++ ". Details: " ++ ps))
       else Ok (VStr msg)
     else
       Ok (if truthy state_message then state_message
           else VStr ("Cluster " ++ str event_type))) ;;
  cluster_state <- get cluster_obj "state" ;;
  termination_code <- get termination_reason "code" ;;
  termination_type <- get termination_reason "type" ;;
  driver_node_type <- get cluster_obj "driver_node_type_id" ;;
  num_workers <- get cluster_obj "num_workers" ;;
  Ok (cluster_name, cluster_id, event_type, error_message,
      [("cluster_id", cluster_id); ("event_type", event_type);
       ("resource_type", VStr "cluster"); ("cluster_state", cluster_state);
       ("termination_code", termination_code);
       ("termination_type", termination_type);
       ("driver_node_type", driver_node_type);
       ("num_workers", num_workers)]).

(** [DatabricksExtractor._extract_library_event] *)
Definition _extract_library_event (payload event_type : value)
  : result dbx_extraction :=
  library_obj <- get_default payload "library" empty_dict ;;
  cluster_obj <- get_default payload "cluster" empty_dict ;;
  cluster_name <- (get cluster_obj "cluster_name" orelse
                   Ok (VStr "Unknown Cluster")) ;;
  cluster_id <- (get cluster_obj "cluster_id" orelse get payload "cluster_id") ;;
  library_name <- ((pypi <- get_default library_obj "pypi" empty_dict ;;
                    get pypi "package") orelse
                   (maven <- get_default library_obj "maven" empty_dict ;;
                    get maven "coordinates") orelse
                   get library_obj "jar" orelse
                   Ok (VStr "Unknown Library")) ;;
  error_message <- (get payload "error_message" orelse
                    get payload "message" orelse
                    Ok (VStr ("Library installation " ++ str event_type ++ ": "
                              ++ str library_name))) ;;
  let library_type :=
    match library_obj with
    | VDict ((k, _) :: _) => VStr k
    | _ => VStr "unknown"
    end in
  status <- get payload "status" ;;
  Ok (VStr (str cluster_name ++ " - " ++ str library_name), cluster_id,
      event_type, error_message,
      [("cluster_id", cluster_id); ("cluster_name", cluster_name);
       ("library", library_name); ("library_type", library_type);
       ("event_type", event_type); ("resource_type", VStr "library");
       ("status", status)]).

(** [DatabricksExtractor._extract_generic_event] *)
Definition _extract_generic_event (payload event_type : value)
  : result dbx_extraction :=
  resource_name <- (get payload "name" orelse get payload "resource_name" orelse
                    Ok (VStr "Databricks Resource")) ;;
  resource_id <- (get payload "id" orelse get payload "resource_id" orelse
                  Ok (VStr "unknown")) ;;
  error_message <- (get payload "message" orelse get payload "error_message"
                    orelse Ok (VStr (str payload))) ;;
  raw_payload_keys <- match payload with
                      | VDict d => Ok (keys d)
                      | _ => Raise AttributeError
                      end ;;
  Ok (resource_name, resource_id, event_type, error_message,
      [("event_type", event_type); ("resource_type", VStr "unknown");
       ("raw_payload_keys", raw_payload_keys)]).

(** [a or b] on conditions. *)
Definition cond_or (a b : result bool) : result bool :=
  x <- a ;; if x then Ok true else b.

(** ["word" in event_type.lower()] *)
Definition names (word : string) (event_type : value) : result bool :=
  l <- lower_of event_type ;; Ok (contains word l).

(** [DatabricksExtractor.extract] *)
Definition dbx_extract (payload : value) : result dbx_extraction :=
  event_type <- (get payload "event" orelse get payload "event_type" orelse
                 Ok (VStr "unknown")) ;;
  is_job <- cond_or (names "job" event_type) (py_in "run" payload) ;;
  if is_job then _extract_job_event payload event_type
  else
    is_cluster <- cond_or (names "cluster" event_type) (py_in "cluster" payload) ;;
    if is_cluster then _extract_cluster_event payload event_type
    else
      is_library <- names "library" event_type ;;
      if is_library then _extract_library_event payload event_type
      else _extract_generic_event payload event_type.

(** [AzureFunctionsExtractor.extract]:
    (function_name, invocation_id, error_message, metadata). *)
Definition functions_extract (payload : value)
  : result (value * value * value * list (string * value)) :=
  essentials <- (data_get payload "essentials" orelse
                 get payload "essentials" orelse Ok empty_dict) ;;
  alert_context <- (data_get payload "alertContext" orelse Ok empty_dict) ;;
  let prop (k : string) : result value :=
    (ps <- get_default alert_context "properties" empty_dict ;; get ps k) in
  function_name <- (prop "FunctionName" orelse get essentials "alertRule" orelse
                    Ok (VStr "Azure Function")) ;;
  invocation_id <- (prop "InvocationId" orelse get essentials "alertId") ;;
  error_message <- (prop "ExceptionMessage" orelse prop "ErrorMessage" orelse
                    get essentials "description" orelse
                    Ok (VStr "Azure Function failed")) ;;
  function_app <- prop "FunctionAppName" ;;
  exception_type <- prop "ExceptionType" ;;
  severity <- get essentials "severity" ;;
  timestamp <- prop "Timestamp" ;;
  Ok (function_name, invocation_id, error_message,
      [("function_app", function_app); ("exception_type", exception_type);
       ("severity", severity); ("timestamp", timestamp)]).

(** [AzureSynapseExtractor.extract]:
    (pipeline_name, run_id, error_message, metadata). *)
Definition synapse_extract (payload : value)
  : result (value * value * value * list (string * value)) :=
  essentials <- (data_get payload "essentials" orelse
                 get payload "essentials" orelse Ok empty_dict) ;;
  properties <- (data <- get_default payload "data" empty_dict ;;
                 ac <- get_default data "alertContext" empty_dict ;;
                 get_default ac "properties" empty_dict) ;;
  pipeline_name <- (get properties "PipelineName" orelse
                    get properties "pipelineName" orelse
                    get essentials "alertRule" orelse
                    Ok (VStr "Synapse Pipeline")) ;;
  run_id <- (get properties "RunId" orelse get properties "runId" orelse
             get essentials "alertId") ;;
  error_message <- (get properties "ErrorMessage" orelse
                    get properties "errorMessage" orelse
                    get essentials "description" orelse
                    Ok (VStr "Synapse pipeline failed")) ;;
  workspace_name <- get properties "WorkspaceName" ;;
  activity_name <- get properties "ActivityName" ;;
  error_code <- get properties "ErrorCode" ;;
  severity <- get essentials "severity" ;;
  Ok (pipeline_name, run_id, error_message,
      [("workspace_name", workspace_name); ("activity_name", activity_name);
       ("error_code", error_code); ("severity", severity)]).

(** The extractor classes, and the factory [get_extractor]. *)
Inductive extractor : Type :=
| AzureDataFactoryExtractor
| DatabricksExtractor
| AzureFunctionsExtractor
| AzureSynapseExtractor.

Definition extractors : list (string * extractor) :=
  [("adf", AzureDataFactoryExtractor);
   ("azure_data_factory", AzureDataFactoryExtractor);
   ("databricks", DatabricksExtractor);
   ("azure_functions", AzureFunctionsExtractor);
   ("functions", AzureFunctionsExtractor);
   ("synapse", AzureSynapseExtractor);
   ("azure_synapse", AzureSynapseExtractor)].

Fixpoint assoc {A : Type} (k : string) (l : list (string * A)) : option A :=
  match l with
  | [] => None
  | (k', v) :: rest => if k' =? k then Some v else assoc k rest
  end.

(** [extractors.get(source_type.lower())]: [None] for any other tag. *)
Definition get_extractor (source_type : string) : option extractor :=
  assoc (lower source_type) extractors.

End ErrorExtractors.

(* ================================================================== *)
(** ** The store: tables [tickets] and [audit_trail], and the outside world *)
(* ================================================================== *)

(** [main.py] keeps its state in a SQLite database reached through
    [db_execute] and [db_query]; each statement commits on its own
    ([engine.begin()]), so what was written before an exception stays
    written.  A handler is a function from the world before to an outcome
    and the world after. *)

Module Store.
Import Py.
Local Open Scope py_scope.

(** A cell of a TEXT column, or a bound parameter compared with one:
    NULL or text. *)
Definition cell : Type := option string.

Definition cell_eqb (a b : cell) : bool :=
  match a, b with
  | Some x, Some y => x =? y
  | _, _ => false       (* NULL = anything is never true *)
  end.

(** The text SQLAlchemy gives an exception of the driver: the driver's
    class and message, then the statement and its parameters ([suffix]). *)
Definition driver_error (cls msg suffix : string) : exn :=
  DatabaseError ("(sqlite3." ++ cls ++ ") " ++ msg ++ suffix).

(** An integer SQLite holds: signed, 64 bits. *)
Definition fits_int64 (z : Z) : bool :=
  ((- 2 ^ 63 <=? z) && (z <? 2 ^ 63))%Z.

(** Binding a Python value as a parameter: SQLite takes None, text and the
    numbers it can hold; a number kept in, or compared with, a TEXT column
    becomes text.  For a larger integer the driver raises OverflowError,
    which SQLAlchemy hands on as it is. *)
Definition bind_text (suffix : string) (v : value) : result cell :=
  match v with
  | VNone => Ok None
  | VStr s => Ok (Some s)
  | VInt z => if fits_int64 z then Ok (Some (str_of_Z z)) else Raise OverflowError
  | VBool b => Ok (Some (if b then "1" else "0"))
  | VList _ | VDict _ =>
      Raise (driver_error "InterfaceError"
               "Error binding parameter - probably unsupported type." suffix)
  end.

(** A row of [tickets] (lines 153-183), with the columns the INSERT of the
    ingestion endpoints fills; [timestamp], the acknowledgement columns
    and the Slack columns are left out. *)
Record Ticket : Type := {
  t_id : string;
  t_pipeline : cell;
  t_run_id : cell;
  t_rca_result : cell;
  t_recommendations : cell;
  t_confidence : cell;
  t_severity : cell;
  t_priority : cell;
  t_error_type : cell;
  t_affected_entity : cell;
  t_status : cell;
  t_sla_seconds : Z;
  t_sla_status : cell;
  t_finops_team : cell;
  t_finops_owner : cell;
  t_finops_cost_center : cell;
  t_blob_log_url : cell;
  t_itsm_ticket_id : cell;
  t_logic_app_run_id : cell;
  t_processing_mode : cell
}.

(** A row of [audit_trail] (lines 186-205), with the columns [log_audit] is
    given by the code modelled here; [timestamp] and the user columns are
    left out. *)
Record AuditEntry : Type := {
  a_ticket_id : cell;
  a_action : string;
  a_pipeline : cell;
  a_run_id : cell;
  a_sla_status : cell;
  a_rca_summary : cell;
  a_finops_team : cell;
  a_finops_owner : cell;
  a_details : cell;
  a_itsm_ticket_id : cell
}.

(** Calls of the functions that reach outside the process, in order. *)
Inductive call : Type :=
| AiCall (description : value) (source_type : string)  (* call_ai_for_rca *)
| BlobUpload (ticket_id : string)       (* upload_payload_to_blob *)
| DatabricksFetch (run_id : value)      (* fetch_databricks_run_details *)
| JiraCreate (ticket_id : string)       (* create_jira_ticket *)
| Broadcast (ticket_id : string)        (* manager.broadcast *)
| SlackPost (ticket_id : string)        (* post_slack_notification *)
| Sleep (seconds : Z)                   (* asyncio.sleep *)
| PlaybookPost (url : string) (payload : value).   (* requests.post *)

Record World : Type := {
  tickets : list Ticket;
  audit : list AuditEntry;
  calls : list call
}.

Definition M (A : Type) : Type := World -> result A * World.

Definition ret {A : Type} (a : A) : M A := fun w => (Ok a, w).
Definition throw {A : Type} (e : exn) : M A := fun w => (Raise e, w).
Definition lift {A : Type} (r : result A) : M A := fun w => (r, w).

Definition bindM {A B : Type} (m : M A) (k : A -> M B) : M B :=
  fun w =>
    match m w with
    | (Ok a, w') => k a w'
    | (Raise e, w') => (Raise e, w')
    end.

(** [try: m except Exception as e: handler(e)] *)
Definition try_except {A : Type} (m : M A) (handler : exn -> M A) : M A :=
  fun w =>
    match m w with
    | (Ok a, w') => (Ok a, w')
    | (Raise e, w') => handler e w'
    end.

Notation "x <~ c ;; k" := (bindM c (fun x => k))
  (at level 61, c at next level, right associativity) : py_scope.
Notation "' p <~ c ;; k" := (bindM c (fun x => let 'p := x in k))
  (at level 61, p pattern, c at next level, right associativity) : py_scope.

Definition emit (c : call) : M unit :=
  fun w => (Ok tt, {| tickets := tickets w; audit := audit w;
                      calls := calls w ++ [c] |}).

Definition set_tickets (ts : list Ticket) : M unit :=
  fun w => (Ok tt, {| tickets := ts; audit := audit w; calls := calls w |}).

Definition append_audit (e : AuditEntry) : M unit :=
  fun w => (Ok tt, {| tickets := tickets w; audit := audit w ++ [e];
                      calls := calls w |}).

Definition get_world : M World := fun w => (Ok w, w).

(** [str(e)] *)
Definition str_of_exn (e : exn) : string :=
  match e with
  | AttributeError => "object has no attribute"
  | TypeError => "unsupported operand"
  | IndexError => "list index out of range"
  | OverflowError => "Python int too large to convert to SQLite INTEGER"
  | RuntimeError msg => msg
  | DatabaseError msg => msg
  | RequestException => "request failed"
  | HTTPException _ detail => detail
  end.

(** *** Queries and statements *)

(** [SELECT ... FROM tickets WHERE run_id = :run_id], [one=True]: the first
    row, if any. *)
Definition ticket_by_run_id (suffix : string) (run_id : value)
  : M (option Ticket) :=
  r <~ lift (bind_text suffix run_id) ;;
  w <~ get_world ;;
  ret (find (fun t => cell_eqb (t_run_id t) r) (tickets w)).

Definition id_taken (id : string) (ts : list Ticket) : bool :=
  existsb (fun t => t_id t =? id) ts.

(** The unique index [idx_tickets_run_id ... WHERE run_id IS NOT NULL]
    (lines 261-265). *)
Definition run_id_taken (r : cell) (ts : list Ticket) : bool :=
  existsb (fun t => cell_eqb (t_run_id t) r) ts.

(** [INSERT INTO tickets ...]: the primary key on [id] and the unique index
    on [run_id]; [fault] is a failure of the storage itself, with its
    text. *)
Definition insert_ticket (fault : option string) (suffix : string)
  (row : Ticket) : M unit :=
  match fault with
  | Some msg => throw (DatabaseError msg)
  | None =>
      w <~ get_world ;;
      if id_taken (t_id row) (tickets w) then
        throw (driver_error "IntegrityError"
                 "UNIQUE constraint failed: tickets.id" suffix)
      else if run_id_taken (t_run_id row) (tickets w) then
        throw (driver_error "IntegrityError"
                 "UNIQUE constraint failed: tickets.run_id" suffix)
      else set_tickets (tickets w ++ [row])
  end.

(** [UPDATE tickets SET ... WHERE id = :id] *)
Definition update_ticket (id : string) (f : Ticket -> Ticket) : M unit :=
  w <~ get_world ;;
  set_tickets (map (fun t => if t_id t =? id then f t else t) (tickets w)).

Definition with_itsm (k : cell) (t : Ticket) : Ticket :=
  {| t_id := t_id t; t_pipeline := t_pipeline t; t_run_id := t_run_id t;
     t_rca_result := t_rca_result t; t_recommendations := t_recommendations t;
     t_confidence := t_confidence t; t_severity := t_severity t;
     t_priority := t_priority t; t_error_type := t_error_type t;
     t_affected_entity := t_affected_entity t; t_status := t_status t;
     t_sla_seconds := t_sla_seconds t; t_sla_status := t_sla_status t;
     t_finops_team := t_finops_team t; t_finops_owner := t_finops_owner t;
     t_finops_cost_center := t_finops_cost_center t;
     t_blob_log_url := t_blob_log_url t; t_itsm_ticket_id := k;
     t_logic_app_run_id := t_logic_app_run_id t;
     t_processing_mode := t_processing_mode t |}.

Definition with_run_id (r : cell) (t : Ticket) : Ticket :=
  {| t_id := t_id t; t_pipeline := t_pipeline t; t_run_id := r;
     t_rca_result := t_rca_result t; t_recommendations := t_recommendations t;
     t_confidence := t_confidence t; t_severity := t_severity t;
     t_priority := t_priority t; t_error_type := t_error_type t;
     t_affected_entity := t_affected_entity t; t_status := t_status t;
     t_sla_seconds := t_sla_seconds t; t_sla_status := t_sla_status t;
     t_finops_team := t_finops_team t; t_finops_owner := t_finops_owner t;
     t_finops_cost_center := t_finops_cost_center t;
     t_blob_log_url := t_blob_log_url t;
     t_itsm_ticket_id := t_itsm_ticket_id t;
     t_logic_app_run_id := t_logic_app_run_id t;
     t_processing_mode := t_processing_mode t |}.

(** *** [log_audit] (lines 373-398)

    The keyword arguments a caller leaves out are None.  The INSERT runs
    inside [try ... except Exception], so a parameter SQLite cannot bind
    loses the entry and nothing is raised. *)
Record audit_args : Type := {
  g_ticket_id : value;
  g_action : string;
  g_pipeline : value;
  g_run_id : value;
  g_sla_status : value;
  g_rca_summary : value;
  g_finops_team : value;
  g_finops_owner : value;
  g_details : value;
  g_itsm_ticket_id : value
}.

Definition audit_row (suffix : string) (g : audit_args) : result AuditEntry :=
  ticket_id <- bind_text suffix (g_ticket_id g) ;;
  pipeline <- bind_text suffix (g_pipeline g) ;;
  run_id <- bind_text suffix (g_run_id g) ;;
  sla_status <- bind_text suffix (g_sla_status g) ;;
  rca_summary <- bind_text suffix (g_rca_summary g) ;;
  finops_team <- bind_text suffix (g_finops_team g) ;;
  finops_owner <- bind_text suffix (g_finops_owner g) ;;
  details <- bind_text suffix (g_details g) ;;
  itsm_ticket_id <- bind_text suffix (g_itsm_ticket_id g) ;;
  Ok {| a_ticket_id := ticket_id; a_action := g_action g;
        a_pipeline := pipeline; a_run_id := run_id;
        a_sla_status := sla_status; a_rca_summary := rca_summary;
        a_finops_team := finops_team; a_finops_owner := finops_owner;
        a_details := details; a_itsm_ticket_id := itsm_ticket_id |}.

Definition log_audit (suffix : string) (g : audit_args) : M unit :=
  try_except
    (row <~ lift (audit_row suffix g) ;; append_audit row)
    (fun _ => ret tt).

(** [log_audit(ticket_id=..., action=...)] with every other argument None. *)
Definition audit_of (ticket_id : value) (action : string) : audit_args :=
  {| g_ticket_id := ticket_id; g_action := action; g_pipeline := VNone;
     g_run_id := VNone; g_sla_status := VNone; g_rca_summary := VNone;
     g_finops_team := VNone; g_finops_owner := VNone; g_details := VNone;
     g_itsm_ticket_id := VNone |}.

(** [SELECT COUNT( * ) FROM audit_trail WHERE run_id = :run_id AND
    action = 'Auto-Remediation Attempted'] *)
Definition is_attempt_for (r : cell) (e : AuditEntry) : bool :=
  cell_eqb (a_run_id e) r && (a_action e =? "Auto-Remediation Attempted").

Definition count_attempts (r : cell) (log : list AuditEntry) : Z :=
  Z.of_nat (List.length (filter (is_attempt_for r) log)).

End Store.

(* ================================================================== *)
(** ** auto_remediation.py *)
(* ================================================================== *)

Module AutoRemediation.
Import Py Store.
Local Open Scope py_scope.
Local Open Scope Z_scope.

Record config : Type := {
  max_retries : Z;
  backoff_seconds : list Z;
  playbook_type : string;
  description : string
}.

(** [RETRY_ELIGIBLE_ERRORS] (lines 29-99) *)
Definition RETRY_ELIGIBLE_ERRORS : list (string * config) :=
  [("GatewayTimeout",
    {| max_retries := 3; backoff_seconds := [10; 30; 60];
       playbook_type := "retry_pipeline";
       description := "Gateway timeout - retry with exponential backoff" |});
   ("HttpConnectionFailed",
    {| max_retries := 3; backoff_seconds := [5; 15; 30];
       playbook_type := "retry_pipeline";
       description := "HTTP connection failed - retry with connection reset" |});
   ("ThrottlingError",
    {| max_retries := 5; backoff_seconds := [30; 60; 120; 300; 600];
       playbook_type := "retry_pipeline";
       description := "Rate limited - retry with delay based on Retry-After header" |});
   ("InternalServerError",
    {| max_retries := 2; backoff_seconds := [30; 60];
       playbook_type := "retry_pipeline";
       description := "Internal server error - retry after delay" |});
   ("UserErrorSourceBlobNotExists",
    {| max_retries := 3; backoff_seconds := [60; 120; 300];
       playbook_type := "rerun_upstream";
       description := "Source blob missing - check upstream and retry" |});
   ("DatabricksClusterStartFailure",
    {| max_retries := 2; backoff_seconds := [60; 120];
       playbook_type := "restart_cluster";
       description := "Cluster failed to start - restart with fallback node type" |});
   ("DatabricksTimeoutError",
    {| max_retries := 2; backoff_seconds := [30; 60];
       playbook_type := "retry_job";
       description := "Job timeout - retry with increased timeout" |});
   ("DatabricksDriverNotResponding",
    {| max_retries := 1; backoff_seconds := [60];
       playbook_type := "restart_cluster";
       description := "Driver not responding - restart cluster" |});
   ("DatabricksLibraryInstallationError",
    {| max_retries := 2; backoff_seconds := [30; 60];
       playbook_type := "reinstall_libraries";
       description := "Library install failed - retry with version fallback" |});
   ("DatabricksResourceExhausted",
    {| max_retries := 2; backoff_seconds := [60; 120];
       playbook_type := "scale_cluster";
       description := "Resources exhausted - scale up cluster or retry with smaller batch" |});
   ("ClusterUnexpectedTermination",
    {| max_retries := 2; backoff_seconds := [60; 120];
       playbook_type := "restart_cluster";
       description := "Cluster terminated unexpectedly - auto-restart" |})].

(** [PLAYBOOK_ENV_VARS] (lines 105-113) *)
Definition PLAYBOOK_ENV_VARS : list (string * string) :=
  [("retry_pipeline", "PLAYBOOK_RETRY_PIPELINE");
   ("rerun_upstream", "PLAYBOOK_RERUN_UPSTREAM");
   ("restart_cluster", "PLAYBOOK_RESTART_CLUSTER");
   ("retry_job", "PLAYBOOK_RETRY_JOB");
   ("reinstall_libraries", "PLAYBOOK_REINSTALL_LIBRARIES");
   ("scale_cluster", "PLAYBOOK_SCALE_CLUSTER");
   ("check_permissions", "PLAYBOOK_CHECK_PERMISSIONS")].

(** [d.get(k)] on a table with string keys. *)
Fixpoint table_get {A : Type} (k : string) (d : list (string * A)) : option A :=
  match d with
  | [] => None
  | (k', v) :: rest => if (k' =? k)%string then Some v else table_get k rest
  end.

(** [get_error_config] (lines 347-349) *)
Definition get_error_config (error_type : string) : option config :=
  table_get error_type RETRY_ELIGIBLE_ERRORS.

(** [is_auto_remediable] (lines 352-354) *)
Definition is_auto_remediable (error_type : string) : bool :=
  match table_get error_type RETRY_ELIGIBLE_ERRORS with
  | Some _ => true
  | None => false
  end.

(** [l[i]] on a list of integers, negative indices from the end. *)
Definition index (l : list Z) (i : Z) : result Z :=
  let n := Z.of_nat (List.length l) in
  let j := if i <? 0 then i + n else i in
  if (0 <=? j) && (j <? n) then
    match nth_error l (Z.to_nat j) with
    | Some x => Ok x
    | None => Raise IndexError
    end
  else Raise IndexError.

(** Line 196:
    [backoff_seconds[min(current_attempt, len(backoff_seconds) - 1)]] *)
Definition backoff_delay (backoff_seconds : list Z) (current_attempt : Z)
  : result Z :=
  index backoff_seconds
    (Z.min current_attempt (Z.of_nat (List.length backoff_seconds) - 1)).

(** What one [requests.post] to the playbook comes back with. *)
Inductive post_outcome : Type :=
| Responded (status_code : Z) (json : result value) (text : string)
| NoResponse.                       (* a RequestException: refused, timed out *)

(** The process environment and the outside world of one evaluation. *)
Record env : Type := {
  getenv : string -> option string;      (* os.getenv *)
  post : nat -> post_outcome;            (* the n-th requests.post *)
  utcnow : string;                       (* datetime.utcnow().isoformat() *)
  statement : string                     (* what SQLAlchemy appends to an error *)
}.

(** [_http_post_with_retries] (lines 296-335): [raise_for_status] turns a
    4xx or 5xx answer into a RequestException; the last failure is raised
    again.  The waits between attempts ([time.sleep] of a float) are not
    recorded. *)
Fixpoint http_post_attempts (e : env) (url : string) (payload : value)
  (retries attempt : nat) (remaining : nat)
  : M (option (Z * result value * string)) :=
  match remaining with
  | O => ret None
  | S remaining' =>
      _ <~ emit (PlaybookPost url payload) ;;
      let failed :=
        if (attempt <? retries - 1)%nat
        then http_post_attempts e url payload retries (S attempt) remaining'
        else throw RequestException in
      match post e attempt with
      | Responded status body text =>
          if (400 <=? status) && (status <? 600) then failed
          else ret (Some (status, body, text))
      | NoResponse => failed
      end
  end.

Definition _http_post_with_retries (e : env) (url : string) (payload : value)
  (retries : nat) : M (option (Z * result value * string)) :=
  http_post_attempts e url payload retries 0 retries.

(** [a != b] where [b] is a run id that has been bound to the count query,
    hence None, a string, an integer or a boolean. *)
Definition differs (a b : value) : bool :=
  negb match a, b with
       | VStr x, VStr y => (x =? y)%string
       | VInt x, VInt y => x =? y
       | VBool x, VBool y => Bool.eqb x y
       | VInt x, VBool y => x =? (if y then 1 else 0)
       | VBool x, VInt y => (if x then 1 else 0) =? y
       | VNone, VNone => true
       | _, _ => false
       end.

(** [UPDATE tickets SET run_id = :new_run_id WHERE id = :ticket_id],
    under the unique index on [run_id]. *)
Definition update_run_id (e : env) (ticket_id : string) (new_run_id : value)
  : M unit :=
  r <~ lift (bind_text (statement e) new_run_id) ;;
  w <~ get_world ;;
  if id_taken ticket_id (tickets w) &&
     existsb (fun t => negb (t_id t =? ticket_id)%string &&
                       cell_eqb (t_run_id t) r) (tickets w)
  then throw (driver_error "IntegrityError"
                "UNIQUE constraint failed: tickets.run_id" (statement e))
  else update_ticket ticket_id (with_run_id r).

Definition remediation_audit (ticket_id : string) (action : string)
  (run_id : value) (details : string) : audit_args :=
  {| g_ticket_id := VStr ticket_id; g_action := action; g_pipeline := VNone;
     g_run_id := run_id; g_sla_status := VNone; g_rca_summary := VNone;
     g_finops_team := VNone; g_finops_owner := VNone;
     g_details := VStr details; g_itsm_ticket_id := VNone |}.

(** Lines 231-289: the playbook call and what is recorded of it. *)
Definition trigger_playbook (e : env) (ticket_id : string)
  (playbook_type playbook_url : string) (playbook_payload run_id : value)
  : M bool :=
  try_except
    (response <~ _http_post_with_retries e playbook_url playbook_payload 3 ;;
     match response with
     | None => throw AttributeError
     | Some (status_code, json, text) =>
         if status_code =? 200 then
           result <~ lift json ;;
           new_run_id <~ lift (get result "new_run_id" orelse get result "run_id") ;;
           _ <~ log_audit (statement e)
                  (remediation_audit ticket_id "Auto-Remediation Succeeded"
                     (if truthy new_run_id then new_run_id else run_id)
                     (json_dumps (VDict [("playbook_type", VStr playbook_type);
                                         ("new_run_id", new_run_id);
                                         ("response", result)]))) ;;
           _ <~ (if truthy new_run_id && truthy run_id && differs new_run_id run_id
                 then update_run_id e ticket_id new_run_id
                 else ret tt) ;;
           ret true
         else
           _ <~ log_audit (statement e)
                  (remediation_audit ticket_id "Auto-Remediation Failed" run_id
                     ("Playbook returned " ++ str_of_Z status_code ++ ": "
                      ++ take 500 text)) ;;
           ret false
     end)
    (fun ex =>
       _ <~ log_audit (statement e)
              (remediation_audit ticket_id "Auto-Remediation Failed" run_id
                 ("Exception: " ++ str_of_exn ex)) ;;
       ret false).

(** [get_playbook_url] (lines 357-369) *)
Definition get_playbook_url (e : env) (error_type : string) : option string :=
  match table_get error_type RETRY_ELIGIBLE_ERRORS with
  | None => None
  | Some config =>
      match table_get (playbook_type config) PLAYBOOK_ENV_VARS with
      | None => None
      | Some playbook_env_var =>
          if (playbook_env_var =? "")%string then None
          else getenv e playbook_env_var
      end
  end.

(** [attempt_auto_remediation] (lines 120-289), with [main.py]'s
    [db_query], [db_execute] and [log_audit] for the three functions it is
    handed. *)
Definition attempt_auto_remediation (e : env) (ticket_id error_type : string)
  (metadata : value) : M bool :=
  match table_get error_type RETRY_ELIGIBLE_ERRORS with
  | None => ret false
  | Some config =>
      let playbook_type := playbook_type config in
      match table_get playbook_type PLAYBOOK_ENV_VARS with
      | None => ret false
      | Some playbook_env_var =>
          if (playbook_env_var =? "")%string then ret false else
          match getenv e playbook_env_var with
          | None | Some EmptyString =>
              run_id <~ lift (get metadata "run_id") ;;
              _ <~ log_audit (statement e)
                     (remediation_audit ticket_id "Auto-Remediation Skipped" run_id
                        ("Playbook " ++ playbook_type ++
                         " not configured in environment")) ;;
              ret false
          | Some playbook_url =>
              let max_retries := max_retries config in
              let backoff_seconds := backoff_seconds config in
              run_id <~ lift (get metadata "run_id") ;;
              counted <~
                (if truthy run_id then
                   r <~ lift (bind_text (statement e) run_id) ;;
                   w <~ get_world ;;
                   ret (count_attempts r (audit w))
                 else ret 0) ;;
              if truthy run_id && (counted >=? max_retries) then
                _ <~ log_audit (statement e)
                       (remediation_audit ticket_id
                          "Auto-Remediation Max Retries Reached" run_id
                          ("Attempted " ++ str_of_Z counted ++ " times. Error: "
                           ++ error_type ++ ". Manual intervention required.")) ;;
                ret false
              else
                let current_attempt := counted in
                delay <~ lift (backoff_delay backoff_seconds current_attempt) ;;
                _ <~ log_audit (statement e)
                       (remediation_audit ticket_id "Auto-Remediation Attempted"
                          run_id
                          (json_dumps
                             (VDict
                                [("error_type", VStr error_type);
                                 ("attempt", VInt (current_attempt + 1));
                                 ("max_retries", VInt max_retries);
                                 ("backoff_seconds", VInt delay);
                                 ("playbook_type", VStr playbook_type);
                                 ("playbook_url",
                                  VStr (if (50 <? String.length playbook_url)%nat
                                        then take 50 playbook_url ++ "..."
                                        else playbook_url))]))) ;;
                _ <~ emit (Sleep delay) ;;
                let playbook_payload :=
                  VDict [("ticket_id", VStr ticket_id);
                         ("error_type", VStr error_type);
                         ("metadata", metadata);
                         ("retry_attempt", VInt (current_attempt + 1));
                         ("max_retries", VInt max_retries);
                         ("timestamp", VStr (utcnow e))] in
                trigger_playbook e ticket_id playbook_type playbook_url
                  playbook_payload run_id
          end
      end
  end.

End AutoRemediation.

(* ================================================================== *)
(** ** ai_provider.py *)
(* ================================================================== *)

Module AiProvider.
Import Py.
Local Open Scope py_scope.

(** [_fallback_rca] (lines 282-329): the keyword scan over the lower-cased
    error message. *)
Definition classify_keywords (error_lower : string) : string * bool * string :=
  if contains "timeout" error_lower || contains "timed out" error_lower then
    ((if contains "gateway" error_lower then "GatewayTimeout"
      else "DatabricksTimeoutError"), true, "Medium")
  else if contains "connection" error_lower && contains "failed" error_lower then
    ("HttpConnectionFailed", true, "Medium")
  else if contains "throttl" error_lower then
    ("ThrottlingError", true, "Low")
  else if contains "cluster" error_lower then
    ("DatabricksClusterStartFailure", true, "High")
  else if contains "library" error_lower || contains "package" error_lower then
    ("DatabricksLibraryInstallationError", true, "Medium")
  else ("Unknown", false, "Medium").

Definition _fallback_rca (error_message reason : string) : value :=
  let '(error_type, auto_heal_possible, severity) :=
    classify_keywords (lower error_message) in
  VDict
    [("root_cause",
      VStr ("Error analysis failed (" ++ reason ++
            "). Manual review required for: " ++ take 200 error_message));
     ("error_type", VStr error_type);
     ("severity", VStr severity);
     ("priority", VStr "P2");
     ("confidence", VStr "Low");
     ("affected_entity", VStr "Unknown");
     ("recommendations",
      VList [VStr "Review error logs for more details";
             VStr "Check system health and connectivity";
             VStr "Retry operation manually if appropriate";
             VStr ("AI Provider Error: " ++ reason)]);
     ("auto_heal_possible", VBool auto_heal_possible);
     ("auto_heal_strategy",
      VStr (if auto_heal_possible then "Basic retry with exponential backoff"
            else "Not applicable"))].

(** What the configured backend does with the prompt: it answers with text
    that parses to [rca], or the call or the parsing fails with a reason. *)
Inductive backend_outcome : Type :=
| Parsed (rca : value)
| Failed (reason : string).

Record env : Type := {
  AI_PROVIDER : string;
  GEMINI_API_KEY : string;
  AZURE_OPENAI_API_KEY : string;
  AZURE_OPENAI_ENDPOINT : string;
  OLLAMA_HOST : string;
  backend : backend_outcome
}.

Definition answer (e : env) (error_message : string) : value :=
  match backend e with
  | Parsed rca => rca
  | Failed reason => _fallback_rca error_message reason
  end.

(** [_generate_rca_gemini] (lines 133-167) *)
Definition _generate_rca_gemini (e : env) (error_message : string) : value :=
  if GEMINI_API_KEY e =? "" then
    _fallback_rca error_message "GEMINI_API_KEY not configured"
  else answer e error_message.

(** [_generate_rca_azure_openai] (lines 174-222); what its own handlers let
    through is caught by [generate_rca_and_recs]. *)
Definition _generate_rca_azure_openai (e : env) (error_message : string)
  : value :=
  if (AZURE_OPENAI_API_KEY e =? "") || (AZURE_OPENAI_ENDPOINT e =? "") then
    _fallback_rca error_message "Azure OpenAI not configured"
  else answer e error_message.

(** [_generate_rca_ollama] (lines 229-275) *)
Definition _generate_rca_ollama (e : env) (error_message : string) : value :=
  if OLLAMA_HOST e =? "" then
    _fallback_rca error_message "OLLAMA_HOST not configured"
  else answer e error_message.

(** [generate_rca_and_recs] (lines 101-126) *)
Definition generate_rca_and_recs (e : env) (error_message : string) : value :=
  if AI_PROVIDER e =? "gemini" then _generate_rca_gemini e error_message
  else if AI_PROVIDER e =? "azure_openai" then
    _generate_rca_azure_openai e error_message
  else if AI_PROVIDER e =? "ollama" then _generate_rca_ollama e error_message
  else _fallback_rca error_message ("Unknown AI provider: " ++ AI_PROVIDER e).

End AiProvider.

(* ================================================================== *)
(** ** main.py *)
(* ================================================================== *)

Module Main.
Import Py Re Store.
Local Open Scope py_scope.
Local Open Scope Z_scope.

(** *** Classification helpers *)

(** [derive_priority] (lines 530-532) *)
Definition derive_priority (sev : value) : result value :=
  sev <- lower_of (if truthy sev then sev else VStr "") ;;
  Ok (VStr (if (sev =? "critical")%string then "P1"
            else if (sev =? "high")%string then "P2"
            else if (sev =? "medium")%string then "P3"
            else if (sev =? "low")%string then "P4"
            else "P3")).

(** [sla_for_priority] (lines 534-535); a list or a dict is not hashable. *)
Definition sla_for_priority (p : value) : result Z :=
  match p with
  | VStr s =>
      Ok (if (s =? "P1")%string then 900
          else if (s =? "P2")%string then 1800
          else if (s =? "P3")%string then 7200
          else if (s =? "P4")%string then 86400
          else 1800)
  | VList _ | VDict _ => Raise TypeError
  | _ => Ok 1800
  end.

(** [fallback_rca] (lines 537-549) *)
Definition fallback_rca (desc : value) (source_type : string) : value :=
  let service_name :=
    if (source_type =? "databricks")%string then "Databricks job/cluster"
    else "ADF pipeline" in
  VDict
    [("root_cause",
      VStr (service_name ++ " failed. Unable to determine root cause from logs."));
     ("error_type", VStr "UnknownError");
     ("affected_entity", VNone);
     ("severity", VStr "Medium");
     ("priority", VStr "P3");
     ("confidence", VStr "Low");
     ("recommendations",
      VList [VStr ("Inspect " ++ upper source_type ++ " logs for more context.");
             VStr "Check resource health and configurations."]);
     ("auto_heal_possible", VBool false)].

(** [d.setdefault(k, v)]: the dict after the call. *)
Definition setdefault (d : value) (k : string) (v : value) : result value :=
  match d with
  | VDict l =>
      Ok (match lookup k l with
          | Some _ => d
          | None => VDict (l ++ [(k, v)])
          end)
  | _ => Raise AttributeError
  end.

(** [generate_rca_and_recs] (lines 551-558) on what [call_ai_for_rca]
    returned: None when Gemini is not configured, when the call fails and
    when the answer does not parse, else the parsed answer.  The argument
    of [setdefault] is evaluated whether or not the key is there. *)
Definition rca_of (ai : option value) (desc : value) (source_type : string)
  : result value :=
  match ai with
  | Some ai =>
      if truthy ai then
        match ai with
        | VDict _ =>
            sev <- get ai "severity" ;;
            p <- derive_priority sev ;;
            setdefault ai "priority" p
        | _ => Raise AttributeError
        end
      else Ok (fallback_rca desc source_type)
  | None => Ok (fallback_rca desc source_type)
  end.

(** Lines 936-937 and 1218-1219: the severity and the priority that go into
    the ticket. *)
Definition ticket_severity (rca : value) : result value :=
  get_default rca "severity" (VStr "Medium").

Definition ticket_priority (rca : value) : result value :=
  severity <- ticket_severity rca ;;
  dflt <- derive_priority severity ;;
  get_default rca "priority" dflt.

(** [extract_finops_tags] (lines 420-444): team, owner, cost centre. *)
Definition extract_finops_tags (resource_name : value)
  : result (string * string * string) :=
  if negb (truthy resource_name) then Ok ("Unknown", "Unknown", "Unknown")
  else
    l <- lower_of resource_name ;;
    let has (w : string) := contains w l in
    let '(team, cost_center) :=
      if has "finance" || has "fin" then ("Finance", "CC-FIN-001")
      else if has "data" || has "analytics" || has "etl" then
        ("DataEngineering", "CC-DATA-001")
      else if has "sales" then ("Sales", "CC-SALES-001")
      else if has "hr" then ("HumanResources", "CC-HR-001")
      else if has "marketing" || has "mkt" then ("Marketing", "CC-MKT-001")
      else if has "ml" || has "machine" || has "model" then
        ("MachineLearning", "CC-ML-001")
      else ("Operations", "CC-OPS-001") in
    Ok (team, lower team ++ "@company.com", cost_center).

(** *** Configuration and the outside world of one request *)

Inductive blob_outcome : Type :=
| NoBlobClient
| Uploaded (url : string)
| UploadFailed (reason : string).

Record env : Type := {
  RCA_API_KEY : string;
  AUTO_REMEDIATION_ENABLED : bool;
  AZURE_BLOB_ENABLED : bool;
  ITSM_TOOL : string;
  SLACK_ALERT_CHANNEL : string;
  ai : option value;                (* call_ai_for_rca *)
  stamp : string;                   (* strftime(...) + "-" + uuid4().hex[:6] *)
  blob : blob_outcome;              (* blob_client.upload_blob *)
  concurrent : list Ticket;         (* rows other requests commit between the
                                       duplicate check and the INSERT *)
  insert_fault : option string;     (* the storage fails the INSERT *)
  statement : string;               (* what SQLAlchemy appends to an error *)
  run_details : result value;       (* fetch_databricks_run_details *)
  extracted_error : result value;   (* extract_error_message *)
  jira : result value;              (* create_jira_ticket *)
  slack : result value              (* post_slack_notification *)
}.

Record request : Type := {
  x_api_key : option string;
  json_body : option value          (* None: the body is not JSON *)
}.

(** What the endpoint function returns: a [JSONResponse], or nothing. *)
Inductive response : Type :=
| JSONResponse (content : value)
| ReturnedNone.

(** [root] (lines 832-836), the one reader of [AUTO_REMEDIATION_ENABLED]. *)
Definition root (e : env) : value :=
  VDict [("message", VStr "AIOps RCA Assistant running");
         ("db_type", VStr "sqlite");
         ("auto_remediation_enabled", VBool (AUTO_REMEDIATION_ENABLED e));
         ("blob_logging_enabled", VBool (AZURE_BLOB_ENABLED e));
         ("itsm_integration", VStr (ITSM_TOOL e))].

Definition generate_rca_and_recs (e : env) (desc : value) (source_type : string)
  : M value :=
  _ <~ emit (AiCall desc source_type) ;;
  lift (rca_of (ai e) desc source_type).

(** [upload_payload_to_blob] (lines 401-418) *)
Definition upload_payload_to_blob (e : env) (ticket_id : string) : M value :=
  let entry (action details : string) :=
    {| g_ticket_id := VStr ticket_id; g_action := action;
       g_pipeline := VNone; g_run_id := VNone; g_sla_status := VNone;
       g_rca_summary := VNone; g_finops_team := VNone;
       g_finops_owner := VNone; g_details := VStr details;
       g_itsm_ticket_id := VNone |} in
  match blob e with
  | NoBlobClient => ret VNone
  | Uploaded url =>
      _ <~ log_audit (statement e)
             (entry "Blob Payload Saved" ("Raw payload saved to: " ++ url)) ;;
      ret (VStr url)
  | UploadFailed reason =>
      _ <~ log_audit (statement e) (entry "Blob Upload Failed" reason) ;;
      ret VNone
  end.

(** Lines 942-947 and 1227-1232. *)
Definition blob_step (e : env) (tid : string) : M value :=
  if AZURE_BLOB_ENABLED e then
    _ <~ emit (BlobUpload tid) ;; upload_payload_to_blob e tid
  else ret VNone.

(** *** The steps the two endpoints share *)

(** The body of the answer to a duplicate (lines 927-932, 1205-1210). *)
Definition duplicate_content (t : Ticket) (runid : value) : value :=
  VDict [("status", VStr "duplicate_ignored");
         ("ticket_id", VStr (t_id t));
         ("message", VStr ("Ticket already exists for run_id " ++ str runid));
         ("existing_status",
          match t_status t with
          | Some st => VStr st
          | None => VNone
          end)].

(** The audit entry of a duplicate (lines 920-926, 1198-1204). *)
Definition duplicate_audit (who : string) (t : Ticket) (pipeline runid : value)
  : audit_args :=
  {| g_ticket_id := VStr (t_id t);
     g_action := "Duplicate Run Detected";
     g_pipeline := pipeline; g_run_id := runid;
     g_sla_status := VNone; g_rca_summary := VNone;
     g_finops_team := VNone; g_finops_owner := VNone;
     g_details :=
       VStr (who ++ " attempted to create duplicate ticket for run_id "
             ++ str runid ++ ". Original ticket: " ++ t_id t);
     g_itsm_ticket_id := VNone |}.

(** The duplicate check (lines 914-932 and 1193-1210). *)
Definition duplicate_check (e : env) (who : string) (pipeline runid : value)
  : M (option response) :=
  if truthy runid then
    existing <~ ticket_by_run_id (statement e) runid ;;
    match existing with
    | Some t =>
        _ <~ log_audit (statement e) (duplicate_audit who t pipeline runid) ;;
        ret (Some (JSONResponse (duplicate_content t runid)))
    | None => ret None
    end
  else ret None.

(** [ticket_data] (lines 953-963 and 1239-1249), before it is bound. *)
Record ticket_data : Type := {
  d_id : string;
  d_pipeline : value;
  d_run_id : value;
  d_rca_result : value;
  d_recommendations : value;
  d_confidence : value;
  d_severity : value;
  d_priority : value;
  d_error_type : value;
  d_affected_entity : value;
  d_sla_seconds : Z;
  d_finops : string * string * string;
  d_blob_log_url : value;
  d_logic_app_run_id : value;
  d_processing_mode : value
}.

Definition bind_ticket (suffix : string) (d : ticket_data) : result Ticket :=
  pipeline <- bind_text suffix (d_pipeline d) ;;
  run_id <- bind_text suffix (d_run_id d) ;;
  rca_result <- bind_text suffix (d_rca_result d) ;;
  recommendations <- bind_text suffix (d_recommendations d) ;;
  confidence <- bind_text suffix (d_confidence d) ;;
  severity <- bind_text suffix (d_severity d) ;;
  priority <- bind_text suffix (d_priority d) ;;
  error_type <- bind_text suffix (d_error_type d) ;;
  affected_entity <- bind_text suffix (d_affected_entity d) ;;
  blob_log_url <- bind_text suffix (d_blob_log_url d) ;;
  logic_app_run_id <- bind_text suffix (d_logic_app_run_id d) ;;
  processing_mode <- bind_text suffix (d_processing_mode d) ;;
  let '(team, owner, cost_center) := d_finops d in
  Ok {| t_id := d_id d; t_pipeline := pipeline; t_run_id := run_id;
        t_rca_result := rca_result; t_recommendations := recommendations;
        t_confidence := confidence; t_severity := severity;
        t_priority := priority; t_error_type := error_type;
        t_affected_entity := affected_entity; t_status := Some "open"%string;
        t_sla_seconds := d_sla_seconds d; t_sla_status := Some "Pending"%string;
        t_finops_team := Some team; t_finops_owner := Some owner;
        t_finops_cost_center := Some cost_center;
        t_blob_log_url := blob_log_url; t_itsm_ticket_id := None;
        t_logic_app_run_id := logic_app_run_id;
        t_processing_mode := processing_mode |}.

(** Rows committed by other requests while this one was classifying. *)
Definition others_commit (e : env) : M unit :=
  w <~ get_world ;; set_tickets (tickets w ++ concurrent e).

(** [db_execute("INSERT INTO tickets ...", ticket_data)] *)
Definition insert_row (e : env) (d : ticket_data) : M unit :=
  row <~ lift (bind_ticket (statement e) d) ;;
  insert_ticket (insert_fault e) (statement e) row.

(** The body of the answer in the race branch. *)
Definition race_content (ticket_id : string) (runid : value) : value :=
  VDict [("status", VStr "duplicate_race_condition");
         ("ticket_id", VStr ticket_id);
         ("message",
          VStr ("Race condition: Ticket for run_id " ++ str runid ++
                " was created by another request"))].

(** The INSERT and its handler (lines 965-987 and 1251-1272): [None] when
    the row is stored, else the response of the race branch. *)
Definition store_ticket (e : env) (d : ticket_data) : M (option response) :=
  try_except
    (_ <~ insert_row e d ;; ret None)
    (fun ex =>
       let text := str_of_exn ex in
       if contains "UNIQUE constraint failed" text ||
          contains "duplicate key" (lower text)
       then
         existing <~ ticket_by_run_id (statement e) (d_run_id d) ;;
         ret (Some (JSONResponse
                      (race_content
                         match existing with
                         | Some t => t_id t
                         | None => "unknown"
                         end
                         (d_run_id d))))
       else throw (HTTPException 500 ("Database error: " ++ text))).

(** [rca.get("root_cause")[:200] if rca.get("root_cause") else ""] *)
Definition rca_summary (rca : value) : result value :=
  root_cause <- get rca "root_cause" ;;
  if truthy root_cause then slice_to 200 root_cause else Ok (VStr "").

Definition plain_audit (tid : string) (action details : string)
  (itsm_ticket_id : value) : audit_args :=
  {| g_ticket_id := VStr tid; g_action := action; g_pipeline := VNone;
     g_run_id := VNone; g_sla_status := VNone; g_rca_summary := VNone;
     g_finops_team := VNone; g_finops_owner := VNone;
     g_details := VStr details; g_itsm_ticket_id := itsm_ticket_id |}.

(** The Jira step (lines 997-1013 and 1281-1296): the value of
    [itsm_ticket_id] after it.  An exception of [create_jira_ticket] leaves
    it None; one of the UPDATE leaves it assigned. *)
Definition jira_step (e : env) (tid : string) : M value :=
  if (ITSM_TOOL e =? "jira")%string then
    _ <~ emit (JiraCreate tid) ;;
    match jira e with
    | Raise ex =>
        _ <~ log_audit (statement e)
               (plain_audit tid "Jira Ticket Failed" (str_of_exn ex) VNone) ;;
        ret VNone
    | Ok itsm_ticket_id =>
        if truthy itsm_ticket_id then
          _ <~ try_except
                 (k <~ lift (bind_text (statement e) itsm_ticket_id) ;;
                  _ <~ update_ticket tid (with_itsm k) ;;
                  log_audit (statement e)
                    (plain_audit tid "Jira Ticket Created"
                       ("Jira ID: " ++ str itsm_ticket_id) itsm_ticket_id))
                 (fun ex =>
                    log_audit (statement e)
                      (plain_audit tid "Jira Ticket Failed" (str_of_exn ex)
                         VNone)) ;;
          ret itsm_ticket_id
        else
          _ <~ log_audit (statement e)
                 (plain_audit tid "Jira Ticket Failed"
                    "Jira settings incomplete or API returned null." VNone) ;;
          ret itsm_ticket_id
    end
  else ret VNone.

(** The Slack step (lines 1020-1029 and 1305-1315). *)
Definition slack_step (e : env) (tid : string) (pipeline runid : value)
  (itsm_ticket_id : value) : M unit :=
  let entry (action details : string) (itsm : value) :=
    {| g_ticket_id := VStr tid; g_action := action;
       g_pipeline := pipeline; g_run_id := runid;
       g_sla_status := VNone; g_rca_summary := VNone;
       g_finops_team := VNone; g_finops_owner := VNone;
       g_details := VStr details; g_itsm_ticket_id := itsm |} in
  _ <~ emit (SlackPost tid) ;;
  match slack e with
  | Ok slack_result =>
      if truthy slack_result then
        log_audit (statement e)
          (entry "Slack Notification Sent"
             ("Notification sent to channel: " ++ SLACK_ALERT_CHANNEL e)
             itsm_ticket_id)
      else ret tt
  | Raise ex =>
      log_audit (statement e)
        (entry "Slack Notification Failed" ("Error: " ++ str_of_exn ex) VNone)
  end.

(** Lines 934-963 and 1212-1249: classification and the row to insert. *)
Definition classify_and_build (e : env) (prefix source_type : string)
  (pipeline runid desc logic_app_run_id processing_mode : value)
  : M (ticket_data * value) :=
  finops <~ lift (extract_finops_tags pipeline) ;;
  rca <~ generate_rca_and_recs e desc source_type ;;
  severity <~ lift (ticket_severity rca) ;;
  priority <~ lift (ticket_priority rca) ;;
  sla_seconds <~ lift (sla_for_priority priority) ;;
  let tid := prefix ++ stamp e in
  blob_url <~ blob_step e tid ;;
  affected_entity <~ lift (get rca "affected_entity") ;;
  root_cause <~ lift (get rca "root_cause") ;;
  recommendations <~ lift (get rca "recommendations") ;;
  confidence <~ lift (get rca "confidence") ;;
  error_type <~ lift (get rca "error_type") ;;
  ret ({| d_id := tid; d_pipeline := pipeline; d_run_id := runid;
          d_rca_result := root_cause;
          d_recommendations :=
            VStr (json_dumps (if truthy recommendations then recommendations
                              else VList []));
          d_confidence := confidence; d_severity := severity;
          d_priority := priority; d_error_type := error_type;
          d_affected_entity :=
            (if is_dict affected_entity
             then VStr (json_dumps affected_entity) else affected_entity);
          d_sla_seconds := sla_seconds; d_finops := finops;
          d_blob_log_url := blob_url;
          d_logic_app_run_id := logic_app_run_id;
          d_processing_mode := processing_mode |}, rca).

(** [log_audit(... action="Ticket Created" ...)] (lines 989-992 and
    1275-1278). *)
Definition ticket_created (e : env) (d : ticket_data) (rca : value)
  (details : string) : M unit :=
  summary <~ lift (rca_summary rca) ;;
  let '(team, owner, _) := d_finops d in
  log_audit (statement e)
    {| g_ticket_id := VStr (d_id d); g_action := "Ticket Created";
       g_pipeline := d_pipeline d; g_run_id := d_run_id d;
       g_sla_status := VStr "Pending"; g_rca_summary := summary;
       g_finops_team := VStr team; g_finops_owner := VStr owner;
       g_details := VStr details; g_itsm_ticket_id := VNone |}.

(** *** [/azure-monitor] *)

Record azure_fields : Type := {
  az_desc : value;
  az_pipeline : value;
  az_runid : value;
  az_logic_app_run_id : value;
  az_processing_mode : value
}.

(** Lines 885-912. *)
Definition azure_extract (body : value) : result azure_fields :=
  essentials <- (get body "essentials" orelse
                 (data <- get_default body "data" (VDict []) ;;
                  get data "essentials") orelse
                 Ok body) ;;
  properties <- (data <- get_default body "data" (VDict []) ;;
                 context <- get_default data "context" (VDict []) ;;
                 get_default context "properties" (VDict [])) ;;
  err <- (get properties "error" orelse get properties "Error" orelse
          Ok (VDict [])) ;;
  specific_error <- (if is_dict err then
                       get err "message" orelse get err "Message" orelse
                       get err "value" orelse get err "Value"
                     else Ok VNone) ;;
  desc <- (Ok specific_error orelse
           get properties "detailedMessage" orelse
           get properties "ErrorMessage" orelse
           get properties "message" orelse
           get essentials "description" orelse
           Ok (VStr (str body))) ;;
  desc <- (if truthy desc then
             _ <- lower_of desc ;;
             match desc with
             | VStr s => Ok (VStr (strip_forwarding_envelope s))
             | _ => Raise AttributeError
             end
           else Ok desc) ;;
  pipeline <- (get properties "PipelineName" orelse
               get essentials "pipelineName" orelse
               get essentials "alertRule" orelse
               Ok (VStr "ADF Pipeline Failure")) ;;
  runid <- (get properties "PipelineRunId" orelse
            get essentials "runId" orelse
            get essentials "alertId") ;;
  logic_app_run_id <- get_default properties "LogicAppRunId" (VStr "N/A") ;;
  processing_mode <- get_default properties "ProcessingMode" (VStr "Single") ;;
  Ok {| az_desc := desc; az_pipeline := pipeline; az_runid := runid;
        az_logic_app_run_id := logic_app_run_id;
        az_processing_mode := processing_mode |}.

(** Lines 934-1072, once the duplicate check has let the event through.
    Nothing follows the Slack step: the block that held the return
    statement is commented out, and the function returns None. *)
Definition azure_create (e : env) (f : azure_fields) : M response :=
  '(d, rca) <~ classify_and_build e "ADF-" "adf" (az_pipeline f) (az_runid f)
                 (az_desc f) (az_logic_app_run_id f) (az_processing_mode f) ;;
  _ <~ others_commit e ;;
  stored <~ store_ticket e d ;;
  match stored with
  | Some r => ret r
  | None =>
      _ <~ ticket_created e d rca
             ("Severity: " ++ str (d_severity d) ++ ", Priority: " ++
              str (d_priority d) ++ ", Processing Mode: " ++
              str (az_processing_mode f)) ;;
      _ <~ log_audit (statement e)
             {| g_ticket_id := VStr (d_id d); g_action := "Logic App Forwarded";
                g_pipeline := az_pipeline f; g_run_id := az_runid f;
                g_sla_status := VNone; g_rca_summary := VNone;
                g_finops_team := VNone; g_finops_owner := VNone;
                g_details :=
                  VStr ("Alert forwarded from Logic App (Run: " ++
                        str (az_logic_app_run_id f) ++
                        ") to FastAPI RCA system");
                g_itsm_ticket_id := VNone |} ;;
      itsm_ticket_id <~ jira_step e (d_id d) ;;
      _ <~ emit (Broadcast (d_id d)) ;;
      _ <~ slack_step e (d_id d) (az_pipeline f) (az_runid f) itsm_ticket_id ;;
      ret ReturnedNone
  end.

(** [azure_monitor] (lines 874-1072) *)
Definition azure_monitor (e : env) (req : request) : M response :=
  match x_api_key req with
  | Some k =>
      if (k =? RCA_API_KEY e)%string then
        match json_body req with
        | None => throw (HTTPException 400 "Invalid JSON payload")
        | Some body =>
            f <~ lift (azure_extract body) ;;
            dup <~ duplicate_check e "Logic App" (az_pipeline f) (az_runid f) ;;
            match dup with
            | Some r => ret r
            | None => azure_create e f
            end
        end
      else throw (HTTPException 401 "Unauthorized")
  | None => throw (HTTPException 401 "Unauthorized")
  end.

(** *** [/databricks-monitor] *)

Record databricks_fields : Type := {
  dbx_job_name : value;
  dbx_run_id : value;
  dbx_job_id : value;
  dbx_cluster_id : value;
  dbx_error_message : value
}.

(** [len(v)] *)
Definition len (v : value) : result Z :=
  match v with
  | VStr s => Ok (Z.of_nat (String.length s))
  | VList l => Ok (Z.of_nat (List.length l))
  | VDict d => Ok (Z.of_nat (List.length d))
  | _ => Raise TypeError
  end.

(** Lines 1090-1147: what the webhook itself says. *)
Definition databricks_webhook (body : value) : result databricks_fields :=
  event_type <- (get body "event" orelse get body "event_type") ;;
  '(job_name, run_id, job_id, error_message) <-
    (if truthy event_type then
       job_obj <- get_default body "job" (VDict []) ;;
       run_obj <- get_default body "run" (VDict []) ;;
       job_name <- ((settings <- get_default job_obj "settings" (VDict []) ;;
                     get settings "name") orelse
                    get run_obj "run_name" orelse
                    get body "job_name" orelse get body "JobName" orelse
                    Ok (VStr "Databricks Job/Cluster")) ;;
       run_id <- (get body "run_id" orelse get body "RunId" orelse
                  get run_obj "run_id" orelse
                  get body "job_run_id" orelse get body "JobRunId") ;;
       job_id <- (get body "job_id" orelse get body "JobId" orelse
                  get job_obj "job_id" orelse get run_obj "job_id") ;;
       error_message <- ((st <- get_default run_obj "state" (VDict []) ;;
                          get st "state_message") orelse
                         get run_obj "state_message" orelse
                         get body "error_message" orelse
                         get body "ErrorMessage" orelse
                         Ok (VStr ("Databricks job event: " ++ str event_type))) ;;
       Ok (job_name, run_id, job_id, error_message)
     else
       job_name <- (get body "job_name" orelse get body "JobName" orelse
                    get body "cluster_name" orelse get body "ClusterName" orelse
                    get body "notebook_path" orelse get body "NotebookPath" orelse
                    Ok (VStr "Databricks Job/Cluster")) ;;
       run_id <- (get body "run_id" orelse get body "RunId" orelse
                  get body "job_run_id" orelse get body "JobRunId" orelse
                  get body "cluster_id" orelse get body "ClusterId") ;;
       error_message <- (get body "error_message" orelse
                         get body "ErrorMessage" orelse
                         get body "exception_message" orelse
                         get body "ExceptionMessage" orelse
                         get body "error" orelse get body "Error" orelse
                         get body "state_message" orelse
                         get body "StateMessage" orelse
                         Ok (VStr (str body))) ;;
       job_id <- (get body "job_id" orelse get body "JobId" orelse
                  Ok (VStr "N/A")) ;;
       Ok (job_name, run_id, job_id, error_message)) ;;
  cluster_id <- (get body "cluster_id" orelse get body "ClusterId" orelse
                 Ok (VStr "N/A")) ;;
  _ <- (get body "workspace_url" orelse get body "WorkspaceUrl" orelse
        get body "workspace_id" orelse Ok (VStr "N/A")) ;;
  _ <- slice_to 200 error_message ;;
  Ok {| dbx_job_name := job_name; dbx_run_id := run_id; dbx_job_id := job_id;
        dbx_cluster_id := cluster_id; dbx_error_message := error_message |}.

(** Lines 1154-1181: the [try] block around the Jobs API.  Each assignment
    made before an exception stays; the exception itself is logged and
    dropped. *)
Definition refresh_from_api (e : env) (f : databricks_fields)
  : databricks_fields :=
  match run_details e with
  | Raise _ => f
  | Ok dbx_details =>
      if truthy dbx_details then
        match extracted_error e with
        | Raise _ => f
        | Ok extracted =>
            let message :=
              if truthy extracted then
                _ <- slice_to 200 extracted ;; Ok extracted
              else
                _ <- get_default dbx_details "state" (VDict []) ;;
                Ok (dbx_error_message f) in
            match message with
            | Raise _ => f
            | Ok error_message =>
                let f1 := {| dbx_job_name := dbx_job_name f;
                             dbx_run_id := dbx_run_id f;
                             dbx_job_id := dbx_job_id f;
                             dbx_cluster_id := dbx_cluster_id f;
                             dbx_error_message := error_message |} in
                match get dbx_details "run_name" orelse Ok (dbx_job_name f) with
                | Raise _ => f1
                | Ok job_name =>
                    let f2 := {| dbx_job_name := job_name;
                                 dbx_run_id := dbx_run_id f;
                                 dbx_job_id := dbx_job_id f;
                                 dbx_cluster_id := dbx_cluster_id f;
                                 dbx_error_message := error_message |} in
                    match get dbx_details "job_id" orelse Ok (dbx_job_id f) with
                    | Raise _ => f2
                    | Ok job_id =>
                        let f3 := {| dbx_job_name := job_name;
                                     dbx_run_id := dbx_run_id f;
                                     dbx_job_id := job_id;
                                     dbx_cluster_id := dbx_cluster_id f;
                                     dbx_error_message := error_message |} in
                        match (ci <- get_default dbx_details "cluster_instance"
                                       (VDict []) ;;
                               get ci "cluster_id") orelse
                              Ok (dbx_cluster_id f) with
                        | Raise _ => f3
                        | Ok cluster_id =>
                            {| dbx_job_name := job_name;
                               dbx_run_id := dbx_run_id f;
                               dbx_job_id := job_id;
                               dbx_cluster_id := cluster_id;
                               dbx_error_message := error_message |}
                        end
                    end
                end
            end
        end
      else f
  end.

(** [run_id != "N/A"] *)
Definition is_not_na (v : value) : bool :=
  match v with
  | VStr s => negb (s =? "N/A")%string
  | _ => true
  end.

(** Lines 1090-1191. *)
Definition databricks_extract (e : env) (body : value) : M databricks_fields :=
  f <~ lift (databricks_webhook body) ;;
  f <~ (if truthy (dbx_run_id f) && is_not_na (dbx_run_id f) then
          _ <~ emit (DatabricksFetch (dbx_run_id f)) ;;
          ret (refresh_from_api e f)
        else ret f) ;;
  _ <~ lift (len (dbx_error_message f)) ;;
  _ <~ lift (slice_to 500 (dbx_error_message f)) ;;
  ret f.

(** Lines 1212-1360, once the duplicate check has let the event through;
    here too the return statement is inside the commented block. *)
Definition databricks_create (e : env) (f : databricks_fields) : M response :=
  '(d, rca) <~ classify_and_build e "DBX-" "databricks" (dbx_job_name f)
                 (dbx_run_id f) (dbx_error_message f) (VStr "N/A")
                 (VStr "databricks") ;;
  _ <~ others_commit e ;;
  stored <~ store_ticket e d ;;
  match stored with
  | Some r => ret r
  | None =>
      _ <~ ticket_created e d rca
             ("Severity: " ++ str (d_severity d) ++ ", Priority: " ++
              str (d_priority d) ++ ", Source: Databricks, JobID: " ++
              str (dbx_job_id f) ++ ", ClusterID: " ++ str (dbx_cluster_id f)) ;;
      itsm_ticket_id <~ jira_step e (d_id d) ;;
      _ <~ emit (Broadcast (d_id d)) ;;
      _ <~ slack_step e (d_id d) (dbx_job_name f) (dbx_run_id f)
             itsm_ticket_id ;;
      ret ReturnedNone
  end.

(** [databricks_monitor] (lines 1076-1360) *)
Definition databricks_monitor (e : env) (req : request) : M response :=
  match json_body req with
  | None => throw (HTTPException 400 "Invalid JSON payload")
  | Some body =>
      f <~ databricks_extract e body ;;
      dup <~ duplicate_check e "Databricks job" (dbx_job_name f) (dbx_run_id f) ;;
      match dup with
      | Some r => ret r
      | None => databricks_create e f
      end
  end.

(** The status line FastAPI answers with. *)
Definition http_status (r : result response) : Z :=
  match r with
  | Ok _ => 200
  | Raise (HTTPException status _) => status
  | Raise _ => 500
  end.

End Main.

(* ================================================================== *)
(** ** Vocabulary of the statements, and concrete scenarios *)
(* ================================================================== *)

Module Spec.
Import Py Store.

(** [rca[k]], when [rca] is a dict that has the key. *)
Definition field (k : string) (rca : value) : option value :=
  match rca with
  | VDict d => lookup k d
  | _ => None
  end.

(** [d.get(k)] on the items of a dict. *)
Definition item (k : string) (d : list (string * value)) : value :=
  match lookup k d with
  | Some x => x
  | None => VNone
  end.

(** The first of the candidates that is truthy, else the default. *)
Fixpoint first_truthy (candidates : list value) (dflt : value) : value :=
  match candidates with
  | nil => dflt
  | x :: rest => if truthy x then x else first_truthy rest dflt
  end.

Definition mem (k : string) (ks : list string) : bool :=
  existsb (String.eqb k) ks.

(** [d.get(k, dflt)] on the items of a dict. *)
Definition item_default (k : string) (dflt : value)
  (d : list (string * value)) : value :=
  match lookup k d with
  | Some x => x
  | None => dflt
  end.

(** The items of a mapping; nothing for any other value. *)
Definition fields (v : value) : list (string * value) :=
  match v with
  | VDict d => d
  | _ => []
  end.

(** A computation that raises nothing but AttributeError. *)
Definition attribute_only {A : Type} (r : result A) : Prop :=
  match r with
  | Ok _ => True
  | Raise ex => ex = AttributeError
  end.

(** *** What [AzureDataFactoryExtractor.extract] reads

    On the items [d] of the payload, in the words of
    error_extractors.py 23-61 and 72-83: the values the extractor goes
    into, and the fields it selects from them. *)

(** [payload.get("data", {})] *)
Definition adf_data (d : list (string * value)) : value :=
  item_default "data" (VDict []) d.

(** [payload.get("data", {}).get("essentials") or payload.get("essentials")
    or {}] *)
Definition adf_essentials (d : list (string * value)) : value :=
  first_truthy [item "essentials" (fields (adf_data d)); item "essentials" d]
    (VDict []).

(** [payload.get("data", {}).get("alertContext") or {}] *)
Definition adf_alert_context (d : list (string * value)) : value :=
  first_truthy [item "alertContext" (fields (adf_data d))] (VDict []).

(** [alert_context.get("properties", {}) or payload.get("properties", {})] *)
Definition adf_properties (d : list (string * value)) : value :=
  first_truthy
    [item_default "properties" (VDict []) (fields (adf_alert_context d))]
    (item_default "properties" (VDict []) d).

(** [properties.get("Error") or properties.get("error") or {}] *)
Definition adf_error_obj (d : list (string * value)) : value :=
  first_truthy [item "Error" (fields (adf_properties d));
                item "error" (fields (adf_properties d))] (VDict []).

(** Every value the extractor calls [.get] on is a mapping. *)
Definition adf_descends (d : list (string * value)) : bool :=
  is_dict (adf_data d) && is_dict (adf_alert_context d) &&
  is_dict (adf_properties d) && is_dict (adf_error_obj d) &&
  is_dict (adf_essentials d).

(** The error message before the clean-up: the first non-empty of the
    ordered fields, else the fixed text. *)
Definition adf_ordered_message (d : list (string * value)) : value :=
  let p := fields (adf_properties d) in
  let es := fields (adf_essentials d) in
  let eo := fields (adf_error_obj d) in
  first_truthy
    [item "message" eo; item "Message" eo; item "ErrorMessage" p;
     item "errorMessage" p; item "detailedMessage" p; item "message" p;
     item "description" es]
    (VStr "ADF pipeline failed. No detailed error message available.").

Definition adf_pipeline_name (d : list (string * value)) : value :=
  let p := fields (adf_properties d) in
  let es := fields (adf_essentials d) in
  first_truthy
    [item "PipelineName" p; item "pipelineName" p; item "alertRule" es;
     item "pipelineName" es]
    (VStr "ADF Pipeline").

Definition adf_run_id (d : list (string * value)) : value :=
  let p := fields (adf_properties d) in
  let es := fields (adf_essentials d) in
  first_truthy
    [item "PipelineRunId" p; item "pipelineRunId" p; item "RunId" p;
     item "runId" p]
    (item "alertId" es).

Definition adf_metadata (d : list (string * value)) : list (string * value) :=
  let p := fields (adf_properties d) in
  let es := fields (adf_essentials d) in
  let eo := fields (adf_error_obj d) in
  [("activity_name",
    first_truthy [item "ActivityName" p] (item "activityName" p));
   ("activity_type",
    first_truthy [item "ActivityType" p] (item "activityType" p));
   ("error_code",
    first_truthy [item "errorCode" eo; item "ErrorCode" p]
      (item "errorCode" p));
   ("failure_type",
    first_truthy [item "failureType" eo] (item "FailureType" eo));
   ("severity", item "severity" es);
   ("fired_time", item "firedDateTime" es)].

(** *** What [azure_monitor] reads (main.py 885-912) *)










(** The fixed table from severity to priority, on the lower-cased name. *)
Definition priority_of_severity (severity : string) : string :=
  if lower severity =? "critical" then "P1"
  else if lower severity =? "high" then "P2"
  else if lower severity =? "medium" then "P3"
  else if lower severity =? "low" then "P4"
  else "P3".

(** An audit entry of the remediation engine. *)
Definition remediation_entry (a : AuditEntry) : bool :=
  startswith "Auto-Remediation" (a_action a).

Definition is_attempted (a : AuditEntry) : bool :=
  a_action a =? "Auto-Remediation Attempted".

(** A call only the remediation engine makes. *)
Definition remediation_call (c : call) : bool :=
  match c with
  | Sleep _ | PlaybookPost _ _ => true
  | _ => false
  end.

(** The ledger entry of the retry ceiling (auto_remediation.py 186-191). *)
Definition max_retries_entry (ticket_id r : string) (counted : Z)
  (error_type : string) : AuditEntry :=
  {| a_ticket_id := Some ticket_id;
     a_action := "Auto-Remediation Max Retries Reached";
     a_pipeline := None; a_run_id := Some r; a_sla_status := None;
     a_rca_summary := None; a_finops_team := None; a_finops_owner := None;
     a_details :=
       Some ("Attempted " ++ str_of_Z counted ++ " times. Error: " ++
             error_type ++ ". Manual intervention required.");
     a_itsm_ticket_id := None |}.

(** The ledger entry of an evaluation without a playbook address
    (auto_remediation.py 160-165). *)
Definition skipped_entry (ticket_id : string) (run_id : cell)
  (playbook_type : string) : AuditEntry :=
  {| a_ticket_id := Some ticket_id;
     a_action := "Auto-Remediation Skipped";
     a_pipeline := None; a_run_id := run_id; a_sla_status := None;
     a_rca_summary := None; a_finops_team := None; a_finops_owner := None;
     a_details :=
       Some ("Playbook " ++ playbook_type ++ " not configured in environment");
     a_itsm_ticket_id := None |}.

(** The ledger entry of an attempt (auto_remediation.py 202-214). *)
Definition attempted_entry (ticket_id : string) (run_id : cell)
  (error_type : string) (attempt max_retries delay : Z)
  (playbook_type playbook_url : string) : AuditEntry :=
  {| a_ticket_id := Some ticket_id;
     a_action := "Auto-Remediation Attempted";
     a_pipeline := None; a_run_id := run_id; a_sla_status := None;
     a_rca_summary := None; a_finops_team := None; a_finops_owner := None;
     a_details :=
       Some (json_dumps
               (VDict [("error_type", VStr error_type);
                       ("attempt", VInt attempt);
                       ("max_retries", VInt max_retries);
                       ("backoff_seconds", VInt delay);
                       ("playbook_type", VStr playbook_type);
                       ("playbook_url",
                        VStr (if (50 <? String.length playbook_url)%nat
                              then take 50 playbook_url ++ "..."
                              else playbook_url))]));
     a_itsm_ticket_id := None |}.

(** The first ticket that owns the run id [r], as the SELECT finds it. *)
Definition owner (r : string) (ts : list Ticket) : option Ticket :=
  find (fun t => cell_eqb (t_run_id t) (Some r)) ts.

(** The ledger entry of a duplicate (main.py 920-926, 1198-1204). *)
Definition duplicate_entry (who : string) (t : Ticket) (pipeline : cell)
  (r : string) (runid : value) : AuditEntry :=
  {| a_ticket_id := Some (t_id t);
     a_action := "Duplicate Run Detected";
     a_pipeline := pipeline; a_run_id := Some r; a_sla_status := None;
     a_rca_summary := None; a_finops_team := None; a_finops_owner := None;
     a_details :=
       Some (who ++ " attempted to create duplicate ticket for run_id " ++
             str runid ++ ". Original ticket: " ++ t_id t);
     a_itsm_ticket_id := None |}.

(** The world in which the INSERT runs: [w], with the rows other requests
    have committed since the duplicate check. *)
Definition at_insert (e : Main.env) (w : World) : World :=
  {| tickets := (tickets w ++ Main.concurrent e)%list; audit := audit w;
     calls := calls w |}.

(** The text of the driver for a second row with the same run id. *)
Definition run_id_violation (suffix : string) : exn :=
  driver_error "IntegrityError" "UNIQUE constraint failed: tickets.run_id"
    suffix.

(** What the handler of the INSERT looks for in the text of a failure. *)
Definition reads_as_duplicate (text : string) : bool :=
  contains "UNIQUE constraint failed" text ||
  contains "duplicate key" (lower text).

(** The ticket id the race answer names: that of the first row whose run id
    is the bound one, else "unknown". *)
Definition race_ticket_id (c : cell) (ts : list Ticket) : string :=
  match find (fun t => cell_eqb (t_run_id t) c) ts with
  | Some t => t_id t
  | None => "unknown"
  end.

(** The evaluation [(e, ticket_id, metadata)] is for the run id [r]. *)
Definition carries (r : string)
  (step : AutoRemediation.env * string * value) : Prop :=
  let '(e, _, metadata) := step in
  exists run_id,
    get metadata "run_id" = Ok run_id /\ truthy run_id = true /\
    bind_text (AutoRemediation.statement e) run_id = Ok (Some r).

(** One evaluation after the other, for the error kind [k]. *)
Fixpoint evaluations (k : string)
  (steps : list (AutoRemediation.env * string * value)) (w : World) : World :=
  match steps with
  | nil => w
  | (e, ticket_id, metadata) :: rest =>
      evaluations k rest
        (snd (AutoRemediation.attempt_auto_remediation e ticket_id k metadata w))
  end.

(** The attempt index [attempt_auto_remediation] works with: the counted
    attempts of a run id that is there, else 0. *)
Definition current_attempt (run_id : value) (c : cell) (w : World) : Z :=
  if truthy run_id then count_attempts c (audit w) else 0%Z.

(** From [w] to [w'] the ledger and the list of calls have only grown, by
    entries that satisfy [P] and calls that satisfy [Q]. *)
Definition grows (P : AuditEntry -> Prop) (Q : call -> Prop) (w w' : World)
  : Prop :=
  (exists la, audit w' = (audit w ++ la)%list /\ Forall P la) /\
  (exists lc, calls w' = (calls w ++ lc)%list /\ Forall Q lc).

(** Whatever the computation [m] does, it does under [grows]. *)
Definition keeps {A : Type} (P : AuditEntry -> Prop) (Q : call -> Prop)
  (m : M A) : Prop :=
  forall w, grows P Q w (snd (m w)).

(** Whenever the computation [m] returns, what it returns satisfies [R]. *)
Definition yields {A : Type} (R : A -> Prop) (m : M A) : Prop :=
  forall w, match fst (m w) with Ok a => R a | Raise _ => True end.

(** The answers of an ingestion endpoint that carry a body: the two
    duplicate answers.  Otherwise the endpoint function returns None. *)
Definition duplicate_answer (r : Main.response) : Prop :=
  match r with
  | Main.ReturnedNone => True
  | Main.JSONResponse c =>
      field "status" c = Some (VStr "duplicate_ignored") \/
      field "status" c = Some (VStr "duplicate_race_condition")
  end.

Definition duplicate_or_stored (o : option Main.response) : Prop :=
  match o with
  | Some r => duplicate_answer r
  | None => True
  end.

(** The computation [m] leaves the table [tickets] as it is. *)
Definition reads_tickets {A : Type} (m : M A) : Prop :=
  forall w, tickets (snd (m w)) = tickets w.

End Spec.

Module Scenario.
Import Py Store.

(** An empty store. *)
Definition fresh : World := {| tickets := []; audit := []; calls := [] |}.

(** A deployment with remediation switched on, Jira and Slack in use, and
    an AI that answers [answer]. *)
Definition deployment (answer : option value) : Main.env :=
  {| Main.RCA_API_KEY := "secret";
     Main.AUTO_REMEDIATION_ENABLED := true;
     Main.AZURE_BLOB_ENABLED := false;
     Main.ITSM_TOOL := "jira";
     Main.SLACK_ALERT_CHANNEL := "aiops-rca-alerts";
     Main.ai := answer;
     Main.stamp := "20251103T101500-a1b2c3";
     Main.blob := Main.NoBlobClient;
     Main.concurrent := [];
     Main.insert_fault := None;
     Main.statement := "";
     Main.run_details := Ok VNone;
     Main.extracted_error := Ok VNone;
     Main.jira := Ok (VStr "OPS-7");
     Main.slack := Ok (VDict [("ok", VBool true)]) |}.

(** An ADF alert for run "run-42" of pipeline "sales_load". *)
Definition adf_alert : value :=
  VDict [("data",
          VDict [("essentials",
                  VDict [("alertRule", VStr "sales_load");
                         ("description", VStr "Copy activity failed")]);
                 ("context",
                  VDict [("properties",
                          VDict [("PipelineName", VStr "sales_load");
                                 ("PipelineRunId", VStr "run-42");
                                 ("ErrorMessage",
                                  VStr "GatewayTimeout: Connection timeout after 30 seconds")])])])].

Definition adf_request : Main.request :=
  {| Main.x_api_key := Some "secret"; Main.json_body := Some adf_alert |}.

(** The same alert with another pipeline name and another error message,
    which a sender may set to any JSON value. *)
Definition adf_alert_of (pipeline message : value) : value :=
  VDict [("data",
          VDict [("essentials",
                  VDict [("alertRule", VStr "sales_load");
                         ("description", VStr "Copy activity failed")]);
                 ("context",
                  VDict [("properties",
                          VDict [("PipelineName", pipeline);
                                 ("PipelineRunId", VStr "run-42");
                                 ("ErrorMessage", message)])])])].

Definition adf_request_of (pipeline message : value) : Main.request :=
  {| Main.x_api_key := Some "secret";
     Main.json_body := Some (adf_alert_of pipeline message) |}.

(** A Databricks job webhook for run 4711. *)
Definition dbx_alert : value :=
  VDict [("event", VStr "jobs.on_failure");
         ("job", VDict [("job_id", VInt 12);
                        ("settings", VDict [("name", VStr "nightly_etl")])]);
         ("run", VDict [("run_id", VInt 4711);
                        ("state", VDict [("state_message", VStr "Cluster terminated")])])].

Definition dbx_request : Main.request :=
  {| Main.x_api_key := None; Main.json_body := Some dbx_alert |}.

(** What [azure_extract] makes of [adf_alert]. *)
Definition adf_fields : Main.azure_fields :=
  {| Main.az_desc :=
       VStr "GatewayTimeout: Connection timeout after 30 seconds";
     Main.az_pipeline := VStr "sales_load";
     Main.az_runid := VStr "run-42";
     Main.az_logic_app_run_id := VStr "N/A";
     Main.az_processing_mode := VStr "Single" |}.

(** An open ticket with the given id and run id. *)
Definition ticket (id run_id : string) : Ticket :=
  {| t_id := id; t_pipeline := Some "sales_load"; t_run_id := Some run_id;
     t_rca_result := None; t_recommendations := None; t_confidence := None;
     t_severity := Some "Medium"; t_priority := Some "P3";
     t_error_type := Some "UnknownError"; t_affected_entity := None;
     t_status := Some "open"; t_sla_seconds := 7200;
     t_sla_status := Some "Pending"; t_finops_team := None;
     t_finops_owner := None; t_finops_cost_center := None;
     t_blob_log_url := None; t_itsm_ticket_id := None;
     t_logic_app_run_id := None; t_processing_mode := None |}.

Definition holding (ts : list Ticket) : World :=
  {| tickets := ts; audit := []; calls := [] |}.

(** The deployment, with another request that stores [rows] between this
    request's duplicate check and its INSERT. *)
Definition racing (rows : list Ticket) : Main.env :=
  {| Main.RCA_API_KEY := "secret";
     Main.AUTO_REMEDIATION_ENABLED := true;
     Main.AZURE_BLOB_ENABLED := false;
     Main.ITSM_TOOL := "jira";
     Main.SLACK_ALERT_CHANNEL := "aiops-rca-alerts";
     Main.ai := None;
     Main.stamp := "20251103T101500-a1b2c3";
     Main.blob := Main.NoBlobClient;
     Main.concurrent := rows;
     Main.insert_fault := None;
     Main.statement := "";
     Main.run_details := Ok VNone;
     Main.extracted_error := Ok VNone;
     Main.jira := Ok (VStr "OPS-7");
     Main.slack := Ok (VDict [("ok", VBool true)]) |}.

(** The deployment, with a storage that fails the INSERT with [text]. *)
Definition failing (text : string) : Main.env :=
  {| Main.RCA_API_KEY := "secret";
     Main.AUTO_REMEDIATION_ENABLED := true;
     Main.AZURE_BLOB_ENABLED := false;
     Main.ITSM_TOOL := "jira";
     Main.SLACK_ALERT_CHANNEL := "aiops-rca-alerts";
     Main.ai := None;
     Main.stamp := "20251103T101500-a1b2c3";
     Main.blob := Main.NoBlobClient;
     Main.concurrent := [];
     Main.insert_fault := Some text;
     Main.statement := "";
     Main.run_details := Ok VNone;
     Main.extracted_error := Ok VNone;
     Main.jira := Ok (VStr "OPS-7");
     Main.slack := Ok (VDict [("ok", VBool true)]) |}.

(** The deployment, with Jira and Slack out of reach: [create_jira_ticket]
    (lines 609-619) and [post_slack_notification] (lines 673-685) catch the
    error of the request and return None. *)
Definition outage : Main.env :=
  {| Main.RCA_API_KEY := "secret";
     Main.AUTO_REMEDIATION_ENABLED := true;
     Main.AZURE_BLOB_ENABLED := false;
     Main.ITSM_TOOL := "jira";
     Main.SLACK_ALERT_CHANNEL := "aiops-rca-alerts";
     Main.ai := None;
     Main.stamp := "20251103T101500-a1b2c3";
     Main.blob := Main.NoBlobClient;
     Main.concurrent := [];
     Main.insert_fault := None;
     Main.statement := "";
     Main.run_details := Ok VNone;
     Main.extracted_error := Ok VNone;
     Main.jira := Ok VNone;
     Main.slack := Ok VNone |}.

(** An AI answer that rates a failure Critical and asks for priority P4. *)
Definition critical_p4 : value :=
  VDict [("root_cause", VStr "Gateway timed out");
         ("error_type", VStr "GatewayTimeout");
         ("severity", VStr "Critical");
         ("priority", VStr "P4");
         ("confidence", VStr "High");
         ("recommendations", VList [VStr "Retry the pipeline"]);
         ("auto_heal_possible", VBool true)].

(** The remediation engine's surroundings: the playbook addresses given by
    [getenv], and a playbook that answers 200 with a new run id. *)
Definition engine (getenv : string -> option string) : AutoRemediation.env :=
  {| AutoRemediation.getenv := getenv;
     AutoRemediation.post :=
       fun _ => AutoRemediation.Responded 200
                  (Ok (VDict [("new_run_id", VStr "run-43")])) "ok";
     AutoRemediation.utcnow := "2025-11-03T10:15:00";
     AutoRemediation.statement := "" |}.

Definition configured (var : string) : option string :=
  if var =? "PLAYBOOK_RETRY_PIPELINE"
  then Some "https://playbooks.example/retry" else None.

Definition unconfigured (var : string) : option string := None.

Definition attempt_of (run_id : string) : AuditEntry :=
  {| a_ticket_id := Some "ADF-1"; a_action := "Auto-Remediation Attempted";
     a_pipeline := None; a_run_id := Some run_id; a_sla_status := None;
     a_rca_summary := None; a_finops_team := None; a_finops_owner := None;
     a_details := None; a_itsm_ticket_id := None |}.

(** A ledger that already holds [n] attempts for run "run-42". *)
Definition attempted (n : nat) : World :=
  {| tickets := []; audit := repeat (attempt_of "run-42") n; calls := [] |}.

Definition run_42 : value := VDict [("run_id", VStr "run-42")].

(** A ledger that already holds [n] attempts for the run id [run_id]. *)
Definition attempted_for (run_id : string) (n : nat) : World :=
  {| tickets := []; audit := repeat (attempt_of run_id) n; calls := [] |}.

(** Metadata whose run id is the empty text: not null, and not truthy. *)
Definition run_empty : value := VDict [("run_id", VStr "")].

End Scenario.

(* ================================================================== *)
(** ** HTTP requests of the playbooks and of the cluster monitor *)
(* ================================================================== *)

(** The handlers and the monitor reach the outside through [requests.post],
    [requests.get] and [asyncio.sleep] only.  The requests made so far are
    the state; what the other side answers is a parameter, a function of the
    request and of the requests before it. *)

Module Http.
Import Py.

Inductive request : Type :=
| Post (url : string) (json : value)
| Get (url : string) (params : value)
| Pause (seconds : Z).                 (* asyncio.sleep *)

(** A response with its status code, what [response.json()] gives and
    [response.text]; or the exception of [requests], with its text. *)
Inductive answer : Type :=
| Answered (status_code : Z) (json : result value) (text : string)
| Unreachable (why : string).

Definition history : Type := list request.

Definition service : Type := history -> request -> answer.

Definition M (A : Type) : Type := history -> result A * history.

Definition ret {A : Type} (a : A) : M A := fun h => (Ok a, h).
Definition throw {A : Type} (e : exn) : M A := fun h => (Raise e, h).
Definition lift {A : Type} (r : result A) : M A := fun h => (r, h).

Definition bindM {A B : Type} (m : M A) (k : A -> M B) : M B :=
  fun h =>
    match m h with
    | (Ok a, h') => k a h'
    | (Raise e, h') => (Raise e, h')
    end.

(** [try: m except Exception as e: handler(e)] *)
Definition try_except {A : Type} (m : M A) (handler : exn -> M A) : M A :=
  fun h =>
    match m h with
    | (Ok a, h') => (Ok a, h')
    | (Raise e, h') => handler e h'
    end.

Declare Scope http_scope.
Delimit Scope http_scope with http.
Notation "x <~ c ;; k" := (bindM c (fun x => k))
  (at level 61, c at next level, right associativity) : http_scope.
Notation "' p <~ c ;; k" := (bindM c (fun x => let 'p := x in k))
  (at level 61, p pattern, c at next level, right associativity) : http_scope.

(** One request: it is recorded, and answered by the other side. *)
Definition send (srv : service) (rq : request) : M answer :=
  fun h => (Ok (srv h rq), (h ++ [rq])%list).

Definition pause (seconds : Z) : M unit :=
  fun h => (Ok tt, (h ++ [Pause seconds])%list).

(** [v == s] for a string [s]. *)
Definition eq_str (v : value) (s : string) : bool :=
  match v with
  | VStr x => x =? s
  | _ => false
  end.

(** [v in [s1, s2, ...]] *)
Definition among (v : value) (l : list string) : bool :=
  existsb (eq_str v) l.

(** [d[k] = v] on the items of a dict: the value is replaced where the key
    is, else the item is added at the end. *)
Fixpoint dict_set (k : string) (v : value) (d : list (string * value))
  : list (string * value) :=
  match d with
  | [] => [(k, v)]
  | (k', v') :: rest =>
      if k' =? k then (k', v) :: rest else (k', v') :: dict_set k v rest
  end.

(** A dict display [{k1: v1, ..., **d, ...}]: the items from left to
    right. *)
Definition display (items : list (string * value)) : list (string * value) :=
  fold_left (fun d kv => dict_set (fst kv) (snd kv) d) items [].

(** [s.rstrip('/')] *)
Definition rstrip_slash (s : string) : string :=
  rstrip_by (fun c => Ascii.eqb c "/"%char) s.

(** [s.split(sep)] for a separator that is not empty: the pieces between
    the occurrences of [sep], found from the left and not overlapping; there
    is always a first piece.  [skip] counts the characters of a found
    separator still to pass; [piece] is the piece being read. *)
Fixpoint split_from (sep s : string) (skip : nat) (piece : string)
  : string * list string :=
  match s with
  | EmptyString => (piece, [])
  | String c t =>
      match skip with
      | S skip' => split_from sep t skip' piece
      | O =>
          if startswith sep s
          then (piece,
                let (next, rest) :=
                  split_from sep t (String.length sep - 1) "" in
                next :: rest)
          else split_from sep t 0 (piece ++ String c "")
      end
  end.

Definition split (sep s : string) : string * list string :=
  split_from sep s 0 "".

End Http.

(* ================================================================== *)
(** ** playbook_handlers.py *)
(* ================================================================== *)

Module Playbooks.
Import Py Http.
Local Open Scope http_scope.
Local Open Scope Z_scope.

(** The process environment, the other side of the requests, and the text
    of an exception ([str(e)]). *)
Record env : Type := {
  getenv : string -> option string;
  remote : service;
  explain : exn -> string
}.

(** A dict as a handler returns it. *)
Definition dict : Type := list (string * value).

(** [arg or os.getenv(var, default)] for an optional argument. *)
Definition arg_or_env (e : env) (arg : option string) (var : string)
  (dflt : option string) : option string :=
  match arg with
  | Some a => if (a =? "")%string then
                match getenv e var with Some x => Some x | None => dflt end
              else Some a
  | None => match getenv e var with Some x => Some x | None => dflt end
  end.

(** [not x] for an optional text. *)
Definition missing (x : option string) : bool :=
  match x with
  | Some s => (s =? "")%string
  | None => true
  end.

Definition text_of (x : option string) : string :=
  match x with Some s => s | None => "None" end.

(** *** Libraries *)

(** [LIBRARY_VERSION_FALLBACKS] (lines 414-420) *)
Definition LIBRARY_VERSION_FALLBACKS : list (string * list string) :=
  [("pandas", ["2.1.4"; "2.1.0"; "2.0.3"; "1.5.3"]);
   ("numpy", ["1.26.3"; "1.24.3"; "1.23.5"; "1.22.4"]);
   ("pyspark", ["3.5.0"; "3.4.1"; "3.4.0"; "3.3.2"]);
   ("scikit-learn", ["1.4.0"; "1.3.2"; "1.3.0"; "1.2.2"]);
   ("pyarrow", ["14.0.2"; "14.0.1"; "13.0.0"; "12.0.1"])].

Definition separators : list string := ["=="; ">="; "<="; "~="; ">"; "<"].

(** The loop of [_parse_library_spec] over the separators still to try:
    [parts[0].strip(), parts[1].strip() if len(parts) > 1 else None]. *)
Fixpoint parse_with (seps : list string) (library_spec : string)
  : string * option string :=
  match seps with
  | [] => (strip library_spec, None)
  | separator :: rest =>
      if contains separator library_spec then
        let (first, others) := split separator library_spec in
        (strip first,
         match others with
         | second :: _ => Some (strip second)
         | [] => None
         end)
      else parse_with rest library_spec
  end.

(** [_parse_library_spec] (lines 587-601), on text. *)
Definition _parse_library_spec (library_spec : string)
  : string * option string :=
  parse_with separators library_spec.

(** [_parse_library_spec] on whatever the caller passes: [sep in spec]
    needs something iterable, [split] and [strip] need text. *)
Definition parse_library_spec_of (library_spec : value)
  : result (string * option string) :=
  match library_spec with
  | VStr s => Ok (_parse_library_spec s)
  | VList _ | VDict _ => Raise AttributeError
  | _ => Raise TypeError
  end.

(** [f"{library_name}=={version}" if version else library_name] *)
Definition package_of (library_name : string) (version : option string)
  : string :=
  match version with
  | Some v => if (v =? "")%string then library_name
              else library_name ++ "==" ++ v
  | None => library_name
  end.

Definition install_url (host : string) : string :=
  host ++ "/api/2.0/libraries/install".

Definition install_request (cluster_id : value) (package host : string)
  : request :=
  Post (install_url host)
    (VDict [("cluster_id", cluster_id);
            ("libraries",
             VList [VDict [("pypi", VDict [("package", VStr package)])]])]).

(** What a handler makes of an answer that is not the one it wants, and of
    an exception (the common [else] and [except] branches). *)
Definition refused (status_code : Z) (text : string) : dict :=
  [("error", VStr text); ("status_code", VInt status_code)].

Definition excepted (e : env) (ex : exn) : dict :=
  [("error", VStr (explain e ex))].

(** [_install_library] (lines 485-521) *)
Definition _install_library (e : env) (cluster_id : value)
  (library_name : string) (version : option string) (host token : string)
  : M (bool * dict) :=
  let package := package_of library_name version in
  a <~ send (remote e) (install_request cluster_id package host) ;;
  match a with
  | Answered status_code _ text =>
      if status_code =? 200
      then ret (true, [("package", VStr package); ("cluster_id", cluster_id)])
      else ret (false, refused status_code text)
  | Unreachable why => ret (false, [("error", VStr why)])
  end.

Definition version_value (v : option string) : value :=
  match v with Some s => VStr s | None => VNone end.

(** [version == requested_version] *)
Definition same_version (version : string) (requested : option string) : bool :=
  match requested with
  | Some r => (version =? r)%string
  | None => false
  end.

(** The loop over the fallback versions (lines 463-480). *)
Fixpoint try_fallbacks (e : env) (cluster_id : value) (library_name : string)
  (requested_version : option string) (host token : string)
  (versions : list string) : M (bool * dict) :=
  match versions with
  | [] => ret (false, [("error", VStr "All fallback versions failed")])
  | version :: rest =>
      if same_version version requested_version
      then try_fallbacks e cluster_id library_name requested_version host token
             rest
      else
        ' (success, result) <~ _install_library e cluster_id library_name
                                 (Some version) host token ;;
        if success then
          ret (true,
               display (result ++
                        [("fallback_used", VBool true);
                         ("requested_version", version_value requested_version);
                         ("installed_version", VStr version)]))
        else try_fallbacks e cluster_id library_name requested_version host
               token rest
  end.

Definition no_credentials : dict :=
  [("error", VStr "Missing Databricks credentials")].

(** [reinstall_databricks_libraries] (lines 423-482) *)
Definition reinstall_databricks_libraries (e : env) (cluster_id : value)
  (library_spec : value) (host token : option string)
  (try_fallback_versions : bool) : M (bool * dict) :=
  let host := rstrip_slash
                (text_of (arg_or_env e host "DATABRICKS_HOST" (Some ""%string))) in
  let token := arg_or_env e token "DATABRICKS_TOKEN" None in
  if (host =? "")%string || missing token then ret (false, no_credentials)
  else
    ' (library_name, requested_version) <~
        lift (parse_library_spec_of library_spec) ;;
    ' (success, result) <~ _install_library e cluster_id library_name
                             requested_version host (text_of token) ;;
    if success then ret (true, result)
    else
      match AutoRemediation.table_get library_name LIBRARY_VERSION_FALLBACKS with
      | Some fallback_versions =>
          if try_fallback_versions
          then try_fallbacks e cluster_id library_name requested_version host
                 (text_of token) fallback_versions
          else ret (false, result)
      | None => ret (false, result)
      end.

(** *** Clusters *)

Definition cluster_url (host : string) : string :=
  host ++ "/api/2.0/clusters/get".

Definition state_request (cluster_id : value) (host : string) : request :=
  Get (cluster_url host) (VDict [("cluster_id", cluster_id)]).

(** [_get_cluster_state] (lines 528-543): every failure is "UNKNOWN". *)
Definition _get_cluster_state (e : env) (cluster_id : value)
  (host token : string) : M value :=
  a <~ send (remote e) (state_request cluster_id host) ;;
  match a with
  | Answered status_code json _ =>
      if status_code =? 200 then
        match json with
        | Ok data =>
            match get_default data "state" (VStr "UNKNOWN") with
            | Ok state => ret state
            | Raise _ => ret (VStr "UNKNOWN")
            end
        | Raise _ => ret (VStr "UNKNOWN")
        end
      else ret (VStr "UNKNOWN")
  | Unreachable _ => ret (VStr "UNKNOWN")
  end.

(** The loop of [_wait_for_cluster_state] (lines 573-584), with the
    iterations still to run. *)
Fixpoint wait_loop (e : env) (cluster_id : value) (desired_state : string)
  (host token : string) (iterations : nat) : M bool :=
  match iterations with
  | O => ret false
  | S iterations' =>
      state <~ _get_cluster_state e cluster_id host token ;;
      if eq_str state desired_state then ret true
      else if eq_str state "ERROR" then ret false
      else
        _ <~ pause 10 ;;
        wait_loop e cluster_id desired_state host token iterations'
  end.

(** [_wait_for_cluster_state] (lines 563-584) *)
Definition _wait_for_cluster_state (e : env) (cluster_id : value)
  (desired_state : string) (host token : string) (timeout_minutes : Z)
  : M bool :=
  wait_loop e cluster_id desired_state host token
    (Z.to_nat (timeout_minutes * 6)).

Definition start_request (cluster_id : value) (host : string) : request :=
  Post (host ++ "/api/2.0/clusters/start") (VDict [("cluster_id", cluster_id)]).

(** [restart_databricks_cluster] (lines 181-259) *)
Definition restart_databricks_cluster (e : env) (cluster_id : value)
  (host token : option string) (wait_for_ready : bool) (timeout_minutes : Z)
  : M (bool * dict) :=
  let host := rstrip_slash
                (text_of (arg_or_env e host "DATABRICKS_HOST" (Some ""%string))) in
  let token := arg_or_env e token "DATABRICKS_TOKEN" None in
  if (host =? "")%string || missing token then ret (false, no_credentials)
  else
    let token := text_of token in
    state <~ _get_cluster_state e cluster_id host token ;;
    if eq_str state "RUNNING" then
      ret (true, [("status", VStr "already_running"); ("cluster_id", cluster_id)])
    else if eq_str state "PENDING" then
      if wait_for_ready then
        success <~ _wait_for_cluster_state e cluster_id "RUNNING" host token
                     timeout_minutes ;;
        ret (success, [("status", VStr "started"); ("cluster_id", cluster_id)])
      else ret (true, [("status", VStr "pending"); ("cluster_id", cluster_id)])
    else
      a <~ send (remote e) (start_request cluster_id host) ;;
      match a with
      | Answered status_code _ text =>
          if status_code =? 200 then
            if wait_for_ready then
              success <~ _wait_for_cluster_state e cluster_id "RUNNING" host
                           token timeout_minutes ;;
              if success
              then ret (true, [("status", VStr "running");
                               ("cluster_id", cluster_id)])
              else ret (false, [("error", VStr "Timeout");
                                ("cluster_id", cluster_id)])
            else ret (true, [("status", VStr "starting");
                             ("cluster_id", cluster_id)])
          else ret (false, refused status_code text)
      | Unreachable why => ret (false, [("error", VStr why)])
      end.

(** *** Data Factory *)

Definition create_run_url (subscription_id resource_group factory_name : string)
  (pipeline_name : value) : string :=
  "https://management.azure.com/subscriptions/" ++ subscription_id ++
  "/resourceGroups/" ++ resource_group ++
  "/providers/Microsoft.DataFactory/factories/" ++ factory_name ++
  "/pipelines/" ++ str pipeline_name ++ "/createRun?api-version=2018-06-01".

(** [retry_adf_pipeline] (lines 33-96) *)
Definition retry_adf_pipeline (e : env) (pipeline_name : value)
  (factory_name resource_group subscription_id access_token : option string)
  (parameters : value) : M (bool * dict) :=
  let factory_name := arg_or_env e factory_name "AZURE_ADF_NAME" None in
  let resource_group := arg_or_env e resource_group "AZURE_RESOURCE_GROUP" None in
  let subscription_id :=
    arg_or_env e subscription_id "AZURE_SUBSCRIPTION_ID" None in
  let access_token := arg_or_env e access_token "AZURE_ACCESS_TOKEN" None in
  if missing factory_name || missing resource_group ||
     missing subscription_id || missing access_token
  then ret (false, [("error", VStr "Missing Azure credentials")])
  else
    a <~ send (remote e)
           (Post (create_run_url (text_of subscription_id)
                    (text_of resource_group) (text_of factory_name)
                    pipeline_name)
              (VDict [("parameters",
                       if truthy parameters then parameters else VDict [])])) ;;
    match a with
    | Answered status_code json text =>
        if (status_code =? 200) || (status_code =? 202) then
          match json with
          | Ok result =>
              match get result "runId" with
              | Ok run_id =>
                  ret (true, [("new_run_id", run_id);
                              ("pipeline", pipeline_name)])
              | Raise ex => ret (false, excepted e ex)
              end
          | Raise ex => ret (false, excepted e ex)
          end
        else ret (false, refused status_code text)
    | Unreachable why => ret (false, [("error", VStr why)])
    end.

End Playbooks.

(* ================================================================== *)
(** ** playbook_server.py *)
(* ================================================================== *)

Module PlaybookServer.
Import Py Http Playbooks.
Local Open Scope http_scope.
Local Open Scope Z_scope.

(** A [JSONResponse]: its status code and its content. *)
Record reply : Type := {
  status_code : Z;
  content : dict
}.

(** The [except Exception] branch of every endpoint. *)
Definition failed (e : env) (ex : exn) : reply :=
  {| status_code := 500;
     content := [("status", VStr "error"); ("message", VStr (explain e ex))] |}.

(** The two returns after a handler: the handler's dict is spread after
    "status" and "ticket_id". *)
Definition handled (ticket_id : value) (outcome : bool * dict) : reply :=
  let (success, result) := outcome in
  if success then
    {| status_code := 200;
       content := display ([("status", VStr "success");
                            ("ticket_id", ticket_id)] ++ result) |}
  else
    {| status_code := 500;
       content := display ([("status", VStr "error");
                            ("ticket_id", ticket_id)] ++ result) |}.

(** What the endpoints share: the body is read, [what] is taken from its
    metadata, then what [also] reads of the metadata; [what] must be truthy,
    the handler runs, and every exception, the HTTPException 400 included,
    ends in the [except] branch. *)
Definition endpoint (e : env) (body : result value) (what complaint : string)
  (also : value -> result value)
  (handler : value -> value -> M (bool * dict)) : M reply :=
  try_except
    (body <~ lift body ;;
     ticket_id <~ lift (get body "ticket_id") ;;
     metadata <~ lift (get_default body "metadata" (VDict [])) ;;
     wanted <~ lift (get metadata what) ;;
     more <~ lift (also metadata) ;;
     if truthy wanted then
       outcome <~ handler wanted more ;;
       ticket_id <~ lift (get body "ticket_id") ;;
       ret (handled ticket_id outcome)
     else throw (HTTPException 400 complaint))
    (fun ex => ret (failed e ex)).

(** [retry_pipeline_endpoint] (lines 67-116) *)
Definition retry_pipeline_endpoint (e : env) (body : result value) : M reply :=
  endpoint e body "pipeline" "Missing pipeline name in metadata"
    (fun _ => Ok VNone)
    (fun pipeline_name _ =>
       retry_adf_pipeline e pipeline_name None None None None VNone).

(** [restart_cluster_endpoint] (lines 161-213) *)
Definition restart_cluster_endpoint (e : env) (body : result value) : M reply :=
  endpoint e body "cluster_id" "Missing cluster_id in metadata"
    (fun _ => Ok VNone)
    (fun cluster_id _ =>
       restart_databricks_cluster e cluster_id None None true 10).

(** [reinstall_libraries_endpoint] (lines 335-388) *)
Definition reinstall_libraries_endpoint (e : env) (body : result value)
  : M reply :=
  endpoint e body "cluster_id" "Missing cluster_id in metadata"
    (fun metadata => get_default metadata "library_spec" (VStr "pandas"))
    (fun cluster_id library_spec =>
       reinstall_databricks_libraries e cluster_id library_spec None None true).

End PlaybookServer.

(* ================================================================== *)
(** ** main.py: the deduplication endpoint *)
(* ================================================================== *)

Module Deduplication.
Import Py Store.
Local Open Scope py_scope.

(** The column [timestamp] of [tickets], which the rows of [Store] leave
    out: what it holds for the ticket of an id. *)
Definition timestamps : Type := string -> value.

Definition cell_value (c : cell) : value :=
  match c with
  | Some s => VStr s
  | None => VNone
  end.

Definition no_ticket : value :=
  VDict [("exists", VBool false); ("ticket_id", VNone)].

(** [check_ticket_exists] (lines 847-871) *)
Definition check_ticket_exists (e : Main.env) (timestamp : timestamps)
  (run_id : string) (x_api_key : option string) : M value :=
  match x_api_key with
  | Some k =>
      if (k =? Main.RCA_API_KEY e)%string then
        let run_id := strip run_id in
        if (run_id =? "")%string || (run_id =? "N/A")%string then ret no_ticket
        else
          existing <~ ticket_by_run_id (Main.statement e) (VStr run_id) ;;
          match existing with
          | Some t =>
              ret (VDict [("exists", VBool true);
                          ("ticket_id", VStr (t_id t));
                          ("status", cell_value (t_status t));
                          ("timestamp", timestamp (t_id t))])
          | None => ret no_ticket
          end
      else throw (HTTPException 401 "Unauthorized")
  | None => throw (HTTPException 401 "Unauthorized")
  end.

End Deduplication.

(* ================================================================== *)
(** ** azure-function-databricks-monitor/DatabricksMonitor/__init__.py *)
(* ================================================================== *)

Module Monitor.
Import Py Http.
Local Open Scope http_scope.
Local Open Scope Z_scope.

(** The app settings, the time window of this run in milliseconds (from
    the clock), and the other side of the requests. *)
Record env : Type := {
  DATABRICKS_HOST : option string;
  DATABRICKS_TOKEN : option string;
  FASTAPI_URL : option string;
  start_time_ms : Z;
  end_time_ms : Z;
  remote : service
}.

Definition unset (x : option string) : bool :=
  match x with
  | Some s => (s =? "")%string
  | None => true
  end.

Definition text_of (x : option string) : string :=
  match x with Some s => s | None => "None" end.

Definition events_request (e : env) : request :=
  Post (text_of (DATABRICKS_HOST e) ++ "/api/2.0/clusters/events")
    (VDict [("start_time", VInt (start_time_ms e));
            ("end_time", VInt (end_time_ms e));
            ("event_types",
             VList [VStr "TERMINATING"; VStr "TERMINATED";
                    VStr "FAILED_TO_START"; VStr "RESTARTING"]);
            ("limit", VInt 500)]).

(** [len(v)] exists. *)
Definition sized (v : value) : bool :=
  match v with
  | VStr _ | VList _ | VDict _ => true
  | _ => false
  end.

(** [get_cluster_events] (lines 72-111): the events, or None.  The length
    of the events is logged inside the [try]. *)
Definition get_cluster_events (e : env) : M (option value) :=
  a <~ send (remote e) (events_request e) ;;
  match a with
  | Answered status_code json _ =>
      if status_code =? 200 then
        match json with
        | Ok result =>
            match get_default result "events" (VList []) with
            | Ok events => ret (if sized events then Some events else None)
            | Raise _ => ret None
            end
        | Raise _ => ret None
        end
      else ret None
  | Unreachable _ => ret None
  end.

(** What [for event in events] goes through. *)
Fixpoint characters (s : string) : list value :=
  match s with
  | EmptyString => []
  | String c t => VStr (String c "") :: characters t
  end.

Definition iterate (v : value) : result (list value) :=
  match v with
  | VList l => Ok l
  | VDict d => Ok (map (fun kv => VStr (fst kv)) d)
  | VStr s => Ok (characters s)
  | _ => Raise TypeError
  end.

(** The body of the loop of [filter_error_events] (lines 120-154): whether
    the event is kept. *)
Definition is_error (event : value) : result bool :=
  (event_type <- get event "type" ;;
   _ <- get_default event "cluster_id" (VStr "unknown") ;;
   if eq_str event_type "FAILED_TO_START" then Ok true
   else if among event_type ["TERMINATED"; "TERMINATING"] then
     reason <- get_default event "reason" (VDict []) ;;
     reason_code <- get_default reason "code" (VStr "") ;;
     reason_type <- get_default reason "type" (VStr "") ;;
     if eq_str reason_code "USER_REQUEST" ||
        eq_str reason_type "CUSTOMER_INITIATED" then Ok false
     else
       has_job <- py_in "job_id" event ;;
       has_run <- (if has_job then Ok true else py_in "run_id" event) ;;
       if has_run then Ok false
       else Ok (among reason_type ["ERROR"; "CLOUD_FAILURE"; "SERVICE_FAULT"])
   else Ok false)%py.

Fixpoint keep_errors (events : list value) : result (list value) :=
  match events with
  | [] => Ok []
  | event :: rest =>
      (keep <- is_error event ;;
       kept <- keep_errors rest ;;
       Ok (if keep then event :: kept else kept))%py
  end.

(** [filter_error_events] (lines 114-156) *)
Definition filter_error_events (events : value) : result (list value) :=
  (l <- iterate events ;; keep_errors l)%py.

(** The payload [send_to_fastapi] builds (lines 163-186). *)
Definition webhook_payload (event : value) : result value :=
  (cluster_id <- get_default event "cluster_id" (VStr "unknown") ;;
   event_type <- get event "type" ;;
   timestamp <- get_default event "timestamp" (VInt 0) ;;
   cluster_name <- get_default event "cluster_name" (VStr "Unknown") ;;
   state <- get_default event "state" event_type ;;
   state_message <- get_default event "state_message" (VStr "") ;;
   has_reason <- py_in "reason" event ;;
   termination_reason <-
     (if has_reason then
        reason <- get event "reason" ;; Ok [("termination_reason", reason)]
      else Ok []) ;;
   lowered <- lower_of event_type ;;
   Ok (VDict [("event", VStr ("cluster." ++ lowered));
              ("event_type", event_type);
              ("timestamp", timestamp);
              ("cluster",
               VDict ([("cluster_id", cluster_id);
                       ("cluster_name", cluster_name);
                       ("state", state);
                       ("state_message", state_message)] ++
                      termination_reason)%list)]))%py.

(** [send_to_fastapi] (lines 159-208): what the endpoint answers is only
    logged. *)
Definition send_to_fastapi (e : env) (event : value) : M unit :=
  payload <~ lift (webhook_payload event) ;;
  _ <~ send (remote e) (Post (text_of (FASTAPI_URL e)) payload) ;;
  ret tt.

Fixpoint send_all (e : env) (events : list value) : M unit :=
  match events with
  | [] => ret tt
  | event :: rest => _ <~ send_to_fastapi e event ;; send_all e rest
  end.

(** [main] (lines 23-69) *)
Definition main (e : env) : M unit :=
  if unset (DATABRICKS_HOST e) || unset (DATABRICKS_TOKEN e) ||
     unset (FASTAPI_URL e)
  then ret tt
  else
    events <~ get_cluster_events e ;;
    match events with
    | None => ret tt
    | Some events =>
        error_events <~ lift (filter_error_events events) ;;
        send_all e error_events
    end.

End Monitor.

(* ================================================================== *)
(** ** main.py: the Jira webhook *)
(* ================================================================== *)

Module Jira.
Import Py Store.
Local Open Scope py_scope.

(** The setting, what SQLAlchemy appends to an error, [str.title] on the
    name of a status, and the seconds since a ticket was opened: lines
    753-755, [int((now - start_ts).total_seconds())] with [start_ts] read
    from the column [timestamp] of the ticket of an id, which raises when
    that text is no timestamp.  And what [manager.broadcast] does with the
    status update of the ticket of an id: [ConnectionManager.broadcast]
    (lines 635-640) catches WebSocketDisconnect only, so another error of a
    send to a connected client comes out of it. *)
Record env : Type := {
  JIRA_WEBHOOK_SECRET : string;
  statement : string;
  title : string -> string;
  elapsed : string -> result Z;
  broadcast : string -> result unit
}.

(** A [JSONResponse]: its status code and its content. *)
Record reply : Type := {
  status_code : Z;
  content : list (string * value)
}.

Definition answered (status : string) : reply :=
  {| status_code := 200; content := [("status", VStr status)] |}.

(** The answer of the [except] of lines 1647-1649. *)
Definition error_reply (ex : exn) : reply :=
  {| status_code := 500;
     content := [("status", VStr "error");
                 ("message", VStr (str_of_exn ex))] |}.

(** [UPDATE tickets SET status = ... WHERE id = :id] on a row. *)
Definition with_status (s : cell) (t : Ticket) : Ticket :=
  {| t_id := t_id t; t_pipeline := t_pipeline t; t_run_id := t_run_id t;
     t_rca_result := t_rca_result t; t_recommendations := t_recommendations t;
     t_confidence := t_confidence t; t_severity := t_severity t;
     t_priority := t_priority t; t_error_type := t_error_type t;
     t_affected_entity := t_affected_entity t; t_status := s;
     t_sla_seconds := t_sla_seconds t; t_sla_status := t_sla_status t;
     t_finops_team := t_finops_team t; t_finops_owner := t_finops_owner t;
     t_finops_cost_center := t_finops_cost_center t;
     t_blob_log_url := t_blob_log_url t;
     t_itsm_ticket_id := t_itsm_ticket_id t;
     t_logic_app_run_id := t_logic_app_run_id t;
     t_processing_mode := t_processing_mode t |}.

(** The UPDATE of [perform_close_from_jira] (lines 760-762) on a row, for
    the columns the rows have: the status and the SLA status. *)
Definition closed (sla_status : string) (t : Ticket) : Ticket :=
  {| t_id := t_id t; t_pipeline := t_pipeline t; t_run_id := t_run_id t;
     t_rca_result := t_rca_result t; t_recommendations := t_recommendations t;
     t_confidence := t_confidence t; t_severity := t_severity t;
     t_priority := t_priority t; t_error_type := t_error_type t;
     t_affected_entity := t_affected_entity t;
     t_status := Some "acknowledged";
     t_sla_seconds := t_sla_seconds t; t_sla_status := Some sla_status;
     t_finops_team := t_finops_team t; t_finops_owner := t_finops_owner t;
     t_finops_cost_center := t_finops_cost_center t;
     t_blob_log_url := t_blob_log_url t;
     t_itsm_ticket_id := t_itsm_ticket_id t;
     t_logic_app_run_id := t_logic_app_run_id t;
     t_processing_mode := t_processing_mode t |}.

Definition cell_value (c : cell) : value :=
  match c with
  | Some s => VStr s
  | None => VNone
  end.

(** [row.get("rca_result")[:200] if row.get("rca_result") else ""] *)
Definition summary_of (rca_result : cell) : string :=
  match rca_result with
  | Some s => if (s =? "")%string then "" else take 200 s
  | None => ""
  end.

(** [perform_close_from_jira] (lines 746-774), with the ticket as [row].
    The Slack message is updated inside a [try] whose outcome is dropped;
    it reads the ticket and changes neither table. *)
Definition perform_close_from_jira (e : env) (row : Ticket)
  (user_name : value) (details : string) : M unit :=
  if cell_eqb (t_status row) (Some "acknowledged") then ret tt
  else
    diff <~ lift (elapsed e (t_id row)) ;;
    let sla_status :=
      if (diff <=? t_sla_seconds row)%Z then "Met" else "Breached" in
    _ <~ lift (bind_text (statement e) user_name) ;;
    _ <~ update_ticket (t_id row) (closed sla_status) ;;
    _ <~ log_audit (statement e)
           {| g_ticket_id := VStr (t_id row);
              g_action := "Ticket Closed";
              g_pipeline := cell_value (t_pipeline row);
              g_run_id := cell_value (t_run_id row);
              g_sla_status := VStr sla_status;
              g_rca_summary := VStr (summary_of (t_rca_result row));
              g_finops_team := cell_value (t_finops_team row);
              g_finops_owner := cell_value (t_finops_owner row);
              g_details := VStr details;
              g_itsm_ticket_id := cell_value (t_itsm_ticket_id row) |} ;;
    _ <~ emit (Broadcast (t_id row)) ;;
    ret tt.

(** [next((item for item in items if item.get("field") == "status"),
    None)] *)
Fixpoint status_change (items : list value) : result (option value) :=
  match items with
  | [] => Ok None
  | item :: rest =>
      field <- get item "field" ;;
      if Http.eq_str field "status" then Ok (Some item)
      else status_change rest
  end.

(** Lines 1599-1607: the key of the issue and the name of its new status,
    or nothing when the status did not change. *)
Definition status_update (body : value) : result (option (value * string)) :=
  issue <- get_default body "issue" (VDict []) ;;
  jira_key <- get issue "key" ;;
  changelog <- get_default body "changelog" (VDict []) ;;
  items <- get_default changelog "items" (VList []) ;;
  items <- Monitor.iterate items ;;
  changed_item <- status_change items ;;
  match changed_item with
  | None => Ok None
  | Some changed_item =>
      new_status_name <- get_default changed_item "toString" (VStr "Unknown") ;;
      _ <- lower_of new_status_name ;;
      Ok (Some (jira_key, str new_status_name))
  end.

(** Lines 1620-1626 *)
Definition local_status (new_status_name_lower : string) : string :=
  if existsb (String.eqb new_status_name_lower) ["done"; "resolved"; "closed"]
  then "acknowledged"
  else if existsb (String.eqb new_status_name_lower)
            ["in progress"; "selected for development"; "in review"]
  then "in_progress"
  else "open".

(** [SELECT * FROM tickets WHERE itsm_ticket_id = :key], [one=True] *)
Definition ticket_by_itsm (suffix : string) (key : value) : M (option Ticket) :=
  k <~ lift (bind_text suffix key) ;;
  w <~ get_world ;;
  ret (find (fun t => cell_eqb (t_itsm_ticket_id t) k) (tickets w)).

(** [body.get('user', {}).get('displayName', 'Jira User')] *)
Definition display_name (body : value) : result value :=
  user <- get_default body "user" (VDict []) ;;
  get_default user "displayName" (VStr "Jira User").

(** Lines 1629-1643: the ticket follows the issue. *)
Definition follow (e : env) (body jira_key : value) (ticket : Ticket)
  (new_local_status : string) : M unit :=
  if (new_local_status =? "acknowledged")%string &&
     negb (cell_eqb (t_status ticket) (Some "acknowledged"))
  then
    user_name <~ lift (display_name body) ;;
    perform_close_from_jira e ticket user_name
      ("Ticket closed via Jira Webhook by user " ++ str user_name)
  else if (new_local_status =? "in_progress")%string &&
          negb (cell_eqb (t_status ticket) (Some "in_progress"))
  then
    _ <~ update_ticket (t_id ticket) (with_status (Some "in_progress")) ;;
    log_audit (statement e)
      {| g_ticket_id := VStr (t_id ticket);
         g_action := "Ticket In Progress";
         g_pipeline := VNone; g_run_id := VNone; g_sla_status := VNone;
         g_rca_summary := VNone; g_finops_team := VNone;
         g_finops_owner := VNone;
         g_details := VStr "Status changed to In Progress via Jira";
         g_itsm_ticket_id := jira_key |}
  else if (new_local_status =? "open")%string &&
          negb (cell_eqb (t_status ticket) (Some "open"))
  then update_ticket (t_id ticket) (with_status (Some "open"))
  else ret tt.

(** The [try] block of [webhook_jira] (lines 1598-1646).  The broadcast of
    line 1645 is not in a [try] of its own, as the one of
    [perform_close_from_jira] is: when it raises, the ticket has been
    updated already. *)
Definition issue_updated (e : env) (body : value) : M reply :=
  update <~ lift (status_update body) ;;
  match update with
  | None =>
      ret {| status_code := 200;
             content := [("status", VStr "ignored");
                         ("message", VStr "No status change")] |}
  | Some (jira_key, new_status_name) =>
      ticket <~ ticket_by_itsm (statement e) jira_key ;;
      match ticket with
      | None => ret (answered "not_found")
      | Some ticket =>
          _ <~ log_audit (statement e)
                 {| g_ticket_id := VStr (t_id ticket);
                    g_action := "Jira: " ++ title e new_status_name;
                    g_pipeline := VNone; g_run_id := VNone;
                    g_sla_status := VNone; g_rca_summary := VNone;
                    g_finops_team := VNone; g_finops_owner := VNone;
                    g_details :=
                      VStr ("Status for " ++ str jira_key ++ " changed to '"
                            ++ new_status_name ++ "' in Jira.");
                    g_itsm_ticket_id := jira_key |} ;;
          _ <~ follow e body jira_key ticket
                 (local_status (lower new_status_name)) ;;
          _ <~ emit (Broadcast (t_id ticket)) ;;
          _ <~ lift (broadcast e (t_id ticket)) ;;
          ret (answered "ok")
      end
  end.

(** [webhook_jira] (lines 1579-1651); [secret] is the query parameter, and
    a [body] of None is a request that is not JSON. *)
Definition webhook_jira (e : env) (secret : option string)
  (body : option value) : M reply :=
  if negb (JIRA_WEBHOOK_SECRET e =? "")%string &&
     negb match secret with
          | Some s => (s =? JIRA_WEBHOOK_SECRET e)%string
          | None => false
          end
  then throw (HTTPException 401 "Invalid secret")
  else
    match body with
    | None =>
        ret {| status_code := 400;
               content := [("status", VStr "error");
                           ("message", VStr "Invalid JSON")] |}
    | Some body =>
        event <~ lift (get body "webhookEvent") ;;
        if Http.eq_str event "jira:issue_updated" then
          try_except (issue_updated e body) (fun ex => ret (error_reply ex))
        else ret {| status_code := 200;
                    content := [("status", VStr "ignored");
                                ("event", event)] |}
    end.

End Jira.

(* ================================================================== *)
(** ** Further vocabulary *)
(* ================================================================== *)

Module Notions.
Import Py Store.

(** An answer [raise_for_status] lets through: not a 4xx, not a 5xx. *)
Definition passes (o : AutoRemediation.post_outcome) : bool :=
  match o with
  | AutoRemediation.Responded status _ _ =>
      negb ((400 <=? status)%Z && (status <? 600)%Z)
  | AutoRemediation.NoResponse => false
  end.

(** The first of the attempts [from], [from + 1], ... ([count] of them)
    whose answer passes. *)
Fixpoint first_passing (post : nat -> AutoRemediation.post_outcome)
  (from count : nat) : option nat :=
  match count with
  | O => None
  | S count' =>
      if passes (post from) then Some from
      else first_passing post (S from) count'
  end.

(** What [_http_post_with_retries] returns of an answer. *)
Definition returned (o : AutoRemediation.post_outcome)
  : option (Z * result value * string) :=
  match o with
  | AutoRemediation.Responded status json text => Some (status, json, text)
  | AutoRemediation.NoResponse => None
  end.

(** The world [w] after [n] more posts of [payload] to [url]. *)
Definition posted (url : string) (payload : value) (n : nat) (w : World)
  : World :=
  {| tickets := tickets w; audit := audit w;
     calls := (calls w ++ repeat (PlaybookPost url payload) n)%list |}.

(** [result.get("new_run_id") or result.get("run_id")] on the items of the
    playbook's answer. *)
Definition new_run_id_of (result : list (string * value)) : value :=
  Spec.first_truthy [Spec.item "new_run_id" result] (Spec.item "run_id" result).

(** The ledger entry of a playbook that answered 200
    (auto_remediation.py 250-259). *)
Definition succeeded_entry (ticket_id : string) (run_id : cell)
  (playbook_type : string) (new_run_id : value)
  (result : list (string * value)) : AuditEntry :=
  {| a_ticket_id := Some ticket_id;
     a_action := "Auto-Remediation Succeeded";
     a_pipeline := None; a_run_id := run_id; a_sla_status := None;
     a_rca_summary := None; a_finops_team := None; a_finops_owner := None;
     a_details :=
       Some (json_dumps (VDict [("playbook_type", VStr playbook_type);
                                ("new_run_id", new_run_id);
                                ("response", VDict result)]));
     a_itsm_ticket_id := None |}.

(** The ledger entry of a playbook call that failed
    (auto_remediation.py 273-288). *)
Definition failed_entry (ticket_id : string) (run_id : cell)
  (details : string) : AuditEntry :=
  {| a_ticket_id := Some ticket_id;
     a_action := "Auto-Remediation Failed";
     a_pipeline := None; a_run_id := run_id; a_sla_status := None;
     a_rca_summary := None; a_finops_team := None; a_finops_owner := None;
     a_details := Some details; a_itsm_ticket_id := None |}.

(** Another ticket than [ticket_id] holds the run id [r]. *)
Definition held_by_another (ticket_id : string) (r : cell)
  (ts : list Ticket) : bool :=
  existsb (fun t => negb (t_id t =? ticket_id) && cell_eqb (t_run_id t) r) ts.

(** The table [tickets] after the run id of [ticket_id] was set to [r]. *)
Definition handed_over (ticket_id : string) (r : cell) (ts : list Ticket)
  : list Ticket :=
  map (fun t => if t_id t =? ticket_id then with_run_id r t else t) ts.

(** What identifies a ticket to the duplicate check: its id and run id. *)
Definition key (t : Ticket) : string * cell := (t_id t, t_run_id t).

(** The computation [m] leaves the ids and run ids of the tickets as they
    are, row by row. *)
Definition keyed {A : Type} (m : M A) : Prop :=
  forall w, map key (tickets (snd (m w))) = map key (tickets w).

(** The run ids of the rows that have one, in order. *)
Definition run_ids (ks : list (string * cell)) : list string :=
  flat_map (fun k => match snd k with Some r => [r] | None => [] end) ks.

(** What the primary key and the unique index on [run_id] ask of the table:
    no id twice, no run id twice among the rows that have one. *)
Definition well_keyed (ts : list Ticket) : Prop :=
  NoDup (map fst (map key ts)) /\ NoDup (run_ids (map key ts)).

(** The answer is a 200. *)
Definition accepted (a : Http.answer) : bool :=
  match a with
  | Http.Answered status_code _ _ => (status_code =? 200)%Z
  | Http.Unreachable _ => false
  end.

(** The requests [reqs] go out one after the other, after the history [h],
    until one is accepted: the index of that one, if there is one. *)
Fixpoint first_accepted (srv : Http.service) (h : Http.history)
  (reqs : list Http.request) : option nat :=
  match reqs with
  | [] => None
  | rq :: rest =>
      if accepted (srv h rq) then Some O
      else option_map S (first_accepted srv (h ++ [rq])%list rest)
  end.

(** The fallback versions registered for a library, none for others. *)
Definition fallbacks_of (library_name : string) : list string :=
  match AutoRemediation.table_get library_name
          Playbooks.LIBRARY_VERSION_FALLBACKS with
  | Some versions => versions
  | None => []
  end.

(** The versions a reinstallation may try, in order: the requested one,
    then the registered fallbacks other than it. *)
Definition planned (library_name : string) (requested : option string)
  : list (option string) :=
  requested ::
  map Some (filter (fun v => negb (Playbooks.same_version v requested))
              (fallbacks_of library_name)).

(** [d.get(k, dflt)] on the items of a dict. *)
Definition item_or (k : string) (dflt : value) (d : list (string * value))
  : value :=
  match lookup k d with
  | Some x => x
  | None => dflt
  end.

(** What the monitor says of the cluster of an event with the items [d]
    and the type [t] (DatabricksMonitor/__init__.py 164-178). *)
Definition cluster_info (d : list (string * value)) (t : string)
  : list (string * value) :=
  ([("cluster_id", item_or "cluster_id" (VStr "unknown") d);
    ("cluster_name", item_or "cluster_name" (VStr "Unknown") d);
    ("state", item_or "state" (VStr t) d);
    ("state_message", item_or "state_message" (VStr "") d)] ++
   match lookup "reason" d with
   | Some reason => [("termination_reason", reason)]
   | None => []
   end)%list.

(** The state [_get_cluster_state] reads off an answer. *)
Definition state_of (a : Http.answer) : value :=
  match a with
  | Http.Answered status_code json _ =>
      if (status_code =? 200)%Z then
        match json with
        | Ok data =>
            match get_default data "state" (VStr "UNKNOWN") with
            | Ok state => state
            | Raise _ => VStr "UNKNOWN"
            end
        | Raise _ => VStr "UNKNOWN"
        end
      else VStr "UNKNOWN"
  | Http.Unreachable _ => VStr "UNKNOWN"
  end.

(** The seconds slept in a run of requests. *)
Fixpoint waited (rs : list Http.request) : Z :=
  match rs with
  | [] => 0
  | Http.Pause seconds :: rest => seconds + waited rest
  | _ :: rest => waited rest
  end.

(** The GETs and the POSTs in a run of requests. *)
Definition is_get (r : Http.request) : bool :=
  match r with Http.Get _ _ => true | _ => false end.

Definition is_post (r : Http.request) : bool :=
  match r with Http.Post _ _ => true | _ => false end.

Definition polls (rs : list Http.request) : nat :=
  List.length (filter is_get rs).

Definition posts (rs : list Http.request) : nat :=
  List.length (filter is_post rs).

(** The requests of a wait: the state is asked, or ten seconds pass. *)
Definition waiting (rq : Http.request) (rs : list Http.request) : Prop :=
  Forall (fun r => r = rq \/ r = Http.Pause 10) rs.

(** The last of the requests [rs] made after [h] asked for the state and
    was answered [state]. *)
Definition ended_on (srv : Http.service) (h : Http.history)
  (rq : Http.request) (state : string) (rs : list Http.request) : Prop :=
  exists before,
    rs = (before ++ [rq])%list /\
    Http.eq_str (state_of (srv (h ++ before)%list rq)) state = true.

(** The answer [o] to a post of [payload] is what [endpoint] of the
    playbook server replied to it, at some point of its own history. *)
Definition served_by
  (endpoint : Playbooks.env -> result value -> Http.M PlaybookServer.reply)
  (pe : Playbooks.env) (payload : value) (o : AutoRemediation.post_outcome)
  : Prop :=
  exists h r h' text,
    endpoint pe (Ok payload) h = (Ok r, h') /\
    o = AutoRemediation.Responded (PlaybookServer.status_code r)
          (Ok (VDict (PlaybookServer.content r))) text.

(** The secret of a request to the Jira webhook is accepted. *)
Definition admitted (e : Jira.env) (secret : option string) : Prop :=
  Jira.JIRA_WEBHOOK_SECRET e = ""%string \/
  secret = Some (Jira.JIRA_WEBHOOK_SECRET e).

(** A row [x] once it has followed the issue of the ticket [t] to
    [target]; a close records whether the deadline of [t] was met. *)
Definition moved (e : Jira.env) (target : string) (t x : Ticket) : Ticket :=
  if (target =? "acknowledged")%string then
    match Jira.elapsed e (t_id t) with
    | Ok diff =>
        Jira.closed (if (diff <=? t_sla_seconds t)%Z then "Met" else "Breached")
          x
    | Raise _ => x
    end
  else Jira.with_status (Some target) x.

(** What a close of the ticket [t] needs before its UPDATE: the name of
    the user of the event, the seconds since the ticket was opened, and a
    name the storage can bind (lines 1630, 753-755, 759-762). *)
Definition closing (e : Jira.env) (body : value) (t : Ticket) : result Z :=
  match Jira.display_name body with
  | Ok user_name =>
      match Jira.elapsed e (t_id t) with
      | Ok diff =>
          match bind_text (Jira.statement e) user_name with
          | Ok _ => Ok diff
          | Raise ex => Raise ex
          end
      | Raise ex => Raise ex
      end
  | Raise ex => Raise ex
  end.

(** What has to succeed before the ticket [t] is brought to [target]:
    the preparation of a close, when [target] is a close and the ticket is
    not closed; nothing otherwise. *)
Definition prepared (e : Jira.env) (body : value) (t : Ticket)
  (target : string) : result unit :=
  if (target =? "acknowledged")%string &&
     negb (cell_eqb (t_status t) (Some "acknowledged"))
  then match closing e body t with
       | Ok _ => Ok tt
       | Raise ex => Raise ex
       end
  else Ok tt.

(** The table once the rows of the id of [t] have followed to [target];
    it is left alone when [t] has that status. *)
Definition followed (e : Jira.env) (target : string) (t : Ticket)
  (ts : list Ticket) : list Ticket :=
  if cell_eqb (t_status t) (Some target) then ts
  else map (fun x => if (t_id x =? t_id t)%string then moved e target t x
                     else x) ts.

End Notions.

(* ================================================================== *)
(** * Properties *)
(* ================================================================== *)

(** ** Strings *)

Section StringFacts.
Import Py.


Lemma lower_char_idem (c : ascii) : lower_char (lower_char c) = lower_char c.
Proof.
  destruct c as [[] [] [] [] [] [] [] []]; reflexivity.
Qed.

Lemma lower_idem (s : string) : lower (lower s) = lower s.
Proof.
  induction s as [|c s IH]; simpl; [reflexivity|].
  now rewrite lower_char_idem, IH.
Qed.

Lemma startswith_app (p b : string) : startswith p (p ++ b) = true.
Proof.
  induction p as [|c p IH]; simpl; [reflexivity|].
  now rewrite Ascii.eqb_refl, IH.
Qed.

Lemma contains_here (p s : string) :
  startswith p s = true -> contains p s = true.
Proof. destruct s; simpl; intros H; [assumption | now rewrite H]. Qed.

Lemma contains_app_r (p a b : string) :
  contains p b = true -> contains p (a ++ b) = true.
Proof.
  intros H; induction a as [|c a IH]; simpl; [assumption|].
  rewrite IH. apply orb_true_r.
Qed.

Lemma contains_false_here (p s : string) :
  contains p s = false -> startswith p s = false.
Proof.
  destruct s; simpl; [trivial|].
  intros H. now apply orb_false_elim in H.
Qed.

Lemma contains_false_tail (p : string) (c : ascii) (s : string) :
  contains p (String c s) = false -> contains p s = false.
Proof. simpl. intros H. now apply orb_false_elim in H. Qed.

End StringFacts.

(** ** The forwarding envelope *)

Section EnvelopeFacts.
Import Py Re.

Lemma startswith_cons (x : ascii) (p : string) (y : ascii) (s : string) :
  startswith (String x p) (String y s) = Ascii.eqb x y && startswith p s.
Proof. reflexivity. Qed.
















End EnvelopeFacts.





(** ** Frames: what a computation can add to the ledger and to the calls *)

Section Frames.
Import Py Store Spec.
Local Open Scope list_scope.
Variable P : AuditEntry -> Prop.
Variable Q : call -> Prop.

Lemma grows_refl (w : World) : grows P Q w w.
Proof.
  split; exists []; rewrite app_nil_r; auto.
Qed.

Lemma grows_trans (w1 w2 w3 : World) :
  grows P Q w1 w2 -> grows P Q w2 w3 -> grows P Q w1 w3.
Proof.
  intros [[la [Ha Pa]] [lc [Hc Qc]]] [[la' [Ha' Pa']] [lc' [Hc' Qc']]].
  split.
  - exists (la ++ la'). rewrite Ha', Ha, app_assoc. split; [reflexivity|].
    apply Forall_app; auto.
  - exists (lc ++ lc'). rewrite Hc', Hc, app_assoc. split; [reflexivity|].
    apply Forall_app; auto.
Qed.

Lemma keeps_ret {A : Type} (a : A) : keeps P Q (ret a).
Proof. intros w; apply grows_refl. Qed.

Lemma keeps_throw {A : Type} (e : exn) : keeps P Q (@throw A e).
Proof. intros w; apply grows_refl. Qed.

Lemma keeps_lift {A : Type} (r : result A) : keeps P Q (lift r).
Proof. intros w; apply grows_refl. Qed.

Lemma keeps_get_world : keeps P Q get_world.
Proof. intros w; apply grows_refl. Qed.

Lemma grows_same (w w' : World) :
  audit w' = audit w -> calls w' = calls w -> grows P Q w w'.
Proof.
  intros Ha Hc. split; exists []; rewrite app_nil_r; auto.
Qed.

Lemma keeps_set_tickets (ts : list Ticket) : keeps P Q (set_tickets ts).
Proof. intros w; now apply grows_same. Qed.

Lemma keeps_emit (c : call) : Q c -> keeps P Q (emit c).
Proof.
  intros Hc w; split; cbn.
  - exists []. rewrite app_nil_r; auto.
  - exists [c]. auto.
Qed.

Lemma keeps_append_audit (a : AuditEntry) : P a -> keeps P Q (append_audit a).
Proof.
  intros Ha w; split; cbn.
  - exists [a]. auto.
  - exists []. rewrite app_nil_r; auto.
Qed.

Lemma keeps_bind {A B : Type} (m : M A) (k : A -> M B) :
  keeps P Q m -> (forall a, keeps P Q (k a)) -> keeps P Q (bindM m k).
Proof.
  intros Hm Hk w. unfold bindM. specialize (Hm w).
  destruct (m w) as [[a|e] w1]; cbn in *.
  - eapply grows_trans; [exact Hm | apply Hk].
  - exact Hm.
Qed.

Lemma keeps_try {A : Type} (m : M A) (h : exn -> M A) :
  keeps P Q m -> (forall e, keeps P Q (h e)) -> keeps P Q (try_except m h).
Proof.
  intros Hm Hh w. unfold try_except. specialize (Hm w).
  destruct (m w) as [[a|e] w1]; cbn in *.
  - exact Hm.
  - eapply grows_trans; [exact Hm | apply Hh].
Qed.

Lemma audit_row_action (suffix : string) (g : audit_args) (row : AuditEntry) :
  audit_row suffix g = Ok row -> a_action row = g_action g.
Proof.
  unfold audit_row, bind. intros H.
  repeat match type of H with
         | match ?x with _ => _ end = _ => destruct x; try discriminate
         end.
  now injection H as <-.
Qed.

Lemma keeps_log_audit (suffix : string) (g : audit_args) :
  (forall row, a_action row = g_action g -> P row) ->
  keeps P Q (log_audit suffix g).
Proof.
  intros HP w. unfold log_audit, try_except, bindM, lift.
  destruct (audit_row suffix g) as [row|ex] eqn:E.
  - apply keeps_append_audit, HP. now apply audit_row_action with suffix.
  - apply grows_refl.
Qed.

Lemma keeps_update_ticket (id : string) (f : Ticket -> Ticket) :
  keeps P Q (update_ticket id f).
Proof. intros w; now apply grows_same. Qed.

Lemma keeps_ticket_by_run_id (suffix : string) (run_id : value) :
  keeps P Q (ticket_by_run_id suffix run_id).
Proof.
  intros w. unfold ticket_by_run_id, bindM, lift.
  destruct (bind_text suffix run_id); apply grows_refl.
Qed.

Lemma keeps_insert_ticket (fault : option string) (suffix : string)
  (row : Ticket) : keeps P Q (insert_ticket fault suffix row).
Proof.
  intros w. unfold insert_ticket.
  destruct fault; [apply grows_refl|].
  unfold bindM, get_world.
  destruct (id_taken _ _); [apply grows_refl|].
  destruct (run_id_taken _ _); [apply grows_refl | now apply grows_same].
Qed.

End Frames.

Section TicketFrames.
Import Py Store Spec.

Lemma reads_ret {A : Type} (a : A) : reads_tickets (ret a).
Proof. intros w; reflexivity. Qed.

Lemma reads_throw {A : Type} (e : exn) : reads_tickets (@throw A e).
Proof. intros w; reflexivity. Qed.

Lemma reads_lift {A : Type} (r : result A) : reads_tickets (lift r).
Proof. intros w; reflexivity. Qed.

Lemma reads_get_world : reads_tickets get_world.
Proof. intros w; reflexivity. Qed.

Lemma reads_emit (c : call) : reads_tickets (emit c).
Proof. intros w; reflexivity. Qed.

Lemma reads_bind {A B : Type} (m : M A) (k : A -> M B) :
  reads_tickets m -> (forall a, reads_tickets (k a)) ->
  reads_tickets (bindM m k).
Proof.
  intros Hm Hk w. unfold bindM. specialize (Hm w).
  destruct (m w) as [[a|e] w1]; cbn in *; [|exact Hm].
  now rewrite Hk.
Qed.

Lemma reads_try {A : Type} (m : M A) (h : exn -> M A) :
  reads_tickets m -> (forall e, reads_tickets (h e)) ->
  reads_tickets (try_except m h).
Proof.
  intros Hm Hh w. unfold try_except. specialize (Hm w).
  destruct (m w) as [[a|e] w1]; cbn in *; [exact Hm|].
  now rewrite Hh.
Qed.

Lemma reads_log_audit (suffix : string) (g : audit_args) :
  reads_tickets (log_audit suffix g).
Proof.
  intros w. unfold log_audit, try_except, bindM, lift.
  destruct (audit_row suffix g); reflexivity.
Qed.

Lemma reads_ticket_by_run_id (suffix : string) (run_id : value) :
  reads_tickets (ticket_by_run_id suffix run_id).
Proof.
  intros w. unfold ticket_by_run_id, bindM, lift.
  destruct (bind_text suffix run_id); reflexivity.
Qed.

End TicketFrames.

Create HintDb frames.

#[export] Hint Resolve reads_ret reads_throw reads_lift reads_get_world
  reads_emit reads_log_audit reads_ticket_by_run_id : frames.

Ltac reads :=
  repeat first
    [ solve [auto with frames]
    | apply reads_bind; [|intros]
    | apply reads_try; [|intros]
    | match goal with
      | |- Spec.reads_tickets (if ?b then _ else _) => destruct b
      | |- Spec.reads_tickets (match ?x with _ => _ end) => destruct x
      end ].


#[export] Hint Resolve keeps_ret keeps_throw keeps_lift keeps_get_world
  keeps_set_tickets keeps_update_ticket keeps_ticket_by_run_id
  keeps_insert_ticket : frames.

#[export] Hint Extern 1 (Spec.keeps _ _ (Store.emit _)) =>
  apply keeps_emit; reflexivity : frames.

#[export] Hint Extern 1 (Spec.keeps _ _ (Store.log_audit _ _)) =>
  apply keeps_log_audit;
  let row := fresh "row" in
  let H := fresh "H" in
  intros row H; unfold Spec.remediation_entry, Spec.is_attempted;
  rewrite H; reflexivity : frames.

Ltac frame :=
  repeat first
    [ solve [auto with frames]
    | apply keeps_bind; [|intros]
    | apply keeps_try; [|intros]
    | match goal with
      | |- Spec.keeps _ _ (if ?b then _ else _) => destruct b
      | |- Spec.keeps _ _ (match ?x with _ => _ end) => destruct x
      end ].

(** ** The ingestion endpoints and the remediation engine *)

Section IngestionFrames.
Import Py Store Spec Main.

(** What an ingestion endpoint may add: no entry of the remediation engine,
    no call of it. *)
Local Abbreviation quiet m :=
  (keeps (fun a => remediation_entry a = false)
         (fun c => remediation_call c = false) m).

Lemma quiet_duplicate_check e who pipeline runid :
  quiet (duplicate_check e who pipeline runid).
Proof. unfold duplicate_check. frame. Qed.

Lemma quiet_generate_rca e desc source_type :
  quiet (generate_rca_and_recs e desc source_type).
Proof. unfold generate_rca_and_recs. frame. Qed.

Lemma quiet_blob_step e tid : quiet (blob_step e tid).
Proof. unfold blob_step, upload_payload_to_blob. frame. Qed.

Hint Resolve quiet_duplicate_check quiet_generate_rca quiet_blob_step : frames.

Lemma quiet_classify e prefix source_type pipeline runid desc lar pm :
  quiet (classify_and_build e prefix source_type pipeline runid desc lar pm).
Proof. unfold classify_and_build. frame. Qed.

Lemma quiet_others_commit e : quiet (others_commit e).
Proof. unfold others_commit. frame. Qed.

Lemma quiet_insert_row e d : quiet (insert_row e d).
Proof. unfold insert_row. frame. Qed.

Hint Resolve quiet_classify quiet_others_commit quiet_insert_row : frames.

Lemma quiet_store_ticket e d : quiet (store_ticket e d).
Proof. unfold store_ticket. frame. Qed.

Lemma quiet_ticket_created e d rca details :
  quiet (ticket_created e d rca details).
Proof. unfold ticket_created. frame. Qed.

Lemma quiet_jira_step e tid : quiet (jira_step e tid).
Proof. unfold jira_step. frame. Qed.

Lemma quiet_slack_step e tid pipeline runid itsm :
  quiet (slack_step e tid pipeline runid itsm).
Proof. unfold slack_step. frame. Qed.

Hint Resolve quiet_store_ticket quiet_ticket_created quiet_jira_step
  quiet_slack_step : frames.

Lemma quiet_azure_create e f : quiet (azure_create e f).
Proof. unfold azure_create. frame. Qed.

Lemma quiet_databricks_extract e body : quiet (databricks_extract e body).
Proof. unfold databricks_extract. frame. Qed.

Lemma quiet_databricks_create e f : quiet (databricks_create e f).
Proof. unfold databricks_create. frame. Qed.

Hint Resolve quiet_azure_create quiet_databricks_extract
  quiet_databricks_create : frames.

Lemma quiet_azure_monitor e req : quiet (azure_monitor e req).
Proof. unfold azure_monitor. frame. Qed.

Lemma quiet_databricks_monitor e req : quiet (databricks_monitor e req).
Proof. unfold databricks_monitor. frame. Qed.

End IngestionFrames.

(** ** The remediation engine *)

Section RemediationFacts.
Import Py Store Spec AutoRemediation.
Local Open Scope Z_scope.
Local Open Scope list_scope.

Lemma table_get_In {A : Type} (k : string) (l : list (string * A)) (v : A) :
  table_get k l = Some v -> In v (map snd l).
Proof.
  induction l as [|[k' v'] l IH]; cbn; [discriminate|].
  destruct (k' =? k)%string; [intros [= ->]; now left | right; auto].
Qed.

(** Every schedule of the table has a first delay. *)
Lemma schedules_nonempty (k : string) (cfg : config) :
  get_error_config k = Some cfg -> backoff_seconds cfg <> [].
Proof.
  intros H. apply table_get_In in H. cbn in H.
  repeat (destruct H as [<-|H]; [discriminate|]). contradiction.
Qed.

(** Every playbook type of the table has its environment variable. *)
Lemma playbooks_registered (k : string) (cfg : config) :
  get_error_config k = Some cfg ->
  exists var, table_get (playbook_type cfg) PLAYBOOK_ENV_VARS = Some var /\
              var <> ""%string.
Proof.
  intros H. apply table_get_In in H. cbn in H.
  repeat (destruct H as [<-|H]; [eexists; split; [reflexivity|discriminate]|]).
  contradiction.
Qed.

Lemma index_in_range (l : list Z) (i : Z) :
  0 <= i < Z.of_nat (List.length l) ->
  exists x, index l i = Ok x /\ nth_error l (Z.to_nat i) = Some x.
Proof.
  intros Hi. unfold index.
  destruct (Z.ltb_spec i 0); [lia|].
  destruct (Z.leb_spec 0 i); [|lia].
  destruct (Z.ltb_spec i (Z.of_nat (List.length l))); [|lia]. cbn.
  destruct (nth_error l (Z.to_nat i)) as [x|] eqn:E.
  - now exists x.
  - apply nth_error_None in E. lia.
Qed.

(** Line 196 selects [s[min(i, len(s) - 1)]]. *)
Lemma backoff_delay_clamps (s : list Z) (i : Z) :
  s <> [] -> 0 <= i ->
  exists delay,
    backoff_delay s i = Ok delay /\
    nth_error s (Z.to_nat (Z.min i (Z.of_nat (List.length s) - 1))) = Some delay.
Proof.
  intros Hs Hi. unfold backoff_delay. apply index_in_range.
  destruct s; [congruence|]. cbn [List.length]. lia.
Qed.

Lemma count_attempts_nonneg (c : cell) (log : list AuditEntry) :
  0 <= count_attempts c log.
Proof. unfold count_attempts. lia. Qed.

Lemma count_attempts_app (c : cell) (l1 l2 : list AuditEntry) :
  count_attempts c (l1 ++ l2) = count_attempts c l1 + count_attempts c l2.
Proof.
  unfold count_attempts. rewrite filter_app, length_app. lia.
Qed.

Lemma count_attempts_others (c : cell) (la : list AuditEntry) :
  Forall (fun a => is_attempted a = false) la -> count_attempts c la = 0.
Proof.
  induction 1 as [|a la Ha _ IH]; [reflexivity|].
  unfold count_attempts in *. cbn [filter].
  unfold is_attempt_for at 1. unfold is_attempted in Ha. rewrite Ha.
  rewrite andb_false_r. exact IH.
Qed.

Lemma grows_count (Q : call -> Prop) (c : cell) (w w' : World) :
  grows (fun a => is_attempted a = false) Q w w' ->
  count_attempts c (audit w') = count_attempts c (audit w).
Proof.
  intros [[la [-> Hla]] _]. rewrite count_attempts_app.
  rewrite (count_attempts_others c la Hla). lia.
Qed.

Local Abbreviation calm m :=
  (keeps (fun a => is_attempted a = false) (fun _ : call => True) m).

Hint Extern 1 (keeps _ _ (emit _)) => apply keeps_emit; exact I : frames.

Lemma calm_post_attempts e url payload retries remaining :
  forall attempt,
    calm (http_post_attempts e url payload retries attempt remaining).
Proof.
  induction remaining as [|remaining IH]; intros attempt; cbn [http_post_attempts].
  - frame.
  - apply keeps_bind; [auto with frames|]. intros _.
    destruct (post e attempt) as [status body text|];
      repeat match goal with
             | |- keeps _ _ (if ?b then _ else _) => destruct b
             end; auto with frames.
Qed.

Lemma calm_update_run_id e ticket_id new_run_id :
  calm (update_run_id e ticket_id new_run_id).
Proof. unfold update_run_id. frame. Qed.

Hint Resolve calm_post_attempts calm_update_run_id : frames.

Lemma calm_trigger_playbook e ticket_id playbook_type url payload run_id :
  calm (trigger_playbook e ticket_id playbook_type url payload run_id).
Proof.
  unfold trigger_playbook, _http_post_with_retries. frame.
Qed.

Lemma remediation_row (suffix ticket_id action : string) (run_id : value)
  (c : cell) (details : string) :
  bind_text suffix run_id = Ok c ->
  audit_row suffix (remediation_audit ticket_id action run_id details) =
  Ok {| a_ticket_id := Some ticket_id; a_action := action; a_pipeline := None;
        a_run_id := c; a_sla_status := None; a_rca_summary := None;
        a_finops_team := None; a_finops_owner := None;
        a_details := Some details; a_itsm_ticket_id := None |}.
Proof. intros H. unfold audit_row. cbn. rewrite H. reflexivity. Qed.

Lemma log_remediation (suffix ticket_id action : string) (run_id : value)
  (c : cell) (details : string) (w : World) :
  bind_text suffix run_id = Ok c ->
  log_audit suffix (remediation_audit ticket_id action run_id details) w =
  (Ok tt,
   {| tickets := tickets w;
      audit := audit w ++
               [{| a_ticket_id := Some ticket_id; a_action := action;
                   a_pipeline := None; a_run_id := c; a_sla_status := None;
                   a_rca_summary := None; a_finops_team := None;
                   a_finops_owner := None; a_details := Some details;
                   a_itsm_ticket_id := None |}];
      calls := calls w |}).
Proof.
  intros H. unfold log_audit, try_except, bindM, lift.
  rewrite (remediation_row _ _ _ _ _ _ H). reflexivity.
Qed.

(** What [attempt_auto_remediation] comes to for an eligible kind whose
    playbook address is configured. *)
Lemma attempt_configured e ticket_id k cfg metadata run_id c url w :
  get_error_config k = Some cfg ->
  get_playbook_url e k = Some url -> url <> ""%string ->
  get metadata "run_id" = Ok run_id ->
  bind_text (statement e) run_id = Ok c ->
  attempt_auto_remediation e ticket_id k metadata w =
  let counted := current_attempt run_id c w in
  if truthy run_id && (counted >=? max_retries cfg) then
    (Ok false,
     {| tickets := tickets w;
        audit := audit w ++
                 [{| a_ticket_id := Some ticket_id;
                     a_action := "Auto-Remediation Max Retries Reached";
                     a_pipeline := None; a_run_id := c; a_sla_status := None;
                     a_rca_summary := None; a_finops_team := None;
                     a_finops_owner := None;
                     a_details :=
                       Some ("Attempted " ++ str_of_Z counted ++
                             " times. Error: " ++ k ++
                             ". Manual intervention required.")%string;
                     a_itsm_ticket_id := None |}];
        calls := calls w |})
  else
    match backoff_delay (backoff_seconds cfg) counted with
    | Raise ex => (Raise ex, w)
    | Ok delay =>
        trigger_playbook e ticket_id (playbook_type cfg) url
          (VDict [("ticket_id", VStr ticket_id); ("error_type", VStr k);
                  ("metadata", metadata);
                  ("retry_attempt", VInt (counted + 1));
                  ("max_retries", VInt (max_retries cfg));
                  ("timestamp", VStr (utcnow e))])
          run_id
          {| tickets := tickets w;
             audit := audit w ++
                      [attempted_entry ticket_id c k (counted + 1)
                         (max_retries cfg) delay (playbook_type cfg) url];
             calls := calls w ++ [Sleep delay] |}
    end.
Proof.
  intros Hk Hu Hne Hr Hb.
  unfold attempt_auto_remediation, get_playbook_url, get_error_config in *.
  rewrite Hk in *.
  destruct (table_get (playbook_type cfg) PLAYBOOK_ENV_VARS) as [var|];
    [|discriminate].
  destruct (var =? "")%string; [discriminate|].
  rewrite Hu. destruct url as [|u0 url]; [congruence|].
  unfold bindM at 1. unfold lift at 1. rewrite Hr.
  unfold current_attempt. cbn zeta.
  destruct (truthy run_id) eqn:Ht.
  - unfold bindM at 1. unfold bindM at 1. unfold lift at 1. rewrite Hb.
    unfold bindM at 1. unfold get_world at 1. unfold ret at 1.
    cbn [andb].
    destruct (count_attempts c (audit w) >=? max_retries cfg).
    + unfold bindM. rewrite (log_remediation _ _ _ _ _ _ _ Hb). reflexivity.
    + unfold bindM at 1. unfold lift at 1.
      destruct (backoff_delay (backoff_seconds cfg) (count_attempts c (audit w)));
        [|reflexivity].
      unfold bindM at 1. rewrite (log_remediation _ _ _ _ _ _ _ Hb).
      unfold bindM at 1. cbn [emit]. reflexivity.
  - unfold bindM at 1. unfold ret at 1. cbn [andb].
    unfold bindM at 1. unfold lift at 1.
    destruct (backoff_delay (backoff_seconds cfg) 0); [|reflexivity].
    unfold bindM at 1. rewrite (log_remediation _ _ _ _ _ _ _ Hb).
    unfold bindM at 1. cbn [emit]. reflexivity.
Qed.

(** A run id that is there and that the storage cannot bind makes the count
    query of line 177 raise; nothing catches it. *)
Lemma attempt_unbound e ticket_id k cfg metadata run_id ex url w :
  get_error_config k = Some cfg ->
  get_playbook_url e k = Some url -> url <> ""%string ->
  get metadata "run_id" = Ok run_id -> truthy run_id = true ->
  bind_text (statement e) run_id = Raise ex ->
  attempt_auto_remediation e ticket_id k metadata w = (Raise ex, w).
Proof.
  intros Hk Hu Hne Hr Ht Hb.
  unfold attempt_auto_remediation, get_playbook_url, get_error_config in *.
  rewrite Hk in *.
  destruct (table_get (playbook_type cfg) PLAYBOOK_ENV_VARS) as [var|];
    [|discriminate].
  destruct (var =? "")%string; [discriminate|].
  rewrite Hu. destruct url as [|u0 url]; [congruence|].
  unfold bindM at 1. unfold lift at 1. rewrite Hr.
  rewrite Ht. unfold bindM at 1. unfold bindM at 1. unfold lift at 1.
  now rewrite Hb.
Qed.

Lemma attempt_unconfigured e ticket_id k metadata w :
  get_playbook_url e k = None \/ get_playbook_url e k = Some ""%string ->
  grows (fun a => is_attempted a = false) (fun _ => True) w
    (snd (attempt_auto_remediation e ticket_id k metadata w)).
Proof.
  unfold get_playbook_url, attempt_auto_remediation.
  destruct (table_get k RETRY_ELIGIBLE_ERRORS) as [cfg|];
    [|intros _; apply grows_refl].
  destruct (table_get (playbook_type cfg) PLAYBOOK_ENV_VARS) as [var|];
    [|intros _; apply grows_refl].
  destruct (var =? "")%string; [intros _; apply grows_refl|].
  destruct (getenv e var) as [[|u url]|]; intros [H|H]; try discriminate;
    match goal with
    | |- grows ?P ?Q ?w (snd (?m ?w)) => refine ((_ : keeps P Q m) w)
    end; frame.
Qed.

(** Without a playbook address the evaluation stops at the guard of lines
    158-167, before it counts. *)
Lemma attempt_skipped e ticket_id k cfg metadata run_id c w :
  get_error_config k = Some cfg ->
  get metadata "run_id" = Ok run_id ->
  bind_text (statement e) run_id = Ok c ->
  get_playbook_url e k = None \/ get_playbook_url e k = Some ""%string ->
  attempt_auto_remediation e ticket_id k metadata w =
  (Ok false,
   {| tickets := tickets w;
      audit := audit w ++ [skipped_entry ticket_id c (playbook_type cfg)];
      calls := calls w |}).
Proof.
  intros Hk Hr Hb Hu.
  destruct (playbooks_registered k cfg Hk) as [var [Hv Hne]].
  unfold attempt_auto_remediation, get_playbook_url, get_error_config in *.
  rewrite Hk in *. rewrite Hv in *.
  destruct (var =? "")%string eqn:Ev;
    [apply String.eqb_eq in Ev; congruence|].
  assert (Hs : (run_id <~ lift (get metadata "run_id") ;;
                _ <~ log_audit (statement e)
                       (remediation_audit ticket_id "Auto-Remediation Skipped"
                          run_id
                          ("Playbook " ++ playbook_type cfg ++
                           " not configured in environment")) ;;
                ret false)%py w =
               (Ok false,
                {| tickets := tickets w;
                   audit := audit w ++
                            [skipped_entry ticket_id c (playbook_type cfg)];
                   calls := calls w |})).
  { unfold bindM at 1. unfold lift at 1. rewrite Hr.
    unfold bindM. rewrite (log_remediation _ _ _ _ _ _ _ Hb). reflexivity. }
  destruct (getenv e var) as [[|u url]|]; [exact Hs| |exact Hs].
  destruct Hu as [Hu|Hu]; discriminate Hu.
Qed.




Lemma attempted_counts (ticket_id r k : string) (a m d : Z) (pt url : string) :
  count_attempts (Some r) [attempted_entry ticket_id (Some r) k a m d pt url] = 1.
Proof.
  unfold count_attempts. cbn [filter]. unfold is_attempt_for.
  cbn [attempted_entry a_run_id a_action cell_eqb].
  rewrite String.eqb_refl. reflexivity.
Qed.

(** One evaluation never takes the count of a run id past the ceiling. *)
Lemma attempt_bound e ticket_id k cfg metadata run_id r w :
  get_error_config k = Some cfg ->
  get metadata "run_id" = Ok run_id -> truthy run_id = true ->
  bind_text (statement e) run_id = Ok (Some r) ->
  count_attempts (Some r)
    (audit (snd (attempt_auto_remediation e ticket_id k metadata w)))
  <= Z.max (count_attempts (Some r) (audit w)) (max_retries cfg).
Proof.
  intros Hk Hr Ht Hb.
  destruct (get_playbook_url e k) as [[|u url]|] eqn:Hu.
  - rewrite (grows_count _ _ _ _ (attempt_unconfigured e ticket_id k metadata w
                                    (or_intror Hu))). lia.
  - rewrite (attempt_configured e ticket_id k cfg metadata run_id (Some r)
               (String u url) w Hk Hu ltac:(discriminate) Hr Hb).
    unfold current_attempt. rewrite Ht. cbn zeta. cbn [andb].
    destruct (Z.geb_spec (count_attempts (Some r) (audit w)) (max_retries cfg))
      as [Hge|Hlt].
    + cbn [snd audit]. rewrite count_attempts_app.
      rewrite (count_attempts_others (Some r) (_ :: nil)); [lia|].
      repeat constructor.
    + destruct (backoff_delay _ _) as [delay|ex]; [|cbn [snd]; lia].
      rewrite (grows_count _ _ _ _ (calm_trigger_playbook _ _ _ _ _ _ _)).
      cbn [audit]. rewrite count_attempts_app, attempted_counts. lia.
  - rewrite (grows_count _ _ _ _ (attempt_unconfigured e ticket_id k metadata w
                                    (or_introl Hu))). lia.
Qed.

Lemma evaluations_bound k cfg r steps :
  get_error_config k = Some cfg ->
  Forall (carries r) steps ->
  forall w,
    count_attempts (Some r) (audit w) <= max_retries cfg ->
    count_attempts (Some r) (audit (evaluations k steps w)) <= max_retries cfg.
Proof.
  intros Hk Hs. induction Hs as [|[[e ticket_id] metadata] steps Hc _ IH];
    intros w Hw; [exact Hw|].
  cbn [evaluations]. apply IH.
  destruct Hc as [run_id [Hr [Ht Hb]]].
  pose proof (attempt_bound e ticket_id k cfg metadata run_id r w Hk Hr Ht Hb).
  lia.
Qed.

End RemediationFacts.

(** C3 (as amended).  For an error kind [k] of the eligibility table with
    [max_retries = m] and a run id [r] that Python takes for true (not
    None, not empty, not 0, not False) and that the storage binds (text, or
    an integer of at most 64 bits):
    - when the playbook address of [k] is configured and the counted
      attempts have reached [m], the evaluation returns False, records
      exactly one "Auto-Remediation Max Retries Reached" entry and nothing
      else: no "Attempted" entry, no call, no change to the tickets;
    - whatever the configuration, one evaluation leaves the number of
      "Attempted" entries of the run id at most at the larger of [m] and
      what it was;
    - hence any sequence of evaluations for that run id that starts at or
      below [m] stays at or below [m];
    - when the playbook address of [k] is not configured (unset, or empty),
      the evaluation returns False and records exactly one
      "Auto-Remediation Skipped" entry and nothing else, whatever the
      count: the guard comes before the count. *)
Theorem retry_ceiling (k : string) (cfg : AutoRemediation.config) (r : string) :
  AutoRemediation.get_error_config k = Some cfg ->
  (forall e ticket_id metadata run_id url w,
      Py.get metadata "run_id" = Py.Ok run_id ->
      Py.truthy run_id = true ->
      Store.bind_text (AutoRemediation.statement e) run_id = Py.Ok (Some r) ->
      AutoRemediation.get_playbook_url e k = Some url -> url <> "" ->
      (AutoRemediation.max_retries cfg
       <= Store.count_attempts (Some r) (Store.audit w))%Z ->
      AutoRemediation.attempt_auto_remediation e ticket_id k metadata w =
      (Py.Ok false,
       {| Store.tickets := Store.tickets w;
          Store.audit :=
            (Store.audit w ++
             [Spec.max_retries_entry ticket_id r
                (Store.count_attempts (Some r) (Store.audit w)) k])%list;
          Store.calls := Store.calls w |})) /\
  (forall e ticket_id metadata run_id w,
      Py.get metadata "run_id" = Py.Ok run_id ->
      Py.truthy run_id = true ->
      Store.bind_text (AutoRemediation.statement e) run_id = Py.Ok (Some r) ->
      (Store.count_attempts (Some r)
         (Store.audit
            (snd (AutoRemediation.attempt_auto_remediation e ticket_id k
                    metadata w)))
       <= Z.max (Store.count_attempts (Some r) (Store.audit w))
                (AutoRemediation.max_retries cfg))%Z) /\
  (forall steps w,
      Forall (Spec.carries r) steps ->
      (Store.count_attempts (Some r) (Store.audit w)
       <= AutoRemediation.max_retries cfg)%Z ->
      (Store.count_attempts (Some r) (Store.audit (Spec.evaluations k steps w))
       <= AutoRemediation.max_retries cfg)%Z) /\
  (forall e ticket_id metadata run_id w,
      Py.get metadata "run_id" = Py.Ok run_id ->
      Py.truthy run_id = true ->
      Store.bind_text (AutoRemediation.statement e) run_id = Py.Ok (Some r) ->
      AutoRemediation.get_playbook_url e k = None \/
      AutoRemediation.get_playbook_url e k = Some "" ->
      AutoRemediation.attempt_auto_remediation e ticket_id k metadata w =
      (Py.Ok false,
       {| Store.tickets := Store.tickets w;
          Store.audit :=
            (Store.audit w ++
             [Spec.skipped_entry ticket_id (Some r)
                (AutoRemediation.playbook_type cfg)])%list;
          Store.calls := Store.calls w |})).
Proof.
  intros Hk. split; [|split; [|split]].
  - intros e ticket_id metadata run_id url w Hr Ht Hb Hu Hne Hge.
    rewrite (attempt_configured e ticket_id k cfg metadata run_id (Some r) url w
               Hk Hu Hne Hr Hb).
    unfold Spec.current_attempt. rewrite Ht. cbn zeta. cbn [andb].
    destruct (Z.geb_spec (Store.count_attempts (Some r) (Store.audit w))
                (AutoRemediation.max_retries cfg)); [reflexivity | lia].
  - intros e ticket_id metadata run_id w Hr Ht Hb.
    now apply attempt_bound with run_id.
  - intros steps w Hs Hw. exact (evaluations_bound k cfg r steps Hk Hs w Hw).
  - intros e ticket_id metadata run_id w Hr _ Hb Hu.
    exact (attempt_skipped e ticket_id k cfg metadata run_id (Some r) w
             Hk Hr Hb Hu).
Qed.

Lemma retry_ceiling_witness :
  AutoRemediation.attempt_auto_remediation (Scenario.engine Scenario.configured)
    "ADF-1" "GatewayTimeout" Scenario.run_42 (Scenario.attempted 3) =
  (Py.Ok false,
   {| Store.tickets := [];
      Store.audit :=
        (Store.audit (Scenario.attempted 3) ++
         [Spec.max_retries_entry "ADF-1" "run-42" 3 "GatewayTimeout"])%list;
      Store.calls := [] |}) /\
  AutoRemediation.attempt_auto_remediation
    (Scenario.engine Scenario.unconfigured)
    "ADF-1" "GatewayTimeout" Scenario.run_42 (Scenario.attempted 1) =
  (Py.Ok false,
   {| Store.tickets := [];
      Store.audit :=
        (Store.audit (Scenario.attempted 1) ++
         [Spec.skipped_entry "ADF-1" (Some "run-42") "retry_pipeline"])%list;
      Store.calls := [] |}).
Proof.
  split.
  - exact (proj1 (retry_ceiling "GatewayTimeout" _ "run-42" eq_refl)
             (Scenario.engine Scenario.configured) "ADF-1" Scenario.run_42
             (Py.VStr "run-42") "https://playbooks.example/retry"
             (Scenario.attempted 3) eq_refl eq_refl eq_refl eq_refl
             ltac:(discriminate) ltac:(cbv; discriminate)).
  - exact (proj2 (proj2 (proj2 (retry_ceiling "GatewayTimeout" _ "run-42"
                                  eq_refl)))
             (Scenario.engine Scenario.unconfigured) "ADF-1" Scenario.run_42
             (Py.VStr "run-42") (Scenario.attempted 1) eq_refl eq_refl eq_refl
             (or_introl eq_refl)).
Defined.

(** C3, the claim as written, fails twice.  With the ceiling reached but no
    playbook address in the environment, the evaluation records
    "Auto-Remediation Skipped", not "Max Retries Reached".  And a run id
    that is not null but empty (or 0, or False) is not counted at all: with
    three attempts on the ledger for it and a ceiling of three, the
    evaluation makes a fourth. *)
Lemma retry_ceiling_not_always_kept :
  AutoRemediation.get_error_config "GatewayTimeout" <> None /\
  ((3
    <= Store.count_attempts (Some "run-42")
         (Store.audit (Scenario.attempted 3)))%Z /\
   map Store.a_action
     (Store.audit
        (snd (AutoRemediation.attempt_auto_remediation
                (Scenario.engine Scenario.unconfigured) "ADF-1" "GatewayTimeout"
                Scenario.run_42 (Scenario.attempted 3)))) =
   ["Auto-Remediation Attempted"; "Auto-Remediation Attempted";
    "Auto-Remediation Attempted"; "Auto-Remediation Skipped"]) /\
  (let again :=
     AutoRemediation.attempt_auto_remediation
       (Scenario.engine Scenario.configured) "ADF-1" "GatewayTimeout"
       Scenario.run_empty (Scenario.attempted_for "" 3) in
   Py.get Scenario.run_empty "run_id" = Py.Ok (Py.VStr "") /\
   Store.count_attempts (Some "") (Store.audit (Scenario.attempted_for "" 3))
     = 3%Z /\
   fst again = Py.Ok true /\
   Store.count_attempts (Some "") (Store.audit (snd again)) = 4%Z).
Proof.
  split; [discriminate|]. split.
  - split; [cbv; discriminate | reflexivity].
  - cbn zeta. repeat split; reflexivity.
Qed.



Lemma quiet_count (c : Store.cell) (la : list Store.AuditEntry) :
  Forall (fun a => Spec.remediation_entry a = false) la ->
  Store.count_attempts c la = 0%Z.
Proof.
  intros H. apply count_attempts_others.
  eapply Forall_impl; [|exact H].
  intros a Ha. unfold Spec.remediation_entry in Ha. unfold Spec.is_attempted.
  destruct (String.eqb_spec (Store.a_action a) "Auto-Remediation Attempted")
    as [E|]; [|reflexivity].
  rewrite E in Ha. discriminate.
Qed.

(** C10.  Whatever the request, the configuration (AUTO_REMEDIATION_ENABLED
    included) and the answer of the AI, what either ingestion endpoint adds
    to the ledger holds no entry of the remediation engine (no action that
    begins with "Auto-Remediation", so no "Auto-Remediation Attempted"), and
    what it adds to the calls holds no playbook post and no back-off sleep;
    the count of attempts of every run id is what it was. *)
Theorem ingestion_never_remediates (e : Main.env) (req : Main.request)
  (w : Store.World) :
  let quiet w' :=
    Spec.grows (fun a => Spec.remediation_entry a = false)
               (fun c => Spec.remediation_call c = false) w w' /\
    forall r, Store.count_attempts r (Store.audit w') =
              Store.count_attempts r (Store.audit w) in
  quiet (snd (Main.azure_monitor e req w)) /\
  quiet (snd (Main.databricks_monitor e req w)).
Proof.
  cbn zeta.
  assert (H : forall w',
             Spec.grows (fun a => Spec.remediation_entry a = false)
                        (fun c => Spec.remediation_call c = false) w w' ->
             forall r, Store.count_attempts r (Store.audit w') =
                       Store.count_attempts r (Store.audit w)).
  { intros w' [[la [-> Hla]] _] r. rewrite count_attempts_app.
    rewrite (quiet_count r la Hla). lia. }
  split; (split; [|apply H]);
    first [apply quiet_azure_monitor | apply quiet_databricks_monitor].
Qed.

(** By contrast the engine, when it is run on an eligible kind below its
    ceiling, does add an "Attempted" entry, sleeps and posts. *)
Example engine_does_remediate :
  let w := snd (AutoRemediation.attempt_auto_remediation
                  (Scenario.engine Scenario.configured) "ADF-1" "GatewayTimeout"
                  Scenario.run_42 Scenario.fresh) in
  map Store.a_action (Store.audit w) =
    ["Auto-Remediation Attempted"; "Auto-Remediation Succeeded"] /\
  map Spec.remediation_call (Store.calls w) = [true; true].
Proof. split; reflexivity. Qed.

(** ** Classification *)

Section ClassificationFacts.
Import Py Store Spec Main.

Lemma derive_priority_table (s : string) :
  derive_priority (VStr s) = Ok (VStr (priority_of_severity s)).
Proof.
  unfold derive_priority, priority_of_severity. cbn [truthy].
  destruct s as [|c s]; [reflexivity|]. cbn [String.eqb negb lower_of bind].
  reflexivity.
Qed.


Lemma get_default_absent (l : list (string * value)) (k : string)
  (dflt : value) :
  lookup k l = None -> get_default (VDict l) k dflt = Ok dflt.
Proof. intros H. cbn. now rewrite H. Qed.






End ClassificationFacts.




Section FallbackFacts.
Import Py Spec AiProvider.

Lemma fallback_fields (text reason : string) :
  let '(kind, heal, severity) := classify_keywords (lower text) in
  field "error_type" (_fallback_rca text reason) = Some (VStr kind) /\
  field "severity" (_fallback_rca text reason) = Some (VStr severity) /\
  field "auto_heal_possible" (_fallback_rca text reason) = Some (VBool heal).
Proof.
  unfold _fallback_rca.
  destruct (classify_keywords (lower text)) as [[kind heal] severity].
  repeat split.
Qed.

End FallbackFacts.

(** C6 (as amended).  When the backend of [ai_provider] fails, its
    classification is the keyword scan of [_fallback_rca] over the
    lower-cased text, in this order: "timeout" or "timed out" (kind
    GatewayTimeout when the text also has "gateway", else
    DatabricksTimeoutError; severity Medium), then "connection" with
    "failed" (HttpConnectionFailed, Medium), then "throttl"
    (ThrottlingError, Low), then "cluster" (DatabricksClusterStartFailure,
    High), then "library" or "package"
    (DatabricksLibraryInstallationError, Medium); every match has
    auto_heal_possible true, and a text that matches nothing is Unknown,
    Medium, auto_heal_possible false.  Whatever the provider and its
    settings, a backend that fails leaves this fallback as the answer, for
    some reason text.  The fallback of [main.py], which the
    ingestion endpoints use, does no scan: it is always UnknownError,
    Medium, auto_heal_possible false. *)
Theorem fallback_keyword_scan (text reason : string) :
  let l := Py.lower text in
  let rca := AiProvider._fallback_rca text reason in
  let verdict kind severity heal :=
    Spec.field "error_type" rca = Some (Py.VStr kind) /\
    Spec.field "severity" rca = Some (Py.VStr severity) /\
    Spec.field "auto_heal_possible" rca = Some (Py.VBool heal) in
  let timeout := Py.contains "timeout" l || Py.contains "timed out" l in
  let connection := Py.contains "connection" l && Py.contains "failed" l in
  let throttle := Py.contains "throttl" l in
  let cluster := Py.contains "cluster" l in
  let library := Py.contains "library" l || Py.contains "package" l in
  (timeout = true ->
   verdict (if Py.contains "gateway" l then "GatewayTimeout"
       else "DatabricksTimeoutError") "Medium" true) /\
  (timeout = false -> connection = true ->
   verdict "HttpConnectionFailed" "Medium" true) /\
  (timeout = false -> connection = false -> throttle = true ->
   verdict "ThrottlingError" "Low" true) /\
  (timeout = false -> connection = false -> throttle = false ->
   cluster = true -> verdict "DatabricksClusterStartFailure" "High" true) /\
  (timeout = false -> connection = false -> throttle = false ->
   cluster = false -> library = true ->
   verdict "DatabricksLibraryInstallationError" "Medium" true) /\
  (timeout = false -> connection = false -> throttle = false ->
   cluster = false -> library = false -> verdict "Unknown" "Medium" false) /\
  (forall e, AiProvider.AI_PROVIDER e = "gemini" ->
             AiProvider.GEMINI_API_KEY e <> "" ->
             AiProvider.backend e = AiProvider.Failed reason ->
             AiProvider.generate_rca_and_recs e text = rca) /\
  (forall e, AiProvider.backend e = AiProvider.Failed reason ->
             exists why,
               AiProvider.generate_rca_and_recs e text
               = AiProvider._fallback_rca text why) /\
  (forall desc src,
      Spec.field "error_type" (Main.fallback_rca desc src)
      = Some (Py.VStr "UnknownError") /\
      Spec.field "severity" (Main.fallback_rca desc src)
      = Some (Py.VStr "Medium") /\
      Spec.field "auto_heal_possible" (Main.fallback_rca desc src)
      = Some (Py.VBool false)).
Proof.
  cbn zeta. pose proof (fallback_fields text reason) as H.
  unfold AiProvider.classify_keywords in H.
  repeat split;
    try (intros;
         repeat match goal with
                | E : _ = _ |- _ => rewrite E in H; clear E
                end;
         cbn [negb andb orb] in H; apply H).
  - intros e Hp Hkey Hb.
    unfold AiProvider.generate_rca_and_recs, AiProvider._generate_rca_gemini,
      AiProvider.answer.
    rewrite Hp, Hb. cbn [String.eqb].
    destruct (String.eqb_spec (AiProvider.GEMINI_API_KEY e) "");
      [contradiction|].
    reflexivity.
  - intros e Hb.
    unfold AiProvider.generate_rca_and_recs, AiProvider._generate_rca_gemini,
      AiProvider._generate_rca_azure_openai, AiProvider._generate_rca_ollama,
      AiProvider.answer.
    rewrite Hb.
    repeat match goal with
           | |- context [if ?b then _ else _] => destruct b
           end; eexists; reflexivity.
Qed.

Lemma fallback_keyword_scan_witness :
  Spec.field "error_type"
    (AiProvider._fallback_rca
       "GatewayTimeout: Connection timeout after 30 seconds" "AI unavailable")
  = Some (Py.VStr "GatewayTimeout") /\
  Spec.field "severity"
    (AiProvider._fallback_rca
       "GatewayTimeout: Connection timeout after 30 seconds" "AI unavailable")
  = Some (Py.VStr "Medium") /\
  Spec.field "auto_heal_possible"
    (AiProvider._fallback_rca
       "GatewayTimeout: Connection timeout after 30 seconds" "AI unavailable")
  = Some (Py.VBool true).
Proof.
  exact (proj1 (fallback_keyword_scan
                  "GatewayTimeout: Connection timeout after 30 seconds"
                  "AI unavailable") eq_refl).
Defined.

(** C6, the claim as written, fails: a throttled request is a match, and
    its severity is Low, not Medium. *)
Lemma throttling_is_low :
  Spec.field "error_type"
    (AiProvider._fallback_rca "The request was throttled" "AI unavailable")
  = Some (Py.VStr "ThrottlingError") /\
  Spec.field "severity"
    (AiProvider._fallback_rca "The request was throttled" "AI unavailable")
  = Some (Py.VStr "Low") /\
  Spec.field "severity"
    (AiProvider._fallback_rca "The request was throttled" "AI unavailable")
  <> Some (Py.VStr "Medium").
Proof. repeat split; discriminate. Qed.

(** ** Deduplication *)

Section DeduplicationFacts.
Import Py Store Spec Main.
Local Open Scope list_scope.

Lemma duplicate_found e who pipeline runid r p t w :
  truthy runid = true ->
  bind_text (statement e) runid = Ok (Some r) ->
  bind_text (statement e) pipeline = Ok p ->
  owner r (tickets w) = Some t ->
  duplicate_check e who pipeline runid w =
  (Ok (Some (JSONResponse (duplicate_content t runid))),
   {| tickets := tickets w;
      audit := audit w ++ [duplicate_entry who t p r runid];
      calls := calls w |}).
Proof.
  intros Ht Hr Hp Ho. unfold duplicate_check. rewrite Ht.
  unfold bindM at 1. unfold ticket_by_run_id, bindM, lift, get_world, ret.
  rewrite Hr. unfold owner in Ho. rewrite Ho.
  unfold log_audit, try_except, bindM, lift, audit_row, duplicate_audit.
  cbn [g_ticket_id g_pipeline g_run_id g_sla_status g_rca_summary
       g_finops_team g_finops_owner g_details g_itsm_ticket_id g_action
       bind_text bind].
  rewrite Hp, Hr. reflexivity.
Qed.

Lemma duplicate_answered e who pipeline runid r t w :
  truthy runid = true ->
  bind_text (statement e) runid = Ok (Some r) ->
  owner r (tickets w) = Some t ->
  duplicate_check e who pipeline runid w =
  (Ok (Some (JSONResponse (duplicate_content t runid))),
   {| tickets := tickets w;
      audit := audit w ++
               match bind_text (statement e) pipeline with
               | Ok p => [duplicate_entry who t p r runid]
               | Raise _ => []
               end;
      calls := calls w |}).
Proof.
  intros Ht Hr Ho.
  destruct (bind_text (statement e) pipeline) as [p|ex] eqn:Hp.
  - exact (duplicate_found e who pipeline runid r p t w Ht Hr Hp Ho).
  - unfold duplicate_check. rewrite Ht.
    unfold bindM at 1. unfold ticket_by_run_id, bindM, lift, get_world, ret.
    rewrite Hr. unfold owner in Ho. rewrite Ho.
    unfold log_audit, try_except, bindM, lift, audit_row, duplicate_audit.
    cbn [g_ticket_id g_pipeline g_run_id g_sla_status g_rca_summary
         g_finops_team g_finops_owner g_details g_itsm_ticket_id g_action
         bind_text bind].
    rewrite Hp. cbn [bind ret]. rewrite app_nil_r. now destruct w.
Qed.

Lemma duplicate_unbound e who pipeline runid ex w :
  truthy runid = true ->
  bind_text (statement e) runid = Raise ex ->
  duplicate_check e who pipeline runid w = (Raise ex, w).
Proof.
  intros Ht Hr. unfold duplicate_check. rewrite Ht.
  unfold bindM at 1. unfold ticket_by_run_id, bindM, lift, get_world, ret.
  now rewrite Hr.
Qed.

(** The endpoints, as far as the duplicate check. *)
Lemma azure_monitor_steps e req body w :
  x_api_key req = Some (RCA_API_KEY e) ->
  json_body req = Some body ->
  azure_monitor e req w =
  match azure_extract body with
  | Ok f =>
      match duplicate_check e "Logic App" (az_pipeline f) (az_runid f) w with
      | (Ok (Some a), w') => (Ok a, w')
      | (Ok None, w') => azure_create e f w'
      | (Raise ex, w') => (Raise ex, w')
      end
  | Raise ex => (Raise ex, w)
  end.
Proof.
  intros Hk Hj. unfold azure_monitor. rewrite Hk, Hj, String.eqb_refl.
  unfold bindM at 1. unfold lift at 1.
  destruct (azure_extract body) as [f|ex]; [|reflexivity].
  unfold bindM at 1.
  destruct (duplicate_check e "Logic App" (az_pipeline f) (az_runid f) w)
    as [[[a|]|ex] w']; reflexivity.
Qed.

Lemma databricks_monitor_steps e req body w :
  json_body req = Some body ->
  databricks_monitor e req w =
  match databricks_extract e body w with
  | (Ok f, w1) =>
      match duplicate_check e "Databricks job" (dbx_job_name f) (dbx_run_id f)
              w1 with
      | (Ok (Some a), w') => (Ok a, w')
      | (Ok None, w') => databricks_create e f w'
      | (Raise ex, w') => (Raise ex, w')
      end
  | (Raise ex, w1) => (Raise ex, w1)
  end.
Proof.
  intros Hj. unfold databricks_monitor. rewrite Hj.
  unfold bindM at 1.
  destruct (databricks_extract e body w) as [[f|ex] w1]; [|reflexivity].
  unfold bindM at 1.
  destruct (duplicate_check e "Databricks job" (dbx_job_name f) (dbx_run_id f)
              w1) as [[[a|]|ex] w']; reflexivity.
Qed.

Lemma reads_databricks_extract e body w :
  tickets (snd (databricks_extract e body w)) = tickets w /\
  audit (snd (databricks_extract e body w)) = audit w.
Proof.
  unfold databricks_extract, bindM, lift, emit, ret.
  destruct (databricks_webhook body) as [f|]; [|split; reflexivity].
  destruct (truthy (dbx_run_id f) && is_not_na (dbx_run_id f)); cbn;
    repeat match goal with
           | |- context [match ?x with _ => _ end] => destruct x; cbn
           end; split; reflexivity.
Qed.

Lemma reads_blob_step e tid : reads_tickets (blob_step e tid).
Proof. unfold blob_step, upload_payload_to_blob. reads. Qed.

Hint Resolve reads_blob_step : frames.

Lemma reads_classify e prefix src pipeline runid desc lar pm :
  reads_tickets (classify_and_build e prefix src pipeline runid desc lar pm).
Proof. unfold classify_and_build, generate_rca_and_recs. reads. Qed.

(** A failed INSERT leaves the world as it was. *)
Lemma insert_row_failed e d w ex w' :
  insert_row e d w = (Raise ex, w') -> w' = w.
Proof.
  unfold insert_row, bindM, lift, insert_ticket.
  destruct (bind_ticket (statement e) d) as [row|]; [|now intros [= _ <-]].
  destruct (insert_fault e); [now intros [= _ <-]|].
  unfold bindM, get_world, throw, set_tickets.
  destruct (id_taken _ _); [now intros [= _ <-]|].
  destruct (run_id_taken _ _); [now intros [= _ <-] | discriminate].
Qed.

Lemma bind_ticket_run_id suffix d row :
  bind_ticket suffix d = Ok row ->
  bind_text suffix (d_run_id d) = Ok (t_run_id row).
Proof.
  unfold bind_ticket, bind. intros H.
  destruct (bind_text suffix (d_pipeline d)); [|discriminate].
  destruct (bind_text suffix (d_run_id d)) as [c|]; [|discriminate].
  repeat match type of H with
         | match ?x with _ => _ end = _ => destruct x; try discriminate
         end.
  now injection H as <-.
Qed.

Lemma bind_text_error suffix v ex :
  bind_text suffix v = Raise ex ->
  ex = driver_error "InterfaceError"
         "Error binding parameter - probably unsupported type." suffix \/
  ex = OverflowError.
Proof.
  destruct v as [| |z| | |]; cbn; try discriminate;
    try (intros [= <-]; now left).
  destruct (fits_int64 z); [discriminate|]. intros [= <-]. now right.
Qed.

Lemma bind_ticket_error suffix d ex :
  bind_ticket suffix d = Raise ex ->
  ex = driver_error "InterfaceError"
         "Error binding parameter - probably unsupported type." suffix \/
  ex = OverflowError.
Proof.
  unfold bind_ticket, bind. intros H.
  repeat match type of H with
         | match ?x with _ => _ end = _ =>
             let E := fresh "E" in
             destruct x eqn:E;
             [|injection H as <-; now apply bind_text_error in E]
         end.
  destruct (d_finops d) as [[? ?] ?]. discriminate.
Qed.

Lemma existsb_find {A : Type} (f : A -> bool) (l : list A) :
  existsb f l = true -> exists x, find f l = Some x.
Proof.
  induction l as [|a l IH]; cbn; [discriminate|].
  destruct (f a); [eauto | exact IH].
Qed.

(** A violation of the unique index has an owner behind it. *)
Lemma run_id_violation_owner e d w w' :
  insert_fault e = None ->
  insert_row e d w = (Raise (run_id_violation (statement e)), w') ->
  exists r t, bind_text (statement e) (d_run_id d) = Ok (Some r) /\
              owner r (tickets w) = Some t.
Proof.
  intros Hf. unfold insert_row, bindM, lift, insert_ticket. rewrite Hf.
  destruct (bind_ticket (statement e) d) as [row|ex] eqn:Hb.
  - unfold bindM, get_world, throw, set_tickets.
    destruct (id_taken _ _); [intros [= H]; discriminate H|].
    destruct (run_id_taken (t_run_id row) (tickets w)) eqn:Hr; [|discriminate].
    intros _. unfold run_id_taken in Hr.
    destruct (existsb_find _ _ Hr) as [t Ht].
    pose proof (find_some _ _ Ht) as [_ Heq].
    destruct (t_run_id row) as [r|] eqn:Erow;
      [|destruct (t_run_id t); discriminate].
    exists r, t. split; [|exact Ht].
    rewrite (bind_ticket_run_id _ _ _ Hb). now rewrite Erow.
  - apply bind_ticket_error in Hb. destruct Hb; subst ex; intros H;
      discriminate H.
Qed.

Lemma violation_reads_as_duplicate suffix :
  reads_as_duplicate (str_of_exn (run_id_violation suffix)) = true.
Proof. reflexivity. Qed.

(** The handler of the INSERT, by the text of the failure. *)
Lemma store_ticket_failed e d w ex :
  insert_row e d w = (Raise ex, w) ->
  store_ticket e d w =
  if reads_as_duplicate (str_of_exn ex) then
    match bind_text (statement e) (d_run_id d) with
    | Ok c =>
        (Ok (Some (JSONResponse
                     (race_content
                        match find (fun t => cell_eqb (t_run_id t) c) (tickets w)
                        with Some t => t_id t | None => "unknown"%string end
                        (d_run_id d)))), w)
    | Raise ex' => (Raise ex', w)
    end
  else (Raise (HTTPException 500 ("Database error: " ++ str_of_exn ex)%string), w).
Proof.
  intros H. unfold store_ticket, try_except. unfold bindM at 1. rewrite H.
  unfold reads_as_duplicate.
  destruct (contains "UNIQUE constraint failed" (str_of_exn ex) ||
            contains "duplicate key" (lower (str_of_exn ex))); [|reflexivity].
  unfold ticket_by_run_id, bindM, lift, get_world, ret.
  destruct (bind_text (statement e) (d_run_id d)); reflexivity.
Qed.

Lemma others_commit_world e w :
  others_commit e w =
  (Ok tt, {| tickets := tickets w ++ concurrent e; audit := audit w;
             calls := calls w |}).
Proof. reflexivity. Qed.

End DeduplicationFacts.

Section InsertFacts.
Import Py Store Spec Main.
Local Open Scope list_scope.

(** Both endpoints, from the classification to the answer of the INSERT. *)
Lemma create_through_store e (classify : M (ticket_data * value))
  (k : ticket_data -> value -> M response) w d rca w1 :
  classify w = (Ok (d, rca), w1) ->
  bindM classify
    (fun x => let '(d, rca) := x in
              bindM (others_commit e)
                (fun _ => bindM (store_ticket e d)
                            (fun stored => match stored with
                                           | Some r => ret r
                                           | None => k d rca
                                           end))) w =
  match store_ticket e d (at_insert e w1) with
  | (Ok (Some r), w2) => (Ok r, w2)
  | (Ok None, w2) => k d rca w2
  | (Raise ex, w2) => (Raise ex, w2)
  end.
Proof.
  intros H. unfold bindM at 1. rewrite H.
  unfold bindM at 1. rewrite others_commit_world.
  unfold bindM at 1. fold (at_insert e w1).
  destruct (store_ticket e d (at_insert e w1)) as [[[r|]|ex] w2]; reflexivity.
Qed.

End InsertFacts.

(** C1 (as amended).  In either endpoint, let the classification of an
    event have produced the row [d], and let its INSERT fail, in the world
    [at_insert e w1] that holds what other requests have stored since the
    duplicate check.  The race answer has the status
    "duplicate_race_condition" and the ticket id it is given.  No ticket is
    recorded for the event, and
    - if the failure is the violation of the unique index on run_id, the
      endpoint answers with status "duplicate_race_condition" and the id of
      the ticket that owns the run id, and raises nothing;
    - if the text of the failure holds neither "UNIQUE constraint failed"
      nor, in any letter case, "duplicate key", the endpoint raises
      HTTPException 500;
    - if the text of the failure, whatever failure it is, holds one of the
      two, the endpoint answers "duplicate_race_condition" with the id of
      the first ticket that has the run id, and with "unknown" when there
      is none; when the run id cannot be bound for that query, the query
      raises. *)
Theorem insert_failure_answers (e : Main.env) (w w1 : Store.World)
  (d : Main.ticket_data) (rca : Py.value) (ex : Py.exn) :
  fst (Main.insert_row e d (Spec.at_insert e w1)) = Py.Raise ex ->
  (forall ticket_id runid,
      Spec.field "status" (Main.race_content ticket_id runid)
      = Some (Py.VStr "duplicate_race_condition") /\
      Spec.field "ticket_id" (Main.race_content ticket_id runid)
      = Some (Py.VStr ticket_id)) /\
  (forall f,
      Main.classify_and_build e "ADF-" "adf" (Main.az_pipeline f)
        (Main.az_runid f) (Main.az_desc f) (Main.az_logic_app_run_id f)
        (Main.az_processing_mode f) w = (Py.Ok (d, rca), w1) ->
      Store.tickets (Spec.at_insert e w1)
      = (Store.tickets w ++ Main.concurrent e)%list /\
      (Main.insert_fault e = None ->
       ex = Spec.run_id_violation (Main.statement e) ->
       exists r t,
         Store.bind_text (Main.statement e) (Main.az_runid f) = Py.Ok (Some r) /\
         Spec.owner r (Store.tickets (Spec.at_insert e w1)) = Some t /\
         Main.azure_create e f w =
         (Py.Ok (Main.JSONResponse
                   (Main.race_content (Store.t_id t) (Main.az_runid f))),
          Spec.at_insert e w1)) /\
      (Spec.reads_as_duplicate (Store.str_of_exn ex) = false ->
       Main.azure_create e f w =
       (Py.Raise (Py.HTTPException 500
                    ("Database error: " ++ Store.str_of_exn ex)),
        Spec.at_insert e w1)) /\
      (Spec.reads_as_duplicate (Store.str_of_exn ex) = true ->
       match Store.bind_text (Main.statement e) (Main.az_runid f) with
       | Py.Ok c =>
           Main.azure_create e f w =
           (Py.Ok (Main.JSONResponse
                     (Main.race_content
                        (Spec.race_ticket_id c
                           (Store.tickets (Spec.at_insert e w1)))
                        (Main.az_runid f))),
            Spec.at_insert e w1)
       | Py.Raise ex' =>
           Main.azure_create e f w = (Py.Raise ex', Spec.at_insert e w1)
       end)) /\
  (forall f,
      Main.classify_and_build e "DBX-" "databricks" (Main.dbx_job_name f)
        (Main.dbx_run_id f) (Main.dbx_error_message f) (Py.VStr "N/A")
        (Py.VStr "databricks") w = (Py.Ok (d, rca), w1) ->
      Store.tickets (Spec.at_insert e w1)
      = (Store.tickets w ++ Main.concurrent e)%list /\
      (Main.insert_fault e = None ->
       ex = Spec.run_id_violation (Main.statement e) ->
       exists r t,
         Store.bind_text (Main.statement e) (Main.dbx_run_id f) = Py.Ok (Some r) /\
         Spec.owner r (Store.tickets (Spec.at_insert e w1)) = Some t /\
         Main.databricks_create e f w =
         (Py.Ok (Main.JSONResponse
                   (Main.race_content (Store.t_id t) (Main.dbx_run_id f))),
          Spec.at_insert e w1)) /\
      (Spec.reads_as_duplicate (Store.str_of_exn ex) = false ->
       Main.databricks_create e f w =
       (Py.Raise (Py.HTTPException 500
                    ("Database error: " ++ Store.str_of_exn ex)),
        Spec.at_insert e w1)) /\
      (Spec.reads_as_duplicate (Store.str_of_exn ex) = true ->
       match Store.bind_text (Main.statement e) (Main.dbx_run_id f) with
       | Py.Ok c =>
           Main.databricks_create e f w =
           (Py.Ok (Main.JSONResponse
                     (Main.race_content
                        (Spec.race_ticket_id c
                           (Store.tickets (Spec.at_insert e w1)))
                        (Main.dbx_run_id f))),
            Spec.at_insert e w1)
       | Py.Raise ex' =>
           Main.databricks_create e f w = (Py.Raise ex', Spec.at_insert e w1)
       end)).
Proof.
  intros Hi.
  assert (Hrun : forall prefix src pipeline runid desc lar pm,
             Main.classify_and_build e prefix src pipeline runid desc lar pm w
             = (Py.Ok (d, rca), w1) ->
             Main.d_run_id d = runid /\ Store.tickets w1 = Store.tickets w).
  { intros prefix src pipeline runid desc lar pm H. split.
    - revert H. unfold Main.classify_and_build, Main.generate_rca_and_recs.
      unfold Store.bindM, Store.lift, Store.emit, Store.ret.
      repeat match goal with
             | |- context [match ?x with _ => _ end] =>
                 destruct x; try discriminate
             end; now intros [= <- _ _].
    - pose proof (reads_classify e prefix src pipeline runid desc lar pm w) as R.
      now rewrite H in R. }
  destruct (Main.insert_row e d (Spec.at_insert e w1)) as [out w2] eqn:E.
  cbn [fst] in Hi. subst out.
  pose proof (insert_row_failed _ _ _ _ _ E) as ->.
  pose proof (store_ticket_failed e d _ _ E) as Hs.
  split; [intros ticket_id runid; split; reflexivity|].
  split; intros f Hc; destruct (Hrun _ _ _ _ _ _ _ Hc) as [Hd Ht];
    (split; [cbn [Spec.at_insert Store.tickets]; now rewrite Ht|]);
    (split; [|split]).
  - intros Hf ->.
    destruct (run_id_violation_owner e d _ _ Hf E) as [r [t [Hb Ho]]].
    exists r, t. rewrite <- Hd. repeat split; try assumption.
    unfold Main.azure_create.
    erewrite create_through_store by exact Hc.
    rewrite Hs, violation_reads_as_duplicate, Hb.
    unfold Spec.owner in Ho. now rewrite Ho.
  - intros Hn. unfold Main.azure_create.
    erewrite create_through_store by exact Hc.
    now rewrite Hs, Hn.
  - intros Hy. unfold Main.azure_create.
    erewrite create_through_store by exact Hc.
    rewrite Hs, Hy, Hd. unfold Spec.race_ticket_id.
    now destruct (Store.bind_text (Main.statement e) (Main.az_runid f)).
  - intros Hf ->.
    destruct (run_id_violation_owner e d _ _ Hf E) as [r [t [Hb Ho]]].
    exists r, t. rewrite <- Hd. repeat split; try assumption.
    unfold Main.databricks_create.
    erewrite create_through_store by exact Hc.
    rewrite Hs, violation_reads_as_duplicate, Hb.
    unfold Spec.owner in Ho. now rewrite Ho.
  - intros Hn. unfold Main.databricks_create.
    erewrite create_through_store by exact Hc.
    now rewrite Hs, Hn.
  - intros Hy. unfold Main.databricks_create.
    erewrite create_through_store by exact Hc.
    rewrite Hs, Hy, Hd. unfold Spec.race_ticket_id.
    now destruct (Store.bind_text (Main.statement e) (Main.dbx_run_id f)).
Qed.

Lemma insert_failure_answers_witness :
  (exists r t,
      Store.bind_text "" (Py.VStr "run-42") = Py.Ok (Some r) /\
      Spec.owner r [Scenario.ticket "ADF-other" "run-42"] = Some t /\
      Main.azure_create (Scenario.racing [Scenario.ticket "ADF-other" "run-42"])
        Scenario.adf_fields Scenario.fresh =
      (Py.Ok (Main.JSONResponse
                (Main.race_content (Store.t_id t) (Py.VStr "run-42"))),
       {| Store.tickets := [Scenario.ticket "ADF-other" "run-42"];
          Store.audit := [];
          Store.calls :=
            [Store.AiCall
               (Py.VStr "GatewayTimeout: Connection timeout after 30 seconds")
               "adf"] |})) /\
  fst (Main.azure_create
         (Scenario.failing "ERROR: Duplicate Key value violates a constraint")
         Scenario.adf_fields Scenario.fresh)
  = Py.Ok (Main.JSONResponse (Main.race_content "unknown" (Py.VStr "run-42"))).
Proof.
  split.
  - refine (proj1 (proj2 (proj1 (proj2 (insert_failure_answers
                                          (Scenario.racing
                                             [Scenario.ticket "ADF-other" "run-42"])
                                          Scenario.fresh _ _ _ _ _))
                            Scenario.adf_fields eq_refl))
              eq_refl eq_refl).
    reflexivity.
  - refine (f_equal fst
              (proj2 (proj2 (proj2 (proj1 (proj2 (insert_failure_answers
                                                    (Scenario.failing
                                                       "ERROR: Duplicate Key value violates a constraint")
                                                    Scenario.fresh _ _ _
                                                    (Py.DatabaseError
                                                       "ERROR: Duplicate Key value violates a constraint")
                                                    _))
                                      Scenario.adf_fields eq_refl)))
                 eq_refl)).
    reflexivity.
Defined.

(** C1, the claim as written, fails: the new ticket id collides with the id
    of a stored ticket of another run.  No ticket owns run "run-42", the
    INSERT fails on the primary key, not on run_id, and the endpoint
    answers 200 with status "duplicate_race_condition" and ticket id
    "unknown" where the claim has a 500. *)
Lemma id_collision_answered_as_duplicate :
  let e := Scenario.deployment None in
  let w := Scenario.holding
             [Scenario.ticket "ADF-20251103T101500-a1b2c3" "run-7"] in
  Spec.owner "run-42" (Store.tickets w) = None /\
  Store.id_taken "ADF-20251103T101500-a1b2c3" (Store.tickets w) = true /\
  fst (Main.azure_monitor e Scenario.adf_request w) =
  Py.Ok (Main.JSONResponse (Main.race_content "unknown" (Py.VStr "run-42"))) /\
  Main.http_status (fst (Main.azure_monitor e Scenario.adf_request w)) = 200%Z /\
  Store.tickets (snd (Main.azure_monitor e Scenario.adf_request w)) =
  Store.tickets w.
Proof. cbn zeta. repeat split; reflexivity. Qed.

Example storage_fault_is_500 :
  let r := Main.azure_monitor (Scenario.failing "database is locked")
             Scenario.adf_request Scenario.fresh in
  Main.http_status (fst r) = 500%Z /\ Store.tickets (snd r) = [].
Proof. split; reflexivity. Qed.

(** C2 (as amended).  Let the run id [r] own a ticket, [t] being the first such
    row, and take a delivery to either endpoint.
    - When the endpoint extracts its fields from the body without an error
      and the run id it extracts is truthy and is bound by the storage to
      [r], the delivery is answered with status "duplicate_ignored" and the
      id of [t], and the table of tickets stays as it is.  The ledger gets
      exactly one entry, "Duplicate Run Detected" for the ticket [t], when
      the pipeline or job name is a value the storage can bind, and no entry
      at all when it is not.
    - When the extraction raises, the endpoint raises the same exception,
      and neither tickets nor ledger change.
    - When the run id is truthy and the storage cannot bind it, the query
      raises that error, and neither tickets nor ledger change. *)
Theorem duplicate_delivery_ignored (e : Main.env) (r : string)
  (t : Store.Ticket) (w : Store.World) :
  Spec.owner r (Store.tickets w) = Some t ->
  (Spec.field "status" (Main.duplicate_content t (Py.VStr r))
   = Some (Py.VStr "duplicate_ignored") /\
   Spec.field "ticket_id" (Main.duplicate_content t (Py.VStr r))
   = Some (Py.VStr (Store.t_id t))) /\
  (forall req body,
      Main.x_api_key req = Some (Main.RCA_API_KEY e) ->
      Main.json_body req = Some body ->
      match Main.azure_extract body with
      | Py.Ok f =>
          Py.truthy (Main.az_runid f) = true ->
          match Store.bind_text (Main.statement e) (Main.az_runid f) with
          | Py.Ok c =>
              c = Some r ->
              Main.azure_monitor e req w =
              (Py.Ok (Main.JSONResponse
                        (Main.duplicate_content t (Main.az_runid f))),
               {| Store.tickets := Store.tickets w;
                  Store.audit :=
                    (Store.audit w ++
                     match Store.bind_text (Main.statement e)
                             (Main.az_pipeline f) with
                     | Py.Ok p =>
                         [Spec.duplicate_entry "Logic App" t p r
                            (Main.az_runid f)]
                     | Py.Raise _ => []
                     end)%list;
                  Store.calls := Store.calls w |})
          | Py.Raise ex => Main.azure_monitor e req w = (Py.Raise ex, w)
          end
      | Py.Raise ex => Main.azure_monitor e req w = (Py.Raise ex, w)
      end) /\
  (forall req body,
      Main.json_body req = Some body ->
      match Main.databricks_extract e body w with
      | (Py.Ok f, w1) =>
          Py.truthy (Main.dbx_run_id f) = true ->
          match Store.bind_text (Main.statement e) (Main.dbx_run_id f) with
          | Py.Ok c =>
              c = Some r ->
              Main.databricks_monitor e req w =
              (Py.Ok (Main.JSONResponse
                        (Main.duplicate_content t (Main.dbx_run_id f))),
               {| Store.tickets := Store.tickets w;
                  Store.audit :=
                    (Store.audit w ++
                     match Store.bind_text (Main.statement e)
                             (Main.dbx_job_name f) with
                     | Py.Ok p =>
                         [Spec.duplicate_entry "Databricks job" t p r
                            (Main.dbx_run_id f)]
                     | Py.Raise _ => []
                     end)%list;
                  Store.calls := Store.calls w1 |})
          | Py.Raise ex =>
              Main.databricks_monitor e req w = (Py.Raise ex, w1) /\
              Store.tickets w1 = Store.tickets w /\
              Store.audit w1 = Store.audit w
          end
      | (Py.Raise ex, w1) =>
          Main.databricks_monitor e req w = (Py.Raise ex, w1) /\
          Store.tickets w1 = Store.tickets w /\
          Store.audit w1 = Store.audit w
      end).
Proof.
  intros Ho. split; [split; reflexivity|]. split.
  - intros req body Hk Hj.
    rewrite (azure_monitor_steps e req body w Hk Hj).
    destruct (Main.azure_extract body) as [f|ex]; [|reflexivity].
    intros Ht.
    destruct (Store.bind_text (Main.statement e) (Main.az_runid f))
      as [c|ex] eqn:Hr.
    + intros ->.
      now rewrite (duplicate_answered e "Logic App" _ _ r t w Ht Hr Ho).
    + now rewrite (duplicate_unbound e "Logic App" _ _ ex w Ht Hr).
  - intros req body Hj.
    rewrite (databricks_monitor_steps e req body w Hj).
    destruct (reads_databricks_extract e body w) as [Et Ea].
    destruct (Main.databricks_extract e body w) as [[f|ex] w1];
      cbn [snd] in Et, Ea; [|now repeat split].
    intros Ht.
    destruct (Store.bind_text (Main.statement e) (Main.dbx_run_id f))
      as [c|ex] eqn:Hr.
    + intros ->.
      rewrite (duplicate_answered e "Databricks job" _ _ r t w1 Ht Hr);
        [|now rewrite Et].
      now rewrite Et, Ea.
    + rewrite (duplicate_unbound e "Databricks job" _ _ ex w1 Ht Hr).
      now repeat split.
Qed.

Lemma duplicate_delivery_ignored_witness :
  let w := Scenario.holding [Scenario.ticket "ADF-first" "run-42";
                             Scenario.ticket "ADF-second" "run-9"] in
  Spec.owner "run-42" (Store.tickets w)
  = Some (Scenario.ticket "ADF-first" "run-42") /\
  Main.azure_monitor (Scenario.deployment None) Scenario.adf_request w =
  (Py.Ok (Main.JSONResponse
            (Main.duplicate_content (Scenario.ticket "ADF-first" "run-42")
               (Py.VStr "run-42"))),
   {| Store.tickets := Store.tickets w;
      Store.audit :=
        [Spec.duplicate_entry "Logic App" (Scenario.ticket "ADF-first" "run-42")
           (Some "sales_load") "run-42" (Py.VStr "run-42")];
      Store.calls := [] |}).
Proof.
  split; [reflexivity|].
  exact (proj1 (proj2 (duplicate_delivery_ignored (Scenario.deployment None)
                         "run-42" (Scenario.ticket "ADF-first" "run-42")
                         (Scenario.holding
                            [Scenario.ticket "ADF-first" "run-42";
                             Scenario.ticket "ADF-second" "run-9"]) eq_refl))
           Scenario.adf_request Scenario.adf_alert eq_refl eq_refl
           eq_refl eq_refl).
Defined.

(** C2, the claim as written, fails.  A second delivery for the run id of
    a ticket, with a pipeline name that is a JSON array, is answered
    "duplicate_ignored" and leaves no "Duplicate Run Detected" entry: the
    INSERT of the entry fails on the name and [log_audit] drops the
    failure.  A second delivery whose ErrorMessage is the number 42 is not
    answered "duplicate_ignored" at all: the extraction raises
    AttributeError before the check, and the answer is a 500. *)
Lemma duplicate_not_always_recorded :
  let e := Scenario.deployment None in
  let w := Scenario.holding [Scenario.ticket "ADF-first" "run-42"] in
  let named := Scenario.adf_request_of (Py.VList [Py.VStr "sales_load"])
                 (Py.VStr "Copy activity failed") in
  let numbered := Scenario.adf_request_of (Py.VStr "sales_load") (Py.VInt 42) in
  Spec.owner "run-42" (Store.tickets w)
  = Some (Scenario.ticket "ADF-first" "run-42") /\
  (fst (Main.azure_monitor e named w)
   = Py.Ok (Main.JSONResponse
              (Main.duplicate_content (Scenario.ticket "ADF-first" "run-42")
                 (Py.VStr "run-42"))) /\
   Store.audit (snd (Main.azure_monitor e named w)) = [] /\
   Store.tickets (snd (Main.azure_monitor e named w)) = Store.tickets w) /\
  (fst (Main.azure_monitor e numbered w) = Py.Raise Py.AttributeError /\
   Main.http_status (fst (Main.azure_monitor e numbered w)) = 500%Z /\
   snd (Main.azure_monitor e numbered w) = w).
Proof. cbn zeta. repeat split; reflexivity. Qed.

(** The second of two deliveries of the same alert, end to end. *)
Example second_delivery :
  let e := Scenario.deployment None in
  let w1 := snd (Main.azure_monitor e Scenario.adf_request Scenario.fresh) in
  let r2 := Main.azure_monitor e Scenario.adf_request w1 in
  Spec.field "status"
    match fst r2 with
    | Py.Ok (Main.JSONResponse c) => c
    | _ => Py.VNone
    end = Some (Py.VStr "duplicate_ignored") /\
  List.length (Store.tickets (snd r2)) = 1%nat /\
  List.length (Store.audit (snd r2)) = S (List.length (Store.audit w1)).
Proof. repeat split; reflexivity. Qed.

(** ** What the endpoints answer *)

Section AnswerFacts.
Import Py Store Spec Main.

Lemma yields_ret {A : Type} (R : A -> Prop) (a : A) : R a -> yields R (ret a).
Proof. intros H w; exact H. Qed.

Lemma yields_throw {A : Type} (R : A -> Prop) (e : exn) : yields R (@throw A e).
Proof. intros w; exact I. Qed.

Lemma yields_bind {A B : Type} (R' : A -> Prop) (R : B -> Prop) (m : M A)
  (k : A -> M B) :
  yields R' m -> (forall a, R' a -> yields R (k a)) -> yields R (bindM m k).
Proof.
  intros Hm Hk w. unfold bindM. specialize (Hm w).
  destruct (m w) as [[a|e] w1]; cbn in *; [|exact I].
  apply Hk, Hm.
Qed.

Lemma yields_any {A : Type} (m : M A) : yields (fun _ => True) m.
Proof. intros w. destruct (fst (m w)); exact I. Qed.

Lemma yields_then {A B : Type} (R : B -> Prop) (m : M A) (k : A -> M B) :
  (forall a, yields R (k a)) -> yields R (bindM m k).
Proof.
  intros Hk. apply yields_bind with (R' := fun _ => True);
    [apply yields_any | intros a _; apply Hk].
Qed.

Lemma yields_try {A : Type} (R : A -> Prop) (m : M A) (h : exn -> M A) :
  yields R m -> (forall e, yields R (h e)) -> yields R (try_except m h).
Proof.
  intros Hm Hh w. unfold try_except. specialize (Hm w).
  destruct (m w) as [[a|e] w1]; cbn in *; [exact Hm | apply Hh].
Qed.

Lemma duplicate_check_answers e who pipeline runid :
  yields duplicate_or_stored (duplicate_check e who pipeline runid).
Proof.
  unfold duplicate_check. destruct (truthy runid); [|now apply yields_ret].
  apply yields_then. intros [t|]; [|now apply yields_ret].
  apply yields_then. intros _. apply yields_ret. cbn. now left.
Qed.

Lemma store_ticket_answers e d : yields duplicate_or_stored (store_ticket e d).
Proof.
  unfold store_ticket. apply yields_try.
  - apply yields_then. intros _. now apply yields_ret.
  - intros ex. destruct (_ || _); [|apply yields_throw].
    apply yields_then. intros existing. apply yields_ret. cbn. now right.
Qed.

Lemma azure_create_answers e f : yields duplicate_answer (azure_create e f).
Proof.
  unfold azure_create. apply yields_then. intros [d rca].
  apply yields_then. intros _.
  apply yields_bind with (R' := duplicate_or_stored);
    [apply store_ticket_answers|].
  intros [r|] Hr; [now apply yields_ret|].
  repeat (apply yields_then; intros ?). now apply yields_ret.
Qed.

Lemma databricks_create_answers e f :
  yields duplicate_answer (databricks_create e f).
Proof.
  unfold databricks_create. apply yields_then. intros [d rca].
  apply yields_then. intros _.
  apply yields_bind with (R' := duplicate_or_stored);
    [apply store_ticket_answers|].
  intros [r|] Hr; [now apply yields_ret|].
  repeat (apply yields_then; intros ?). now apply yields_ret.
Qed.

(** Whatever an ingestion endpoint returns is a duplicate answer or None:
    there is no answer that reports a created ticket. *)
Lemma endpoints_answer_duplicates_only e req :
  yields duplicate_answer (azure_monitor e req) /\
  yields duplicate_answer (databricks_monitor e req).
Proof.
  split.
  - unfold azure_monitor.
    destruct (x_api_key req) as [k|]; [|apply yields_throw].
    destruct (k =? RCA_API_KEY e)%string; [|apply yields_throw].
    destruct (json_body req) as [body|]; [|apply yields_throw].
    apply yields_then. intros f.
    apply yields_bind with (R' := duplicate_or_stored);
      [apply duplicate_check_answers|].
    intros [r|] Hr; [now apply yields_ret | apply azure_create_answers].
  - unfold databricks_monitor.
    destruct (json_body req) as [body|]; [|apply yields_throw].
    apply yields_then. intros f.
    apply yields_bind with (R' := duplicate_or_stored);
      [apply duplicate_check_answers|].
    intros [r|] Hr; [now apply yields_ret | apply databricks_create_answers].
Qed.

End AnswerFacts.

(** C9: the code at an event whose INSERT succeeds.  The alert of run
    "run-42" reaches a store without tickets; Jira and Slack succeed.  The
    ticket is stored and stays stored, and the endpoint function returns
    None: the answer has no status and no ticket id.  The same holds of the
    Databricks endpoint, and of a delivery with Jira and Slack out of
    reach: the Jira failure is entered in the ledger, the Slack step
    leaves no entry, the ticket stays, and the answer is None again. *)
Theorem created_ticket_answered_with_nothing :
  let adf := Main.azure_monitor (Scenario.deployment None) Scenario.adf_request
               Scenario.fresh in
  let dbx := Main.databricks_monitor (Scenario.deployment None)
               Scenario.dbx_request Scenario.fresh in
  let out := Main.azure_monitor Scenario.outage Scenario.adf_request
               Scenario.fresh in
  (fst adf = Py.Ok Main.ReturnedNone /\
   map Store.t_id (Store.tickets (snd adf)) = ["ADF-20251103T101500-a1b2c3"]) /\
  (fst dbx = Py.Ok Main.ReturnedNone /\
   map Store.t_id (Store.tickets (snd dbx)) = ["DBX-20251103T101500-a1b2c3"]) /\
  (fst out = Py.Ok Main.ReturnedNone /\
   map Store.t_id (Store.tickets (snd out)) = ["ADF-20251103T101500-a1b2c3"] /\
   map Store.a_action (Store.audit (snd out)) =
     ["Ticket Created"; "Logic App Forwarded"; "Jira Ticket Failed"]).
Proof. cbn zeta. repeat split; reflexivity. Qed.

(** ** The extractors *)

Section ExtractorFacts.
Import Py Re Spec ErrorExtractors.

Lemma get_item (d : list (string * value)) (k : string) :
  get (VDict d) k = Ok (item k d).
Proof. reflexivity. Qed.

Lemma or_else_ok (a : value) (b : result value) :
  or_else (Ok a) b = if truthy a then Ok a else b.
Proof. reflexivity. Qed.

(** The ordered search for the error message is the first truthy of its
    candidates. *)
Lemma adf_error_message_first (p es eo : list (string * value)) :
  adf_error_message (VDict p) (VDict es) (VDict eo) =
  Ok (first_truthy
        [item "message" eo; item "Message" eo; item "ErrorMessage" p;
         item "errorMessage" p; item "detailedMessage" p; item "message" p;
         item "description" es]
        (VStr "ADF pipeline failed. No detailed error message available.")).
Proof.
  unfold adf_error_message. rewrite !get_item, !or_else_ok. cbn [first_truthy].
  repeat (destruct (truthy _); [reflexivity|]). reflexivity.
Qed.

(** The generic Databricks extraction raises nothing on a mapping; its error
    message is the payload's message, else its error_message, else the
    payload as text. *)
Lemma generic_event_total (d : list (string * value)) (event_type : value) :
  _extract_generic_event (VDict d) event_type =
  Ok (first_truthy [item "name" d; item "resource_name" d]
        (VStr "Databricks Resource"),
      first_truthy [item "id" d; item "resource_id" d] (VStr "unknown"),
      event_type,
      first_truthy [item "message" d; item "error_message" d]
        (VStr (str (VDict d))),
      [("event_type", event_type); ("resource_type", VStr "unknown");
       ("raw_payload_keys", keys d)]).
Proof.
  unfold _extract_generic_event. rewrite !get_item, !or_else_ok.
  cbn [first_truthy].
  repeat match goal with
         | |- context [bind (if truthy ?x then _ else _) _] =>
             destruct (truthy x); cbn [bind]
         end; reflexivity.
Qed.

(** An event type that names no job, cluster or library, on a payload
    without "run" and "cluster", goes to the generic extraction. *)
Lemma unrecognized_event_is_generic (d : list (string * value)) (s : string) :
  first_truthy [item "event" d; item "event_type" d] (VStr "unknown") = VStr s ->
  contains "job" (lower s) = false -> lookup "run" d = None ->
  contains "cluster" (lower s) = false -> lookup "cluster" d = None ->
  contains "library" (lower s) = false ->
  dbx_extract (VDict d) = _extract_generic_event (VDict d) (VStr s).
Proof.
  intros He Hj Hr Hc Hk Hl. unfold dbx_extract.
  rewrite !get_item, !or_else_ok.
  replace (if truthy (item "event" d) then Ok (item "event" d)
           else if truthy (item "event_type" d) then Ok (item "event_type" d)
                else Ok (VStr "unknown"))
    with (Ok (first_truthy [item "event" d; item "event_type" d]
                (VStr "unknown")))
    by (cbn [first_truthy]; destruct (truthy _); [|destruct (truthy _)];
        reflexivity).
  rewrite He. cbn [bind]. unfold cond_or, names, py_in.
  cbn [lower_of bind]. rewrite Hj, Hr. cbn [bind].
  rewrite Hc, Hk. cbn [bind]. rewrite Hl. reflexivity.
Qed.

Lemma get_extractor_unknown (tag : string) :
  mem (lower tag) (map fst extractors) = false -> get_extractor tag = None.
Proof.
  unfold get_extractor, mem, extractors. cbn [map fst existsb assoc].
  rewrite !orb_false_iff. intros [H1 [H2 [H3 [H4 [H5 [H6 [H7 _]]]]]]].
  rewrite (String.eqb_sym _ (lower tag)), H1.
  rewrite (String.eqb_sym _ (lower tag)), H2.
  rewrite (String.eqb_sym _ (lower tag)), H3.
  rewrite (String.eqb_sym _ (lower tag)), H4.
  rewrite (String.eqb_sym _ (lower tag)), H5.
  rewrite (String.eqb_sym _ (lower tag)), H6.
  rewrite (String.eqb_sym _ (lower tag)), H7.
  reflexivity.
Qed.

(** *** The ADF extractor on every payload *)

Lemma attribute_only_ok {A : Type} (x : A) : attribute_only (Ok x).
Proof. exact I. Qed.

Lemma attribute_only_get_default (v : value) (k : string) (dflt : value) :
  attribute_only (get_default v k dflt).
Proof. destruct v; cbn; auto. Qed.

Lemma attribute_only_get (v : value) (k : string) : attribute_only (get v k).
Proof. apply attribute_only_get_default. Qed.

Lemma attribute_only_bind {A B : Type} (a : result A) (f : A -> result B) :
  attribute_only a -> (forall x, attribute_only (f x)) ->
  attribute_only (bind a f).
Proof. destruct a as [x|ex]; cbn; auto. Qed.

Lemma attribute_only_or_else (a b : result value) :
  attribute_only a -> attribute_only b -> attribute_only (or_else a b).
Proof.
  intros Ha Hb. unfold or_else. apply attribute_only_bind; [exact Ha|].
  intros x. now destruct (truthy x).
Qed.

Lemma attribute_only_clean (v : value) :
  attribute_only (clean_error_message v).
Proof. destruct v; cbn; auto. Qed.

Lemma attribute_only_message (p es eo : value) :
  attribute_only (adf_error_message p es eo).
Proof.
  unfold adf_error_message.
  repeat (apply attribute_only_or_else; [apply attribute_only_get|]).
  exact I.
Qed.

(** A step that raises nothing but AttributeError, before a rest that
    raises AttributeError whatever the step gives. *)
Lemma bind_raises {A B : Type} (a : result A) (f : A -> result B) :
  attribute_only a -> (forall x, f x = Raise AttributeError) ->
  bind a f = Raise AttributeError.
Proof. destruct a as [x|ex]; cbn; [auto | now intros ->]. Qed.

Lemma or_else_last (a c : value) :
  or_else (Ok a) (Ok c) = Ok (first_truthy [a] c).
Proof. cbn. now destruct (truthy a). Qed.

Lemma data_get_data (d : list (string * value)) (k : string) :
  data_get (VDict d) k = get (adf_data d) k.
Proof. reflexivity. Qed.

Lemma clean_error_message_text (v : value) :
  clean_error_message v =
  match v with
  | VStr s => Ok (VStr (strip_forwarding_envelope s))
  | _ => Raise AttributeError
  end.
Proof. now destruct v. Qed.

Ltac solve_attribute_only :=
  repeat first
    [ exact I
    | apply attribute_only_get
    | apply attribute_only_get_default
    | apply attribute_only_clean
    | apply attribute_only_message
    | apply attribute_only_or_else
    | apply attribute_only_bind; [|intros ?] ].

Ltac raises :=
  repeat first
    [ reflexivity
    | apply bind_raises; [solve [solve_attribute_only] | intros ?] ].

Lemma adf_extract_mapping (d : list (string * value)) :
  adf_extract (VDict d) =
  if adf_descends d then
    match adf_ordered_message d with
    | VStr s =>
        Ok (adf_pipeline_name d, adf_run_id d,
            VStr (strip_forwarding_envelope s), adf_metadata d)
    | _ => Raise AttributeError
    end
  else Raise AttributeError.
Proof.
  unfold adf_extract, adf_descends. rewrite !data_get_data.
  destruct (adf_data d) as [| | | | |dd] eqn:Edata; try reflexivity.
  cbn [is_dict andb].
  assert (Ees : (get (VDict dd) "essentials" orelse
                 get (VDict d) "essentials" orelse Ok empty_dict)%py
                = Ok (adf_essentials d)).
  { unfold adf_essentials. rewrite Edata. rewrite !get_item, !or_else_last.
    reflexivity. }
  assert (Eac : (get (VDict dd) "alertContext" orelse Ok empty_dict)%py
                = Ok (adf_alert_context d)).
  { unfold adf_alert_context. rewrite Edata. rewrite !get_item, !or_else_last.
    reflexivity. }
  rewrite Ees, Eac. cbn [bind].
  destruct (adf_alert_context d) as [| | | | |ac] eqn:Ecx; try reflexivity.
  cbn [is_dict andb].
  assert (Ep : (get_default (VDict ac) "properties" empty_dict orelse
                get_default (VDict d) "properties" empty_dict)%py
               = Ok (adf_properties d)).
  { unfold adf_properties. rewrite Ecx. cbn [get_default fields].
    rewrite or_else_last. reflexivity. }
  rewrite Ep. cbn [bind].
  destruct (adf_properties d) as [| | | | |p] eqn:Eprops; try reflexivity.
  cbn [is_dict andb].
  assert (Eeo : (get (VDict p) "Error" orelse get (VDict p) "error" orelse
                 Ok empty_dict)%py = Ok (adf_error_obj d)).
  { unfold adf_error_obj. rewrite Eprops. rewrite !get_item, !or_else_last.
    reflexivity. }
  assert (Emsg : adf_ordered_message d =
                 first_truthy
                   [item "message" (fields (adf_error_obj d));
                    item "Message" (fields (adf_error_obj d));
                    item "ErrorMessage" p; item "errorMessage" p;
                    item "detailedMessage" p; item "message" p;
                    item "description" (fields (adf_essentials d))]
                   (VStr "ADF pipeline failed. No detailed error message available.")).
  { unfold adf_ordered_message. now rewrite Eprops. }
  assert (Ename : adf_pipeline_name d =
                  first_truthy
                    [item "PipelineName" p; item "pipelineName" p;
                     item "alertRule" (fields (adf_essentials d));
                     item "pipelineName" (fields (adf_essentials d))]
                    (VStr "ADF Pipeline")).
  { unfold adf_pipeline_name. now rewrite Eprops. }
  assert (Erun : adf_run_id d =
                 first_truthy
                   [item "PipelineRunId" p; item "pipelineRunId" p;
                    item "RunId" p; item "runId" p]
                   (item "alertId" (fields (adf_essentials d)))).
  { unfold adf_run_id. now rewrite Eprops. }
  assert (Emeta : adf_metadata d =
                  [("activity_name",
                    first_truthy [item "ActivityName" p] (item "activityName" p));
                   ("activity_type",
                    first_truthy [item "ActivityType" p] (item "activityType" p));
                   ("error_code",
                    first_truthy
                      [item "errorCode" (fields (adf_error_obj d));
                       item "ErrorCode" p]
                      (item "errorCode" p));
                   ("failure_type",
                    first_truthy
                      [item "failureType" (fields (adf_error_obj d))]
                      (item "FailureType" (fields (adf_error_obj d))));
                   ("severity", item "severity" (fields (adf_essentials d)));
                   ("fired_time",
                    item "firedDateTime" (fields (adf_essentials d)))]).
  { unfold adf_metadata. now rewrite Eprops. }
  rewrite Emsg, Ename, Erun, Emeta. clear Emsg Ename Erun Emeta.
  destruct (adf_error_obj d) as [| | | | |eo] eqn:Eobj;
    try (cbn [is_dict andb];
         apply bind_raises; [solve [solve_attribute_only] | intros name];
         apply bind_raises; [solve [solve_attribute_only] | intros rid];
         rewrite Eeo; reflexivity).
  cbn [is_dict andb].
  destruct (adf_essentials d) as [| | | | |es] eqn:Eess;
    try (apply bind_raises; [solve [solve_attribute_only] | intros name];
         apply bind_raises; [solve [solve_attribute_only] | intros rid];
         rewrite Eeo; cbn [bind]; raises).
  cbn [fields].
  rewrite !get_item, !or_else_last. cbn [bind].
  assert (Eo : first_truthy [item "Error" p]
                 (first_truthy [item "error" p] empty_dict) = VDict eo).
  { rewrite <- Eobj. unfold adf_error_obj. now rewrite Eprops. }
  rewrite Eo. rewrite adf_error_message_first. cbn [bind].
  rewrite clean_error_message_text, !get_item, !or_else_last.
  destruct (first_truthy
              [item "message" eo; item "Message" eo; item "ErrorMessage" p;
               item "errorMessage" p; item "detailedMessage" p;
               item "message" p; item "description" es]
              (VStr "ADF pipeline failed. No detailed error message available."));
    reflexivity.
Qed.

(** On every payload: the ADF extractor raises AttributeError when the
    payload, or a value it goes into, is no mapping, or the error message
    it selects is no text; else it returns the selected fields, the error
    message being the first non-empty of the ordered fields after the
    clean-up of the forwarding envelope. *)
Lemma adf_extract_every (payload : value) :
  adf_extract payload =
  match payload with
  | VDict d =>
      if adf_descends d then
        match adf_ordered_message d with
        | VStr s =>
            Ok (adf_pipeline_name d, adf_run_id d,
                VStr (strip_forwarding_envelope s), adf_metadata d)
        | _ => Raise AttributeError
        end
      else Raise AttributeError
  | _ => Raise AttributeError
  end.
Proof.
  destruct payload as [| | | | |d]; try reflexivity.
  apply adf_extract_mapping.
Qed.

(** The Databricks extractor lower-cases the event type it selects. *)
Lemma dbx_extract_event_type (payload : value) :
  match payload with
  | VDict d =>
      is_str (first_truthy [item "event" d; item "event_type" d]
                (VStr "unknown")) = false ->
      dbx_extract payload = Raise AttributeError
  | _ => dbx_extract payload = Raise AttributeError
  end.
Proof.
  destruct payload as [| | | | |d]; try reflexivity.
  unfold dbx_extract. rewrite !get_item, !or_else_last.
  change (first_truthy [item "event" d]
            (first_truthy [item "event_type" d] (VStr "unknown")))
    with (first_truthy [item "event" d; item "event_type" d] (VStr "unknown")).
  destruct (first_truthy [item "event" d; item "event_type" d] (VStr "unknown"));
    (discriminate || reflexivity).
Qed.


(** *** The extraction of [azure_monitor] *)


End ExtractorFacts.

(** C8 (as amended).  The extractors catch nothing.
    - On every payload the ADF extractor either returns or raises
      AttributeError.  It returns when the payload is a mapping, every
      value it goes into (the data of the payload, and the essentials, the
      alert context, the properties and the error object it selects) is a
      mapping, and the error message it selects is text; what it returns
      then is the selected fields, the error message being the first
      non-empty of Error.message, Error.Message, ErrorMessage,
      errorMessage, detailedMessage, message, essentials.description, else
      the fixed text, after the clean-up of the forwarding envelope.  On
      every other payload it raises AttributeError.
    - The generic Databricks extraction raises nothing on any mapping, and
      its error message is message, else error_message, else the whole
      payload as text.
    - An event type that names no job, cluster or library, on a payload
      without "run" and "cluster" keys, gets the generic extraction.
    - The Databricks extractor raises AttributeError on a payload that is
      no mapping, and on a mapping whose selected event type is no text.
    - [get_extractor] has no extractor for a source tag that is not one of
      its seven: it returns None. *)
Theorem extraction_of_every_payload :
  (forall payload,
      ErrorExtractors.adf_extract payload =
      match payload with
      | Py.VDict d =>
          if Spec.adf_descends d then
            match Spec.adf_ordered_message d with
            | Py.VStr s =>
                Py.Ok (Spec.adf_pipeline_name d, Spec.adf_run_id d,
                       Py.VStr (Re.strip_forwarding_envelope s),
                       Spec.adf_metadata d)
            | _ => Py.Raise Py.AttributeError
            end
          else Py.Raise Py.AttributeError
      | _ => Py.Raise Py.AttributeError
      end) /\
  (forall d event_type,
      ErrorExtractors._extract_generic_event (Py.VDict d) event_type =
      Py.Ok (Spec.first_truthy
               [Spec.item "name" d; Spec.item "resource_name" d]
               (Py.VStr "Databricks Resource"),
             Spec.first_truthy [Spec.item "id" d; Spec.item "resource_id" d]
               (Py.VStr "unknown"),
             event_type,
             Spec.first_truthy
               [Spec.item "message" d; Spec.item "error_message" d]
               (Py.VStr (Py.str (Py.VDict d))),
             [("event_type", event_type);
              ("resource_type", Py.VStr "unknown");
              ("raw_payload_keys", Py.keys d)])) /\
  (forall d s,
      Spec.first_truthy [Spec.item "event" d; Spec.item "event_type" d]
        (Py.VStr "unknown") = Py.VStr s ->
      Py.contains "job" (Py.lower s) = false -> Py.lookup "run" d = None ->
      Py.contains "cluster" (Py.lower s) = false ->
      Py.lookup "cluster" d = None ->
      Py.contains "library" (Py.lower s) = false ->
      ErrorExtractors.dbx_extract (Py.VDict d)
      = ErrorExtractors._extract_generic_event (Py.VDict d) (Py.VStr s)) /\
  (forall payload,
      match payload with
      | Py.VDict d =>
          Py.is_str (Spec.first_truthy
                       [Spec.item "event" d; Spec.item "event_type" d]
                       (Py.VStr "unknown")) = false ->
          ErrorExtractors.dbx_extract payload = Py.Raise Py.AttributeError
      | _ => ErrorExtractors.dbx_extract payload = Py.Raise Py.AttributeError
      end) /\
  (forall tag,
      Spec.mem (Py.lower tag) (map fst ErrorExtractors.extractors) = false ->
      ErrorExtractors.get_extractor tag = None).
Proof.
  split; [exact adf_extract_every|].
  split; [exact generic_event_total|].
  split; [exact unrecognized_event_is_generic|].
  split; [exact dbx_extract_event_type | exact get_extractor_unknown].
Qed.

Lemma extraction_of_every_payload_witness :
  ErrorExtractors.adf_extract Scenario.adf_alert
  = Py.Ok (Py.VStr "sales_load", Py.VNone, Py.VStr "Copy activity failed",
           [("activity_name", Py.VNone); ("activity_type", Py.VNone);
            ("error_code", Py.VNone); ("failure_type", Py.VNone);
            ("severity", Py.VNone); ("fired_time", Py.VNone)]) /\
  ErrorExtractors.adf_extract
    (Py.VDict [("essentials", Py.VStr "Sev1");
               ("properties",
                Py.VDict [("PipelineName", Py.VStr "sales_load");
                          ("PipelineRunId", Py.VStr "run-42");
                          ("ErrorMessage", Py.VStr "Copy activity failed")])])
  = Py.Raise Py.AttributeError /\
  ErrorExtractors.dbx_extract
    (Py.VDict [("event", Py.VStr "workspace.alert"); ("code", Py.VInt 7)])
  = ErrorExtractors._extract_generic_event
      (Py.VDict [("event", Py.VStr "workspace.alert"); ("code", Py.VInt 7)])
      (Py.VStr "workspace.alert") /\
  ErrorExtractors.dbx_extract (Py.VDict [("event_type", Py.VList [Py.VInt 7])])
  = Py.Raise Py.AttributeError /\
  ErrorExtractors.get_extractor "Kafka" = None.
Proof.
  split; [|split; [|split; [|split]]].
  - exact (proj1 extraction_of_every_payload Scenario.adf_alert).
  - exact (proj1 extraction_of_every_payload
             (Py.VDict [("essentials", Py.VStr "Sev1");
                        ("properties",
                         Py.VDict [("PipelineName", Py.VStr "sales_load");
                                   ("PipelineRunId", Py.VStr "run-42");
                                   ("ErrorMessage",
                                    Py.VStr "Copy activity failed")])])).
  - exact (proj1 (proj2 (proj2 extraction_of_every_payload))
             [("event", Py.VStr "workspace.alert"); ("code", Py.VInt 7)]
             "workspace.alert" eq_refl eq_refl eq_refl eq_refl eq_refl eq_refl).
  - exact (proj1 (proj2 (proj2 (proj2 extraction_of_every_payload)))
             (Py.VDict [("event_type", Py.VList [Py.VInt 7])]) eq_refl).
  - exact (proj2 (proj2 (proj2 (proj2 extraction_of_every_payload)))
             "Kafka" eq_refl).
Defined.

(** C8, the claim as written, fails: a number where the error message is
    expected, a null where the alert data is expected and a number for the
    event type each make an extractor raise AttributeError; and an
    unrecognized source tag gets no extractor at all. *)
Lemma extractors_raise_on_malformed_payloads :
  ErrorExtractors.adf_extract
    (Py.VDict [("properties", Py.VDict [("ErrorMessage", Py.VInt 42)])])
  = Py.Raise Py.AttributeError /\
  ErrorExtractors.adf_extract (Py.VDict [("data", Py.VNone)])
  = Py.Raise Py.AttributeError /\
  ErrorExtractors.dbx_extract (Py.VDict [("event", Py.VInt 7)])
  = Py.Raise Py.AttributeError /\
  ErrorExtractors.get_extractor "kafka" = None.
Proof. repeat split; reflexivity. Qed.




Example envelope_empty_message :
  Re.strip_forwarding_envelope ("ErrorMessage=" ++ "" ++ "Forwarded to RCA system")
  = "ErrorMessage=Forwarded to RCA system".
Proof. reflexivity. Qed.

Example envelope_second_marker :
  Re.strip_forwarding_envelope
    ("ErrorMessage=" ++ "disk full " ++ "Forwarded to RCA system" ++
     " (forwarded to RCA system by the Logic App)")
  = "disk full Forwarded to RCA system (".
Proof. reflexivity. Qed.

Example envelope_in_adf_payload :
  ErrorExtractors.adf_extract
    (Py.VDict
       [("properties",
         Py.VDict [("ErrorMessage",
                    Py.VStr "ErrorMessage='Blob missing' Forwarded to RCA system")])])
  = Py.Ok (Py.VStr "ADF Pipeline", Py.VNone, Py.VStr "Blob missing",
           [("activity_name", Py.VNone); ("activity_type", Py.VNone);
            ("error_code", Py.VNone); ("failure_type", Py.VNone);
            ("severity", Py.VNone); ("fired_time", Py.VNone)]).
Proof. reflexivity. Qed.

(* ================================================================== *)
(** * Further properties *)
(* ================================================================== *)

(** ** The playbook call and its retries *)

Section PostFacts.
Import Py Store AutoRemediation Notions.
Local Open Scope list_scope.

Lemma posted_more (url : string) (payload : value) (n : nat) (w : World) :
  posted url payload n
    {| tickets := tickets w; audit := audit w;
       calls := calls w ++ [PlaybookPost url payload] |}
  = posted url payload (S n) w.
Proof.
  unfold posted. cbn [tickets audit calls]. f_equal.
  now rewrite <- app_assoc.
Qed.

Lemma post_attempts_run e url payload retries remaining :
  forall attempt w,
    (attempt + remaining = retries)%nat -> (0 < remaining)%nat ->
    http_post_attempts e url payload retries attempt remaining w =
    match first_passing (post e) attempt remaining with
    | Some i => (Ok (returned (post e i)), posted url payload (S i - attempt) w)
    | None => (Raise RequestException, posted url payload remaining w)
    end.
Proof.
  induction remaining as [|remaining IH]; intros attempt w Hsum Hpos; [lia|].
  cbn [http_post_attempts first_passing].
  unfold bindM at 1. cbn [emit].
  assert (Hlast : (attempt <? retries - 1)%nat = negb (remaining =? 0)%nat).
  { destruct (Nat.ltb_spec attempt (retries - 1));
      destruct (Nat.eqb_spec remaining 0); cbn; try reflexivity; lia. }
  assert (Hfail :
    (if (attempt <? retries - 1)%nat
     then http_post_attempts e url payload retries (S attempt) remaining
     else throw RequestException)
      {| tickets := tickets w; audit := audit w;
         calls := calls w ++ [PlaybookPost url payload] |} =
    match first_passing (post e) (S attempt) remaining with
    | Some i => (Ok (returned (post e i)), posted url payload (S i - attempt) w)
    | None => (Raise RequestException, posted url payload (S remaining) w)
    end).
  { rewrite Hlast. destruct remaining as [|remaining'].
    - cbn. unfold throw, posted. cbn. reflexivity.
    - cbn [Nat.eqb negb]. rewrite IH by lia.
      destruct (first_passing (post e) (S attempt) (S remaining')) as [i|] eqn:E.
      + rewrite posted_more. do 2 f_equal.
        assert (S attempt <= i)%nat; [|lia].
        clear - E. revert E. generalize (S remaining'). generalize (S attempt).
        intros a n; revert a; induction n as [|n IHn]; intros a; cbn;
          [discriminate|].
        destruct (passes (post e a)); [intros [= <-]; lia|].
        intros H. apply IHn in H. lia.
      + now rewrite posted_more. }
  unfold passes at 1.
  destruct (post e attempt) as [status body text|] eqn:Ep.
  - destruct ((400 <=? status)%Z && (status <? 600)%Z); cbn [negb].
    + exact Hfail.
    + unfold ret. rewrite Ep. cbn [returned].
      replace (S attempt - attempt)%nat with 1%nat by lia. reflexivity.
  - exact Hfail.
Qed.

Lemma first_passing_spec (post : nat -> post_outcome) (n : nat) :
  forall a,
    match first_passing post a n with
    | Some i => (a <= i < a + n)%nat /\ passes (post i) = true
    | None => forall i, (a <= i < a + n)%nat -> passes (post i) = false
    end.
Proof.
  induction n as [|n IH]; intros a; cbn [first_passing]; [lia|].
  destruct (passes (post a)) eqn:E.
  - split; [lia | exact E].
  - specialize (IH (S a)).
    destruct (first_passing post (S a) n).
    + destruct IH; split; [lia | assumption].
    + intros i Hi. destruct (Nat.eq_dec i a) as [->|]; [exact E|].
      apply IH. lia.
Qed.

End PostFacts.

(** [_http_post_with_retries] of auto_remediation.py, for [retries] of at
    least one: it posts until an answer is neither a 4xx nor a 5xx and
    returns that answer, having posted once per attempt up to it; if none of
    the [retries] answers passes, it raises the request exception after
    exactly [retries] posts.  It never posts more than [retries] times and
    never returns without an answer. *)
Theorem playbook_post_retries (e : AutoRemediation.env) (url : string)
  (payload : Py.value) (retries : nat) (w : Store.World) :
  (0 < retries)%nat ->
  match Notions.first_passing (AutoRemediation.post e) 0 retries with
  | Some i =>
      (i < retries)%nat /\
      Notions.passes (AutoRemediation.post e i) = true /\
      AutoRemediation._http_post_with_retries e url payload retries w =
      (Py.Ok (Notions.returned (AutoRemediation.post e i)),
       Notions.posted url payload (S i) w) /\
      Notions.returned (AutoRemediation.post e i) <> None
  | None =>
      (forall i, (i < retries)%nat ->
                 Notions.passes (AutoRemediation.post e i) = false) /\
      AutoRemediation._http_post_with_retries e url payload retries w =
      (Py.Raise Py.RequestException, Notions.posted url payload retries w)
  end.
Proof.
  intros Hpos. unfold AutoRemediation._http_post_with_retries.
  rewrite (post_attempts_run e url payload retries retries 0 w) by lia.
  pose proof (first_passing_spec (AutoRemediation.post e) retries 0) as Hspec.
  destruct (Notions.first_passing (AutoRemediation.post e) 0 retries) as [i|].
  - destruct Hspec as [Hi Hp].
    split; [lia|]. split; [exact Hp|]. split; [reflexivity|].
    unfold Notions.passes in Hp.
    destruct (AutoRemediation.post e i); [discriminate | discriminate].
  - split; [|reflexivity]. intros i Hi. apply Hspec. lia.
Qed.

Lemma playbook_post_retries_witness :
  AutoRemediation._http_post_with_retries
    {| AutoRemediation.getenv := Scenario.configured;
       AutoRemediation.post :=
         fun n => if (n <? 2)%nat
                  then AutoRemediation.Responded 502 (Py.Raise Py.TypeError)
                         "Bad Gateway"
                  else AutoRemediation.Responded 200 (Py.Ok (Py.VDict [])) "{}";
       AutoRemediation.utcnow := "2025-11-03T10:15:00";
       AutoRemediation.statement := "" |}
    "https://playbooks.example/retry" Py.VNone 3 Scenario.fresh =
  (Py.Ok (Some (200%Z, Py.Ok (Py.VDict []), "{}")),
   Notions.posted "https://playbooks.example/retry" Py.VNone 3 Scenario.fresh).
Proof.
  exact (proj1 (proj2 (proj2
           (playbook_post_retries
              {| AutoRemediation.getenv := Scenario.configured;
                 AutoRemediation.post :=
                   fun n => if (n <? 2)%nat
                            then AutoRemediation.Responded 502
                                   (Py.Raise Py.TypeError) "Bad Gateway"
                            else AutoRemediation.Responded 200
                                   (Py.Ok (Py.VDict [])) "{}";
                 AutoRemediation.utcnow := "2025-11-03T10:15:00";
                 AutoRemediation.statement := "" |}
              "https://playbooks.example/retry" Py.VNone 3 Scenario.fresh
              ltac:(lia))))).
Defined.

Section TriggerFacts.
Import Py Store Spec AutoRemediation Notions.
Local Open Scope list_scope.
Local Open Scope Z_scope.

Lemma log_audit_ok (suffix : string) (g : audit_args) (w : World) :
  fst (log_audit suffix g w) = Ok tt.
Proof.
  unfold log_audit, try_except, bindM, lift.
  destruct (audit_row suffix g); reflexivity.
Qed.

Lemma new_run_id_get (result : list (string * value)) :
  (get (VDict result) "new_run_id" orelse get (VDict result) "run_id")%py
  = Ok (new_run_id_of result).
Proof.
  unfold new_run_id_of, first_truthy, or_else, get, get_default, bind, item.
  destruct (truthy _); reflexivity.
Qed.

(** The playbook call at an answer 200 whose body is a JSON object. *)
Lemma trigger_answered_200 e ticket_id pt url payload run_id w i result text c :
  first_passing (post e) 0 3 = Some i ->
  post e i = Responded 200 (Ok (VDict result)) text ->
  bind_text (statement e)
    (if truthy (new_run_id_of result) then new_run_id_of result else run_id)
  = Ok c ->
  trigger_playbook e ticket_id pt url payload run_id w =
  let w1 :=
    {| tickets := tickets w;
       audit := audit w ++
                [succeeded_entry ticket_id c pt (new_run_id_of result) result];
       calls := calls w ++ repeat (PlaybookPost url payload) (S i) |} in
  if truthy (new_run_id_of result) && truthy run_id &&
     differs (new_run_id_of result) run_id
  then
    match update_run_id e ticket_id (new_run_id_of result) w1 with
    | (Ok _, w2) => (Ok true, w2)
    | (Raise ex, w2) =>
        (Ok false,
         snd (log_audit (statement e)
                (remediation_audit ticket_id "Auto-Remediation Failed" run_id
                   ("Exception: " ++ str_of_exn ex)) w2))
    end
  else (Ok true, w1).
Proof.
  intros Hi Hp Hb. unfold trigger_playbook, try_except.
  unfold bindM at 1. unfold _http_post_with_retries.
  rewrite (post_attempts_run e url payload 3 3 0 w) by lia.
  rewrite Hi, Hp. cbn [returned]. cbn [Z.eqb Pos.eqb].
  unfold bindM at 1. unfold lift at 1.
  rewrite new_run_id_get.
  unfold bindM at 1. unfold lift at 1.
  unfold bindM at 1.
  rewrite (log_remediation _ _ _ _ _ _ _ Hb).
  replace (S i - 0)%nat with (S i) by lia.
  cbn zeta. unfold posted. cbn [tickets audit calls].
  destruct (truthy (new_run_id_of result) && truthy run_id &&
            differs (new_run_id_of result) run_id).
  - unfold bindM at 1.
    destruct (update_run_id e ticket_id (new_run_id_of result) _)
      as [[u|ex] w2]; [reflexivity|].
    unfold bindM.
    destruct (log_audit _ _ w2) as [[u|ex'] w3] eqn:El; cbn [snd].
    + reflexivity.
    + pose proof (log_audit_ok (statement e)
                    (remediation_audit ticket_id "Auto-Remediation Failed" run_id
                       ("Exception: " ++ str_of_exn ex)) w2) as H.
      rewrite El in H. discriminate H.
  - reflexivity.
Qed.

Lemma count_attempts_one (c : cell) (a : AuditEntry) :
  count_attempts c [a] = if is_attempt_for c a then 1 else 0.
Proof. unfold count_attempts. cbn [filter]. now destruct (is_attempt_for c a). Qed.

Lemma update_run_id_free e ticket_id new_run_id r w :
  bind_text (statement e) new_run_id = Ok r ->
  held_by_another ticket_id r (tickets w) = false ->
  update_run_id e ticket_id new_run_id w =
  (Ok tt, {| tickets := handed_over ticket_id r (tickets w);
             audit := audit w; calls := calls w |}).
Proof.
  intros Hb Hh. unfold update_run_id, bindM, lift, get_world.
  rewrite Hb. fold (held_by_another ticket_id r (tickets w)). rewrite Hh.
  rewrite andb_false_r. reflexivity.
Qed.

Lemma update_run_id_taken e ticket_id new_run_id r w :
  bind_text (statement e) new_run_id = Ok r ->
  id_taken ticket_id (tickets w) = true ->
  held_by_another ticket_id r (tickets w) = true ->
  update_run_id e ticket_id new_run_id w =
  (Raise (run_id_violation (statement e)), w).
Proof.
  intros Hb Hi Hh. unfold update_run_id, bindM, lift, get_world.
  rewrite Hb. fold (held_by_another ticket_id r (tickets w)).
  rewrite Hh, Hi. reflexivity.
Qed.

Lemma owner_handed_over_old ticket_id r r' ts :
  r' <> r ->
  (forall t, In t ts -> t_run_id t = Some r -> t_id t = ticket_id) ->
  owner r (handed_over ticket_id (Some r') ts) = None.
Proof.
  intros Hne Hall. unfold owner, handed_over.
  induction ts as [|t ts IH]; [reflexivity|]. cbn [map find].
  destruct (String.eqb_spec (t_id t) ticket_id) as [E|E].
  - cbn [with_run_id t_run_id cell_eqb].
    destruct (String.eqb_spec r' r); [contradiction|].
    apply IH. intros t' Hin. apply Hall. now right.
  - destruct (t_run_id t) as [x|] eqn:Ex; cbn [cell_eqb].
    + destruct (String.eqb_spec x r) as [->|].
      * exfalso. apply E. apply Hall; [now left | exact Ex].
      * apply IH. intros t' Hin. apply Hall. now right.
    + apply IH. intros t' Hin. apply Hall. now right.
Qed.

Lemma owner_handed_over_new ticket_id r' ts :
  held_by_another ticket_id (Some r') ts = false ->
  owner r' (handed_over ticket_id (Some r') ts) =
  option_map (with_run_id (Some r'))
    (find (fun t => (t_id t =? ticket_id)%string) ts).
Proof.
  unfold owner, handed_over, held_by_another.
  induction ts as [|t ts IH]; [reflexivity|]. cbn [map find existsb].
  intros H. apply orb_false_elim in H as [Ht Hts].
  destruct (String.eqb_spec (t_id t) ticket_id) as [E|E].
  - cbn [with_run_id t_run_id cell_eqb]. now rewrite String.eqb_refl.
  - cbn [negb andb] in Ht. rewrite Ht. now apply IH.
Qed.

End TriggerFacts.

(** When the playbook answers 200 with a new run id that no other ticket
    holds, the evaluation returns True, the ticket's run id becomes the new
    one, and the ledger gets an "Attempted" entry under the old run id and
    a "Succeeded" entry under the new one.  The count of attempts of the
    new run id is what it was, so the ceiling starts over; and once the
    ticket was the only one under the old run id, that run id has no owner
    any more. *)
Theorem run_id_handed_over (e : AutoRemediation.env) (ticket_id k : string)
  (cfg : AutoRemediation.config) (d : list (string * Py.value))
  (run_id : Py.value) (r r' url : string) (w : Store.World) (i : nat)
  (result : list (string * Py.value)) (text : string) :
  AutoRemediation.get_error_config k = Some cfg ->
  AutoRemediation.get_playbook_url e k = Some url -> url <> "" ->
  Py.lookup "run_id" d = Some run_id -> Py.truthy run_id = true ->
  Store.bind_text (AutoRemediation.statement e) run_id = Py.Ok (Some r) ->
  (Store.count_attempts (Some r) (Store.audit w)
   < AutoRemediation.max_retries cfg)%Z ->
  Notions.first_passing (AutoRemediation.post e) 0 3 = Some i ->
  AutoRemediation.post e i
  = AutoRemediation.Responded 200 (Py.Ok (Py.VDict result)) text ->
  Py.truthy (Notions.new_run_id_of result) = true ->
  Store.bind_text (AutoRemediation.statement e) (Notions.new_run_id_of result)
  = Py.Ok (Some r') ->
  AutoRemediation.differs (Notions.new_run_id_of result) run_id = true ->
  r' <> r ->
  Notions.held_by_another ticket_id (Some r') (Store.tickets w) = false ->
  let out :=
    AutoRemediation.attempt_auto_remediation e ticket_id k (Py.VDict d) w in
  fst out = Py.Ok true /\
  Store.tickets (snd out)
  = Notions.handed_over ticket_id (Some r') (Store.tickets w) /\
  (exists attempted,
      Store.a_action attempted = "Auto-Remediation Attempted" /\
      Store.a_run_id attempted = Some r /\
      Store.audit (snd out) =
      (Store.audit w ++
       [attempted;
        Notions.succeeded_entry ticket_id (Some r')
          (AutoRemediation.playbook_type cfg) (Notions.new_run_id_of result)
          result])%list) /\
  Store.count_attempts (Some r') (Store.audit (snd out))
  = Store.count_attempts (Some r') (Store.audit w) /\
  Spec.owner r' (Store.tickets (snd out))
  = option_map (Store.with_run_id (Some r'))
      (find (fun t => Store.t_id t =? ticket_id) (Store.tickets w)) /\
  ((forall t, In t (Store.tickets w) -> Store.t_run_id t = Some r ->
              Store.t_id t = ticket_id) ->
   Spec.owner r (Store.tickets (snd out)) = None).
Proof.
  intros Hk Hu Hne Hl Ht Hb Hlt Hi Hp Htn Hbn Hd Hrr Hh out.
  assert (Hget : Py.get (Py.VDict d) "run_id" = Py.Ok run_id).
  { unfold Py.get, Py.get_default. now rewrite Hl. }
  unfold out.
  rewrite (attempt_configured e ticket_id k cfg (Py.VDict d) run_id (Some r) url w
             Hk Hu Hne Hget Hb).
  unfold Spec.current_attempt. rewrite Ht. cbn zeta. cbn [andb].
  destruct (Z.geb_spec (Store.count_attempts (Some r) (Store.audit w))
              (AutoRemediation.max_retries cfg)) as [|_]; [lia|].
  destruct (backoff_delay_clamps (AutoRemediation.backoff_seconds cfg)
              (Store.count_attempts (Some r) (Store.audit w))
              (schedules_nonempty k cfg Hk) (count_attempts_nonneg _ _))
    as [delay [Hdelay _]].
  rewrite Hdelay.
  erewrite trigger_answered_200; [|exact Hi | exact Hp | rewrite Htn; exact Hbn].
  cbn zeta. rewrite Htn, Ht, Hd. cbn [andb].
  rewrite (update_run_id_free e ticket_id _ (Some r')) by assumption.
  cbn [fst snd Store.tickets Store.audit Store.calls].
  split; [reflexivity|]. split; [reflexivity|]. split.
  - eexists. split; [|split; [|rewrite <- app_assoc; reflexivity]]; reflexivity.
  - split.
    + rewrite !count_attempts_app, !count_attempts_one.
      unfold Store.is_attempt_for.
      cbn [Spec.attempted_entry Notions.succeeded_entry Store.a_run_id
           Store.a_action Store.cell_eqb].
      destruct (String.eqb_spec r r') as [E|_]; [congruence|].
      cbn [andb]. rewrite andb_false_r. lia.
    + split; [now apply owner_handed_over_new|].
      intros Hall. now apply owner_handed_over_old.
Qed.

Lemma run_id_handed_over_witness :
  let out :=
    AutoRemediation.attempt_auto_remediation
      (Scenario.engine Scenario.configured) "ADF-1" "GatewayTimeout"
      Scenario.run_42 (Scenario.holding [Scenario.ticket "ADF-1" "run-42"]) in
  fst out = Py.Ok true /\
  Store.tickets (snd out) = [Scenario.ticket "ADF-1" "run-43"] /\
  Spec.owner "run-42" (Store.tickets (snd out)) = None.
Proof.
  pose proof (run_id_handed_over (Scenario.engine Scenario.configured) "ADF-1"
                "GatewayTimeout" _ [("run_id", Py.VStr "run-42")]
                (Py.VStr "run-42") "run-42" "run-43"
                "https://playbooks.example/retry"
                (Scenario.holding [Scenario.ticket "ADF-1" "run-42"]) 0
                [("new_run_id", Py.VStr "run-43")] "ok"
                eq_refl eq_refl ltac:(discriminate) eq_refl eq_refl eq_refl
                ltac:(cbv; reflexivity) eq_refl eq_refl eq_refl eq_refl eq_refl
                ltac:(discriminate) eq_refl) as [H1 [H2 [_ [_ [_ H6]]]]].
  split; [exact H1|]. split; [exact H2|].
  apply H6. intros t [<-|[]] _. reflexivity.
Defined.

(** When the new run id is already held by another ticket, the UPDATE of
    the ticket fails on the unique index after the success was recorded:
    the evaluation returns False, the tickets stay as they were, and the
    ledger holds "Attempted", "Succeeded" and then "Failed" for the one
    evaluation. *)
Theorem new_run_id_collision (e : AutoRemediation.env) (ticket_id k : string)
  (cfg : AutoRemediation.config) (d : list (string * Py.value))
  (run_id : Py.value) (r r' url : string) (w : Store.World) (i : nat)
  (result : list (string * Py.value)) (text : string) :
  AutoRemediation.get_error_config k = Some cfg ->
  AutoRemediation.get_playbook_url e k = Some url -> url <> "" ->
  Py.lookup "run_id" d = Some run_id -> Py.truthy run_id = true ->
  Store.bind_text (AutoRemediation.statement e) run_id = Py.Ok (Some r) ->
  (Store.count_attempts (Some r) (Store.audit w)
   < AutoRemediation.max_retries cfg)%Z ->
  Notions.first_passing (AutoRemediation.post e) 0 3 = Some i ->
  AutoRemediation.post e i
  = AutoRemediation.Responded 200 (Py.Ok (Py.VDict result)) text ->
  Py.truthy (Notions.new_run_id_of result) = true ->
  Store.bind_text (AutoRemediation.statement e) (Notions.new_run_id_of result)
  = Py.Ok (Some r') ->
  AutoRemediation.differs (Notions.new_run_id_of result) run_id = true ->
  Store.id_taken ticket_id (Store.tickets w) = true ->
  Notions.held_by_another ticket_id (Some r') (Store.tickets w) = true ->
  let out :=
    AutoRemediation.attempt_auto_remediation e ticket_id k (Py.VDict d) w in
  fst out = Py.Ok false /\
  Store.tickets (snd out) = Store.tickets w /\
  exists attempted,
    Store.a_action attempted = "Auto-Remediation Attempted" /\
    Store.audit (snd out) =
    (Store.audit w ++
     [attempted;
      Notions.succeeded_entry ticket_id (Some r')
        (AutoRemediation.playbook_type cfg) (Notions.new_run_id_of result)
        result;
      Notions.failed_entry ticket_id (Some r)
        ("Exception: " ++
         Store.str_of_exn
           (Spec.run_id_violation (AutoRemediation.statement e)))])%list.
Proof.
  intros Hk Hu Hne Hl Ht Hb Hlt Hi Hp Htn Hbn Hd Hid Hh out.
  assert (Hget : Py.get (Py.VDict d) "run_id" = Py.Ok run_id).
  { unfold Py.get, Py.get_default. now rewrite Hl. }
  unfold out.
  rewrite (attempt_configured e ticket_id k cfg (Py.VDict d) run_id (Some r) url w
             Hk Hu Hne Hget Hb).
  unfold Spec.current_attempt. rewrite Ht. cbn zeta. cbn [andb].
  destruct (Z.geb_spec (Store.count_attempts (Some r) (Store.audit w))
              (AutoRemediation.max_retries cfg)) as [|_]; [lia|].
  destruct (backoff_delay_clamps (AutoRemediation.backoff_seconds cfg)
              (Store.count_attempts (Some r) (Store.audit w))
              (schedules_nonempty k cfg Hk) (count_attempts_nonneg _ _))
    as [delay [Hdelay _]].
  rewrite Hdelay.
  erewrite trigger_answered_200; [|exact Hi | exact Hp | rewrite Htn; exact Hbn].
  cbn zeta. rewrite Htn, Ht, Hd. cbn [andb].
  rewrite (update_run_id_taken e ticket_id _ (Some r')) by assumption.
  rewrite (log_remediation _ _ _ _ _ _ _ Hb).
  cbn [fst snd Store.tickets Store.audit Store.calls].
  split; [reflexivity|]. split; [reflexivity|].
  eexists. split; [|rewrite <- !app_assoc; reflexivity]. reflexivity.
Qed.

Lemma new_run_id_collision_witness :
  let w := Scenario.holding [Scenario.ticket "ADF-1" "run-42";
                             Scenario.ticket "ADF-2" "run-43"] in
  let out :=
    AutoRemediation.attempt_auto_remediation
      (Scenario.engine Scenario.configured) "ADF-1" "GatewayTimeout"
      Scenario.run_42 w in
  fst out = Py.Ok false /\ Store.tickets (snd out) = Store.tickets w.
Proof.
  pose proof (new_run_id_collision (Scenario.engine Scenario.configured) "ADF-1"
                "GatewayTimeout" _ [("run_id", Py.VStr "run-42")]
                (Py.VStr "run-42") "run-42" "run-43"
                "https://playbooks.example/retry"
                (Scenario.holding [Scenario.ticket "ADF-1" "run-42";
                                   Scenario.ticket "ADF-2" "run-43"]) 0
                [("new_run_id", Py.VStr "run-43")] "ok"
                eq_refl eq_refl ltac:(discriminate) eq_refl eq_refl eq_refl
                ltac:(cbv; reflexivity) eq_refl eq_refl eq_refl eq_refl eq_refl
                eq_refl eq_refl) as [H1 [H2 _]].
  split; [exact H1 | exact H2].
Defined.

Section TotalFacts.
Import Py Store Spec AutoRemediation Notions.
Local Open Scope list_scope.
Local Open Scope Z_scope.

Lemma log_then_false (suffix : string) (g : audit_args) (w : World) :
  fst ((_ <~ log_audit suffix g ;; ret false)%py w) = Ok false.
Proof.
  unfold bindM. pose proof (log_audit_ok suffix g w) as H.
  destruct (log_audit suffix g w) as [[u|ex] w1]; cbn in *;
    [reflexivity | discriminate H].
Qed.

Lemma trigger_total e ticket_id pt url payload run_id w :
  exists b,
    fst (trigger_playbook e ticket_id pt url payload run_id w) = Ok b /\
    (b = true ->
     exists i result text,
       (i < 3)%nat /\ post e i = Responded 200 (Ok (VDict result)) text).
Proof.
  unfold trigger_playbook, try_except.
  match goal with
  | |- context [match ?m w with _ => _ end] => destruct (m w) as [[b|ex] w1] eqn:E
  end.
  - exists b. split; [reflexivity|]. intros ->.
    revert E. unfold bindM at 1. unfold _http_post_with_retries.
    rewrite (post_attempts_run e url payload 3 3 0 w) by lia.
    pose proof (first_passing_spec (post e) 3 0) as Hs.
    destruct (first_passing (post e) 0 3) as [i|]; [|discriminate].
    destruct Hs as [Hi _].
    destruct (post e i) as [status json text|] eqn:Ep; cbn [returned];
      [|discriminate].
    destruct (Z.eqb_spec status 200) as [->|_].
    + unfold bindM at 1. unfold lift at 1.
      destruct json as [result|]; [|discriminate].
      destruct result as [| | | | |result];
        try (unfold bindM, lift; cbn; discriminate).
      intros _. exists i, result, text. split; [lia | exact Ep].
    + unfold bindM.
      destruct (log_audit _ _ _) as [[u|ex] w2]; discriminate.
  - exists false. split; [apply log_then_false | discriminate].
Qed.

End TotalFacts.

(** [attempt_auto_remediation] never raises on metadata that is a mapping
    whose run id the storage can bind (null, text, a boolean, or an integer
    of at most 64 bits), whatever the error type, the environment and the
    playbook's answers: every failure of the playbook call ends in the
    return value False.  And it returns True only if one of the (at most
    three) posts was answered 200 with a JSON object.  With a run id that is
    there and that the storage cannot bind (an array, a mapping, an integer
    beyond 64 bits) and an eligible error type whose playbook address is
    configured, it raises the error of the count query and writes
    nothing. *)
Theorem remediation_never_raises (e : AutoRemediation.env)
  (ticket_id k : string) (d : list (string * Py.value)) (w : Store.World) :
  (Py.succeeds (Store.bind_text (AutoRemediation.statement e)
                  (Spec.item "run_id" d)) = true ->
   exists b,
     fst (AutoRemediation.attempt_auto_remediation e ticket_id k (Py.VDict d) w)
     = Py.Ok b /\
     (b = true ->
      exists i result text,
        (i < 3)%nat /\
        AutoRemediation.post e i
        = AutoRemediation.Responded 200 (Py.Ok (Py.VDict result)) text)) /\
  (forall ex cfg url,
      Store.bind_text (AutoRemediation.statement e) (Spec.item "run_id" d)
      = Py.Raise ex ->
      Py.truthy (Spec.item "run_id" d) = true ->
      AutoRemediation.get_error_config k = Some cfg ->
      AutoRemediation.get_playbook_url e k = Some url -> url <> "" ->
      AutoRemediation.attempt_auto_remediation e ticket_id k (Py.VDict d) w
      = (Py.Raise ex, w)).
Proof.
  split.
  2: { intros ex cfg url Hb Ht Hk Hu Hne.
       exact (attempt_unbound e ticket_id k cfg (Py.VDict d) _ ex url w
                Hk Hu Hne eq_refl Ht Hb). }

  intros Hs.
  destruct (Store.bind_text (AutoRemediation.statement e) (Spec.item "run_id" d))
    as [c|] eqn:Hb; [clear Hs | discriminate Hs].
  assert (Hget : Py.get (Py.VDict d) "run_id" = Py.Ok (Spec.item "run_id" d))
    by reflexivity.
  destruct (AutoRemediation.get_error_config k) as [cfg|] eqn:Hk.
  - destruct (AutoRemediation.get_playbook_url e k) as [[|u url]|] eqn:Hu.
    + exists false. split; [|discriminate].
      revert Hu. unfold AutoRemediation.get_playbook_url,
        AutoRemediation.attempt_auto_remediation.
      unfold AutoRemediation.get_error_config in Hk. rewrite Hk.
      destruct (AutoRemediation.table_get _ AutoRemediation.PLAYBOOK_ENV_VARS)
        as [var|]; [|reflexivity].
      destruct (var =? ""); [reflexivity|]. intros ->.
      unfold Store.bindM at 1. unfold Store.lift at 1. rewrite Hget.
      apply log_then_false.
    + rewrite (attempt_configured e ticket_id k cfg (Py.VDict d) _ c
                 (String u url) w Hk Hu ltac:(discriminate) Hget Hb).
      cbn zeta.
      destruct (Py.truthy (Spec.item "run_id" d) && _)%bool.
      * exists false. split; [reflexivity | discriminate].
      * assert (H0 : (0 <= Spec.current_attempt (Spec.item "run_id" d) c w)%Z).
        { unfold Spec.current_attempt.
          destruct (Py.truthy _); [apply count_attempts_nonneg | lia]. }
        destruct (backoff_delay_clamps (AutoRemediation.backoff_seconds cfg) _
                    (schedules_nonempty k cfg Hk) H0) as [delay [Hd _]].
        rewrite Hd. apply trigger_total.
    + exists false. split; [|discriminate].
      revert Hu. unfold AutoRemediation.get_playbook_url,
        AutoRemediation.attempt_auto_remediation.
      unfold AutoRemediation.get_error_config in Hk. rewrite Hk.
      destruct (AutoRemediation.table_get _ AutoRemediation.PLAYBOOK_ENV_VARS)
        as [var|]; [|reflexivity].
      destruct (var =? ""); [reflexivity|]. intros ->.
      unfold Store.bindM at 1. unfold Store.lift at 1. rewrite Hget.
      apply log_then_false.
  - exists false. split; [|discriminate].
    unfold AutoRemediation.attempt_auto_remediation.
    unfold AutoRemediation.get_error_config in Hk. now rewrite Hk.
Qed.

Lemma remediation_never_raises_witness :
  (exists b,
      fst (AutoRemediation.attempt_auto_remediation
             {| AutoRemediation.getenv := Scenario.configured;
                AutoRemediation.post := fun _ => AutoRemediation.NoResponse;
                AutoRemediation.utcnow := "2025-11-03T10:15:00";
                AutoRemediation.statement := "" |}
             "ADF-1" "GatewayTimeout" Scenario.run_42 Scenario.fresh)
      = Py.Ok b) /\
  AutoRemediation.attempt_auto_remediation
    (Scenario.engine Scenario.configured) "ADF-1" "GatewayTimeout"
    (Py.VDict [("run_id", Py.VInt (2 ^ 63))]) (Scenario.attempted 3)
  = (Py.Raise Py.OverflowError, Scenario.attempted 3).
Proof.
  split.
  - destruct (proj1 (remediation_never_raises
                       {| AutoRemediation.getenv := Scenario.configured;
                          AutoRemediation.post :=
                            fun _ => AutoRemediation.NoResponse;
                          AutoRemediation.utcnow := "2025-11-03T10:15:00";
                          AutoRemediation.statement := "" |}
                       "ADF-1" "GatewayTimeout" [("run_id", Py.VStr "run-42")]
                       Scenario.fresh) eq_refl) as [b [H _]].
    exists b. exact H.
  - exact (proj2 (remediation_never_raises
                    (Scenario.engine Scenario.configured) "ADF-1"
                    "GatewayTimeout" [("run_id", Py.VInt (2 ^ 63))]
                    (Scenario.attempted 3))
             Py.OverflowError _ "https://playbooks.example/retry"
             eq_refl eq_refl eq_refl eq_refl ltac:(discriminate)).
Defined.

(** The fallback of [ai_provider] marks a failure as auto-healable exactly
    when the error type it assigns is one the remediation engine has a
    retry strategy for: [auto_heal_possible] equals
    [is_auto_remediable(error_type)] for every text, and it is False exactly
    for the error type "Unknown".  The strategy text follows the flag, and
    the priority is P2 whatever the severity. *)
Theorem fallback_heal_is_remediable (text reason : string) :
  let rca := AiProvider._fallback_rca text reason in
  exists kind heal,
    Spec.field "error_type" rca = Some (Py.VStr kind) /\
    Spec.field "auto_heal_possible" rca = Some (Py.VBool heal) /\
    AutoRemediation.is_auto_remediable kind = heal /\
    (heal = false <-> kind = "Unknown") /\
    Spec.field "auto_heal_strategy" rca
    = Some (Py.VStr (if heal then "Basic retry with exponential backoff"
                     else "Not applicable")) /\
    Spec.field "priority" rca = Some (Py.VStr "P2").
Proof.
  cbn zeta. unfold AiProvider._fallback_rca, AiProvider.classify_keywords.
  repeat match goal with
         | |- context [if ?b then _ else _] =>
             match b with
             | context [Py.contains] => destruct b
             end
         end;
    eexists; eexists; repeat split; try reflexivity; discriminate.
Qed.

Section DeadlineFacts.
Import Py Store Spec Main.
Local Open Scope Z_scope.

Lemma sla_in_table (p : value) (n : Z) :
  sla_for_priority p = Ok n -> In n [900; 1800; 7200; 86400].
Proof.
  unfold sla_for_priority. destruct p as [| | |s| |]; try discriminate;
    try (intros [= <-]; cbn; tauto).
  repeat match goal with
         | |- context [if ?b then _ else _] => destruct b
         end; intros [= <-]; cbn; tauto.
Qed.

Lemma classify_deadline e prefix src pipeline runid desc lar pm w d rca w1 :
  classify_and_build e prefix src pipeline runid desc lar pm w
  = (Ok (d, rca), w1) ->
  sla_for_priority (d_priority d) = Ok (d_sla_seconds d).
Proof.
  unfold classify_and_build, generate_rca_and_recs.
  unfold bindM, lift, emit, ret.
  destruct (extract_finops_tags pipeline); [|discriminate].
  destruct (rca_of (ai e) desc src) as [rca0|]; [|discriminate].
  destruct (ticket_severity rca0) as [sev|]; [|discriminate].
  destruct (ticket_priority rca0) as [pri|]; [|discriminate].
  destruct (sla_for_priority pri) as [n|] eqn:Hn; [|discriminate].
  match goal with
  | |- context [blob_step ?a ?b ?c] => destruct (blob_step a b c) as [[bu|] wb]
  end; [|discriminate].
  destruct (get rca0 "affected_entity"); [|discriminate].
  destruct (get rca0 "root_cause"); [|discriminate].
  destruct (get rca0 "recommendations"); [|discriminate].
  destruct (get rca0 "confidence"); [|discriminate].
  destruct (get rca0 "error_type"); [|discriminate].
  intros [= <- _ _]. cbn. exact Hn.
Qed.

End DeadlineFacts.

(** The deadline of a ticket.  [sla_for_priority] gives 900 s for P1,
    1800 s for P2, 7200 s for P3, 86400 s for P4 and, for any other text
    (and for null, a number or a boolean), the 1800 s of P2; a list or a
    mapping as priority raises TypeError.  After [derive_priority] a
    severity therefore gets 900, 1800, 7200 or 86400 s, and 7200 s when it
    is not one of the four names.  Whatever the AI answered, the row both
    endpoints build carries the deadline of the priority it carries, one of
    the four values. *)
Theorem ticket_deadline :
  (forall p,
      Main.sla_for_priority (Py.VStr p) =
      Py.Ok (if (p =? "P1")%string then 900
             else if (p =? "P2")%string then 1800
             else if (p =? "P3")%string then 7200
             else if (p =? "P4")%string then 86400
             else 1800)%Z) /\
  (forall p,
      match p with
      | Py.VList _ | Py.VDict _ => Main.sla_for_priority p = Py.Raise Py.TypeError
      | Py.VStr _ => True
      | _ => Main.sla_for_priority p = Py.Ok 1800%Z
      end) /\
  (forall s,
      Py.bind (Main.derive_priority (Py.VStr s)) Main.sla_for_priority =
      Py.Ok (if (Py.lower s =? "critical")%string then 900
             else if (Py.lower s =? "high")%string then 1800
             else if (Py.lower s =? "medium")%string then 7200
             else if (Py.lower s =? "low")%string then 86400
             else 7200)%Z) /\
  (forall e prefix src pipeline runid desc lar pm w d rca w1,
      Main.classify_and_build e prefix src pipeline runid desc lar pm w
      = (Py.Ok (d, rca), w1) ->
      Main.sla_for_priority (Main.d_priority d) = Py.Ok (Main.d_sla_seconds d) /\
      In (Main.d_sla_seconds d) [900; 1800; 7200; 86400]%Z).
Proof.
  split; [reflexivity|].
  split; [intros [| | | | |]; reflexivity|].
  split.
  - intros s. rewrite derive_priority_table. cbn [Py.bind].
    unfold Spec.priority_of_severity, Main.sla_for_priority.
    repeat match goal with
           | |- context [if Py.lower s =? ?x then _ else _] =>
               destruct (Py.lower s =? x)
           end; reflexivity.
  - intros e prefix src pipeline runid desc lar pm w d rca w1 H.
    pose proof (classify_deadline _ _ _ _ _ _ _ _ _ _ _ _ H) as Hd.
    split; [exact Hd | exact (sla_in_table _ _ Hd)].
Qed.

Lemma ticket_deadline_witness :
  let built :=
    Main.classify_and_build (Scenario.deployment (Some Scenario.critical_p4))
      "ADF-" "adf" (Py.VStr "sales_load") (Py.VStr "run-42")
      (Py.VStr "Copy activity failed") (Py.VStr "N/A") (Py.VStr "Single")
      Scenario.fresh in
  match fst built with
  | Py.Ok (d, _) =>
      Main.sla_for_priority (Main.d_priority d) = Py.Ok (Main.d_sla_seconds d) /\
      In (Main.d_sla_seconds d) [900; 1800; 7200; 86400]%Z
  | Py.Raise _ => False
  end.
Proof.
  cbn zeta.
  destruct (Main.classify_and_build (Scenario.deployment (Some Scenario.critical_p4))
              "ADF-" "adf" (Py.VStr "sales_load") (Py.VStr "run-42")
              (Py.VStr "Copy activity failed") (Py.VStr "N/A") (Py.VStr "Single")
              Scenario.fresh) as [[[d rca]|ex] w1] eqn:E.
  - exact (proj2 (proj2 (proj2 ticket_deadline)) _ _ _ _ _ _ _ _ _ _ _ _ E).
  - vm_compute in E. discriminate E.
Defined.

(** ** A stored ticket and the deliveries after it *)

Section StoredFacts.
Import Py Store Spec Main Notions.

Lemma keyed_reads {A : Type} (m : M A) : reads_tickets m -> keyed m.
Proof. intros H w. now rewrite H. Qed.

Lemma keyed_bind {A B : Type} (m : M A) (k : A -> M B) :
  keyed m -> (forall a, keyed (k a)) -> keyed (bindM m k).
Proof.
  intros Hm Hk w. unfold bindM. specialize (Hm w).
  destruct (m w) as [[a|e] w1]; cbn in *; [|exact Hm].
  now rewrite Hk.
Qed.

Lemma keyed_try {A : Type} (m : M A) (h : exn -> M A) :
  keyed m -> (forall e, keyed (h e)) -> keyed (try_except m h).
Proof.
  intros Hm Hh w. unfold try_except. specialize (Hm w).
  destruct (m w) as [[a|e] w1]; cbn in *; [exact Hm|].
  now rewrite Hh.
Qed.

Lemma keyed_with_itsm (id : string) (c : cell) :
  keyed (update_ticket id (with_itsm c)).
Proof.
  intros w. unfold update_ticket, bindM, get_world, set_tickets.
  cbn [snd tickets]. rewrite map_map. apply map_ext. intros t.
  now destruct (t_id t =? id).
Qed.

Lemma keyed_log_audit (suffix : string) (g : audit_args) :
  keyed (log_audit suffix g).
Proof. apply keyed_reads, reads_log_audit. Qed.

Lemma keyed_ticket_created e d rca details :
  keyed (ticket_created e d rca details).
Proof.
  unfold ticket_created. apply keyed_bind; [apply keyed_reads, reads_lift|].
  intros summary. destruct (d_finops d) as [[team owner] cc].
  apply keyed_log_audit.
Qed.

Lemma keyed_jira_step e tid : keyed (jira_step e tid).
Proof.
  unfold jira_step. destruct (ITSM_TOOL e =? "jira");
    [|apply keyed_reads, reads_ret].
  apply keyed_bind; [apply keyed_reads, reads_emit|]. intros _.
  destruct (jira e) as [itsm|ex].
  - destruct (truthy itsm).
    + apply keyed_bind; [|intros; apply keyed_reads, reads_ret].
      apply keyed_try; [|intros; apply keyed_log_audit].
      apply keyed_bind; [apply keyed_reads, reads_lift|]. intros k.
      apply keyed_bind; [apply keyed_with_itsm|]. intros _.
      apply keyed_log_audit.
    + apply keyed_bind; [apply keyed_log_audit|].
      intros; apply keyed_reads, reads_ret.
  - apply keyed_bind; [apply keyed_log_audit|].
    intros; apply keyed_reads, reads_ret.
Qed.

Lemma keyed_slack_step e tid pipeline runid itsm :
  keyed (slack_step e tid pipeline runid itsm).
Proof.
  unfold slack_step. apply keyed_bind; [apply keyed_reads, reads_emit|].
  intros _. destruct (slack e) as [res|ex]; [|apply keyed_log_audit].
  destruct (truthy res); [apply keyed_log_audit | apply keyed_reads, reads_ret].
Qed.

Lemma store_ticket_stored e d w w2 :
  store_ticket e d w = (Ok None, w2) -> insert_row e d w = (Ok tt, w2).
Proof.
  unfold store_ticket, try_except. unfold bindM at 1.
  destruct (insert_row e d w) as [[[]|ex] w1]; [now intros [= <-]|].
  destruct (_ || _); [|discriminate].
  unfold bindM, ticket_by_run_id, lift, get_world, ret.
  destruct (bind_text (statement e) (d_run_id d)); discriminate.
Qed.

Lemma store_ticket_answer e d w r w2 :
  store_ticket e d w = (Ok (Some r), w2) -> r <> ReturnedNone.
Proof.
  unfold store_ticket, try_except. unfold bindM at 1.
  destruct (insert_row e d w) as [[[]|ex] w1]; [discriminate|].
  destruct (_ || _); [|discriminate].
  unfold bindM, ticket_by_run_id, lift, get_world, ret.
  destruct (bind_text (statement e) (d_run_id d)); [|discriminate].
  intros [= <- _]. discriminate.
Qed.

Lemma insert_row_stored e d w w2 :
  insert_row e d w = (Ok tt, w2) ->
  exists row,
    bind_ticket (statement e) d = Ok row /\
    run_id_taken (t_run_id row) (tickets w) = false /\
    tickets w2 = (tickets w ++ [row])%list.
Proof.
  unfold insert_row, bindM, lift, insert_ticket.
  destruct (bind_ticket (statement e) d) as [row|]; [|discriminate].
  destruct (insert_fault e); [discriminate|].
  unfold bindM, get_world, throw, set_tickets.
  destruct (id_taken _ _); [discriminate|].
  destruct (run_id_taken _ _) eqn:Hr; [discriminate|].
  intros [= <-]. exists row. repeat split. exact Hr.
Qed.

Lemma bind_ticket_id suffix d row :
  bind_ticket suffix d = Ok row -> t_id row = d_id d.
Proof.
  unfold bind_ticket, bind. intros H.
  repeat match type of H with
         | match ?x with _ => _ end = _ => destruct x; try discriminate
         end.
  now injection H as <-.
Qed.

Lemma classify_ids e prefix src pipeline runid desc lar pm w d rca w1 :
  classify_and_build e prefix src pipeline runid desc lar pm w
  = (Ok (d, rca), w1) ->
  d_id d = prefix ++ stamp e /\ d_run_id d = runid.
Proof.
  unfold classify_and_build, generate_rca_and_recs.
  unfold bindM, lift, emit, ret.
  repeat match goal with
         | |- context [match ?x with _ => _ end] =>
             destruct x; try discriminate
         end; now intros [= <- _ _].
Qed.

(** The owner of a run id depends on the ids and run ids only. *)
Lemma owner_of_last (r : string) (row : Ticket) :
  forall ts ts',
    map key ts' = map key (ts ++ [row])%list ->
    run_id_taken (Some r) ts = false ->
    t_run_id row = Some r ->
    exists t, owner r ts' = Some t /\ t_id t = t_id row.
Proof.
  unfold owner, run_id_taken.
  induction ts as [|a ts IH]; intros [|b ts'] Hm Ht Hr; try discriminate.
  - cbn in Hm. injection Hm as Hid Hrun Hn.
    exists b. cbn [find].
    rewrite Hrun, Hr. cbn [cell_eqb]. rewrite String.eqb_refl. now split.
  - cbn in Hm. injection Hm as Hid Hrun Hn. cbn [existsb] in Ht.
    apply orb_false_elim in Ht as [Ha Hts].
    cbn [find]. rewrite Hrun, Ha.
    now apply IH.
Qed.

Lemma bind_text_truthy (s : string) (v : value) (c : cell) :
  truthy v = true -> bind_text s v = Ok c -> exists r, c = Some r.
Proof.
  destruct v as [| |z| | |]; cbn; try discriminate;
    try (intros _ [= <-]; eauto).
  destruct (fits_int64 z); [|discriminate]. intros _ [= <-]. eauto.
Qed.

Lemma bind_text_suffix (s s' : string) (v : value) (c : cell) :
  bind_text s v = Ok c -> bind_text s' v = Ok c.
Proof.
  destruct v as [| |z| | |]; cbn; try discriminate; auto.
Qed.

(** What both endpoints do from the classification on, when they return
    None: the row is stored behind the rows that were there. *)
Lemma created_row e (classify : M (ticket_data * value))
  (k : ticket_data -> value -> M response) prefix runid w w' :
  (forall w d rca w1, classify w = (Ok (d, rca), w1) ->
                      d_id d = prefix ++ stamp e /\ d_run_id d = runid) ->
  reads_tickets classify ->
  (forall d rca, keyed (k d rca)) ->
  bindM classify
    (fun x => let '(d, rca) := x in
              bindM (others_commit e)
                (fun _ => bindM (store_ticket e d)
                            (fun stored => match stored with
                                           | Some r => ret r
                                           | None => k d rca
                                           end))) w = (Ok ReturnedNone, w') ->
  exists row,
    t_id row = prefix ++ stamp e /\
    bind_text (statement e) runid = Ok (t_run_id row) /\
    run_id_taken (t_run_id row) (tickets w ++ concurrent e)%list = false /\
    map key (tickets w') = map key ((tickets w ++ concurrent e) ++ [row])%list.
Proof.
  intros Hids Hreads Hk H.
  destruct (classify w) as [[[d rca]|ex] w1] eqn:Hc;
    [|unfold bindM in H; rewrite Hc in H; discriminate H].
  rewrite (create_through_store e classify k w d rca w1 Hc) in H.
  pose proof (Hreads w) as Hw1. rewrite Hc in Hw1. cbn [snd] in Hw1.
  destruct (Hids _ _ _ _ Hc) as [Hid Hrun].
  destruct (store_ticket e d (at_insert e w1)) as [[[r|]|ex] w2] eqn:Hs.
  - unfold ret in H. injection H as -> _.
    now apply store_ticket_answer in Hs.
  - apply store_ticket_stored, insert_row_stored in Hs.
    destruct Hs as [row [Hb [Ht Hw2]]]. cbn [at_insert tickets] in Ht, Hw2.
    rewrite Hw1 in Ht, Hw2.
    exists row. split; [now rewrite (bind_ticket_id _ _ _ Hb)|].
    split; [rewrite <- Hrun; now apply bind_ticket_run_id|].
    split; [exact Ht|].
    pose proof (Hk d rca w2) as Hkeys. rewrite H in Hkeys. cbn [snd] in Hkeys.
    now rewrite Hkeys, Hw2.
  - discriminate H.
Qed.

Lemma keyed_azure_tail e f d rca :
  keyed (_ <~ ticket_created e d rca
                ("Severity: " ++ str (d_severity d) ++ ", Priority: " ++
                 str (d_priority d) ++ ", Processing Mode: " ++
                 str (az_processing_mode f)) ;;
         _ <~ log_audit (statement e)
                {| g_ticket_id := VStr (d_id d);
                   g_action := "Logic App Forwarded";
                   g_pipeline := az_pipeline f; g_run_id := az_runid f;
                   g_sla_status := VNone; g_rca_summary := VNone;
                   g_finops_team := VNone; g_finops_owner := VNone;
                   g_details :=
                     VStr ("Alert forwarded from Logic App (Run: " ++
                           str (az_logic_app_run_id f) ++
                           ") to FastAPI RCA system");
                   g_itsm_ticket_id := VNone |} ;;
         itsm_ticket_id <~ jira_step e (d_id d) ;;
         _ <~ emit (Broadcast (d_id d)) ;;
         _ <~ slack_step e (d_id d) (az_pipeline f) (az_runid f)
                itsm_ticket_id ;;
         ret ReturnedNone)%py.
Proof.
  apply keyed_bind; [apply keyed_ticket_created|]. intros _.
  apply keyed_bind; [apply keyed_log_audit|]. intros _.
  apply keyed_bind; [apply keyed_jira_step|]. intros itsm.
  apply keyed_bind; [apply keyed_reads, reads_emit|]. intros _.
  apply keyed_bind; [apply keyed_slack_step|]. intros _.
  apply keyed_reads, reads_ret.
Qed.

Lemma keyed_databricks_tail e f d rca :
  keyed (_ <~ ticket_created e d rca
                ("Severity: " ++ str (d_severity d) ++ ", Priority: " ++
                 str (d_priority d) ++ ", Source: Databricks, JobID: " ++
                 str (dbx_job_id f) ++ ", ClusterID: " ++
                 str (dbx_cluster_id f)) ;;
         itsm_ticket_id <~ jira_step e (d_id d) ;;
         _ <~ emit (Broadcast (d_id d)) ;;
         _ <~ slack_step e (d_id d) (dbx_job_name f) (dbx_run_id f)
                itsm_ticket_id ;;
         ret ReturnedNone)%py.
Proof.
  apply keyed_bind; [apply keyed_ticket_created|]. intros _.
  apply keyed_bind; [apply keyed_jira_step|]. intros itsm.
  apply keyed_bind; [apply keyed_reads, reads_emit|]. intros _.
  apply keyed_bind; [apply keyed_slack_step|]. intros _.
  apply keyed_reads, reads_ret.
Qed.

Lemma duplicate_check_passed e who pipeline runid w r w0 :
  duplicate_check e who pipeline runid w = (Ok r, w0) ->
  match r with
  | Some a => a <> ReturnedNone
  | None => w0 = w
  end.
Proof.
  unfold duplicate_check. destruct (truthy runid); [|now intros [= <- <-]].
  unfold bindM at 1. unfold ticket_by_run_id, bindM, lift, get_world, ret.
  destruct (bind_text (statement e) runid) as [c|]; [|discriminate].
  destruct (find _ _) as [t|]; [|now intros [= <- <-]].
  destruct (log_audit _ _ w) as [[u|ex] w1]; [|discriminate].
  intros [= <- _]. discriminate.
Qed.

End StoredFacts.

(** Insert, then look up.  When an endpoint has stored a ticket for an
    event whose run id is there (it returned None), the new ticket has the
    id built from the prefix and the stamp and it is the owner of that run
    id.  Take any later delivery to the same endpoint, whatever the
    configuration then.  If the endpoint extracts that run id from it, the
    delivery is answered "duplicate_ignored" with that ticket and leaves
    the tickets alone; it adds the one "Duplicate Run Detected" entry to
    the ledger when the pipeline or job name it carries is a value the
    storage can bind, and no entry when it is not.  If the extraction
    raises, the endpoint raises the same and neither tickets nor ledger
    change. *)
Theorem stored_ticket_is_found (e : Main.env) (w w' : Store.World) :
  (forall req body f,
      Main.json_body req = Some body -> Main.azure_extract body = Py.Ok f ->
      Py.truthy (Main.az_runid f) = true ->
      Main.azure_monitor e req w = (Py.Ok Main.ReturnedNone, w') ->
      exists r t,
        Store.bind_text "" (Main.az_runid f) = Py.Ok (Some r) /\
        Spec.owner r (Store.tickets w') = Some t /\
        Store.t_id t = "ADF-" ++ Main.stamp e /\
        forall e2 req2 body2,
          Main.x_api_key req2 = Some (Main.RCA_API_KEY e2) ->
          Main.json_body req2 = Some body2 ->
          match Main.azure_extract body2 with
          | Py.Ok f2 =>
              Main.az_runid f2 = Main.az_runid f ->
              Main.azure_monitor e2 req2 w' =
              (Py.Ok (Main.JSONResponse
                        (Main.duplicate_content t (Main.az_runid f))),
               {| Store.tickets := Store.tickets w';
                  Store.audit :=
                    (Store.audit w' ++
                     match Store.bind_text (Main.statement e2)
                             (Main.az_pipeline f2) with
                     | Py.Ok p =>
                         [Spec.duplicate_entry "Logic App" t p r
                            (Main.az_runid f)]
                     | Py.Raise _ => []
                     end)%list;
                  Store.calls := Store.calls w' |})
          | Py.Raise ex => Main.azure_monitor e2 req2 w' = (Py.Raise ex, w')
          end) /\
  (forall req body f w1,
      Main.json_body req = Some body ->
      Main.databricks_extract e body w = (Py.Ok f, w1) ->
      Py.truthy (Main.dbx_run_id f) = true ->
      Main.databricks_monitor e req w = (Py.Ok Main.ReturnedNone, w') ->
      exists r t,
        Store.bind_text "" (Main.dbx_run_id f) = Py.Ok (Some r) /\
        Spec.owner r (Store.tickets w') = Some t /\
        Store.t_id t = "DBX-" ++ Main.stamp e /\
        forall e2 req2 body2,
          Main.json_body req2 = Some body2 ->
          match Main.databricks_extract e2 body2 w' with
          | (Py.Ok f2, w2) =>
              Main.dbx_run_id f2 = Main.dbx_run_id f ->
              Main.databricks_monitor e2 req2 w' =
              (Py.Ok (Main.JSONResponse
                        (Main.duplicate_content t (Main.dbx_run_id f))),
               {| Store.tickets := Store.tickets w';
                  Store.audit :=
                    (Store.audit w' ++
                     match Store.bind_text (Main.statement e2)
                             (Main.dbx_job_name f2) with
                     | Py.Ok p =>
                         [Spec.duplicate_entry "Databricks job" t p r
                            (Main.dbx_run_id f)]
                     | Py.Raise _ => []
                     end)%list;
                  Store.calls := Store.calls w2 |})
          | (Py.Raise ex, w2) =>
              Main.databricks_monitor e2 req2 w' = (Py.Raise ex, w2) /\
              Store.tickets w2 = Store.tickets w' /\
              Store.audit w2 = Store.audit w'
          end).
Proof.
  split.
  - intros req body f Hj Hx Ht H.
    unfold Main.azure_monitor in H. rewrite Hj in H.
    destruct (Main.x_api_key req) as [k|]; [|discriminate H].
    destruct (k =? Main.RCA_API_KEY e); [|discriminate H].
    unfold Store.bindM at 1 in H. unfold Store.lift at 1 in H. rewrite Hx in H.
    unfold Store.bindM at 1 in H.
    destruct (Main.duplicate_check e "Logic App" (Main.az_pipeline f)
                (Main.az_runid f) w) as [[dup|ex] w0] eqn:Hd;
      [|discriminate H].
    apply duplicate_check_passed in Hd.
    destruct dup as [a|].
    { unfold Store.ret in H. injection H as -> _. contradiction. }
    subst w0. unfold Main.azure_create in H.
    apply (created_row e _ _ "ADF-" (Main.az_runid f)) in H;
      [|intros; eapply classify_ids; eassumption
       |apply reads_classify
       |intros; apply keyed_azure_tail].
    destruct H as [row [Hid [Hb [Hfree Hkeys]]]].
    destruct (bind_text_truthy _ _ _ Ht Hb) as [r Hr].
    rewrite Hr in Hb, Hfree.
    destruct (owner_of_last r row _ _ Hkeys Hfree Hr) as [t [Ho Ht']].
    exists r, t. split; [exact (bind_text_suffix _ _ _ _ Hb)|].
    split; [exact Ho|]. split; [now rewrite Ht'|].
    intros e2 req2 body2 Hk2 Hj2.
    rewrite (azure_monitor_steps e2 req2 body2 w' Hk2 Hj2).
    destruct (Main.azure_extract body2) as [f2|ex]; [|reflexivity].
    intros Hr2. rewrite Hr2.
    now rewrite (duplicate_answered e2 "Logic App" _ _ r t w' Ht
                   (bind_text_suffix _ _ _ _ Hb) Ho).
  - intros req body f w1 Hj Hx Ht H.
    unfold Main.databricks_monitor in H. rewrite Hj in H.
    unfold Store.bindM at 1 in H. rewrite Hx in H.
    destruct (reads_databricks_extract e body w) as [Et Ea].
    rewrite Hx in Et, Ea. cbn [snd] in Et, Ea.
    unfold Store.bindM at 1 in H.
    destruct (Main.duplicate_check e "Databricks job" (Main.dbx_job_name f)
                (Main.dbx_run_id f) w1) as [[dup|ex] w0] eqn:Hd;
      [|discriminate H].
    apply duplicate_check_passed in Hd.
    destruct dup as [a|].
    { unfold Store.ret in H. injection H as -> _. contradiction. }
    subst w0. unfold Main.databricks_create in H.
    apply (created_row e _ _ "DBX-" (Main.dbx_run_id f)) in H;
      [|intros; eapply classify_ids; eassumption
       |apply reads_classify
       |intros; apply keyed_databricks_tail].
    destruct H as [row [Hid [Hb [Hfree Hkeys]]]].
    destruct (bind_text_truthy _ _ _ Ht Hb) as [r Hr].
    rewrite Hr in Hb, Hfree. rewrite Et in Hfree, Hkeys.
    destruct (owner_of_last r row _ _ Hkeys Hfree Hr) as [t [Ho Ht']].
    exists r, t. split; [exact (bind_text_suffix _ _ _ _ Hb)|].
    split; [exact Ho|]. split; [now rewrite Ht'|].
    intros e2 req2 body2 Hj2.
    rewrite (databricks_monitor_steps e2 req2 body2 w' Hj2).
    destruct (reads_databricks_extract e2 body2 w') as [Et2 Ea2].
    destruct (Main.databricks_extract e2 body2 w') as [[f2|ex] w2];
      cbn [snd] in Et2, Ea2; [|now repeat split].
    intros Hr2. rewrite Hr2.
    rewrite (duplicate_answered e2 "Databricks job" _ _ r t w2 Ht
               (bind_text_suffix _ _ _ _ Hb));
      [|now rewrite Et2].
    now rewrite Et2, Ea2.
Qed.

Lemma stored_ticket_is_found_witness :
  let e := Scenario.deployment None in
  let w' := snd (Main.azure_monitor e Scenario.adf_request Scenario.fresh) in
  exists r t,
    Store.bind_text "" (Py.VStr "run-42") = Py.Ok (Some r) /\
    Spec.owner r (Store.tickets w') = Some t /\
    Store.t_id t = "ADF-20251103T101500-a1b2c3" /\
    Main.azure_monitor e Scenario.adf_request w' =
    (Py.Ok (Main.JSONResponse (Main.duplicate_content t (Py.VStr "run-42"))),
     {| Store.tickets := Store.tickets w';
        Store.audit :=
          (Store.audit w' ++
           [Spec.duplicate_entry "Logic App" t (Some "sales_load") r
              (Py.VStr "run-42")])%list;
        Store.calls := Store.calls w' |}) /\
    Main.azure_monitor e
      (Scenario.adf_request_of (Py.VList [Py.VStr "sales_load"])
         (Py.VStr "Copy activity failed")) w' =
    (Py.Ok (Main.JSONResponse (Main.duplicate_content t (Py.VStr "run-42"))),
     {| Store.tickets := Store.tickets w';
        Store.audit := (Store.audit w' ++ [])%list;
        Store.calls := Store.calls w' |}) /\
    Main.azure_monitor e
      (Scenario.adf_request_of (Py.VStr "sales_load") (Py.VInt 42)) w' =
    (Py.Raise Py.AttributeError, w').
Proof.
  cbn zeta.
  destruct (proj1 (stored_ticket_is_found (Scenario.deployment None)
                     Scenario.fresh
                     (snd (Main.azure_monitor (Scenario.deployment None)
                             Scenario.adf_request Scenario.fresh)))
              Scenario.adf_request Scenario.adf_alert Scenario.adf_fields
              eq_refl eq_refl eq_refl eq_refl) as [r [t [H1 [H2 [H3 H4]]]]].
  exists r, t. split; [exact H1|]. split; [exact H2|]. split; [exact H3|].
  split; [|split].
  - exact (H4 (Scenario.deployment None) Scenario.adf_request
             Scenario.adf_alert eq_refl eq_refl eq_refl).
  - exact (H4 (Scenario.deployment None)
             (Scenario.adf_request_of (Py.VList [Py.VStr "sales_load"])
                (Py.VStr "Copy activity failed"))
             (Scenario.adf_alert_of (Py.VList [Py.VStr "sales_load"])
                (Py.VStr "Copy activity failed")) eq_refl eq_refl eq_refl).
  - exact (H4 (Scenario.deployment None)
             (Scenario.adf_request_of (Py.VStr "sales_load") (Py.VInt 42))
             (Scenario.adf_alert_of (Py.VStr "sales_load") (Py.VInt 42))
             eq_refl eq_refl).
Defined.

(** ** One ticket per run id *)

Section KeyFacts.
Import Py Store Spec Main Notions.

Lemma run_ids_app (a b : list (string * cell)) :
  run_ids (a ++ b) = (run_ids a ++ run_ids b)%list.
Proof. unfold run_ids. apply flat_map_app. Qed.

Lemma id_free_notin (id : string) (ts : list Ticket) :
  id_taken id ts = false -> ~ In id (map fst (map key ts)).
Proof.
  unfold id_taken. induction ts as [|t ts IH]; cbn; [tauto|].
  intros H. apply orb_false_elim in H as [Ht Hts].
  intros [E|Hin]; [|now apply IH].
  rewrite E, String.eqb_refl in Ht. discriminate.
Qed.

Lemma run_id_free_notin (r : string) (ts : list Ticket) :
  run_id_taken (Some r) ts = false -> ~ In r (run_ids (map key ts)).
Proof.
  unfold run_id_taken, run_ids. induction ts as [|t ts IH]; cbn; [tauto|].
  intros H. apply orb_false_elim in H as [Ht Hts].
  rewrite in_app_iff. intros [Hin|Hin]; [|now apply IH].
  destruct (t_run_id t) as [x|]; cbn in *; [|tauto].
  destruct Hin as [->|[]]. rewrite String.eqb_refl in Ht. discriminate.
Qed.

Lemma well_keyed_keys (ts ts' : list Ticket) :
  map key ts' = map key ts -> well_keyed ts -> well_keyed ts'.
Proof. unfold well_keyed. now intros ->. Qed.

Lemma well_keyed_prefix (ts more : list Ticket) :
  well_keyed (ts ++ more) -> well_keyed ts.
Proof.
  unfold well_keyed. rewrite !map_app, run_ids_app. intros [Hi Hr].
  split; [now apply NoDup_app_remove_r in Hi
         | now apply NoDup_app_remove_r in Hr].
Qed.

Lemma well_keyed_insert (ts : list Ticket) (row : Ticket) :
  well_keyed ts ->
  id_taken (t_id row) ts = false ->
  run_id_taken (t_run_id row) ts = false ->
  well_keyed (ts ++ [row]).
Proof.
  unfold well_keyed. rewrite !map_app, run_ids_app. intros [Hi Hr] Hid Hrun.
  split.
  - cbn. apply NoDup_app; [exact Hi | repeat constructor; cbn; tauto|].
    intros x Hx [<-|[]]. now apply (id_free_notin _ _ Hid).
  - cbn. destruct (t_run_id row) as [r|]; cbn.
    + apply NoDup_app; [exact Hr | repeat constructor; cbn; tauto|].
      intros x Hx [<-|[]]. now apply (run_id_free_notin _ _ Hrun).
    + now rewrite app_nil_r.
Qed.

(** The INSERT and its handler, by what they leave in the table. *)
Lemma store_ticket_table e d w :
  tickets (snd (store_ticket e d w)) = tickets w \/
  exists row,
    id_taken (t_id row) (tickets w) = false /\
    run_id_taken (t_run_id row) (tickets w) = false /\
    tickets (snd (store_ticket e d w)) = (tickets w ++ [row])%list.
Proof.
  unfold store_ticket, try_except. unfold bindM at 1.
  destruct (insert_row e d w) as [[[]|ex] w1] eqn:E.
  - right. revert E. unfold insert_row, bindM, lift, insert_ticket.
    destruct (bind_ticket (statement e) d) as [row|]; [|discriminate].
    destruct (insert_fault e); [discriminate|].
    unfold bindM, get_world, throw, set_tickets.
    destruct (id_taken _ _) eqn:Hi; [discriminate|].
    destruct (run_id_taken _ _) eqn:Hr; [discriminate|].
    intros [= <-]. exists row. cbn. auto.
  - left. apply insert_row_failed in E. subst w1.
    destruct (_ || _); [|reflexivity].
    unfold bindM, ticket_by_run_id, lift, get_world, ret.
    destruct (bind_text (statement e) (d_run_id d)); reflexivity.
Qed.

Lemma ingest_table e (classify : M (ticket_data * value))
  (k : ticket_data -> value -> M response) w :
  reads_tickets classify ->
  (forall d rca, keyed (k d rca)) ->
  well_keyed (tickets w ++ concurrent e) ->
  well_keyed
    (tickets
       (snd (bindM classify
               (fun x => let '(d, rca) := x in
                         bindM (others_commit e)
                           (fun _ => bindM (store_ticket e d)
                                       (fun stored =>
                                          match stored with
                                          | Some r => ret r
                                          | None => k d rca
                                          end))) w))).
Proof.
  intros Hreads Hk Hw.
  pose proof (Hreads w) as Hw1.
  destruct (classify w) as [[[d rca]|ex] w1] eqn:Hc.
  - rewrite (create_through_store e classify k w d rca w1 Hc).
    cbn [snd] in Hw1.
    pose proof (store_ticket_table e d (at_insert e w1)) as Hs.
    cbn [at_insert tickets] in Hs. rewrite Hw1 in Hs.
    destruct (store_ticket e d (at_insert e w1)) as [[[r|]|ex] w2];
      cbn [snd] in *.
    + destruct Hs as [->|[row [Hi [Hr ->]]]];
        [exact Hw | now apply well_keyed_insert].
    + eapply well_keyed_keys; [apply Hk|].
      destruct Hs as [->|[row [Hi [Hr ->]]]];
        [exact Hw | now apply well_keyed_insert].
    + destruct Hs as [->|[row [Hi [Hr ->]]]];
        [exact Hw | now apply well_keyed_insert].
  - unfold bindM. rewrite Hc. cbn [snd] in *. rewrite Hw1.
    now apply well_keyed_prefix in Hw.
Qed.

Lemma duplicate_check_table e who pipeline runid :
  reads_tickets (duplicate_check e who pipeline runid).
Proof.
  unfold duplicate_check. destruct (truthy runid); [|apply reads_ret].
  apply reads_bind; [apply reads_ticket_by_run_id|]. intros [t|];
    [|apply reads_ret].
  apply reads_bind; [apply reads_log_audit|]. intros; apply reads_ret.
Qed.

End KeyFacts.

(** At most one ticket per run id.  If the table, with the rows other
    requests commit meanwhile, has no id twice and no run id twice, then
    so has the table either endpoint leaves, whatever the request, the
    configuration, the AI's answer and the failures of Jira, Slack or the
    storage: a delivery adds at most the one row the INSERT accepts. *)
Theorem one_ticket_per_run_id (e : Main.env) (req : Main.request)
  (w : Store.World) :
  Notions.well_keyed (Store.tickets w ++ Main.concurrent e) ->
  Notions.well_keyed (Store.tickets (snd (Main.azure_monitor e req w))) /\
  Notions.well_keyed (Store.tickets (snd (Main.databricks_monitor e req w))).
Proof.
  intros Hw. pose proof (well_keyed_prefix _ _ Hw) as Hw0. split.
  - unfold Main.azure_monitor.
    destruct (Main.x_api_key req) as [k|]; [|exact Hw0].
    destruct (k =? Main.RCA_API_KEY e); [|exact Hw0].
    destruct (Main.json_body req) as [body|]; [|exact Hw0].
    unfold Store.bindM at 1. unfold Store.lift at 1.
    destruct (Main.azure_extract body) as [f|]; [|exact Hw0].
    unfold Store.bindM at 1.
    pose proof (duplicate_check_table e "Logic App" (Main.az_pipeline f)
                  (Main.az_runid f) w) as Hd.
    destruct (Main.duplicate_check e "Logic App" (Main.az_pipeline f)
                (Main.az_runid f) w) as [[[r|]|ex] w0]; cbn [snd] in *.
    + unfold Store.ret. cbn [snd]. now rewrite Hd.
    + unfold Main.azure_create. apply ingest_table;
        [apply reads_classify | intros; apply keyed_azure_tail
        | now rewrite Hd].
    + now rewrite Hd.
  - unfold Main.databricks_monitor.
    destruct (Main.json_body req) as [body|]; [|exact Hw0].
    unfold Store.bindM at 1.
    destruct (reads_databricks_extract e body w) as [Et _].
    destruct (Main.databricks_extract e body w) as [[f|ex] w1];
      cbn [snd] in *; [|now rewrite Et].
    unfold Store.bindM at 1.
    pose proof (duplicate_check_table e "Databricks job" (Main.dbx_job_name f)
                  (Main.dbx_run_id f) w1) as Hd.
    destruct (Main.duplicate_check e "Databricks job" (Main.dbx_job_name f)
                (Main.dbx_run_id f) w1) as [[[r|]|ex] w0]; cbn [snd] in *.
    + unfold Store.ret. cbn [snd]. now rewrite Hd, Et.
    + unfold Main.databricks_create. apply ingest_table;
        [apply reads_classify | intros; apply keyed_databricks_tail
        | now rewrite Hd, Et].
    + now rewrite Hd, Et.
Qed.

Lemma one_ticket_per_run_id_witness :
  Notions.well_keyed
    (Store.tickets
       (snd (Main.azure_monitor (Scenario.deployment None) Scenario.adf_request
               (Scenario.holding [Scenario.ticket "ADF-7" "run-7"])))).
Proof.
  apply (one_ticket_per_run_id (Scenario.deployment None) Scenario.adf_request
           (Scenario.holding [Scenario.ticket "ADF-7" "run-7"])).
  split; cbn; repeat constructor; cbn; tauto.
Defined.

(** ** FinOps tags *)

Section SubstringFacts.
Import Py.

Lemma startswith_longer (p q s : string) :
  startswith (p ++ q) s = true -> startswith p s = true.
Proof.
  revert s; induction p as [|a p IH]; intros s; cbn; [reflexivity|].
  destruct s as [|b s]; [discriminate|].
  intros H. apply andb_true_iff in H as [Hab H].
  rewrite Hab. now apply IH.
Qed.

Lemma contains_longer (p q s : string) :
  contains (p ++ q) s = true -> contains p s = true.
Proof.
  induction s as [|c s IH]; cbn [contains].
  - apply startswith_longer.
  - intros H. apply orb_true_iff in H as [H|H]; apply orb_true_iff.
    + left. now apply startswith_longer with q.
    + right. now apply IH.
Qed.

End SubstringFacts.

(** [extract_finops_tags].  A name that is null or empty gets "Unknown"
    three times; a name that is not text raises AttributeError.  For a text
    the team and the cost centre are one of seven fixed pairs, and the owner
    is the team in lower case at company.com.  The tags depend on the name
    only through its lower-cased form, and the keywords are substrings
    tried in a fixed order: a name that has "fin" anywhere is Finance
    whatever else it has, and otherwise one that has "data", "analytics" or
    "etl" is DataEngineering. *)
Theorem finops_tags :
  (forall v, Py.truthy v = false ->
             Main.extract_finops_tags v
             = Py.Ok ("Unknown", "Unknown", "Unknown")) /\
  (forall v, Py.truthy v = true -> Py.is_str v = false ->
             Main.extract_finops_tags v = Py.Raise Py.AttributeError) /\
  (forall s, s <> "" ->
             exists team cost_center,
               Main.extract_finops_tags (Py.VStr s)
               = Py.Ok (team, Py.lower team ++ "@company.com", cost_center) /\
               In (team, cost_center)
                 [("Finance", "CC-FIN-001"); ("DataEngineering", "CC-DATA-001");
                  ("Sales", "CC-SALES-001"); ("HumanResources", "CC-HR-001");
                  ("Marketing", "CC-MKT-001");
                  ("MachineLearning", "CC-ML-001");
                  ("Operations", "CC-OPS-001")]) /\
  (forall s, Main.extract_finops_tags (Py.VStr (Py.lower s))
             = Main.extract_finops_tags (Py.VStr s)) /\
  (forall s, Py.contains "fin" (Py.lower s) = true ->
             Main.extract_finops_tags (Py.VStr s)
             = Py.Ok ("Finance", "finance@company.com", "CC-FIN-001")) /\
  (forall s, s <> "" -> Py.contains "fin" (Py.lower s) = false ->
             Py.contains "data" (Py.lower s) || Py.contains "analytics" (Py.lower s)
             || Py.contains "etl" (Py.lower s) = true ->
             Main.extract_finops_tags (Py.VStr s)
             = Py.Ok ("DataEngineering", "dataengineering@company.com",
                      "CC-DATA-001")).
Proof.
  assert (Hne : forall s, s <> "" -> Py.truthy (Py.VStr s) = true).
  { intros [|c s] H; [congruence | reflexivity]. }
  assert (Hfin : forall l, Py.contains "finance" l = true ->
                           Py.contains "fin" l = true).
  { intros l. exact (contains_longer "fin" "ance" l). }
  split; [|split; [|split; [|split; [|split]]]].
  - intros v Hv. unfold Main.extract_finops_tags. now rewrite Hv.
  - intros v Hv Hs. unfold Main.extract_finops_tags. rewrite Hv.
    destruct v; try discriminate; reflexivity.
  - intros s Hs. unfold Main.extract_finops_tags.
    rewrite (Hne s Hs). cbn [negb Py.lower_of Py.bind].
    repeat match goal with
           | |- context [if ?b then _ else _] => destruct b
           end;
      eexists; eexists; (split; [reflexivity|]); cbn; tauto.
  - intros s. unfold Main.extract_finops_tags.
    destruct s as [|c s]; [reflexivity|].
    cbn [Py.truthy String.eqb negb Py.lower Py.lower_of Py.bind].
    replace (Py.lower_char (Py.lower_char c)) with (Py.lower_char c)
      by (symmetry; apply lower_char_idem).
    rewrite lower_idem.
    destruct (String (Py.lower_char c) (Py.lower s)) eqn:E; [discriminate|].
    reflexivity.
  - intros s H. unfold Main.extract_finops_tags.
    destruct s as [|c s]; [discriminate H|].
    cbn [Py.truthy String.eqb negb Py.lower_of Py.bind].
    rewrite H, orb_true_r. reflexivity.
  - intros s Hs Hf Hd. unfold Main.extract_finops_tags.
    rewrite (Hne s Hs). cbn [negb Py.lower_of Py.bind].
    rewrite Hf.
    destruct (Py.contains "finance" (Py.lower s)) eqn:E;
      [apply Hfin in E; congruence|].
    cbn [orb]. rewrite Hd. reflexivity.
Qed.

Lemma finops_tags_witness :
  Main.extract_finops_tags (Py.VStr "Sales_Final_Load")
  = Py.Ok ("Finance", "finance@company.com", "CC-FIN-001").
Proof.
  exact (proj1 (proj2 (proj2 (proj2 (proj2 finops_tags))))
           "Sales_Final_Load" eq_refl).
Defined.

(** ** Library specifications *)

Section SplitFacts.
Import Py Http Playbooks.

Lemma app_assoc_string (a b c : string) : (a ++ b) ++ c = a ++ (b ++ c).
Proof. induction a as [|x a IH]; cbn; [reflexivity | now rewrite IH]. Qed.

Lemma app_empty_r (a : string) : a ++ "" = a.
Proof. induction a as [|x a IH]; cbn; [reflexivity | now rewrite IH]. Qed.

(** A text without the separator is one piece. *)
Lemma split_from_absent (sep s : string) :
  forall piece,
    contains sep s = false -> sep <> "" ->
    split_from sep s 0 piece = (piece ++ s, []).
Proof.
  induction s as [|c s IH]; intros piece H Hs; cbn [split_from].
  - now rewrite app_empty_r.
  - rewrite (contains_false_here _ _ H).
    rewrite IH; [|exact (contains_false_tail _ _ _ H) | exact Hs].
    now rewrite app_assoc_string.
Qed.

(** Passing the rest of a separator that was found. *)
Lemma split_from_skip (sep rest s : string) :
  forall piece,
    split_from sep (rest ++ s) (String.length rest) piece
    = split_from sep s 0 piece.
Proof.
  induction rest as [|c rest IH]; intros piece; cbn; [|apply IH].
  destruct s; reflexivity.
Qed.

(** The separator, whose first character the text before it does not have,
    is found where it stands. *)
Lemma split_from_at (a : ascii) (sep' before after : string) :
  forall piece,
    contains (String a "") before = false ->
    split_from (String a sep') (before ++ String a sep' ++ after) 0 piece
    = (piece ++ before,
       let (next, rest) := split_from (String a sep') after 0 "" in
       next :: rest).
Proof.
  induction before as [|c before IH]; intros piece H.
  - cbn [append split_from]. rewrite app_empty_r.
    replace (startswith (String a sep') (String a (sep' ++ after))) with true
      by (symmetry; apply (startswith_app (String a sep') after)).
    cbn [String.length Nat.sub]. rewrite Nat.sub_0_r.
    now rewrite split_from_skip.
  - cbn [append split_from].
    assert (Hc : Ascii.eqb a c = false).
    { cbn [contains startswith] in H. apply orb_false_elim in H as [H _].
      now rewrite andb_true_r in H. }
    rewrite startswith_cons, Hc. cbn [andb].
    rewrite IH by exact (contains_false_tail _ _ _ H).
    now rewrite app_assoc_string.
Qed.

Lemma split_at (a : ascii) (sep' before after : string) :
  contains (String a "") before = false ->
  contains (String a sep') after = false ->
  split (String a sep') (before ++ String a sep' ++ after)
  = (before, [after]).
Proof.
  intros Hb Ha. unfold split. rewrite split_from_at by exact Hb.
  rewrite split_from_absent by (exact Ha || discriminate). reflexivity.
Qed.

Lemma contains_middle (p a b : string) :
  contains p (a ++ p ++ b) = true.
Proof. apply contains_app_r, contains_here, startswith_app. Qed.

(** A text without a character has no text that begins with it. *)
Lemma contains_first (a : ascii) (p s : string) :
  contains (String a "") s = false -> contains (String a p) s = false.
Proof.
  induction s as [|c s IH]; cbn [contains]; [reflexivity|].
  intros H. apply orb_false_elim in H as [H1 H2].
  rewrite (IH H2), orb_false_r.
  cbn [startswith] in H1 |- *. rewrite andb_true_r in H1. now rewrite H1.
Qed.

End SplitFacts.

(** [_parse_library_spec].  The package text [_install_library] builds from
    a name and a version, name "==" version, parses back to that name and
    that version, each stripped, when the name has no "=" and the version
    no "==".  A lower bound, name ">=" version, parses to the name and the
    version as well, not to the name alone: the version is kept, and what
    is then installed is exactly that version.  A text with none of "=",
    "<", ">" is a name without a version. *)
Theorem library_spec_parsed :
  (forall name version,
      version <> "" ->
      Py.contains "=" name = false -> Py.contains "==" version = false ->
      Playbooks._parse_library_spec (Playbooks.package_of name (Some version))
      = (Py.strip name, Some (Py.strip version))) /\
  (forall name version,
      Py.contains "==" (name ++ ">=" ++ version) = false ->
      Py.contains ">" name = false -> Py.contains ">=" version = false ->
      Playbooks._parse_library_spec (name ++ ">=" ++ version)
      = (Py.strip name, Some (Py.strip version)) /\
      Playbooks.package_of (Py.strip name) (Some (Py.strip version))
      = (if Py.strip version =? "" then Py.strip name
         else Py.strip name ++ "==" ++ Py.strip version)) /\
  (forall spec,
      Py.contains "=" spec = false -> Py.contains "<" spec = false ->
      Py.contains ">" spec = false ->
      Playbooks._parse_library_spec spec = (Py.strip spec, None)).
Proof.
  split; [|split].
  - intros name version Hv Hn Hvv.
    unfold Playbooks.package_of.
    destruct (String.eqb_spec version "") as [|_]; [contradiction|].
    unfold Playbooks._parse_library_spec, Playbooks.separators.
    cbn [Playbooks.parse_with].
    rewrite (contains_middle "==" name version).
    now rewrite (split_at "="%char "=" name version Hn Hvv).
  - intros name version H1 Hn Hv. split; [|reflexivity].
    unfold Playbooks._parse_library_spec, Playbooks.separators.
    cbn [Playbooks.parse_with]. rewrite H1.
    rewrite (contains_middle ">=" name version).
    now rewrite (split_at ">"%char "=" name version Hn Hv).
  - intros spec He Hl Hg.
    unfold Playbooks._parse_library_spec, Playbooks.separators.
    cbn [Playbooks.parse_with].
    rewrite (contains_first "="%char "=" spec He).
    rewrite (contains_first ">"%char "=" spec Hg).
    rewrite (contains_first "<"%char "=" spec Hl).
    rewrite Hg, Hl.
    assert (Ht : Py.contains "~=" spec = false).
    { clear - He. induction spec as [|c s IH]; [reflexivity|].
      cbn [Py.contains] in He |- *. apply orb_false_elim in He as [H1 H2].
      rewrite (IH H2), orb_false_r.
      cbn [Py.startswith] in H1 |- *. rewrite andb_true_r in H1.
      destruct (Ascii.eqb "~" c); [|reflexivity]. cbn [andb].
      destruct s as [|c' s]; [reflexivity|].
      cbn [Py.contains Py.startswith] in H2.
      apply orb_false_elim in H2 as [H2 _]. rewrite andb_true_r in H2.
      now rewrite H2. }
    now rewrite Ht.
Qed.

Lemma library_spec_parsed_witness :
  Playbooks._parse_library_spec (Playbooks.package_of "pandas" (Some "2.1.4"))
  = ("pandas", Some "2.1.4") /\
  Playbooks._parse_library_spec ("pandas" ++ ">=" ++ "2.0.0")
  = ("pandas", Some "2.0.0") /\
  Playbooks._parse_library_spec "scikit-learn" = ("scikit-learn", None).
Proof.
  split; [|split].
  - exact (proj1 library_spec_parsed "pandas" "2.1.4" ltac:(discriminate)
             eq_refl eq_refl).
  - exact (proj1 (proj1 (proj2 library_spec_parsed) "pandas" "2.0.0"
                    eq_refl eq_refl eq_refl)).
  - exact (proj2 (proj2 library_spec_parsed) "scikit-learn"
             eq_refl eq_refl eq_refl).
Defined.

(** ** Reinstalling a library *)

Section InstallFacts.
Import Py Http Playbooks Notions.
Local Open Scope list_scope.

Lemma install_run e cluster_id name version host token h :
  exists result,
    _install_library e cluster_id name version host token h =
    (Ok (accepted (remote e h (install_request cluster_id
                                 (package_of name version) host)),
         result),
     h ++ [install_request cluster_id (package_of name version) host]) /\
    (accepted (remote e h (install_request cluster_id
                             (package_of name version) host)) = true ->
     result = [("package", VStr (package_of name version));
               ("cluster_id", cluster_id)]).
Proof.
  unfold _install_library, bindM, send, accepted.
  destruct (remote e h _) as [status json text|why];
    [|eexists; split; [reflexivity | discriminate]].
  destruct (status =? 200)%Z; eexists; split; try reflexivity; discriminate.
Qed.

Lemma try_fallbacks_step e cluster_id name requested host token version rest h :
  same_version version requested = false ->
  try_fallbacks e cluster_id name requested host token (version :: rest) h =
  if accepted (remote e h (install_request cluster_id
                             (package_of name (Some version)) host))
  then
    (Ok (true,
         display ([("package", VStr (package_of name (Some version)));
                   ("cluster_id", cluster_id)] ++
                  [("fallback_used", VBool true);
                   ("requested_version", version_value requested);
                   ("installed_version", VStr version)])),
     h ++ [install_request cluster_id (package_of name (Some version)) host])
  else
    try_fallbacks e cluster_id name requested host token rest
      (h ++ [install_request cluster_id (package_of name (Some version)) host]).
Proof.
  intros Hv. cbn [try_fallbacks]. rewrite Hv. unfold bindM at 1.
  destruct (install_run e cluster_id name (Some version) host token h)
    as [result [Hrun Hres]].
  rewrite Hrun.
  destruct (accepted (remote e h _)); [|reflexivity].
  now rewrite (Hres eq_refl).
Qed.

(** The loop over the fallbacks, as a plan. *)
Lemma try_fallbacks_plan e cluster_id name requested host token versions :
  forall h,
    let reqs :=
      map (fun v => install_request cluster_id (package_of name (Some v)) host)
        (filter (fun v => negb (same_version v requested)) versions) in
    match first_accepted (remote e) h reqs with
    | Some i =>
        exists result,
          try_fallbacks e cluster_id name requested host token versions h
          = (Ok (true, result), h ++ firstn (S i) reqs) /\
          lookup "fallback_used" result = Some (VBool true) /\
          lookup "installed_version" result
          = option_map VStr
              (nth_error (filter (fun v => negb (same_version v requested))
                            versions) i)
    | None =>
        try_fallbacks e cluster_id name requested host token versions h
        = (Ok (false, [("error", VStr "All fallback versions failed")]),
           h ++ reqs)
    end.
Proof.
  induction versions as [|version rest IH]; intros h; cbn zeta.
  - cbn. now rewrite app_nil_r.
  - cbn [filter].
    destruct (same_version version requested) eqn:Hv; cbn [negb].
    + cbn [try_fallbacks]. rewrite Hv. apply IH.
    + rewrite (try_fallbacks_step _ _ _ _ _ _ _ _ _ Hv).
      cbn [map first_accepted].
      destruct (accepted (remote e h _)) eqn:Ea.
      * eexists. split; [reflexivity|]. split; reflexivity.
      * specialize (IH (h ++ [install_request cluster_id
                                (package_of name (Some version)) host])).
        cbn zeta in IH.
        destruct (first_accepted _ _ _) as [i|]; cbn [option_map].
        -- destruct IH as [result' [H1 [H2 H3]]]. exists result'.
           split; [|split; assumption].
           rewrite H1. cbn [firstn]. now rewrite <- app_assoc.
        -- rewrite IH. now rewrite <- app_assoc.
Qed.

Lemma fallbacks_bounded (name : string) :
  (List.length (fallbacks_of name) <= 4)%nat.
Proof.
  unfold fallbacks_of, LIBRARY_VERSION_FALLBACKS. cbn [AutoRemediation.table_get].
  repeat match goal with
         | |- context [if ?b then _ else _] => destruct b
         end; cbn; lia.
Qed.

Lemma reinstall_step e cluster_id spec host0 token name requested h :
  getenv e "DATABRICKS_HOST" = Some host0 ->
  rstrip_slash host0 <> ""%string ->
  getenv e "DATABRICKS_TOKEN" = Some token -> token <> ""%string ->
  _parse_library_spec spec = (name, requested) ->
  let first_request :=
    install_request cluster_id (package_of name requested)
      (rstrip_slash host0) in
  exists result,
    reinstall_databricks_libraries e cluster_id (VStr spec) None None true h =
    if accepted (remote e h first_request) then
      (Ok (true, [("package", VStr (package_of name requested));
                  ("cluster_id", cluster_id)]),
       h ++ [first_request])
    else
      match AutoRemediation.table_get name LIBRARY_VERSION_FALLBACKS with
      | Some versions =>
          try_fallbacks e cluster_id name requested (rstrip_slash host0) token
            versions (h ++ [first_request])
      | None => (Ok (false, result), h ++ [first_request])
      end.
Proof.
  intros Hh Hne Ht Htne Hp. cbn zeta.
  unfold reinstall_databricks_libraries, arg_or_env.
  rewrite Hh, Ht. cbn [text_of missing].
  destruct (String.eqb_spec (rstrip_slash host0) "") as [|_];
    [contradiction|].
  destruct (String.eqb_spec token "") as [|_]; [contradiction|].
  cbn [orb]. unfold bindM at 1. unfold lift at 1.
  cbn [parse_library_spec_of]. rewrite Hp.
  unfold bindM at 1.
  destruct (install_run e cluster_id name requested (rstrip_slash host0)
              token h) as [result [Hrun Hres]].
  rewrite Hrun. exists result.
  destruct (accepted (remote e h _)).
  - now rewrite (Hres eq_refl).
  - destruct (AutoRemediation.table_get name LIBRARY_VERSION_FALLBACKS);
      reflexivity.
Qed.

End InstallFacts.

(** [reinstall_databricks_libraries], with the credentials in the
    environment and fallbacks allowed.  It posts install requests for the
    planned versions in order (the requested one, then the registered
    fallbacks other than it) and stops at the first that is answered 200:
    it returns True then, with [fallback_used] in the result exactly when
    that was not the requested version; if none is accepted it returns
    False after the whole plan.  The plan has at most five requests, and
    the version that just failed is not tried again. *)
Theorem reinstall_plan (e : Playbooks.env) (cluster_id : Py.value)
  (spec host0 token name : string) (requested : option string)
  (h : Http.history) :
  Playbooks.getenv e "DATABRICKS_HOST" = Some host0 ->
  Http.rstrip_slash host0 <> "" ->
  Playbooks.getenv e "DATABRICKS_TOKEN" = Some token -> token <> "" ->
  Playbooks._parse_library_spec spec = (name, requested) ->
  let reqs :=
    map (fun v => Playbooks.install_request cluster_id
                    (Playbooks.package_of name v) (Http.rstrip_slash host0))
      (Notions.planned name requested) in
  (List.length reqs <= 5)%nat /\
  match Notions.first_accepted (Playbooks.remote e) h reqs with
  | Some i =>
      exists result,
        Playbooks.reinstall_databricks_libraries e cluster_id (Py.VStr spec)
          None None true h
        = (Py.Ok (true, result), (h ++ firstn (S i) reqs)%list) /\
        Py.lookup "fallback_used" result
        = (if (i =? 0)%nat then None else Some (Py.VBool true))
  | None =>
      exists result,
        Playbooks.reinstall_databricks_libraries e cluster_id (Py.VStr spec)
          None None true h
        = (Py.Ok (false, result), (h ++ reqs)%list)
  end.
Proof.
  intros Hh Hne Ht Htne Hp reqs.
  split.
  { unfold reqs, Notions.planned. rewrite length_map. cbn [List.length].
    rewrite length_map.
    pose proof (filter_length_le
                  (fun v => negb (Playbooks.same_version v requested))
                  (Notions.fallbacks_of name)).
    pose proof (fallbacks_bounded name). lia. }
  destruct (reinstall_step e cluster_id spec host0 token name requested h
              Hh Hne Ht Htne Hp) as [result Hstep].
  cbn zeta in Hstep. rewrite Hstep. clear Hstep.
  unfold reqs, Notions.planned. cbn [map Notions.first_accepted].
  destruct (Notions.accepted (Playbooks.remote e h _)) eqn:Ea.
  - eexists. split; reflexivity.
  - rewrite map_map.
    unfold Notions.fallbacks_of.
    destruct (AutoRemediation.table_get name Playbooks.LIBRARY_VERSION_FALLBACKS)
      as [versions|].
    + pose proof (try_fallbacks_plan e cluster_id name requested
                    (Http.rstrip_slash host0) token versions
                    (h ++ [Playbooks.install_request cluster_id
                             (Playbooks.package_of name requested)
                             (Http.rstrip_slash host0)])%list) as Hplan.
      cbn zeta in Hplan.
      destruct (Notions.first_accepted _ _ _) as [i|]; cbn [option_map].
      * destruct Hplan as [result' [H1 [H2 _]]]. exists result'.
        split; [|exact H2].
        rewrite H1. cbn [firstn]. now rewrite <- app_assoc.
      * eexists. rewrite Hplan. now rewrite <- app_assoc.
    + cbn. exists result. reflexivity.
Qed.

Lemma reinstall_plan_witness :
  let e := {| Playbooks.getenv :=
                fun var => if var =? "DATABRICKS_HOST"
                           then Some "https://dbx.example/"
                           else if var =? "DATABRICKS_TOKEN" then Some "token"
                           else None;
              Playbooks.remote :=
                fun h _ => if (List.length h <? 2)%nat
                           then Http.Answered 400 (Py.Raise Py.TypeError)
                                  "no such version"
                           else Http.Answered 200 (Py.Ok (Py.VDict [])) "{}";
              Playbooks.explain := Store.str_of_exn |} in
  exists result,
    fst (Playbooks.reinstall_databricks_libraries e (Py.VStr "0101-abc")
           (Py.VStr "pandas==2.1.4") None None true [])
    = Py.Ok (true, result) /\
    Py.lookup "fallback_used" result = Some (Py.VBool true) /\
    Py.lookup "installed_version" result = Some (Py.VStr "2.0.3").
Proof.
  cbn zeta.
  destruct (proj2 (reinstall_plan
              {| Playbooks.getenv :=
                   fun var => if var =? "DATABRICKS_HOST"
                              then Some "https://dbx.example/"
                              else if var =? "DATABRICKS_TOKEN" then Some "token"
                              else None;
                 Playbooks.remote :=
                   fun h _ => if (List.length h <? 2)%nat
                              then Http.Answered 400 (Py.Raise Py.TypeError)
                                     "no such version"
                              else Http.Answered 200 (Py.Ok (Py.VDict [])) "{}";
                 Playbooks.explain := Store.str_of_exn |}
              (Py.VStr "0101-abc") "pandas==2.1.4" "https://dbx.example/"
              "token" "pandas" (Some "2.1.4") []
              eq_refl ltac:(discriminate) eq_refl ltac:(discriminate) eq_refl))
    as [result [H1 H2]].
  exists result. split; [now rewrite H1|]. split; [exact H2|].
  vm_compute in H1. injection H1 as <-. reflexivity.
Defined.

(** ** Waiting for a cluster *)

Section ClusterFacts.
Import Py Http Playbooks Notions.
Local Open Scope list_scope.

Lemma get_state_run e cluster_id host token h :
  _get_cluster_state e cluster_id host token h =
  (Ok (state_of (remote e h (state_request cluster_id host))),
   h ++ [state_request cluster_id host]).
Proof.
  unfold _get_cluster_state, bindM, send, state_of, ret.
  destruct (remote e h _) as [status json text|why]; [|reflexivity].
  destruct (status =? 200)%Z; [|reflexivity].
  destruct json as [data|ex]; [|reflexivity].
  now destruct (get_default data "state" (VStr "UNKNOWN")).
Qed.

Lemma posts_app a b : posts (a ++ b) = (posts a + posts b)%nat.
Proof. unfold posts. now rewrite filter_app, length_app. Qed.

Lemma waiting_posts cluster_id host rs :
  waiting (state_request cluster_id host) rs -> posts rs = 0%nat.
Proof.
  unfold waiting, posts. induction 1 as [|r rs [-> | ->] _ IH];
    cbn [filter is_post state_request]; auto.
Qed.

(** The loop, round by round. *)
Lemma wait_loop_run e cluster_id desired host token n : forall h,
  exists b added,
    wait_loop e cluster_id desired host token n h = (Ok b, h ++ added) /\
    waiting (state_request cluster_id host) added /\
    (polls added <= n)%nat /\
    (0 <= waited added <= 10 * Z.of_nat n)%Z /\
    (b = true ->
     ended_on (remote e) h (state_request cluster_id host) desired added) /\
    (n = 0%nat -> added = [] /\ b = false).
Proof.
  induction n as [|n IH]; intro h.
  - exists false, []. cbn [wait_loop]. unfold ret. rewrite app_nil_r.
    split; [reflexivity|]. split; [constructor|].
    split; [cbn; lia|]. split; [cbn; lia|]. split; [discriminate|].
    intros _. now split.
  - cbn [wait_loop]. unfold bindM at 1. rewrite get_state_run.
    set (rq := state_request cluster_id host).
    assert (Hone : waiting rq [rq]) by (constructor; [now left|constructor]).
    destruct (eq_str (state_of (remote e h rq)) desired) eqn:Ed.
    { exists true, [rq]. unfold ret.
      split; [reflexivity|]. split; [exact Hone|].
      split; [cbn; lia|]. split; [unfold rq; cbn [waited state_request]; lia|].
      split; [|discriminate].
      intros _. exists []. now rewrite app_nil_r. }
    destruct (eq_str (state_of (remote e h rq)) "ERROR").
    { exists false, [rq]. unfold ret.
      split; [reflexivity|]. split; [exact Hone|].
      split; [cbn; lia|]. split; [unfold rq; cbn [waited state_request]; lia|].
      split; discriminate. }
    unfold bindM at 1. unfold pause.
    destruct (IH ((h ++ [rq]) ++ [Pause 10]))
      as [b [added [Hrun [Hw [Hp [Hs [Hb _]]]]]]].
    exists b, (rq :: Pause 10 :: added). rewrite Hrun.
    split; [now rewrite <- !app_assoc|].
    split; [constructor; [now left|constructor; [now right|exact Hw]]|].
    split; [unfold polls in *; unfold rq;
            cbn [filter is_get state_request List.length]; lia|].
    split; [unfold rq; cbn [waited state_request]; lia|].
    split; [|discriminate].
    intros Hbt. destruct (Hb Hbt) as [before [-> Hst]].
    exists (rq :: Pause 10 :: before). split; [reflexivity|].
    now rewrite <- !app_assoc in Hst.
Qed.

End ClusterFacts.

(** The wait for a cluster is bounded.  [_wait_for_cluster_state] never
    raises; its requests are state requests and pauses of ten seconds only,
    at most six state requests per minute of the timeout, and it sleeps no
    longer than the timeout; it returns True only when its last request
    was answered with the desired state; a timeout of zero or less returns
    False without any request. *)
Theorem wait_is_bounded (e : Playbooks.env) (cluster_id : Py.value)
  (desired host token : string) (timeout_minutes : Z) (h : Http.history) :
  exists b added,
    Playbooks._wait_for_cluster_state e cluster_id desired host token
      timeout_minutes h = (Py.Ok b, (h ++ added)%list) /\
    Notions.waiting (Playbooks.state_request cluster_id host) added /\
    (Z.of_nat (Notions.polls added) <= Z.max 0 (timeout_minutes * 6))%Z /\
    (Notions.waited added <= Z.max 0 (timeout_minutes * 60))%Z /\
    (b = true ->
     Notions.ended_on (Playbooks.remote e) h
       (Playbooks.state_request cluster_id host) desired added) /\
    ((timeout_minutes <= 0)%Z -> added = [] /\ b = false).
Proof.
  unfold Playbooks._wait_for_cluster_state.
  destruct (wait_loop_run e cluster_id desired host token
              (Z.to_nat (timeout_minutes * 6)) h)
    as [b [added [Hrun [Hw [Hp [Hs [Hb H0]]]]]]].
  exists b, added. split; [exact Hrun|]. split; [exact Hw|].
  split; [lia|]. split; [lia|]. split; [exact Hb|].
  intros Ht. apply H0. lia.
Qed.

(** ** Restarting a cluster *)

Section RestartFacts.
Import Py Http Playbooks Notions.
Local Open Scope list_scope.

Lemma ended_on_later srv h rq state first rs :
  ended_on srv (h ++ first) rq state rs ->
  ended_on srv h rq state (first ++ rs).
Proof.
  intros [before [-> Hs]]. exists (first ++ before).
  split; [now rewrite app_assoc|]. now rewrite app_assoc.
Qed.

Lemma ended_on_once srv h rq state :
  eq_str (state_of (srv h rq)) state = true -> ended_on srv h rq state [rq].
Proof. intros Hs. exists []. now rewrite app_nil_r. Qed.

Lemma restart_run (e : Playbooks.env) (cluster_id : Py.value)
  (host token : option string) (wait_for_ready : bool) (timeout_minutes : Z)
  (h : Http.history) :
  let host' :=
    Http.rstrip_slash
      (Playbooks.text_of
         (Playbooks.arg_or_env e host "DATABRICKS_HOST" (Some ""))) in
  let token' := Playbooks.arg_or_env e token "DATABRICKS_TOKEN" None in
  let rq := Playbooks.state_request cluster_id host' in
  exists success result added,
    Playbooks.restart_databricks_cluster e cluster_id host token
      wait_for_ready timeout_minutes h
    = (Py.Ok (success, result), (h ++ added)%list) /\
    (Notions.posts added <= 1)%nat /\
    (host' = "" \/ Playbooks.missing token' = true ->
     added = [] /\ success = false) /\
    (Http.among (Notions.state_of (Playbooks.remote e h rq))
       ["RUNNING"; "PENDING"] = true ->
     Notions.posts added = 0%nat) /\
    (wait_for_ready = true -> success = true ->
     Notions.ended_on (Playbooks.remote e) h rq "RUNNING" added).
Proof.
  intros host' token' rq.
  unfold Playbooks.restart_databricks_cluster.
  fold host'. fold token'.
  destruct (String.eqb_spec host' "") as [Eh|Eh]; cbn [orb].
  { exists false, Playbooks.no_credentials, []. unfold Http.ret.
    rewrite app_nil_r. split; [reflexivity|]. split; [cbn; lia|].
    split; [now split|]. split; [reflexivity|discriminate]. }
  destruct (Playbooks.missing token') eqn:Em.
  { exists false, Playbooks.no_credentials, []. unfold Http.ret.
    rewrite app_nil_r. split; [reflexivity|]. split; [cbn; lia|].
    split; [now split|]. split; [reflexivity|discriminate]. }
  assert (Hcreds : host' = "" \/ false = true -> False)
    by (intros [?|?]; [contradiction|discriminate]).
  unfold Http.bindM at 1. rewrite get_state_run. fold rq.
  unfold Http.among. cbn [existsb]. rewrite orb_false_r.
  unfold Playbooks._wait_for_cluster_state.
  destruct (Http.eq_str (Notions.state_of (Playbooks.remote e h rq)) "RUNNING")
    eqn:Er; cbn [orb].
  { eexists true, _, [rq]. unfold Http.ret.
    split; [reflexivity|]. split; [cbn; lia|].
    split; [intros H; now destruct (Hcreds H)|]. split; [reflexivity|].
    intros _ _. now apply ended_on_once. }
  destruct (Http.eq_str (Notions.state_of (Playbooks.remote e h rq)) "PENDING")
    eqn:Ep.
  { destruct wait_for_ready.
    - unfold Http.bindM at 1.
      destruct (wait_loop_run e cluster_id "RUNNING" host'
                  (Playbooks.text_of token')
                  (Z.to_nat (timeout_minutes * 6)) (h ++ [rq])%list)
        as [b [more [Hrun [Hw [_ [_ [Hb _]]]]]]].
      fold rq in Hrun, Hw, Hb. rewrite Hrun.
      eexists b, _, (rq :: more). unfold Http.ret.
      split; [now rewrite <- app_assoc|].
      assert (Hposts : Notions.posts (rq :: more) = 0%nat).
      { change (rq :: more) with ([rq] ++ more)%list. rewrite posts_app.
        rewrite (waiting_posts cluster_id host' more Hw). reflexivity. }
      split; [lia|].
      split; [intros H; now destruct (Hcreds H)|]. split; [now intros _|].
      intros _ Hs. change (rq :: more) with ([rq] ++ more)%list.
      apply ended_on_later. now apply Hb.
    - eexists true, _, [rq]. unfold Http.ret.
      split; [reflexivity|]. split; [cbn; lia|].
      split; [intros H; now destruct (Hcreds H)|]. split; [reflexivity|].
      discriminate. }
  unfold Http.bindM at 1. unfold Http.send.
  set (start := Playbooks.start_request cluster_id host').
  assert (Hstart : Notions.posts [rq; start] = 1%nat) by reflexivity.
  destruct (Playbooks.remote e (h ++ [rq])%list start) as [status json text|why].
  2:{ eexists false, _, [rq; start]. unfold Http.ret.
      split; [now rewrite <- app_assoc|]. split; [lia|].
      split; [intros H; now destruct (Hcreds H)|].
      split; discriminate. }
  destruct (status =? 200)%Z.
  2:{ eexists false, _, [rq; start]. unfold Http.ret.
      split; [now rewrite <- app_assoc|]. split; [lia|].
      split; [intros H; now destruct (Hcreds H)|].
      split; discriminate. }
  destruct wait_for_ready.
  2:{ eexists true, _, [rq; start]. unfold Http.ret.
      split; [now rewrite <- app_assoc|]. split; [lia|].
      split; [intros H; now destruct (Hcreds H)|].
      split; discriminate. }
  unfold Http.bindM at 1.
  destruct (wait_loop_run e cluster_id "RUNNING" host'
              (Playbooks.text_of token')
              (Z.to_nat (timeout_minutes * 6)) ((h ++ [rq]) ++ [start])%list)
    as [b [more [Hrun [Hw [_ [_ [Hb _]]]]]]].
  fold rq in Hrun, Hw, Hb. rewrite Hrun.
  assert (Hposts : Notions.posts ([rq; start] ++ more)%list = 1%nat).
  { rewrite posts_app. rewrite (waiting_posts cluster_id host' more Hw).
    reflexivity. }
  assert (Hhist : (((h ++ [rq]) ++ [start]) ++ more = h ++ [rq; start] ++ more)%list)
    by now rewrite <- !app_assoc.
  destruct b; unfold Http.ret.
  - eexists true, _, ([rq; start] ++ more)%list.
    split; [now rewrite Hhist|]. split; [lia|].
    split; [intros H; now destruct (Hcreds H)|].
    split; [discriminate|].
    intros _ _. apply ended_on_later.
    replace (h ++ [rq; start])%list with ((h ++ [rq]) ++ [start])%list
      by now rewrite <- app_assoc.
    now apply Hb.
  - eexists false, _, ([rq; start] ++ more)%list.
    split; [now rewrite Hhist|]. split; [lia|].
    split; [intros H; now destruct (Hcreds H)|].
    split; discriminate.
Qed.

Lemma restart_shape e cluster_id host token wait_for_ready timeout_minutes h
  success result h' :
  restart_databricks_cluster e cluster_id host token wait_for_ready
    timeout_minutes h = (Ok (success, result), h') ->
  lookup "new_run_id" result = None /\ lookup "run_id" result = None /\
  (success = true ->
   exists status,
     result = [("status", VStr status); ("cluster_id", cluster_id)] /\
     (wait_for_ready = true ->
      In status ["already_running"; "started"; "running"])).
Proof.
  unfold restart_databricks_cluster.
  destruct (_ || _); [intros [= <- <- _]; now repeat split|].
  unfold bindM at 1. rewrite get_state_run.
  destruct (eq_str _ "RUNNING").
  { intros [= <- <- _]. repeat split. intros _. eexists. split; [reflexivity|].
    intros _. now left. }
  unfold _wait_for_cluster_state.
  destruct (eq_str _ "PENDING").
  { destruct wait_for_ready.
    - unfold bindM at 1.
      destruct (wait_loop_run e cluster_id "RUNNING"
                  (rstrip_slash
                     (text_of (arg_or_env e host "DATABRICKS_HOST" (Some ""))))
                  (text_of (arg_or_env e token "DATABRICKS_TOKEN" None))
                  (Z.to_nat (timeout_minutes * 6))
                  (h ++ [state_request cluster_id
                           (rstrip_slash
                              (text_of (arg_or_env e host "DATABRICKS_HOST"
                                          (Some ""))))]))
        as [b [more [Hrun _]]].
      rewrite Hrun. intros [= <- <- _]. repeat split. intros _.
      eexists. split; [reflexivity|]. intros _. right. now left.
    - intros [= <- <- _]. repeat split. intros _. eexists.
      split; [reflexivity|discriminate]. }
  unfold bindM at 1. unfold send.
  destruct (remote e _ _) as [status json text|why];
    [|intros [= <- <- _]; now repeat split].
  destruct (status =? 200)%Z; [|intros [= <- <- _]; now repeat split].
  destruct wait_for_ready.
  2:{ intros [= <- <- _]. repeat split. intros _. eexists.
      split; [reflexivity|discriminate]. }
  unfold bindM at 1.
  destruct (wait_loop_run e cluster_id "RUNNING"
              (rstrip_slash
                 (text_of (arg_or_env e host "DATABRICKS_HOST" (Some ""))))
              (text_of (arg_or_env e token "DATABRICKS_TOKEN" None))
              (Z.to_nat (timeout_minutes * 6))
              ((h ++ [state_request cluster_id
                        (rstrip_slash
                           (text_of (arg_or_env e host "DATABRICKS_HOST"
                                       (Some ""))))]) ++
               [start_request cluster_id
                  (rstrip_slash
                     (text_of (arg_or_env e host "DATABRICKS_HOST"
                                 (Some ""))))]))
    as [b [more [Hrun _]]].
  rewrite Hrun. destruct b; intros [= <- <- _]; [|now repeat split].
  repeat split. intros _. eexists. split; [reflexivity|].
  intros _. right. right. now left.
Qed.

End RestartFacts.

(** A restart reports success only for a running cluster.
    [restart_databricks_cluster] never raises and posts at most one start
    request: none without credentials (then it makes no request at all),
    and none when the cluster is RUNNING or PENDING at the first look.
    When it waits for the cluster, it returns True only when its last
    request asked for the state and was answered RUNNING. *)
Theorem restart_reports_running (e : Playbooks.env) (cluster_id : Py.value)
  (host token : option string) (wait_for_ready : bool) (timeout_minutes : Z)
  (h : Http.history) :
  let host' :=
    Http.rstrip_slash
      (Playbooks.text_of
         (Playbooks.arg_or_env e host "DATABRICKS_HOST" (Some ""))) in
  let token' := Playbooks.arg_or_env e token "DATABRICKS_TOKEN" None in
  let rq := Playbooks.state_request cluster_id host' in
  exists success result added,
    Playbooks.restart_databricks_cluster e cluster_id host token
      wait_for_ready timeout_minutes h
    = (Py.Ok (success, result), (h ++ added)%list) /\
    (Notions.posts added <= 1)%nat /\
    (host' = "" \/ Playbooks.missing token' = true ->
     added = [] /\ success = false) /\
    (Http.among (Notions.state_of (Playbooks.remote e h rq))
       ["RUNNING"; "PENDING"] = true ->
     Notions.posts added = 0%nat) /\
    (wait_for_ready = true -> success = true ->
     Notions.ended_on (Playbooks.remote e) h rq "RUNNING" added).
Proof. exact (restart_run e cluster_id host token wait_for_ready timeout_minutes h). Qed.

(** ** The playbook server *)

Section EndpointFacts.
Import Py Http Playbooks PlaybookServer Notions.
Local Open Scope list_scope.

Lemma lookup_dict_set k k' v d :
  lookup k (dict_set k' v d) = if (k' =? k)%string then Some v else lookup k d.
Proof.
  induction d as [|[k0 v0] d IH]; cbn [dict_set lookup].
  - now destruct (k' =? k)%string.
  - destruct (String.eqb_spec k0 k') as [->|Hn]; cbn [lookup].
    + now destruct (k' =? k)%string.
    + rewrite IH. destruct (String.eqb_spec k0 k) as [->|_]; [|reflexivity].
      destruct (String.eqb_spec k' k) as [->|_]; [contradiction|reflexivity].
Qed.

(** In a dict display the last item of a key is the one that counts. *)
Lemma lookup_display k items : lookup k (display items) = lookup k (rev items).
Proof.
  unfold display.
  assert (H : forall d,
             lookup k (fold_left (fun d kv => dict_set (fst kv) (snd kv) d)
                         items d)
             = match lookup k (rev items) with
               | Some v => Some v
               | None => lookup k d
               end).
  { induction items as [|[k0 v0] items IH]; intro d; [reflexivity|].
    cbn [fold_left rev fst snd]. rewrite IH, lookup_dict_set.
    clear IH. induction (rev items) as [|[k1 v1] l IHl]; cbn [app lookup].
    - now destruct (k0 =? k)%string.
    - destruct (k1 =? k)%string; [reflexivity|exact IHl]. }
  rewrite H. now destruct (lookup k (rev items)).
Qed.

Lemma handled_status ticket_id outcome :
  status_code (handled ticket_id outcome) = (if fst outcome then 200 else 500)%Z.
Proof. destruct outcome as [[|] result]; reflexivity. Qed.

(** An endpoint answers, whatever the body and the handler. *)
Lemma endpoint_answers e body what complaint also handler h :
  exists r h',
    endpoint e body what complaint also handler h = (Ok r, h') /\
    (status_code r = 200 \/ status_code r = 500)%Z.
Proof.
  unfold endpoint, try_except.
  match goal with
  | |- context [match ?m h with _ => _ end] => destruct (m h) as [[r|ex] h'] eqn:E
  end.
  2:{ exists (failed e ex), h'. split; [reflexivity|now right]. }
  exists r, h'. split; [reflexivity|].
  revert E. unfold bindM at 1. unfold lift at 1.
  destruct body as [b|]; [|discriminate].
  unfold bindM at 1. unfold lift at 1.
  destruct (get b "ticket_id") as [t|]; [|discriminate].
  unfold bindM at 1. unfold lift at 1.
  destruct (get_default b "metadata" (VDict [])) as [md|]; [|discriminate].
  unfold bindM at 1. unfold lift at 1.
  destruct (get md what) as [wanted|]; [|discriminate].
  unfold bindM at 1. unfold lift at 1.
  destruct (also md) as [more|]; [|discriminate].
  destruct (truthy wanted); [|discriminate].
  unfold bindM at 1.
  destruct (handler wanted more h) as [[outcome|] h1]; [|discriminate].
  unfold bindM, lift, ret. intros [= <- _].
  rewrite handled_status. destruct (fst outcome); auto.
Qed.

(** The declared 400 ends in the [except] branch. *)
Lemma endpoint_missing e b what complaint also handler h t md wanted more :
  get b "ticket_id" = Ok t ->
  get_default b "metadata" (VDict []) = Ok md ->
  get md what = Ok wanted -> also md = Ok more ->
  truthy wanted = false ->
  endpoint e (Ok b) what complaint also handler h =
  (Ok (failed e (HTTPException 400 complaint)), h).
Proof.
  intros Ht Hm Hw Ha Hf. unfold endpoint, try_except, bindM, lift, throw, ret.
  now rewrite Ht, Hm, Hw, Ha, Hf.
Qed.

End EndpointFacts.

(** The playbook endpoints always answer, with 200 or 500.  Whatever the
    body (not JSON, not a dict, anything) and whatever the other side
    does, each of the three endpoints returns a response and raises
    nothing; its status is 200 or 500, so the 400 the code declares is
    never sent. *)
Theorem playbook_endpoints_answer (e : Playbooks.env)
  (body : Py.result Py.value) (h : Http.history) :
  Forall (fun endpoint : Playbooks.env -> Py.result Py.value ->
                         Http.M PlaybookServer.reply =>
            exists r h',
              endpoint e body h = (Py.Ok r, h') /\
              (PlaybookServer.status_code r = 200 \/
               PlaybookServer.status_code r = 500)%Z)
    [PlaybookServer.retry_pipeline_endpoint;
     PlaybookServer.restart_cluster_endpoint;
     PlaybookServer.reinstall_libraries_endpoint].
Proof.
  repeat constructor; apply endpoint_answers.
Qed.

(** A request without its field is answered 500, not 400.  When the body
    is a dict whose metadata (a dict, or absent) has no truthy "pipeline",
    the retry endpoint answers 500 with the text of the HTTPException 400
    as its message, and nothing is sent to Azure; the same for the restart
    and the reinstall endpoints and "cluster_id". *)
Theorem missing_field_answers_500 (e : Playbooks.env)
  (d metadata : list (string * Py.value)) (h : Http.history) :
  Py.get_default (Py.VDict d) "metadata" (Py.VDict []) = Py.Ok (Py.VDict metadata) ->
  let complain (complaint : string) : PlaybookServer.reply :=
    {| PlaybookServer.status_code := 500;
       PlaybookServer.content :=
         [("status", Py.VStr "error");
          ("message",
           Py.VStr (Playbooks.explain e (Py.HTTPException 400 complaint)))] |} in
  (Py.truthy (Spec.item "pipeline" metadata) = false ->
   PlaybookServer.retry_pipeline_endpoint e (Py.Ok (Py.VDict d)) h
   = (Py.Ok (complain "Missing pipeline name in metadata"), h)) /\
  (Py.truthy (Spec.item "cluster_id" metadata) = false ->
   PlaybookServer.restart_cluster_endpoint e (Py.Ok (Py.VDict d)) h
   = (Py.Ok (complain "Missing cluster_id in metadata"), h) /\
   PlaybookServer.reinstall_libraries_endpoint e (Py.Ok (Py.VDict d)) h
   = (Py.Ok (complain "Missing cluster_id in metadata"), h)).
Proof.
  intros Hm complain.
  split; [intros Hf|intros Hf; split].
  - unfold PlaybookServer.retry_pipeline_endpoint.
    now rewrite (endpoint_missing e (Py.VDict d) "pipeline" _ _ _ h
                   (Spec.item "ticket_id" d) (Py.VDict metadata)
                   (Spec.item "pipeline" metadata) Py.VNone eq_refl Hm
                   eq_refl eq_refl Hf).
  - unfold PlaybookServer.restart_cluster_endpoint.
    now rewrite (endpoint_missing e (Py.VDict d) "cluster_id" _ _ _ h
                   (Spec.item "ticket_id" d) (Py.VDict metadata)
                   (Spec.item "cluster_id" metadata) Py.VNone eq_refl Hm
                   eq_refl eq_refl Hf).
  - unfold PlaybookServer.reinstall_libraries_endpoint.
    now rewrite (endpoint_missing e (Py.VDict d) "cluster_id" _ _ _ h
                   (Spec.item "ticket_id" d) (Py.VDict metadata)
                   (Spec.item "cluster_id" metadata)
                   (match Py.lookup "library_spec" metadata with
                    | Some x => x
                    | None => Py.VStr "pandas"
                    end) eq_refl Hm eq_refl eq_refl Hf).
Qed.

Lemma missing_field_answers_500_witness :
  let e := {| Playbooks.getenv := fun _ => None;
              Playbooks.remote := fun _ _ => Http.Unreachable "down";
              Playbooks.explain := Store.str_of_exn |} in
  fst (PlaybookServer.restart_cluster_endpoint e
         (Py.Ok (Py.VDict [("ticket_id", Py.VStr "DBX-1")])) [])
  = Py.Ok {| PlaybookServer.status_code := 500;
             PlaybookServer.content :=
               [("status", Py.VStr "error");
                ("message", Py.VStr "Missing cluster_id in metadata")] |}.
Proof.
  cbn zeta.
  rewrite (proj1 (proj2 (missing_field_answers_500
             {| Playbooks.getenv := fun _ => None;
                Playbooks.remote := fun _ _ => Http.Unreachable "down";
                Playbooks.explain := Store.str_of_exn |}
             [("ticket_id", Py.VStr "DBX-1")] [] [] eq_refl) eq_refl)).
  reflexivity.
Defined.

(** ** What a playbook's answer says *)

Section ReplyFacts.
Import Py Http Playbooks PlaybookServer Notions.
Local Open Scope list_scope.

(** The two ways an endpoint answers. *)
Lemma endpoint_cases e body what complaint also handler h r h' :
  endpoint e body what complaint also handler h = (Ok r, h') ->
  (exists ex, r = failed e ex) \/
  (exists d md wanted more outcome,
     body = Ok (VDict d) /\
     get_default (VDict d) "metadata" (VDict []) = Ok md /\
     get md what = Ok wanted /\ also md = Ok more /\
     handler wanted more h = (Ok outcome, h') /\
     r = handled (Spec.item "ticket_id" d) outcome /\
     truthy wanted = true).
Proof.
  unfold endpoint, try_except.
  match goal with
  | |- context [match ?m h with _ => _ end] => destruct (m h) as [[r0|ex] h0] eqn:E
  end.
  2:{ unfold ret. intros [= <- _]. left. now exists ex. }
  intros [= -> ->]. right. revert E. unfold bindM at 1. unfold lift at 1.
  destruct body as [b|]; [|discriminate].
  unfold bindM at 1. unfold lift at 1.
  destruct (get b "ticket_id") as [t|] eqn:Et; [|discriminate].
  destruct b as [| | | | |d]; try discriminate.
  unfold get, get_default in Et. injection Et as <-.
  unfold bindM at 1. unfold lift at 1.
  destruct (get_default (VDict d) "metadata" (VDict [])) as [md|] eqn:Em;
    [|discriminate].
  unfold bindM at 1. unfold lift at 1.
  destruct (get md what) as [wanted|] eqn:Ew; [|discriminate].
  unfold bindM at 1. unfold lift at 1.
  destruct (also md) as [more|] eqn:Ea; [|discriminate].
  destruct (truthy wanted) eqn:Etr; [|discriminate].
  unfold bindM at 1.
  destruct (handler wanted more h) as [[outcome|] h1] eqn:Eh; [|discriminate].
  unfold bindM, lift, ret. intros [= <- <-].
  exists d, md, wanted, more, outcome. repeat split; assumption.
Qed.

Lemma lookup_rev_none k (l : list (string * value)) :
  lookup k l = None -> lookup k (rev l) = None.
Proof.
  assert (Happ : forall a b, lookup k a = None -> lookup k b = None ->
                             lookup k (a ++ b) = None).
  { induction a as [|[k0 v0] a IH]; cbn [app lookup]; [auto|].
    destruct (k0 =? k)%string; [discriminate|auto]. }
  induction l as [|[k0 v0] l IH]; cbn [rev lookup]; [auto|].
  destruct (k0 =? k)%string eqn:E; [discriminate|].
  intros H. apply Happ; [auto|]. cbn [lookup]. now rewrite E.
Qed.

(** A reply names no run when the handler's dict names none. *)
Lemma handled_names_no_run ticket_id success result :
  lookup "new_run_id" result = None -> lookup "run_id" result = None ->
  new_run_id_of (content (handled ticket_id (success, result))) = VNone.
Proof.
  intros Hn Hr.
  assert (H : forall status,
             new_run_id_of (display ([("status", VStr status);
                                      ("ticket_id", ticket_id)] ++ result))
             = VNone).
  { intros status. unfold new_run_id_of, Spec.item.
    rewrite !lookup_display, !lookup_rev_none; [reflexivity| |];
      cbn [app lookup String.eqb Ascii.eqb Bool.eqb]; assumption. }
  destruct success; cbn [handled content]; apply H.
Qed.

(** What a successful retry of a pipeline did. *)
Lemma retry_run e pipeline_name h result h' :
  retry_adf_pipeline e pipeline_name None None None None VNone h
  = (Ok (true, result), h') ->
  exists subscription_id resource_group factory_name access_token
         status data text,
    (getenv e "AZURE_SUBSCRIPTION_ID" = Some subscription_id /\
     getenv e "AZURE_RESOURCE_GROUP" = Some resource_group /\
     getenv e "AZURE_ADF_NAME" = Some factory_name /\
     getenv e "AZURE_ACCESS_TOKEN" = Some access_token) /\
    (subscription_id <> "" /\ resource_group <> "" /\ factory_name <> "" /\
     access_token <> "")%string /\
    h' = h ++ [Post (create_run_url subscription_id resource_group
                       factory_name pipeline_name)
                 (VDict [("parameters", VDict [])])] /\
    remote e h (Post (create_run_url subscription_id resource_group
                        factory_name pipeline_name)
                  (VDict [("parameters", VDict [])]))
    = Answered status (Ok (VDict data)) text /\
    (status = 200 \/ status = 202)%Z /\
    result = [("new_run_id", Spec.item "runId" data);
              ("pipeline", pipeline_name)].
Proof.
  unfold retry_adf_pipeline, arg_or_env.
  destruct (getenv e "AZURE_ADF_NAME") as [fa|]; cbn [missing orb];
    [|discriminate].
  destruct (String.eqb_spec fa ""); cbn [orb]; [discriminate|].
  destruct (getenv e "AZURE_RESOURCE_GROUP") as [rg|]; cbn [missing orb];
    [|discriminate].
  destruct (String.eqb_spec rg ""); cbn [orb]; [discriminate|].
  destruct (getenv e "AZURE_SUBSCRIPTION_ID") as [su|]; cbn [missing orb];
    [|discriminate].
  destruct (String.eqb_spec su ""); cbn [orb]; [discriminate|].
  destruct (getenv e "AZURE_ACCESS_TOKEN") as [tk|]; cbn [missing orb];
    [|discriminate].
  destruct (String.eqb_spec tk ""); cbn [orb]; [discriminate|].
  unfold bindM, send, ret. cbn [truthy text_of].
  match goal with
  | |- context [remote e h ?rq] =>
      destruct (remote e h rq) as [status json text|why] eqn:Ea
  end; [|discriminate].
  destruct ((status =? 200)%Z || (status =? 202)%Z) eqn:Es; [|discriminate].
  destruct json as [data|]; [|discriminate].
  destruct (get data "runId") as [run_id|] eqn:Er; [|discriminate].
  intros [= <- <-].
  destruct data as [| | | | |items]; try discriminate.
  unfold get, get_default in Er. injection Er as <-.
  exists su, rg, fa, tk, status, items, text.
  split; [repeat split; reflexivity|]. split; [repeat split; assumption|].
  split; [reflexivity|]. split; [exact Ea|]. split; [lia|reflexivity].
Qed.

Lemma restart_reply (e : Playbooks.env)
  (body : Py.result Py.value) (h h' : Http.history)
  (r : PlaybookServer.reply) :
  PlaybookServer.restart_cluster_endpoint e body h = (Py.Ok r, h') ->
  Notions.new_run_id_of (PlaybookServer.content r) = Py.VNone /\
  (PlaybookServer.status_code r = 200%Z ->
   exists ticket_id cluster_id status added,
     PlaybookServer.content r
     = [("status", Py.VStr status); ("ticket_id", ticket_id);
        ("cluster_id", cluster_id)] /\
     In status ["already_running"; "started"; "running"] /\
     h' = (h ++ added)%list /\
     Notions.ended_on (Playbooks.remote e) h
       (Playbooks.state_request cluster_id
          (Http.rstrip_slash
             (Playbooks.text_of
                (Playbooks.arg_or_env e None "DATABRICKS_HOST" (Some "")))))
       "RUNNING" added).
Proof.
  intros H. unfold PlaybookServer.restart_cluster_endpoint in H.
  apply endpoint_cases in H.
  destruct H as [[ex ->]|[d [md [cluster_id [more [[success result] H]]]]]].
  { split; [reflexivity|discriminate]. }
  destruct H as [_ [_ [_ [_ [Hrun [-> _]]]]]].
  destruct (restart_shape _ _ _ _ _ _ _ _ _ _ Hrun) as [Hn [Hr Hs]].
  split; [now apply handled_names_no_run|].
  rewrite handled_status. cbn [fst]. destruct success; [|discriminate].
  intros _. destruct (Hs eq_refl) as [status [-> Hin]].
  destruct (restart_run e cluster_id None None true 10 h)
    as [success' [result' [added [Hrun' [_ [_ [_ Hend]]]]]]].
  cbn zeta in Hrun', Hend. rewrite Hrun in Hrun'.
  injection Hrun' as <- _ ->.
  exists (Spec.item "ticket_id" d), cluster_id, status, added.
  split; [reflexivity|]. split; [now apply Hin|]. split; [reflexivity|].
  now apply Hend.
Qed.

End ReplyFacts.

(** A 200 of the restart endpoint means a running cluster.  Whatever the
    restart endpoint answers names no run (neither "new_run_id" nor
    "run_id"), so the remediation engine keeps the run id it had.  When
    it answers 200, its last request asked for the state of the cluster
    named in the metadata and was answered RUNNING, and the "status" of
    the reply is the handler's ("already_running", "started" or
    "running"), never "success". *)
Theorem restart_endpoint_reply (e : Playbooks.env)
  (body : Py.result Py.value) (h h' : Http.history)
  (r : PlaybookServer.reply) :
  PlaybookServer.restart_cluster_endpoint e body h = (Py.Ok r, h') ->
  Notions.new_run_id_of (PlaybookServer.content r) = Py.VNone /\
  (PlaybookServer.status_code r = 200%Z ->
   exists ticket_id cluster_id status added,
     PlaybookServer.content r
     = [("status", Py.VStr status); ("ticket_id", ticket_id);
        ("cluster_id", cluster_id)] /\
     In status ["already_running"; "started"; "running"] /\
     h' = (h ++ added)%list /\
     Notions.ended_on (Playbooks.remote e) h
       (Playbooks.state_request cluster_id
          (Http.rstrip_slash
             (Playbooks.text_of
                (Playbooks.arg_or_env e None "DATABRICKS_HOST" (Some "")))))
       "RUNNING" added).
Proof. exact (restart_reply e body h h' r). Qed.

Lemma restart_endpoint_reply_witness :
  let e := {| Playbooks.getenv :=
                fun var => if var =? "DATABRICKS_HOST"
                           then Some "https://dbx.example"
                           else if var =? "DATABRICKS_TOKEN" then Some "token"
                           else None;
              Playbooks.remote :=
                fun _ _ =>
                  Http.Answered 200
                    (Py.Ok (Py.VDict [("state", Py.VStr "RUNNING")])) "{}";
              Playbooks.explain := Store.str_of_exn |} in
  let r := {| PlaybookServer.status_code := 200;
              PlaybookServer.content :=
                [("status", Py.VStr "already_running");
                 ("ticket_id", Py.VStr "DBX-1");
                 ("cluster_id", Py.VStr "0101-abc")] |} in
  Notions.new_run_id_of (PlaybookServer.content r) = Py.VNone.
Proof.
  cbn zeta.
  exact (proj1 (restart_endpoint_reply
           {| Playbooks.getenv :=
                fun var => if var =? "DATABRICKS_HOST"
                           then Some "https://dbx.example"
                           else if var =? "DATABRICKS_TOKEN" then Some "token"
                           else None;
              Playbooks.remote :=
                fun _ _ =>
                  Http.Answered 200
                    (Py.Ok (Py.VDict [("state", Py.VStr "RUNNING")])) "{}";
              Playbooks.explain := Store.str_of_exn |}
           (Py.Ok (Py.VDict [("ticket_id", Py.VStr "DBX-1");
                             ("metadata",
                              Py.VDict [("cluster_id", Py.VStr "0101-abc")])]))
           [] _ _ eq_refl)).
Defined.

(** A 200 of the retry endpoint means one accepted createRun.  When the
    retry endpoint answers 200, the body is a JSON object whose metadata
    names a pipeline, the four AZURE_ settings are there, and exactly one
    request went out: the POST to the createRun address of that pipeline in
    the configured subscription, resource group and factory, with empty
    parameters.  It was answered 200 or 202 with a JSON object, and the
    reply is "success" with the ticket id of the body, that object's
    "runId" (None when it has none) as "new_run_id" and the pipeline
    name. *)
Theorem retry_endpoint_reply (e : Playbooks.env)
  (body : Py.result Py.value) (h h' : Http.history)
  (r : PlaybookServer.reply) :
  PlaybookServer.retry_pipeline_endpoint e body h = (Py.Ok r, h') ->
  PlaybookServer.status_code r = 200%Z ->
  exists d md subscription_id resource_group factory_name access_token
         status data text,
    (body = Py.Ok (Py.VDict d) /\
     Spec.item_default "metadata" (Py.VDict []) d = Py.VDict md /\
     Py.truthy (Spec.item "pipeline" md) = true) /\
    (Playbooks.getenv e "AZURE_SUBSCRIPTION_ID" = Some subscription_id /\
     Playbooks.getenv e "AZURE_RESOURCE_GROUP" = Some resource_group /\
     Playbooks.getenv e "AZURE_ADF_NAME" = Some factory_name /\
     Playbooks.getenv e "AZURE_ACCESS_TOKEN" = Some access_token) /\
    (subscription_id <> "" /\ resource_group <> "" /\ factory_name <> "" /\
     access_token <> "") /\
    let createRun :=
      Http.Post
        ("https://management.azure.com/subscriptions/" ++ subscription_id ++
         "/resourceGroups/" ++ resource_group ++
         "/providers/Microsoft.DataFactory/factories/" ++ factory_name ++
         "/pipelines/" ++ Py.str (Spec.item "pipeline" md) ++
         "/createRun?api-version=2018-06-01")
        (Py.VDict [("parameters", Py.VDict [])]) in
    h' = (h ++ [createRun])%list /\
    Playbooks.remote e h createRun
    = Http.Answered status (Py.Ok (Py.VDict data)) text /\
    (status = 200 \/ status = 202)%Z /\
    PlaybookServer.content r
    = [("status", Py.VStr "success");
       ("ticket_id", Spec.item "ticket_id" d);
       ("new_run_id", Spec.item "runId" data);
       ("pipeline", Spec.item "pipeline" md)].
Proof.
  intros H Hs. unfold PlaybookServer.retry_pipeline_endpoint in H.
  apply endpoint_cases in H.
  destruct H as [[ex ->]|[d [md [pipeline_name [more [[success result] H]]]]]];
    [discriminate|].
  destruct H as [-> [Hmd [Hp [_ [Hrun [-> Htr]]]]]].
  rewrite handled_status in Hs. cbn [fst] in Hs.
  destruct success; [|discriminate].
  destruct md as [| | | | |md]; try discriminate Hp.
  unfold Py.get, Py.get_default in Hp. injection Hp as <-.
  destruct (retry_run _ _ _ _ _ Hrun)
    as [su [rg [fa [tk [status [data [text H]]]]]]].
  destruct H as [Henv [Hne [-> [Ha [Hst ->]]]]].
  exists d, md, su, rg, fa, tk, status, data, text.
  split; [|split; [exact Henv|split; [exact Hne|]]].
  - split; [reflexivity|]. split; [|exact Htr].
    unfold Py.get_default in Hmd. now injection Hmd.
  - cbn zeta. repeat split; try assumption.
Qed.

Lemma retry_endpoint_reply_witness :
  let e := {| Playbooks.getenv :=
                fun var =>
                  if var =? "AZURE_SUBSCRIPTION_ID" then Some "sub-1"
                  else if var =? "AZURE_RESOURCE_GROUP" then Some "rg-data"
                  else if var =? "AZURE_ADF_NAME" then Some "adf-prod"
                  else Some "token";
              Playbooks.remote :=
                fun _ _ =>
                  Http.Answered 202
                    (Py.Ok (Py.VDict [("runId", Py.VStr "run-2")])) "{}";
              Playbooks.explain := Store.str_of_exn |} in
  let body := Py.VDict [("ticket_id", Py.VStr "ADF-1");
                        ("metadata",
                         Py.VDict [("pipeline", Py.VStr "copy")])] in
  PlaybookServer.status_code
    (match fst (PlaybookServer.retry_pipeline_endpoint e (Py.Ok body) []) with
     | Py.Ok r => r
     | Py.Raise _ => PlaybookServer.failed e Py.TypeError
     end) = 200%Z /\
  exists d md subscription_id resource_group factory_name access_token
         status data text,
    (Py.Ok body = Py.Ok (Py.VDict d) /\
     Spec.item_default "metadata" (Py.VDict []) d = Py.VDict md /\
     Py.truthy (Spec.item "pipeline" md) = true) /\
    (Playbooks.getenv e "AZURE_SUBSCRIPTION_ID" = Some subscription_id /\
     Playbooks.getenv e "AZURE_RESOURCE_GROUP" = Some resource_group /\
     Playbooks.getenv e "AZURE_ADF_NAME" = Some factory_name /\
     Playbooks.getenv e "AZURE_ACCESS_TOKEN" = Some access_token) /\
    (subscription_id <> "" /\ resource_group <> "" /\ factory_name <> "" /\
     access_token <> "") /\
    let createRun :=
      Http.Post
        ("https://management.azure.com/subscriptions/" ++ subscription_id ++
         "/resourceGroups/" ++ resource_group ++
         "/providers/Microsoft.DataFactory/factories/" ++ factory_name ++
         "/pipelines/" ++ Py.str (Spec.item "pipeline" md) ++
         "/createRun?api-version=2018-06-01")
        (Py.VDict [("parameters", Py.VDict [])]) in
    snd (PlaybookServer.retry_pipeline_endpoint e (Py.Ok body) [])
    = ([] ++ [createRun])%list /\
    Playbooks.remote e [] createRun
    = Http.Answered status (Py.Ok (Py.VDict data)) text /\
    (status = 200 \/ status = 202)%Z /\
    [("status", Py.VStr "success"); ("ticket_id", Py.VStr "ADF-1");
     ("new_run_id", Py.VStr "run-2"); ("pipeline", Py.VStr "copy")]
    = [("status", Py.VStr "success");
       ("ticket_id", Spec.item "ticket_id" d);
       ("new_run_id", Spec.item "runId" data);
       ("pipeline", Spec.item "pipeline" md)].
Proof.
  cbn zeta. split; [reflexivity|].
  exact (retry_endpoint_reply
           {| Playbooks.getenv :=
                fun var =>
                  if var =? "AZURE_SUBSCRIPTION_ID" then Some "sub-1"
                  else if var =? "AZURE_RESOURCE_GROUP" then Some "rg-data"
                  else if var =? "AZURE_ADF_NAME" then Some "adf-prod"
                  else Some "token";
              Playbooks.remote :=
                fun _ _ =>
                  Http.Answered 202
                    (Py.Ok (Py.VDict [("runId", Py.VStr "run-2")])) "{}";
              Playbooks.explain := Store.str_of_exn |}
           (Py.Ok (Py.VDict [("ticket_id", Py.VStr "ADF-1");
                             ("metadata",
                              Py.VDict [("pipeline", Py.VStr "copy")])]))
           [] _ _ eq_refl eq_refl).
Defined.

(** ** The cluster monitor *)

Section MonitorFacts.
Import Py Http Monitor Notions.
Local Open Scope list_scope.

Lemma eq_str_true v s : eq_str v s = true -> v = VStr s.
Proof.
  destruct v; try discriminate. cbn [eq_str]. intros H.
  now apply String.eqb_eq in H as ->.
Qed.

(** A kept event is a dict with one of three types, and has a payload. *)
Lemma kept_payload event :
  is_error event = Ok true ->
  exists d t,
    event = VDict d /\ Spec.item "type" d = VStr t /\
    In t ["FAILED_TO_START"; "TERMINATED"; "TERMINATING"] /\
    webhook_payload event =
    Ok (VDict [("event", VStr ("cluster." ++ lower t));
               ("event_type", VStr t);
               ("timestamp", item_or "timestamp" (VInt 0) d);
               ("cluster", VDict (cluster_info d t))]).
Proof.
  destruct event as [| | | | |d]; try discriminate.
  unfold is_error, webhook_payload, get, get_default, bind.
  set (ty := match lookup "type" d with Some x => x | None => VNone end).
  intros H.
  assert (Ht : exists t, ty = VStr t /\
                         In t ["FAILED_TO_START"; "TERMINATED"; "TERMINATING"]).
  { destruct (eq_str ty "FAILED_TO_START") eqn:E1.
    - exists "FAILED_TO_START". split; [now apply eq_str_true|now left].
    - destruct (among ty ["TERMINATED"; "TERMINATING"]) eqn:E2;
        [|discriminate].
      unfold among in E2. cbn [existsb] in E2. rewrite orb_false_r in E2.
      apply orb_true_iff in E2 as [E|E]; apply eq_str_true in E.
      + exists "TERMINATED". split; [exact E|right; now left].
      + exists "TERMINATING". split; [exact E|right; right; now left]. }
  destruct Ht as [t [Et Hin]]. rewrite Et.
  exists d, t. unfold py_in, lower_of, cluster_info, item_or.
  split; [reflexivity|]. split; [exact Et|]. split; [exact Hin|].
  now destruct (lookup "reason" d).
Qed.

Lemma keep_errors_kept events : forall kept,
  keep_errors events = Ok kept ->
  Forall (fun event => is_error event = Ok true) kept.
Proof.
  induction events as [|event events IH]; cbn [keep_errors]; intros kept.
  - intros [= <-]. constructor.
  - unfold bind. destruct (is_error event) as [keep|] eqn:Ek; [|discriminate].
    destruct (keep_errors events) as [rest|]; [|discriminate].
    intros [= <-]. destruct keep; [constructor|]; auto.
Qed.

Lemma send_all_run e kept :
  Forall (fun event => is_error event = Ok true) kept ->
  exists payloads,
    Forall2 (fun event payload => webhook_payload event = Ok payload)
      kept payloads /\
    forall h,
      send_all e kept h =
      (Ok tt, h ++ map (Post (text_of (FASTAPI_URL e))) payloads).
Proof.
  induction 1 as [|event kept Hk _ [payloads [Hp Hrun]]].
  - exists []. split; [constructor|]. intros h. cbn. unfold ret.
    now rewrite app_nil_r.
  - destruct (kept_payload event Hk) as [d [t [_ [_ [_ Hw]]]]].
    eexists (_ :: payloads). split; [constructor; [exact Hw|exact Hp]|].
    intros h. cbn [send_all map]. unfold bindM at 1.
    unfold send_to_fastapi, bindM, lift, send, ret. rewrite Hw, Hrun.
    now rewrite <- app_assoc.
Qed.

Lemma events_run e h events h1 :
  get_cluster_events e h = (Ok events, h1) -> h1 = h ++ [events_request e].
Proof.
  unfold get_cluster_events, bindM, send, ret.
  destruct (remote e h _) as [status json text|why]; [|now intros [= _ <-]].
  destruct (status =? 200)%Z; [|now intros [= _ <-]].
  destruct json as [result|]; [|now intros [= _ <-]].
  destruct (get_default result "events" (VList []));
    now intros [= _ <-].
Qed.

End MonitorFacts.

(** The monitor forwards all error events or none.  With the three
    settings there and the events retrieved, either the filter raises (an
    event that is not a dict, a reason that is not one) and nothing is
    sent to the FastAPI URL, or the run ends normally after exactly one
    POST per kept event, in order, each with the payload of its event;
    building a payload never fails for a kept event, and what the URL
    answers changes nothing. *)
Theorem monitor_delivers (e : Monitor.env) (h h1 : Http.history)
  (events : Py.value) :
  Monitor.unset (Monitor.DATABRICKS_HOST e) = false ->
  Monitor.unset (Monitor.DATABRICKS_TOKEN e) = false ->
  Monitor.unset (Monitor.FASTAPI_URL e) = false ->
  Monitor.get_cluster_events e h = (Py.Ok (Some events), h1) ->
  match Monitor.filter_error_events events with
  | Py.Ok kept =>
      exists payloads,
        Forall2 (fun event payload =>
                   Monitor.webhook_payload event = Py.Ok payload)
          kept payloads /\
        Monitor.main e h =
        (Py.Ok tt,
         (h ++ Monitor.events_request e ::
            map (Http.Post (Monitor.text_of (Monitor.FASTAPI_URL e)))
              payloads)%list)
  | Py.Raise ex =>
      Monitor.main e h = (Py.Raise ex, (h ++ [Monitor.events_request e])%list)
  end.
Proof.
  intros H1 H2 H3 He.
  assert (Hmain :
            Monitor.main e h =
            match Monitor.filter_error_events events with
            | Py.Ok kept =>
                Monitor.send_all e kept (h ++ [Monitor.events_request e])%list
            | Py.Raise ex =>
                (Py.Raise ex, (h ++ [Monitor.events_request e])%list)
            end).
  { unfold Monitor.main. rewrite H1, H2, H3. cbn [orb].
    unfold Http.bindM at 1. rewrite He.
    apply events_run in He. subst h1.
    unfold Http.bindM, Http.lift.
    now destruct (Monitor.filter_error_events events). }
  rewrite Hmain. clear Hmain.
  destruct (Monitor.filter_error_events events) as [kept|ex] eqn:Ef;
    [|reflexivity].
  unfold Monitor.filter_error_events, Py.bind in Ef.
  destruct (Monitor.iterate events) as [l|]; [|discriminate].
  destruct (send_all_run e kept (keep_errors_kept l kept Ef))
    as [payloads [Hp Hrun]].
  exists payloads. split; [exact Hp|].
  rewrite Hrun. now rewrite <- app_assoc.
Qed.

Lemma monitor_delivers_witness :
  let failed :=
    Py.VDict [("type", Py.VStr "FAILED_TO_START");
              ("cluster_id", Py.VStr "0101-abc")] in
  let resized :=
    Py.VDict [("type", Py.VStr "RESTARTING");
              ("cluster_id", Py.VStr "0202-def")] in
  let e := {| Monitor.DATABRICKS_HOST := Some "https://dbx.example";
              Monitor.DATABRICKS_TOKEN := Some "token";
              Monitor.FASTAPI_URL := Some "https://rca.example/databricks-monitor";
              Monitor.start_time_ms := 0;
              Monitor.end_time_ms := 360000;
              Monitor.remote :=
                fun h _ =>
                  match h with
                  | [] => Http.Answered 200
                            (Py.Ok (Py.VDict [("events",
                                               Py.VList [resized; failed])]))
                            "{}"
                  | _ => Http.Unreachable "down"
                  end |} in
  exists payload,
    Monitor.webhook_payload failed = Py.Ok payload /\
    Monitor.main e [] =
    (Py.Ok tt,
     [Monitor.events_request e;
      Http.Post "https://rca.example/databricks-monitor" payload]).
Proof.
  cbn zeta.
  destruct (monitor_delivers
              {| Monitor.DATABRICKS_HOST := Some "https://dbx.example";
                 Monitor.DATABRICKS_TOKEN := Some "token";
                 Monitor.FASTAPI_URL :=
                   Some "https://rca.example/databricks-monitor";
                 Monitor.start_time_ms := 0;
                 Monitor.end_time_ms := 360000;
                 Monitor.remote :=
                   fun h _ =>
                     match h with
                     | [] =>
                         Http.Answered 200
                           (Py.Ok
                              (Py.VDict
                                 [("events",
                                   Py.VList
                                     [Py.VDict
                                        [("type", Py.VStr "RESTARTING");
                                         ("cluster_id", Py.VStr "0202-def")];
                                      Py.VDict
                                        [("type", Py.VStr "FAILED_TO_START");
                                         ("cluster_id", Py.VStr "0101-abc")]])]))
                           "{}"
                     | _ => Http.Unreachable "down"
                     end |}
              [] _ _ eq_refl eq_refl eq_refl eq_refl)
    as [payloads [Hp Hrun]].
  inversion Hp as [|event payload kept rest Hw Hrest]; subst.
  inversion Hrest; subst.
  exists payload. split; [exact Hw|exact Hrun].
Defined.

(** ** From the monitor to the endpoint *)

(** A forwarded cluster event arrives without its cluster and without a run
    id.  For every event the monitor keeps, the payload it posts is read
    by the Databricks endpoint as an event of the job "Databricks
    Job/Cluster" with no run id and no job id, the cluster id "N/A" and the
    message "Databricks job event: cluster.<type>": the cluster name, the
    cluster id and the termination reason of the payload are not read.
    With no run id there is no duplicate check, so every delivery goes on
    to create a ticket, whatever tickets exist. *)
Theorem cluster_event_at_endpoint (event : Py.value) :
  Monitor.is_error event = Py.Ok true ->
  exists payload kind,
    Monitor.webhook_payload event = Py.Ok payload /\
    In kind ["failed_to_start"; "terminated"; "terminating"] /\
    let fields :=
      {| Main.dbx_job_name := Py.VStr "Databricks Job/Cluster";
         Main.dbx_run_id := Py.VNone;
         Main.dbx_job_id := Py.VNone;
         Main.dbx_cluster_id := Py.VStr "N/A";
         Main.dbx_error_message :=
           Py.VStr ("Databricks job event: cluster." ++ kind) |} in
    Main.databricks_webhook payload = Py.Ok fields /\
    forall (e : Main.env) (key : option string) (w : Store.World),
      Main.databricks_monitor e
        {| Main.x_api_key := key; Main.json_body := Some payload |} w
      = Main.databricks_create e fields w.
Proof.
  intros Hk.
  destruct (kept_payload event Hk) as [d [t [_ [_ [Hin Hw]]]]].
  eexists _, (Py.lower t). split; [exact Hw|].
  assert (Hweb :
            Main.databricks_webhook
              (Py.VDict [("event", Py.VStr ("cluster." ++ Py.lower t));
                         ("event_type", Py.VStr t);
                         ("timestamp",
                          Notions.item_or "timestamp" (Py.VInt 0) d);
                         ("cluster", Py.VDict (Notions.cluster_info d t))])
            = Py.Ok {| Main.dbx_job_name := Py.VStr "Databricks Job/Cluster";
                       Main.dbx_run_id := Py.VNone;
                       Main.dbx_job_id := Py.VNone;
                       Main.dbx_cluster_id := Py.VStr "N/A";
                       Main.dbx_error_message :=
                         Py.VStr ("Databricks job event: cluster." ++
                                  Py.lower t) |}).
  { destruct Hin as [<-|[<-|[<-|[]]]]; reflexivity. }
  split.
  { destruct Hin as [<-|[<-|[<-|[]]]]; cbn; auto. }
  cbn zeta. split; [exact Hweb|].
  intros e key w.
  unfold Main.databricks_monitor. cbn [Main.json_body].
  unfold Main.databricks_extract.
  unfold Store.bindM at 1. unfold Store.bindM at 1. unfold Store.lift at 1.
  rewrite Hweb. cbn [Main.dbx_run_id Py.truthy andb].
  unfold Store.bindM at 1. unfold Store.ret at 1.
  unfold Store.bindM at 1. unfold Store.lift at 1.
  destruct Hin as [<-|[<-|[<-|[]]]]; reflexivity.
Qed.

Lemma cluster_event_at_endpoint_witness :
  exists payload kind,
    Monitor.webhook_payload
      (Py.VDict [("type", Py.VStr "TERMINATED");
                 ("cluster_id", Py.VStr "0101-abc");
                 ("reason", Py.VDict [("code", Py.VStr "CLOUD_PROVIDER_SHUTDOWN");
                                      ("type", Py.VStr "CLOUD_FAILURE")])])
    = Py.Ok payload /\
    In kind ["failed_to_start"; "terminated"; "terminating"] /\
    Main.databricks_webhook payload
    = Py.Ok {| Main.dbx_job_name := Py.VStr "Databricks Job/Cluster";
               Main.dbx_run_id := Py.VNone;
               Main.dbx_job_id := Py.VNone;
               Main.dbx_cluster_id := Py.VStr "N/A";
               Main.dbx_error_message :=
                 Py.VStr ("Databricks job event: cluster." ++ kind) |}.
Proof.
  destruct (cluster_event_at_endpoint
              (Py.VDict [("type", Py.VStr "TERMINATED");
                         ("cluster_id", Py.VStr "0101-abc");
                         ("reason",
                          Py.VDict [("code", Py.VStr "CLOUD_PROVIDER_SHUTDOWN");
                                    ("type", Py.VStr "CLOUD_FAILURE")])])
              eq_refl)
    as [payload [kind [Hw [Hin [Hweb _]]]]].
  exists payload, kind. split; [exact Hw|]. split; [exact Hin|exact Hweb].
Defined.

(** ** Asking whether a ticket exists *)

Section CheckFacts.
Import Py Store Deduplication.

Lemma find_none_not_taken (r : cell) (ts : list Ticket) :
  run_id_taken r ts = false ->
  find (fun t => cell_eqb (t_run_id t) r) ts = None.
Proof.
  unfold run_id_taken. induction ts as [|t ts IH]; cbn [existsb find]; [auto|].
  intros H. apply orb_false_elim in H as [Ht Hts]. rewrite Ht. auto.
Qed.

Lemma find_last (r : string) (ts : list Ticket) (row : Ticket) :
  run_id_taken (Some r) ts = false -> t_run_id row = Some r ->
  find (fun t => cell_eqb (t_run_id t) (Some r)) (ts ++ [row])%list = Some row.
Proof.
  unfold run_id_taken. intros H Hr.
  induction ts as [|t ts IH]; cbn [existsb find app].
  - rewrite Hr. cbn [cell_eqb]. now rewrite String.eqb_refl.
  - cbn [existsb] in H. apply orb_false_elim in H as [Ht Hts].
    rewrite Ht. auto.
Qed.

(** The check, once the key is right and the run id is one. *)
Lemma check_run e timestamp run_id key w :
  (key =? Main.RCA_API_KEY e) = true ->
  (strip run_id =? "") || (strip run_id =? "N/A") = false ->
  check_ticket_exists e timestamp run_id (Some key) w =
  (Ok match find (fun t => cell_eqb (t_run_id t) (Some (strip run_id)))
              (tickets w) with
      | Some t =>
          VDict [("exists", VBool true); ("ticket_id", VStr (t_id t));
                 ("status", cell_value (t_status t));
                 ("timestamp", timestamp (t_id t))]
      | None => no_ticket
      end, w).
Proof.
  intros Hk Hc. unfold check_ticket_exists. rewrite Hk, Hc.
  unfold ticket_by_run_id, bindM, lift, get_world, ret. cbn [bind_text].
  now destruct (find _ _).
Qed.

End CheckFacts.

(** Insert, then ask.  With the right key, [check_ticket_exists] changes
    nothing and answers without looking at the table when the run id is
    blank or "N/A" once stripped (a ticket stored for "N/A" is not
    reported); it answers that there is no ticket when no row has the
    stripped run id; and after an INSERT of a row with a run id that is
    neither blank, nor "N/A", nor padded with white space, it reports that
    row: its id, its status and its timestamp. *)
Theorem check_ticket_exists_answers (e : Main.env)
  (timestamp : Deduplication.timestamps) (key : string) (w : Store.World) :
  (key =? Main.RCA_API_KEY e) = true ->
  (forall run_id,
      snd (Deduplication.check_ticket_exists e timestamp run_id (Some key) w)
      = w) /\
  (forall run_id,
      Py.strip run_id = "" \/ Py.strip run_id = "N/A" ->
      Deduplication.check_ticket_exists e timestamp run_id (Some key) w
      = (Py.Ok Deduplication.no_ticket, w)) /\
  (forall run_id,
      Store.run_id_taken (Some (Py.strip run_id)) (Store.tickets w) = false ->
      Deduplication.check_ticket_exists e timestamp run_id (Some key) w
      = (Py.Ok Deduplication.no_ticket, w)) /\
  (forall suffix row r w',
      Store.insert_ticket None suffix row w = (Py.Ok tt, w') ->
      Store.t_run_id row = Some r ->
      Py.strip r = r -> r <> "" -> r <> "N/A" ->
      Deduplication.check_ticket_exists e timestamp r (Some key) w'
      = (Py.Ok (Py.VDict
                  [("exists", Py.VBool true);
                   ("ticket_id", Py.VStr (Store.t_id row));
                   ("status", Deduplication.cell_value (Store.t_status row));
                   ("timestamp", timestamp (Store.t_id row))]), w')).
Proof.
  intros Hk.
  assert (Hblank : forall run_id,
             (Py.strip run_id =? "") || (Py.strip run_id =? "N/A") = true ->
             Deduplication.check_ticket_exists e timestamp run_id (Some key) w
             = (Py.Ok Deduplication.no_ticket, w)).
  { intros run_id Hb. unfold Deduplication.check_ticket_exists.
    now rewrite Hk, Hb. }
  split; [|split; [|split]].
  - intros run_id.
    destruct ((Py.strip run_id =? "") || (Py.strip run_id =? "N/A")) eqn:Hc.
    + now rewrite Hblank.
    + now rewrite check_run.
  - intros run_id [H|H]; apply Hblank; rewrite H; reflexivity.
  - intros run_id Hfree.
    destruct ((Py.strip run_id =? "") || (Py.strip run_id =? "N/A")) eqn:Hc.
    + now apply Hblank.
    + rewrite check_run by assumption.
      now rewrite (find_none_not_taken _ _ Hfree).
  - intros suffix row r w' Hins Hr Hs Hne Hna.
    rewrite check_run; [|exact Hk|].
    2:{ rewrite Hs. apply orb_false_intro; now apply String.eqb_neq. }
    rewrite Hs. revert Hins.
    unfold Store.insert_ticket, Store.bindM, Store.get_world, Store.throw,
      Store.set_tickets.
    destruct (Store.id_taken _ _); [discriminate|].
    destruct (Store.run_id_taken _ _) eqn:Hfree; [discriminate|].
    intros [= <-]. cbn [Store.tickets].
    rewrite Hr in Hfree. now rewrite (find_last r _ row Hfree Hr).
Qed.

Lemma check_ticket_exists_answers_witness :
  let e := Scenario.deployment None in
  let stamps : Deduplication.timestamps := fun _ => Py.VStr "2025-01-01T00:00:00" in
  Deduplication.check_ticket_exists e stamps " N/A " (Some (Main.RCA_API_KEY e))
    (Scenario.holding [Scenario.ticket "ADF-1" "N/A"])
  = (Py.Ok Deduplication.no_ticket,
     Scenario.holding [Scenario.ticket "ADF-1" "N/A"]) /\
  fst (Deduplication.check_ticket_exists e stamps "run-42"
         (Some (Main.RCA_API_KEY e))
         (snd (Store.insert_ticket None "" (Scenario.ticket "ADF-2" "run-42")
                 (Scenario.holding [Scenario.ticket "ADF-1" "N/A"]))))
  = Py.Ok (Py.VDict
             [("exists", Py.VBool true);
              ("ticket_id", Py.VStr "ADF-2");
              ("status",
               Deduplication.cell_value
                 (Store.t_status (Scenario.ticket "ADF-2" "run-42")));
              ("timestamp", Py.VStr "2025-01-01T00:00:00")]).
Proof.
  cbn zeta.
  pose proof (check_ticket_exists_answers (Scenario.deployment None)
                (fun _ => Py.VStr "2025-01-01T00:00:00")
                (Main.RCA_API_KEY (Scenario.deployment None))
                (Scenario.holding [Scenario.ticket "ADF-1" "N/A"])
                (String.eqb_refl _)) as [_ [Hblank [_ Hins]]].
  split.
  - apply Hblank. right. reflexivity.
  - exact (f_equal fst
             (Hins "" (Scenario.ticket "ADF-2" "run-42") "run-42" _ eq_refl
                eq_refl eq_refl ltac:(discriminate) ltac:(discriminate))).
Defined.

(** ** The other extractors *)

(** An alert context that is null.  When the "alertContext" under "data"
    is there but falsy and not a dict (null, false, 0, an empty string or
    list), the Synapse extractor raises AttributeError, whatever else the
    payload holds; the Functions extractor, given essentials that are a
    dict with items, reads the alert from them: the rule as the function,
    the alert id as the invocation, the description (or "Azure Function
    failed") as the message. *)
Theorem null_alert_context (payload data : list (string * Py.value))
  (alert_context : Py.value) :
  Py.lookup "data" payload = Some (Py.VDict data) ->
  Py.lookup "alertContext" data = Some alert_context ->
  Py.truthy alert_context = false -> Py.is_dict alert_context = false ->
  ErrorExtractors.synapse_extract (Py.VDict payload)
  = Py.Raise Py.AttributeError /\
  forall essentials,
    Py.lookup "essentials" data = Some (Py.VDict essentials) ->
    essentials <> [] ->
    ErrorExtractors.functions_extract (Py.VDict payload)
    = Py.Ok (Spec.first_truthy [Spec.item "alertRule" essentials]
               (Py.VStr "Azure Function"),
             Spec.item "alertId" essentials,
             Spec.first_truthy [Spec.item "description" essentials]
               (Py.VStr "Azure Function failed"),
             [("function_app", Py.VNone); ("exception_type", Py.VNone);
              ("severity", Spec.item "severity" essentials);
              ("timestamp", Py.VNone)]).
Proof.
  intros Hd Ha Hf Hn.
  split.
  - unfold ErrorExtractors.synapse_extract, ErrorExtractors.data_get,
      ErrorExtractors.empty_dict, Py.or_else, Py.get.
    cbn [Py.get_default Py.bind]. rewrite Hd. cbn [Py.get_default Py.bind].
    rewrite Ha.
    assert (Hraise : Py.get_default alert_context "properties" (Py.VDict [])
                     = Py.Raise Py.AttributeError)
      by (destruct alert_context; try reflexivity; discriminate).
    rewrite Hraise.
    destruct (Py.truthy match Py.lookup "essentials" data with
                        | Some x => x
                        | None => Py.VNone
                        end); [reflexivity|].
    now destruct (Py.truthy match Py.lookup "essentials" payload with
                            | Some x => x
                            | None => Py.VNone
                            end).
  - intros essentials He Hne.
    assert (Hes : Py.truthy (Py.VDict essentials) = true)
      by (destruct essentials; [contradiction|reflexivity]).
    unfold ErrorExtractors.functions_extract, ErrorExtractors.data_get,
      ErrorExtractors.empty_dict, Py.or_else, Py.get.
    cbn [Py.get_default Py.bind]. rewrite Hd. cbn [Py.get_default Py.bind].
    rewrite He, Hes, Ha, Hf. cbn [Py.get_default Py.bind Py.lookup Py.truthy].
    unfold Spec.first_truthy, Spec.item.
    destruct (Py.lookup "alertRule" essentials) as [rule|];
      destruct (Py.lookup "alertId" essentials) as [id|];
      destruct (Py.lookup "description" essentials) as [description|];
      destruct (Py.lookup "severity" essentials) as [severity|];
      cbn [Py.truthy];
      repeat match goal with
             | |- context [Py.truthy ?v] => destruct (Py.truthy v)
             end; reflexivity.
Qed.

Lemma null_alert_context_witness :
  let payload :=
    [("data",
      Py.VDict [("essentials",
                 Py.VDict [("alertRule", Py.VStr "orders-failed");
                           ("alertId", Py.VStr "a-17")]);
                ("alertContext", Py.VNone)])] in
  ErrorExtractors.synapse_extract (Py.VDict payload)
  = Py.Raise Py.AttributeError /\
  exists metadata,
    ErrorExtractors.functions_extract (Py.VDict payload)
    = Py.Ok (Py.VStr "orders-failed", Py.VStr "a-17",
             Py.VStr "Azure Function failed", metadata).
Proof.
  cbn zeta.
  destruct (null_alert_context
              [("data",
                Py.VDict [("essentials",
                           Py.VDict [("alertRule", Py.VStr "orders-failed");
                                     ("alertId", Py.VStr "a-17")]);
                          ("alertContext", Py.VNone)])]
              [("essentials",
                Py.VDict [("alertRule", Py.VStr "orders-failed");
                          ("alertId", Py.VStr "a-17")]);
               ("alertContext", Py.VNone)]
              Py.VNone eq_refl eq_refl eq_refl eq_refl) as [Hs Hf].
  split; [exact Hs|]. eexists.
  exact (Hf [("alertRule", Py.VStr "orders-failed");
             ("alertId", Py.VStr "a-17")] eq_refl ltac:(discriminate)).
Defined.

(** The Databricks extractor reads a forwarded event as a cluster event.
    For every event the monitor keeps, [DatabricksExtractor.extract] sends
    the posted payload to [_extract_cluster_event], never to the job, the
    library or the generic branch.  When the event has no "reason", the
    extraction succeeds and keeps what the endpoint drops: the name of the
    cluster (or "Databricks Cluster"), its id, the state message (or
    "Cluster cluster.<type>") and the state. *)
Theorem forwarded_event_extracted (event : Py.value) :
  Monitor.is_error event = Py.Ok true ->
  exists payload d t,
    event = Py.VDict d /\ Spec.item "type" d = Py.VStr t /\
    Monitor.webhook_payload event = Py.Ok payload /\
    let event_type := Py.VStr ("cluster." ++ Py.lower t) in
    ErrorExtractors.dbx_extract payload
    = ErrorExtractors._extract_cluster_event payload event_type /\
    (Py.lookup "reason" d = None ->
     let cluster_id :=
       Spec.first_truthy [Notions.item_or "cluster_id" (Py.VStr "unknown") d]
         Py.VNone in
     ErrorExtractors.dbx_extract payload
     = Py.Ok (Spec.first_truthy
                [Notions.item_or "cluster_name" (Py.VStr "Unknown") d]
                (Py.VStr "Databricks Cluster"),
              cluster_id, event_type,
              Spec.first_truthy
                [Notions.item_or "state_message" (Py.VStr "") d]
                (Py.VStr ("Cluster cluster." ++ Py.lower t)),
              [("cluster_id", cluster_id); ("event_type", event_type);
               ("resource_type", Py.VStr "cluster");
               ("cluster_state", Notions.item_or "state" (Py.VStr t) d);
               ("termination_code", Py.VNone);
               ("termination_type", Py.VNone);
               ("driver_node_type", Py.VNone);
               ("num_workers", Py.VNone)])).
Proof.
  intros Hk.
  destruct (kept_payload event Hk) as [d [t [-> [Ht [Hin Hw]]]]].
  eexists _, d, t. split; [reflexivity|]. split; [exact Ht|].
  split; [exact Hw|].
  cbn zeta.
  assert (Hroute :
            forall payload_items,
              ErrorExtractors.dbx_extract
                (Py.VDict (("event", Py.VStr ("cluster." ++ Py.lower t)) ::
                           ("event_type", Py.VStr t) ::
                           ("timestamp",
                            Notions.item_or "timestamp" (Py.VInt 0) d) ::
                           [("cluster", Py.VDict payload_items)]))
              = ErrorExtractors._extract_cluster_event
                  (Py.VDict (("event", Py.VStr ("cluster." ++ Py.lower t)) ::
                             ("event_type", Py.VStr t) ::
                             ("timestamp",
                              Notions.item_or "timestamp" (Py.VInt 0) d) ::
                             [("cluster", Py.VDict payload_items)]))
                  (Py.VStr ("cluster." ++ Py.lower t))).
  { intros items. destruct Hin as [<-|[<-|[<-|[]]]]; reflexivity. }
  split; [apply Hroute|].
  intros Hnone. rewrite Hroute.
  unfold Notions.cluster_info. rewrite Hnone.
  unfold ErrorExtractors._extract_cluster_event, ErrorExtractors.empty_dict,
    Py.or_else, Py.get.
  cbn [Py.get_default Py.bind Py.lookup String.eqb Ascii.eqb Bool.eqb app
       Py.truthy].
  unfold Spec.first_truthy.
  destruct (Py.truthy (Notions.item_or "cluster_name" (Py.VStr "Unknown") d));
    destruct (Py.truthy (Notions.item_or "cluster_id" (Py.VStr "unknown") d));
    destruct (Py.truthy (Notions.item_or "state_message" (Py.VStr "") d));
    cbn [Py.bind]; destruct Hin as [<-|[<-|[<-|[]]]]; reflexivity.
Qed.

Lemma forwarded_event_extracted_witness :
  exists payload metadata,
    Monitor.webhook_payload
      (Py.VDict [("type", Py.VStr "FAILED_TO_START");
                 ("cluster_id", Py.VStr "0101-abc");
                 ("cluster_name", Py.VStr "etl-nightly")])
    = Py.Ok payload /\
    ErrorExtractors.dbx_extract payload
    = Py.Ok (Py.VStr "etl-nightly", Py.VStr "0101-abc",
             Py.VStr "cluster.failed_to_start",
             Py.VStr "Cluster cluster.failed_to_start", metadata).
Proof.
  destruct (forwarded_event_extracted
              (Py.VDict [("type", Py.VStr "FAILED_TO_START");
                         ("cluster_id", Py.VStr "0101-abc");
                         ("cluster_name", Py.VStr "etl-nightly")])
              eq_refl) as [payload [d [t [Hd [Ht [Hw [_ Hx]]]]]]].
  injection Hd as <-. injection Ht as <-.
  exists payload. eexists. split; [exact Hw|].
  exact (Hx eq_refl).
Defined.

(** ** The engine and the playbook server together *)

Section ServedFacts.
Import Py Store Spec AutoRemediation Notions.
Local Open Scope list_scope.

(** The playbook call leaves the tickets alone when no answer names a
    run. *)
Lemma trigger_keeps_tickets e ticket_id pt url payload run_id :
  (forall i result text,
      post e i = Responded 200 (Ok (VDict result)) text ->
      truthy (new_run_id_of result) = false) ->
  reads_tickets (trigger_playbook e ticket_id pt url payload run_id).
Proof.
  intros Hno. unfold trigger_playbook. apply reads_try.
  2:{ intros ex. apply reads_bind; [apply reads_log_audit|].
      intros _. apply reads_ret. }
  intros w. unfold bindM at 1. unfold _http_post_with_retries.
  rewrite (post_attempts_run e url payload 3 3 0 w) by lia.
  destruct (first_passing (post e) 0 3) as [i|]; [|reflexivity].
  destruct (post e i) as [status json text|] eqn:Ep; cbn [returned];
    [|reflexivity].
  set (w1 := posted url payload (S i - 0) w).
  assert (Hw1 : tickets w1 = tickets w) by reflexivity.
  rewrite <- Hw1.
  destruct (Z.eqb_spec status 200) as [->|_].
  - unfold bindM at 1. unfold lift at 1.
    destruct json as [result|]; [|reflexivity].
    destruct result as [| | | | |items]; try reflexivity.
    unfold bindM at 1. unfold lift at 1. rewrite new_run_id_get.
    rewrite (Hno i items text Ep). cbn [andb].
    apply (reads_bind (log_audit _ _) _ (reads_log_audit _ _)).
    intros _. apply reads_bind; [apply reads_ret|]. intros _. apply reads_ret.
  - apply (reads_bind (log_audit _ _) _ (reads_log_audit _ _)).
    intros _. apply reads_ret.
Qed.

End ServedFacts.

(** A restart is recorded as a success only for a running cluster.  When
    the playbook URL is served by the restart endpoint, the playbook call
    of the remediation engine never raises and never changes a ticket (no
    answer names a run, so the run id stays); and when it returns True,
    one of its at most three posts was answered 200 with the handler's
    status ("already_running", "started" or "running") for a cluster whose
    state the endpoint had just been told is RUNNING. *)
Theorem restart_remediation (e : AutoRemediation.env) (pe : Playbooks.env)
  (ticket_id playbook_type url : string) (payload run_id : Py.value)
  (w : Store.World) :
  (forall n,
      Notions.served_by PlaybookServer.restart_cluster_endpoint pe payload
        (AutoRemediation.post e n)) ->
  exists b,
    fst (AutoRemediation.trigger_playbook e ticket_id playbook_type url
           payload run_id w) = Py.Ok b /\
    Store.tickets
      (snd (AutoRemediation.trigger_playbook e ticket_id playbook_type url
              payload run_id w))
    = Store.tickets w /\
    (b = true ->
     exists i ticket cluster_id status text h added,
       (i < 3)%nat /\
       AutoRemediation.post e i
       = AutoRemediation.Responded 200
           (Py.Ok (Py.VDict [("status", Py.VStr status);
                             ("ticket_id", ticket);
                             ("cluster_id", cluster_id)])) text /\
       In status ["already_running"; "started"; "running"] /\
       Notions.ended_on (Playbooks.remote pe) h
         (Playbooks.state_request cluster_id
            (Http.rstrip_slash
               (Playbooks.text_of
                  (Playbooks.arg_or_env pe None "DATABRICKS_HOST" (Some "")))))
         "RUNNING" added).
Proof.
  intros Hserved.
  destruct (trigger_total e ticket_id playbook_type url payload run_id w)
    as [b [Hb Htrue]].
  exists b. split; [exact Hb|]. split.
  - apply trigger_keeps_tickets. intros i result text Ep.
    destruct (Hserved i) as [h [r [h' [text' [Hrun Ho]]]]].
    rewrite Ep in Ho. injection Ho as _ -> _.
    now rewrite (proj1 (restart_reply pe _ h h' r Hrun)).
  - intros Hbt. destruct (Htrue Hbt) as [i [result [text [Hi Ep]]]].
    destruct (Hserved i) as [h [r [h' [text' [Hrun Ho]]]]].
    rewrite Ep in Ho. injection Ho as Hs Hc _.
    destruct (proj2 (restart_reply pe _ h h' r Hrun) (eq_sym Hs))
      as [ticket [cluster_id [status [added [Hcontent [Hin [_ Hend]]]]]]].
    exists i, ticket, cluster_id, status, text, h, added.
    split; [exact Hi|]. split; [now rewrite Ep, Hc, Hcontent|].
    split; [exact Hin|exact Hend].
Qed.

Lemma restart_remediation_witness :
  let pe := {| Playbooks.getenv :=
                 fun var => if var =? "DATABRICKS_HOST"
                            then Some "https://dbx.example"
                            else if var =? "DATABRICKS_TOKEN" then Some "token"
                            else None;
               Playbooks.remote :=
                 fun _ _ =>
                   Http.Answered 200
                     (Py.Ok (Py.VDict [("state", Py.VStr "RUNNING")])) "{}";
               Playbooks.explain := Store.str_of_exn |} in
  let payload :=
    Py.VDict [("ticket_id", Py.VStr "DBX-1");
              ("metadata", Py.VDict [("cluster_id", Py.VStr "0101-abc")])] in
  let e := {| AutoRemediation.getenv := Scenario.configured;
              AutoRemediation.post :=
                fun _ =>
                  AutoRemediation.Responded 200
                    (Py.Ok (Py.VDict [("status", Py.VStr "already_running");
                                      ("ticket_id", Py.VStr "DBX-1");
                                      ("cluster_id", Py.VStr "0101-abc")]))
                    "{}";
              AutoRemediation.utcnow := "2025-11-03T10:15:00";
              AutoRemediation.statement := "" |} in
  exists b,
    fst (AutoRemediation.trigger_playbook e "DBX-1" "restart_cluster"
           "https://playbooks.example/restart" payload Py.VNone Scenario.fresh)
    = Py.Ok b.
Proof.
  cbn zeta.
  destruct (restart_remediation
              {| AutoRemediation.getenv := Scenario.configured;
                 AutoRemediation.post :=
                   fun _ =>
                     AutoRemediation.Responded 200
                       (Py.Ok (Py.VDict [("status", Py.VStr "already_running");
                                         ("ticket_id", Py.VStr "DBX-1");
                                         ("cluster_id", Py.VStr "0101-abc")]))
                       "{}";
                 AutoRemediation.utcnow := "2025-11-03T10:15:00";
                 AutoRemediation.statement := "" |}
              {| Playbooks.getenv :=
                   fun var => if var =? "DATABRICKS_HOST"
                              then Some "https://dbx.example"
                              else if var =? "DATABRICKS_TOKEN"
                                   then Some "token"
                                   else None;
                 Playbooks.remote :=
                   fun _ _ =>
                     Http.Answered 200
                       (Py.Ok (Py.VDict [("state", Py.VStr "RUNNING")])) "{}";
                 Playbooks.explain := Store.str_of_exn |}
              "DBX-1" "restart_cluster" "https://playbooks.example/restart"
              (Py.VDict [("ticket_id", Py.VStr "DBX-1");
                         ("metadata",
                          Py.VDict [("cluster_id", Py.VStr "0101-abc")])])
              Py.VNone Scenario.fresh) as [b [Hb _]].
  - intros n.
    exists [], {| PlaybookServer.status_code := 200;
                  PlaybookServer.content :=
                    [("status", Py.VStr "already_running");
                     ("ticket_id", Py.VStr "DBX-1");
                     ("cluster_id", Py.VStr "0101-abc")] |}.
    eexists _, "{}". split; reflexivity.
  - exists b. exact Hb.
Defined.

(** ** Tickets that follow a Jira issue *)

Section JiraFacts.
Import Py Store Spec Jira Notions.

Lemma local_status_cases (s : string) :
  In (local_status s) ["acknowledged"; "in_progress"; "open"].
Proof.
  unfold local_status.
  destruct (existsb _ _); [now left|].
  destruct (existsb _ _); [right; now left | right; right; now left].
Qed.

Lemma admitted_passes e secret :
  admitted e secret ->
  negb (JIRA_WEBHOOK_SECRET e =? "") &&
  negb match secret with
       | Some s => s =? JIRA_WEBHOOK_SECRET e
       | None => false
       end = false.
Proof.
  intros [H| ->].
  - rewrite H. reflexivity.
  - rewrite String.eqb_refl. apply andb_false_r.
Qed.

Lemma log_audit_run (suffix : string) (g : audit_args) (w : World) :
  exists w1, log_audit suffix g w = (Ok tt, w1) /\ tickets w1 = tickets w.
Proof.
  exists (snd (log_audit suffix g w)). split.
  - pose proof (log_audit_ok suffix g w) as H.
    destruct (log_audit suffix g w) as [r w1]. cbn in *. now rewrite H.
  - apply reads_log_audit.
Qed.

Lemma update_ticket_run (id : string) (f : Ticket -> Ticket) (w : World) :
  update_ticket id f w =
  (Ok tt, {| tickets := map (fun t => if t_id t =? id then f t else t)
                          (tickets w);
             audit := audit w; calls := calls w |}).
Proof. reflexivity. Qed.

(** The close, when the clock and the user's name are there. *)
Lemma close_run e row user c diff details w :
  cell_eqb (t_status row) (Some "acknowledged") = false ->
  elapsed e (t_id row) = Ok diff ->
  bind_text (statement e) user = Ok c ->
  exists w2,
    perform_close_from_jira e row user details w = (Ok tt, w2) /\
    tickets w2 =
    map (fun x => if t_id x =? t_id row
                  then closed (if (diff <=? t_sla_seconds row)%Z
                               then "Met" else "Breached") x
                  else x) (tickets w).
Proof.
  intros Hs Hd Hb. unfold perform_close_from_jira. rewrite Hs.
  unfold bindM at 1. unfold lift at 1. rewrite Hd.
  unfold bindM at 1. unfold lift at 1. rewrite Hb.
  unfold bindM at 1. rewrite update_ticket_run.
  unfold bindM at 1.
  destruct (log_audit_run (statement e)
              {| g_ticket_id := VStr (t_id row);
                 g_action := "Ticket Closed";
                 g_pipeline := cell_value (t_pipeline row);
                 g_run_id := cell_value (t_run_id row);
                 g_sla_status :=
                   VStr (if (diff <=? t_sla_seconds row)%Z
                         then "Met" else "Breached");
                 g_rca_summary := VStr (summary_of (t_rca_result row));
                 g_finops_team := cell_value (t_finops_team row);
                 g_finops_owner := cell_value (t_finops_owner row);
                 g_details := VStr details;
                 g_itsm_ticket_id := cell_value (t_itsm_ticket_id row) |}
              {| tickets := map (fun t => if t_id t =? t_id row
                                          then closed (if (diff <=? t_sla_seconds row)%Z
                                                       then "Met" else "Breached") t
                                          else t) (tickets w);
                 audit := audit w; calls := calls w |})
    as [w1 [Hl Ht]].
  rewrite Hl. unfold bindM, emit, ret. eexists. split; [reflexivity|].
  cbn [tickets]. exact Ht.
Qed.

(** The ticket follows, unless the preparation of a close fails; then
    nothing is written. *)
Lemma follow_run e body jira_key t name w :
  match prepared e body t (local_status (lower name)) with
  | Ok _ =>
      exists w2,
        follow e body jira_key t (local_status (lower name)) w = (Ok tt, w2) /\
        tickets w2 = followed e (local_status (lower name)) t (tickets w)
  | Raise ex =>
      follow e body jira_key t (local_status (lower name)) w = (Raise ex, w)
  end.
Proof.
  unfold prepared, follow, followed.
  destruct (local_status_cases (lower name)) as [E|[E|[E|[]]]];
    rewrite <- E in *; cbn [String.eqb Ascii.eqb Bool.eqb andb].
  - destruct (cell_eqb (t_status t) (Some "acknowledged")) eqn:Hs; cbn [negb].
    + eexists. split; reflexivity.
    + unfold closing. unfold bindM at 1. unfold lift at 1.
      destruct (display_name body) as [user|ex] eqn:Hu; [|reflexivity].
      destruct (elapsed e (t_id t)) as [diff|ex] eqn:Hd.
      2:{ unfold perform_close_from_jira. rewrite Hs.
          unfold bindM at 1. unfold lift at 1. now rewrite Hd. }
      destruct (bind_text (statement e) user) as [c|ex] eqn:Hb.
      2:{ unfold perform_close_from_jira. rewrite Hs.
          unfold bindM at 1. unfold lift at 1. rewrite Hd.
          unfold bindM at 1. unfold lift at 1. now rewrite Hb. }
      destruct (close_run e t user c diff
                  ("Ticket closed via Jira Webhook by user " ++ str user) w
                  Hs Hd Hb) as [w2 [Hrun Ht]].
      exists w2. split; [exact Hrun|]. rewrite Ht.
      unfold moved. cbn [String.eqb Ascii.eqb Bool.eqb]. now rewrite Hd.
  - destruct (cell_eqb (t_status t) (Some "in_progress")) eqn:Hs; cbn [negb].
    + eexists. split; reflexivity.
    + unfold bindM at 1. rewrite update_ticket_run.
      match goal with
      | |- context [log_audit ?s ?g ?w0] =>
          destruct (log_audit_run s g w0) as [w1 [Hl Ht]]
      end.
      exists w1. split; [exact Hl|]. rewrite Ht. reflexivity.
  - destruct (cell_eqb (t_status t) (Some "open")) eqn:Hs; cbn [negb].
    + eexists. split; reflexivity.
    + rewrite update_ticket_run. eexists. split; reflexivity.
Qed.

Lemma keys_updated (id : string) (f : Ticket -> Ticket) (ts : list Ticket) :
  (forall t, key (f t) = key t) ->
  map key (map (fun t => if t_id t =? id then f t else t) ts) = map key ts.
Proof.
  intros Hf. rewrite map_map. apply map_ext. intros t.
  now destruct (t_id t =? id).
Qed.

(** Whatever happens when the ticket follows: a failure leaves the
    tickets alone, and no id and no run id ever changes. *)
Lemma follow_any e body jira_key t target w :
  match follow e body jira_key t target w with
  | (Ok _, w2) => map key (tickets w2) = map key (tickets w)
  | (Raise _, w2) => tickets w2 = tickets w
  end.
Proof.
  unfold follow.
  destruct ((target =? "acknowledged") && _).
  { unfold bindM at 1. unfold lift at 1.
    destruct (display_name body) as [user|]; [|reflexivity].
    unfold perform_close_from_jira.
    destruct (cell_eqb (t_status t) (Some "acknowledged")); [reflexivity|].
    unfold bindM at 1. unfold lift at 1.
    destruct (elapsed e (t_id t)) as [diff|]; [|reflexivity].
    unfold bindM at 1. unfold lift at 1.
    destruct (bind_text (statement e) user) as [c|]; [|reflexivity].
    unfold bindM at 1. rewrite update_ticket_run.
    unfold bindM at 1.
    match goal with
    | |- context [log_audit ?s ?g ?w0] =>
        destruct (log_audit_run s g w0) as [w1 [Hl Ht]]
    end.
    rewrite Hl. unfold bindM, emit, ret. cbn [tickets]. rewrite Ht.
    cbn [tickets]. now apply keys_updated. }
  destruct ((target =? "in_progress") && _).
  { unfold bindM at 1. rewrite update_ticket_run.
    match goal with
    | |- context [log_audit ?s ?g ?w0] =>
        destruct (log_audit_run s g w0) as [w1 [Hl Ht]]
    end.
    rewrite Hl, Ht. cbn [tickets]. now apply keys_updated. }
  destruct ((target =? "open") && _).
  { rewrite update_ticket_run. cbn [tickets]. now apply keys_updated. }
  reflexivity.
Qed.

Lemma issue_updated_any e body w :
  match issue_updated e body w with
  | (Ok r, w') =>
      status_code r = 200%Z /\
      map key (tickets w') = map key (tickets w) /\
      (r <> answered "ok" -> tickets w' = tickets w)
  | (Raise _, w') => map key (tickets w') = map key (tickets w)
  end.
Proof.
  unfold issue_updated. unfold bindM at 1. unfold lift at 1.
  destruct (status_update body) as [[[jira_key name]|]|]; [| |reflexivity].
  2:{ unfold ret. now repeat split. }
  unfold bindM at 1. unfold ticket_by_itsm, bindM at 1, lift at 1.
  destruct (bind_text (statement e) jira_key) as [k|]; [|reflexivity].
  unfold bindM at 1. unfold get_world, ret at 1.
  destruct (find _ (tickets w)) as [t|].
  2:{ unfold ret. now repeat split. }
  unfold bindM at 1.
  match goal with
  | |- context [log_audit ?s ?g w] =>
      destruct (log_audit_run s g w) as [w1 [Hl Ht1]]
  end.
  rewrite Hl. unfold bindM at 1.
  pose proof (follow_any e body jira_key t (local_status (lower name)) w1) as Hf.
  destruct (follow _ _ _ _ _ w1) as [[u|ex] w2].
  - unfold bindM, emit, lift, ret.
    destruct (broadcast e (t_id t)) as [u'|ex];
      cbn [tickets status_code answered].
    + split; [reflexivity|]. split; [now rewrite Hf, Ht1|].
      intros H. now contradiction H.
    + now rewrite Hf, Ht1.
  - now rewrite Hf, Ht1.
Qed.

End JiraFacts.

(** A ticket follows its Jira issue.  Take a status change of an issue
    whose key a ticket carries.  The local status of the new Jira status,
    compared without regard to case, is "acknowledged" for done, resolved
    and closed, "in_progress" for in progress, selected for development and
    in review, and "open" for anything else, so that a closed ticket is
    opened again by any other status.
    - When that status is a close of a ticket that is not closed, and the
      close cannot be prepared (the user of the event is no mapping, the
      timestamp of the ticket does not parse, the name of the user is a
      value the storage cannot bind), the webhook answers 500 with the
      error and no ticket changes.
    - Otherwise the ticket gets the local status, a close recording whether
      the deadline was met; no other ticket changes, and a ticket that has
      the status already is left as it is.  The webhook then answers "ok"
      when the broadcast of the update succeeds, and 500 with the error of
      the broadcast when it fails: the ticket has changed all the same. *)
Theorem ticket_follows_issue (e : Jira.env) (secret : option string)
  (body jira_key : Py.value) (name : string) (t : Store.Ticket)
  (w : Store.World) :
  Notions.admitted e secret ->
  Py.get body "webhookEvent" = Py.Ok (Py.VStr "jira:issue_updated") ->
  Jira.status_update body = Py.Ok (Some (jira_key, name)) ->
  Jira.ticket_by_itsm (Jira.statement e) jira_key w = (Py.Ok (Some t), w) ->
  let target := Jira.local_status (Py.lower name) in
  In target ["acknowledged"; "in_progress"; "open"] /\
  (Jira.status_code (Jira.answered "ok") = 200%Z /\
   Jira.content (Jira.answered "ok") = [("status", Py.VStr "ok")] /\
   forall ex,
     Jira.status_code (Jira.error_reply ex) = 500%Z /\
     Jira.content (Jira.error_reply ex)
     = [("status", Py.VStr "error");
        ("message", Py.VStr (Store.str_of_exn ex))]) /\
  exists w',
    match Notions.prepared e body t target with
    | Py.Raise ex =>
        Jira.webhook_jira e secret (Some body) w
        = (Py.Ok (Jira.error_reply ex), w') /\
        Store.tickets w' = Store.tickets w
    | Py.Ok _ =>
        Jira.webhook_jira e secret (Some body) w
        = (Py.Ok match Jira.broadcast e (Store.t_id t) with
                 | Py.Ok _ => Jira.answered "ok"
                 | Py.Raise ex => Jira.error_reply ex
                 end, w') /\
        Store.tickets w' = Notions.followed e target t (Store.tickets w)
    end.
Proof.
  intros Hadm Hev Hup Ht target. split; [apply local_status_cases|].
  split; [now repeat split|].
  assert (Hrun : forall w1,
             Store.tickets w1 = Store.tickets w ->
             Store.log_audit (Jira.statement e)
               {| Store.g_ticket_id := Py.VStr (Store.t_id t);
                  Store.g_action := "Jira: " ++ Jira.title e name;
                  Store.g_pipeline := Py.VNone; Store.g_run_id := Py.VNone;
                  Store.g_sla_status := Py.VNone;
                  Store.g_rca_summary := Py.VNone;
                  Store.g_finops_team := Py.VNone;
                  Store.g_finops_owner := Py.VNone;
                  Store.g_details :=
                    Py.VStr ("Status for " ++ Py.str jira_key ++
                             " changed to '" ++ name ++ "' in Jira.");
                  Store.g_itsm_ticket_id := jira_key |} w = (Py.Ok tt, w1) ->
             Jira.webhook_jira e secret (Some body) w =
             match Jira.follow e body jira_key t target w1 with
             | (Py.Ok _, w2) =>
                 (Py.Ok match Jira.broadcast e (Store.t_id t) with
                        | Py.Ok _ => Jira.answered "ok"
                        | Py.Raise ex => Jira.error_reply ex
                        end,
                  {| Store.tickets := Store.tickets w2;
                     Store.audit := Store.audit w2;
                     Store.calls :=
                       (Store.calls w2 ++ [Store.Broadcast (Store.t_id t)])%list |})
             | (Py.Raise ex, w2) => (Py.Ok (Jira.error_reply ex), w2)
             end).
  { intros w1 _ Hl.
    unfold Jira.webhook_jira. rewrite (admitted_passes e secret Hadm).
    unfold Store.bindM at 1. unfold Store.lift at 1. rewrite Hev.
    cbn [Http.eq_str String.eqb Ascii.eqb Bool.eqb].
    unfold Store.try_except, Jira.issue_updated.
    unfold Store.bindM at 1. unfold Store.lift at 1. rewrite Hup.
    unfold Store.bindM at 1. rewrite Ht.
    unfold Store.bindM at 1. rewrite Hl. unfold Store.bindM at 1.
    fold target.
    destruct (Jira.follow e body jira_key t target w1) as [[u|ex] w2];
      [|reflexivity].
    unfold Store.bindM, Store.emit, Store.lift, Store.ret.
    now destruct (Jira.broadcast e (Store.t_id t)). }
  match type of Hrun with
  | forall w1, _ -> Store.log_audit ?s ?g w = _ -> _ =>
      destruct (log_audit_run s g w) as [w1 [Hl Ht1]]
  end.
  rewrite (Hrun w1 Ht1 Hl).
  pose proof (follow_run e body jira_key t name w1) as Hf. fold target in Hf.
  destruct (Notions.prepared e body t target) as [u|ex].
  - destruct Hf as [w2 [Hf Ht2]]. rewrite Hf.
    eexists. split; [reflexivity|]. cbn [Store.tickets].
    now rewrite Ht2, Ht1.
  - rewrite Hf. exists w1. split; [reflexivity | exact Ht1].
Qed.

Lemma ticket_follows_issue_witness :
  let e := {| Jira.JIRA_WEBHOOK_SECRET := "";
              Jira.statement := "";
              Jira.title := fun s => s;
              Jira.elapsed := fun _ => Py.Ok 100%Z;
              Jira.broadcast := fun _ => Py.Ok tt |} in
  let unheard :=
    {| Jira.JIRA_WEBHOOK_SECRET := "";
       Jira.statement := "";
       Jira.title := fun s => s;
       Jira.elapsed := fun _ => Py.Ok 100%Z;
       Jira.broadcast :=
         fun _ => Py.Raise (Py.RuntimeError "Unexpected ASGI message") |} in
  let body (status user : Py.value) :=
    Py.VDict [("webhookEvent", Py.VStr "jira:issue_updated");
              ("issue", Py.VDict [("key", Py.VStr "OPS-7")]);
              ("user", user);
              ("changelog",
               Py.VDict [("items",
                          Py.VList [Py.VDict [("field", Py.VStr "status");
                                              ("toString", status)]])])] in
  let done :=
    Store.with_itsm (Some "OPS-7")
      (Jira.closed "Met" (Scenario.ticket "ADF-1" "run-42")) in
  let open := Store.with_itsm (Some "OPS-7") (Scenario.ticket "ADF-1" "run-42") in
  (exists w',
      Jira.webhook_jira e None (Some (body (Py.VStr "To Do") (Py.VDict [])))
        (Scenario.holding [done])
      = (Py.Ok (Jira.answered "ok"), w') /\
      Store.tickets w' = [Jira.with_status (Some "open") done]) /\
  (exists w',
      Jira.webhook_jira unheard None
        (Some (body (Py.VStr "To Do") (Py.VDict []))) (Scenario.holding [done])
      = (Py.Ok (Jira.error_reply (Py.RuntimeError "Unexpected ASGI message")),
         w') /\
      Store.tickets w' = [Jira.with_status (Some "open") done]) /\
  (exists w',
      Jira.webhook_jira e None (Some (body (Py.VStr "Done") (Py.VStr "amy")))
        (Scenario.holding [open])
      = (Py.Ok (Jira.error_reply Py.AttributeError), w') /\
      Store.tickets w' = [open]).
Proof.
  cbn zeta. split; [|split].
  - destruct (ticket_follows_issue
                {| Jira.JIRA_WEBHOOK_SECRET := "";
                   Jira.statement := "";
                   Jira.title := fun s => s;
                   Jira.elapsed := fun _ => Py.Ok 100%Z;
                   Jira.broadcast := fun _ => Py.Ok tt |}
                None
                (Py.VDict [("webhookEvent", Py.VStr "jira:issue_updated");
                           ("issue", Py.VDict [("key", Py.VStr "OPS-7")]);
                           ("user", Py.VDict []);
                           ("changelog",
                            Py.VDict
                              [("items",
                                Py.VList
                                  [Py.VDict [("field", Py.VStr "status");
                                             ("toString", Py.VStr "To Do")]])])])
                (Py.VStr "OPS-7") "To Do"
                (Store.with_itsm (Some "OPS-7")
                   (Jira.closed "Met" (Scenario.ticket "ADF-1" "run-42")))
                (Scenario.holding
                   [Store.with_itsm (Some "OPS-7")
                      (Jira.closed "Met" (Scenario.ticket "ADF-1" "run-42"))])
                (or_introl eq_refl) eq_refl eq_refl eq_refl)
      as [_ [_ [w' H]]].
    exists w'. exact H.
  - destruct (ticket_follows_issue
                {| Jira.JIRA_WEBHOOK_SECRET := "";
                   Jira.statement := "";
                   Jira.title := fun s => s;
                   Jira.elapsed := fun _ => Py.Ok 100%Z;
                   Jira.broadcast :=
                     fun _ =>
                       Py.Raise (Py.RuntimeError "Unexpected ASGI message") |}
                None
                (Py.VDict [("webhookEvent", Py.VStr "jira:issue_updated");
                           ("issue", Py.VDict [("key", Py.VStr "OPS-7")]);
                           ("user", Py.VDict []);
                           ("changelog",
                            Py.VDict
                              [("items",
                                Py.VList
                                  [Py.VDict [("field", Py.VStr "status");
                                             ("toString", Py.VStr "To Do")]])])])
                (Py.VStr "OPS-7") "To Do"
                (Store.with_itsm (Some "OPS-7")
                   (Jira.closed "Met" (Scenario.ticket "ADF-1" "run-42")))
                (Scenario.holding
                   [Store.with_itsm (Some "OPS-7")
                      (Jira.closed "Met" (Scenario.ticket "ADF-1" "run-42"))])
                (or_introl eq_refl) eq_refl eq_refl eq_refl)
      as [_ [_ [w' H]]].
    exists w'. exact H.
  - destruct (ticket_follows_issue
                {| Jira.JIRA_WEBHOOK_SECRET := "";
                   Jira.statement := "";
                   Jira.title := fun s => s;
                   Jira.elapsed := fun _ => Py.Ok 100%Z;
                   Jira.broadcast := fun _ => Py.Ok tt |}
                None
                (Py.VDict [("webhookEvent", Py.VStr "jira:issue_updated");
                           ("issue", Py.VDict [("key", Py.VStr "OPS-7")]);
                           ("user", Py.VStr "amy");
                           ("changelog",
                            Py.VDict
                              [("items",
                                Py.VList
                                  [Py.VDict [("field", Py.VStr "status");
                                             ("toString", Py.VStr "Done")]])])])
                (Py.VStr "OPS-7") "Done"
                (Store.with_itsm (Some "OPS-7")
                   (Scenario.ticket "ADF-1" "run-42"))
                (Scenario.holding
                   [Store.with_itsm (Some "OPS-7")
                      (Scenario.ticket "ADF-1" "run-42")])
                (or_introl eq_refl) eq_refl eq_refl eq_refl)
      as [_ [_ [w' H]]].
    exists w'. exact H.
Defined.

(** The Jira webhook answers, and keeps the table of tickets in shape.
    A request whose secret is not the configured one is refused with 401
    and touches nothing.  Otherwise, for a body that is not JSON or is a
    JSON object, the webhook raises nothing and answers 200, 400 or 500;
    whatever it answers, no ticket is added or removed and no id or run id
    changes; and when it answers 400, or 200 with something other than
    "ok", no ticket changes at all.  A 500 gives no such assurance: the
    broadcast can fail after the update. *)
Theorem jira_webhook_answers (e : Jira.env) (secret : option string)
  (body : option Py.value) (w : Store.World) :
  (~ Notions.admitted e secret ->
   Jira.webhook_jira e secret body w
   = (Py.Raise (Py.HTTPException 401 "Invalid secret"), w)) /\
  (Notions.admitted e secret ->
   body = None \/ (exists d, body = Some (Py.VDict d)) ->
   exists r w',
     Jira.webhook_jira e secret body w = (Py.Ok r, w') /\
     In (Jira.status_code r) [200; 400; 500]%Z /\
     map Notions.key (Store.tickets w') = map Notions.key (Store.tickets w) /\
     (Jira.status_code r <> 500%Z -> r <> Jira.answered "ok" ->
      Store.tickets w' = Store.tickets w)).
Proof.
  split.
  - intros Hn. unfold Jira.webhook_jira.
    destruct (String.eqb_spec (Jira.JIRA_WEBHOOK_SECRET e) "") as [E|_].
    { contradiction Hn. now left. }
    destruct secret as [s|]; [|reflexivity].
    destruct (String.eqb_spec s (Jira.JIRA_WEBHOOK_SECRET e)) as [->|_];
      [|reflexivity].
    contradiction Hn. now right.
  - intros Hadm Hbody. unfold Jira.webhook_jira.
    rewrite (admitted_passes e secret Hadm).
    destruct Hbody as [->|[d ->]].
    { eexists _, w. unfold Store.ret. split; [reflexivity|].
      split; [right; now left|]. now split. }
    unfold Store.bindM at 1. unfold Store.lift at 1.
    cbn [Py.get Py.get_default].
    destruct (Http.eq_str _ "jira:issue_updated").
    2:{ eexists _, w. unfold Store.ret. split; [reflexivity|].
        split; [now left|]. now split. }
    unfold Store.try_except.
    pose proof (issue_updated_any e (Py.VDict d) w) as H.
    destruct (Jira.issue_updated e (Py.VDict d) w) as [[r|ex] w'].
    + destruct H as [Hs [Hk Hr]]. exists r, w'.
      split; [reflexivity|]. split; [left; now rewrite Hs|].
      split; [exact Hk|]. intros _. exact Hr.
    + eexists _, w'. unfold Store.ret. split; [reflexivity|].
      split; [right; right; now left|]. split; [exact H|].
      intros Hc. now contradiction Hc.
Qed.
